(** * Brevity-AI summarizer: a shallow embedding of
      [Backend/app/services/summarizer.py] (class [OptimizedTextSummarizer])
      and the properties of its extractive, abstractive, hybrid and
      formatted-hybrid operations.

    Conventions of the embedding.
    - Python [str] values are [string]s whose characters are code points
      below 256.
    - Python and numpy [float] values are read in two ways. The operations
      of the service carry them as exact rationals ([Qc]): every finite
      float is a rational number, and the arithmetic on them is taken
      without rounding. Where a result of the program turns on rounding,
      in the sentence count of [extractive_summary] and in the loop of
      [_pagerank], the module [Float64] evaluates the same lines in
      binary64: IEEE 754 double precision, round to nearest, ties to even,
      with the operations of the standard library's [SpecFloat].
    - The [outputs/] directory is a finite map from paths to files, the
      in-process similarity cache a finite map from cache keys to matrices.
    - An operation is a function from the state of the service to an
      outcome (a value or a raised exception) and the state it leaves
      behind; a raised exception keeps every write made before it. Calls
      run one after the other: the event loop and the thread pool of the
      source only move work between threads.
    - A JSON file is a record of one of the stages; a record of another
      stage found where the cleaning record is expected raises [KeyError].
    - scikit-learn, the transformers pipeline, nltk and the interpreter's
      [hash] are collaborators, collected in the class [Externals]. *)

From Stdlib Require Import ZArith QArith Qcanon Qcabs Qround String Ascii List Lia
  DecimalString Permutation SpecFloat Qpower.
From stdpp Require Import gmap strings list.

Local Open Scope Z_scope.
Local Open Scope string_scope.
Local Open Scope list_scope.

(** ** Python string primitives *)

Module PyStr.

(** [c.isspace()] for a code point below 256. *)
Definition is_space (c : ascii) : bool :=
  let n := nat_of_ascii c in
  (((9 <=? n) && (n <=? 13)) || ((28 <=? n) && (n <=? 32))
   || (n =? 133) || (n =? 160))%nat.

(** [s.lstrip()], [s.rstrip()] and [s.strip()]. *)
Fixpoint lstrip (s : string) : string :=
  match s with
  | String c s' => if is_space c then lstrip s' else s
  | EmptyString => EmptyString
  end.

Fixpoint rstrip (s : string) : string :=
  match s with
  | EmptyString => EmptyString
  | String c s' =>
      match rstrip s' with
      | EmptyString => if is_space c then EmptyString else String c EmptyString
      | r => String c r
      end
  end.

Definition strip (s : string) : string := rstrip (lstrip s).

(** [s.split()]: the maximal runs of non-whitespace characters. *)
Fixpoint split_ws (s : string) : list string :=
  match s with
  | EmptyString => []
  | String c s' =>
      if is_space c then split_ws s'
      else match s' with
           | EmptyString => [String c EmptyString]
           | String c' _ =>
               if is_space c' then String c EmptyString :: split_ws s'
               else match split_ws s' with
                    | w :: ws => String c w :: ws
                    | [] => [String c EmptyString]
                    end
           end
  end.

(** [s.split(sep)] for a non-empty [sep]: [skip] counts the characters of
    a separator occurrence that are still to be passed over. *)
Fixpoint split_go (sep : string) (skip : nat) (s : string) : list string :=
  match s with
  | EmptyString => [EmptyString]
  | String c s' =>
      match skip with
      | S k => split_go sep k s'
      | O =>
          if String.prefix sep s
          then EmptyString :: split_go sep (String.length sep - 1) s'
          else match split_go sep 0 s' with
               | w :: ws => String c w :: ws
               | [] => [String c EmptyString]
               end
      end
  end.

Definition split (sep s : string) : list string := split_go sep 0 s.

(** [sep.join(l)]. *)
Fixpoint join (sep : string) (l : list string) : string :=
  match l with
  | [] => EmptyString
  | [x] => x
  | x :: l' => x +:+ sep +:+ join sep l'
  end.

(** [str(z)] for an integer. *)
Definition str_of_Z (z : Z) : string := NilZero.string_of_int (Z.to_int z).

(** [c.lower()] on the ASCII letters. *)
Definition lower (c : ascii) : ascii :=
  let n := nat_of_ascii c in
  if ((65 <=? n) && (n <=? 90))%nat then ascii_of_nat (n + 32) else c.

Definition is_digit (c : ascii) : bool :=
  let n := nat_of_ascii c in ((48 <=? n) && (n <=? 57))%nat.

End PyStr.


(** ** The regular expressions of [formatted_hybrid_summary]

    The four patterns the source passes to [re.sub] are sequences of
    quantified character classes. [match_here] is the backtracking matcher
    of Python's [re] on such sequences: a quantifier takes as many
    characters as it can and gives them back one at a time when the rest of
    the pattern fails. *)

Module Re.

Record atom := Atom {
  cls : ascii -> bool;       (* the character class *)
  rmin : nat;                (* least number of repetitions *)
  rmax : option nat          (* most repetitions, [None] for unbounded *)
}.

Definition pattern := list atom.

Definition below (taken : nat) (m : option nat) : bool :=
  match m with
  | None => true
  | Some k => (taken <? k)%nat
  end.

Fixpoint greedy (a : atom) (k : string -> option string)
    (taken : nat) (s : string) : option string :=
  let stop := if (rmin a <=? taken)%nat then k s else None in
  match s with
  | String c s' =>
      if cls a c && below taken (rmax a)
      then match greedy a k (S taken) s' with
           | Some r => Some r
           | None => stop
           end
      else stop
  | EmptyString => stop
  end.

(** The text left after the match of [p] at the start of [s], if any. *)
Fixpoint match_here (p : pattern) (s : string) : option string :=
  match p with
  | [] => Some s
  | a :: p' => greedy a (match_here p') 0 s
  end.

(** [re.sub(p, '', s)]: every leftmost non-overlapping match is removed.
    [skip] counts the characters of the current match still to be
    dropped. *)
Fixpoint sub_go (p : pattern) (skip : nat) (s : string) : string :=
  match s with
  | EmptyString => EmptyString
  | String c s' =>
      match skip with
      | S k => sub_go p k s'
      | O =>
          match match_here p s with
          | Some rest =>
              match (String.length s - String.length rest)%nat with
              | S k => sub_go p k s'
              | O => String c (sub_go p 0 s')
              end
          | None => String c (sub_go p 0 s')
          end
      end
  end.

Definition sub_empty (p : pattern) (s : string) : string := sub_go p 0 s.

Definition once (f : ascii -> bool) : atom := Atom f 1 (Some 1%nat).
Definition star (f : ascii -> bool) : atom := Atom f 0 None.
Definition plus (f : ascii -> bool) : atom := Atom f 1 None.
Definition at_least (n : nat) (f : ascii -> bool) : atom := Atom f n None.
Definition opt (f : ascii -> bool) : atom := Atom f 0 (Some 1%nat).

Definition chr (c : ascii) : ascii -> bool := fun x => Ascii.eqb x c.
(** A literal letter under [re.IGNORECASE]. *)
Definition chr_i (c : ascii) : ascii -> bool :=
  fun x => Ascii.eqb (PyStr.lower x) (PyStr.lower c).
Definition space : ascii -> bool := PyStr.is_space.            (* \s *)
Definition nonspace : ascii -> bool := fun x => negb (PyStr.is_space x).  (* \S *)
Definition digit : ascii -> bool := PyStr.is_digit.            (* \d *)

Definition Page : pattern :=
  [once (chr_i "P"); once (chr_i "a"); once (chr_i "g"); once (chr_i "e")].

(** [r'[-]{2,}\s*Page\s*\d+\s*[-]{2,}'] with [re.IGNORECASE]. *)
Definition page_marker : pattern :=
  [at_least 2 (chr "-"); star space] ++ Page
    ++ [star space; plus digit; star space; at_least 2 (chr "-")].

(** [r'Page\s*\d+'] with [re.IGNORECASE]. *)
Definition page_number : pattern := Page ++ [star space; plus digit].

(** [r'\S+@\S+']. *)
Definition email : pattern := [plus nonspace; once (chr "@"); plus nonspace].

(** [r'\+?\d[\d\s\-]{7,}\d']. *)
Definition phone : pattern :=
  [opt (chr "+"); once digit;
   at_least 7 (fun x => digit x || space x || chr "-" x); once digit].

End Re.

(** ** Numbers *)

Local Open Scope Qc_scope.

Definition Qc_of_Z (z : Z) : Qc := Q2Qc (inject_Z z).
Definition Qc_of_nat (n : nat) : Qc := Qc_of_Z (Z.of_nat n).

(** [int(x)] of a float: truncation toward zero. *)
Definition py_int (q : Qc) : Z := Z.quot (Qnum q) (Zpos (Qden q)).

Definition Qc_leb (a b : Qc) : bool := Qle_bool a b.
Definition Qc_ltb (a b : Qc) : bool := negb (Qle_bool b a).

Definition sumQc (l : list Qc) : Qc := fold_right Qcplus 0 l.

(** ** The graph ranker: [_pagerank] *)

Definition matrix := list (list Qc).

Inductive exn :=
  | FileNotFoundError
  | ValueError
  | ImportError
  | IndexError
  | ZeroDivisionError
  | JSONDecodeError
  | KeyError
  | TypeError
  | OverflowError
  | CollaboratorError.

Inductive outcome (A : Type) :=
  | Ok (a : A)
  | Raise (e : exn).
Arguments Ok {A} a.
Arguments Raise {A} e.

Definition damping_default : Qc := Q2Qc (85 # 100).
Definition max_iter_default : nat := 100.
Definition atol : Qc := Q2Qc (1 # 1000000).      (* atol=1e-6 in the call *)
Definition rtol : Qc := Q2Qc (1 # 100000).       (* numpy's default rtol=1e-05 *)

(** [similarity_matrix.T.dot(scores)] for an [n]-by-[n] matrix given by
    its rows: component [j] is the sum over [i] of [M[i][j] * scores[i]]. *)
Definition T_dot (M : matrix) (scores : list Qc) : list Qc :=
  map (fun j => sumQc (zip_with (fun row s => nth j row 0 * s) M scores))
      (seq 0 (length M)).

(** [np.allclose(a, b, atol=1e-6)]: every component satisfies
    [|a - b| <= atol + rtol * |b|], here on the exact values with the
    exact tolerances [1/10^6] and [1/10^5]; [Float64.isclose] is the test
    in binary64. *)
Definition isclose (a b : Qc) : bool :=
  Qc_leb (Qcabs (a - b)) (atol + rtol * Qcabs b).

Definition allclose (a b : list Qc) : bool :=
  forallb (fun p => isclose (fst p) (snd p)) (zip a b).

(** [(1 - damping) / n + damping * similarity_matrix.T.dot(scores)],
    without rounding; [Float64.new_scores] is the update in binary64. *)
Definition new_scores (M : matrix) (damping : Qc) (scores : list Qc) : list Qc :=
  let n := Qc_of_nat (length M) in
  map (fun x => (1 - damping) / n + damping * x) (T_dot M scores).

(** The local variables of [_pagerank] when its loop is left. *)
Record pagerank_state := PagerankState {
  pr_scores : list Qc;          (* [scores], the value returned *)
  pr_last : option (list Qc);   (* [new_scores] of the last iteration run *)
  pr_iterations : nat           (* iterations run *)
}.

(** [for _ in range(max_iter)]: the update is computed, and [scores] takes
    it only when the closeness test fails; on [break] the update is
    dropped. *)
Fixpoint pagerank_loop (M : matrix) (damping : Qc) (iters : nat)
    (st : pagerank_state) : pagerank_state :=
  match iters with
  | O => st
  | S k =>
      let nw := new_scores M damping (pr_scores st) in
      if allclose (pr_scores st) nw
      then PagerankState (pr_scores st) (Some nw) (S (pr_iterations st))
      else pagerank_loop M damping k
             (PagerankState nw (Some nw) (S (pr_iterations st)))
  end.

(** [np.ones(n) / n]. *)
Definition uniform (n : nat) : list Qc := replicate n (1 / Qc_of_nat n).

Definition pagerank_run (M : matrix) (damping : Qc) (max_iter : nat) : pagerank_state :=
  pagerank_loop M damping max_iter (PagerankState (uniform (length M)) None 0).

(** [_pagerank(similarity_matrix, damping, max_iter)]. With an empty matrix
    the first iteration divides the Python float [1 - damping] by the
    integer [0]. *)
Definition _pagerank (M : matrix) (damping : Qc) (max_iter : nat) : outcome (list Qc) :=
  match length M, max_iter with
  | O, S _ => Raise ZeroDivisionError
  | _, _ => Ok (pr_scores (pagerank_run M damping max_iter))
  end.

(** [similarity_matrix / (similarity_matrix.sum(axis=1, keepdims=True) + eps)]:
    every row is divided by its sum plus [eps]. *)
Definition normalise_rows (eps : Qc) (c : matrix) : matrix :=
  map (fun row => map (fun x => x / (sumQc row + eps)) row) c.

(** ** Selection: the score-descending stable sort and the slice *)

Section Selection.
Context {A : Type}.

(** [x] goes in front of the first element whose score does not exceed
    its own. *)
Fixpoint insert_desc (x : Qc * A) (l : list (Qc * A)) : list (Qc * A) :=
  match l with
  | [] => [x]
  | y :: l' => if Qc_ltb (fst x) (fst y) then y :: insert_desc x l' else x :: y :: l'
  end.

(** [l.sort(key=lambda x: x[0], reverse=True)]: Python's sort is stable,
    also with [reverse=True]; this is the stable arrangement by
    descending score. *)
Definition sort_desc (l : list (Qc * A)) : list (Qc * A) :=
  fold_right insert_desc [] l.

(** [[(scores[i], sentences[i]) for i in range(len(sentences))]]: a score
    vector shorter than the corpus raises [IndexError]. *)
Fixpoint sentence_scores (scores : list Qc) (sentences : list A)
    : outcome (list (Qc * A)) :=
  match sentences with
  | [] => Ok []
  | s :: ss =>
      match scores with
      | [] => Raise IndexError
      | x :: xs =>
          match sentence_scores xs ss with
          | Ok r => Ok ((x, s) :: r)
          | Raise e => Raise e
          end
      end
  end.

(** The three lines every ranker ends with: pair, sort, slice. *)
Definition select_top (scores : list Qc) (sentences : list A) (num_sentences : nat)
    : outcome (list A) :=
  match sentence_scores scores sentences with
  | Ok ps => Ok (map snd (take num_sentences (sort_desc ps)))
  | Raise e => Raise e
  end.

End Selection.

(** ** Paths under the output directory *)

Module Path.

(** [s.rfind(c)]. *)
Fixpoint rfind (c : ascii) (s : string) : option nat :=
  match s with
  | EmptyString => None
  | String x s' =>
      match rfind c s' with
      | Some i => Some (S i)
      | None => if Ascii.eqb x c then Some 0%nat else None
      end
  end.

Definition index_or_minus1 (o : option nat) : Z :=
  match o with
  | Some i => Z.of_nat i
  | None => -1
  end.

(** Whether some character of [s] differs from [c]. *)
Fixpoint some_other (c : ascii) (s : string) : bool :=
  match s with
  | EmptyString => false
  | String x s' => negb (Ascii.eqb x c) || some_other c s'
  end.

(** [os.path.splitext(p)[0]] on a POSIX path: the extension starts at the
    last dot of the last component, unless only dots precede it there. *)
Definition splitext_root (p : string) : string :=
  let sepIndex := index_or_minus1 (rfind "/" p) in
  let dotIndex := index_or_minus1 (rfind "." p) in
  if (sepIndex <? dotIndex)%Z
  then
    let first := Z.to_nat (sepIndex + 1) in
    let dot := Z.to_nat dotIndex in
    if some_other "." (String.substring first (dot - first) p)
    then String.substring 0 dot p
    else p
  else p.

(** [os.path.join("outputs", name)]. *)
Definition output_dir : string := "outputs".

Definition join (name : string) : string :=
  if String.prefix "/" name then name else output_dir +:+ "/" +:+ name.

(** [os.path.join(self.output_dir, f"{os.path.splitext(filename)[0]}{suffix}")]. *)
Definition of_stage (filename suffix : string) : string :=
  join (splitext_root filename +:+ suffix).

Definition cleaning_metadata (filename : string) : string :=
  of_stage filename "_cleaning_metadata.json".

End Path.

(** ** Persisted artifacts *)

Record cleaning_data := CleaningData {
  cleaned_text : string;
  sentences : list string;
  cd_original_length : Z;
  cd_cleaned_length : Z;
  cd_word_count : Z;
  cd_sentence_count : Z;
  cd_file_path : string;
  cd_cleaning_options : bool * bool * bool * Z
}.

(** [cleaning_data["cleaned_text"] = text]. *)
Definition set_cleaned_text (text : string) (c : cleaning_data) : cleaning_data :=
  CleaningData text (sentences c) (cd_original_length c) (cd_cleaned_length c)
    (cd_word_count c) (cd_sentence_count c) (cd_file_path c) (cd_cleaning_options c).

Record extractive_metadata := ExtractiveMetadata {
  ex_summary_text : string;
  ex_summary_sentences : list string;
  ex_original_sentences : nat;
  ex_compression_ratio : Qc;
  ex_algorithm : string;
  ex_summary_ratio : Qc;
  ex_file_path : string;
  ex_processing_time : string
}.

Record abstractive_metadata := AbstractiveMetadata {
  ab_summary_text : string;
  ab_original_length : nat;
  ab_summary_length : nat;
  ab_compression_ratio : Qc;
  ab_model : string;
  ab_max_length : Z;
  ab_min_length : Z;
  ab_file_path : string;
  ab_processing_method : string
}.

Record hybrid_metadata := HybridMetadata {
  hy_summary_text : string;
  hy_original_length : nat;
  hy_summary_length : nat;
  hy_compression_ratio : Qc;
  hy_extractive_ratio : Qc;
  hy_file_path : string;
  hy_processing_method : string
}.

Record formatted_summary := FormattedSummary {
  fm_title : string;
  fm_objective : string;
  fm_key_points : list string;
  fm_section_summary : list (string * string);
  fm_final_abstract : string;
  fm_processing_method : string
}.

Inductive json_record :=
  | JCleaning (c : cleaning_data)
  | JExtractive (m : extractive_metadata)
  | JAbstractive (m : abstractive_metadata)
  | JHybrid (m : hybrid_metadata)
  | JFormatted (m : formatted_summary).

Inductive file :=
  | TextFile (s : string)
  | JsonFile (j : json_record).

(** ** The state of the service *)

Record service := Service {
  outputs : gmap string file;               (* the files, by path *)
  _similarity_cache : gmap string matrix;
  _summarization_pipeline : option string;  (* the model it was built for *)
  _abstractive_model : option string;
  _abstractive_tokenizer : option string;
  pipeline_calls : list string              (* chunks sent to the pipeline, oldest first *)
}.

Definition set_outputs (f : gmap string file -> gmap string file) (s : service) : service :=
  Service (f (outputs s)) (_similarity_cache s) (_summarization_pipeline s)
    (_abstractive_model s) (_abstractive_tokenizer s) (pipeline_calls s).

Definition set_cache (f : gmap string matrix -> gmap string matrix) (s : service) : service :=
  Service (outputs s) (f (_similarity_cache s)) (_summarization_pipeline s)
    (_abstractive_model s) (_abstractive_tokenizer s) (pipeline_calls s).

Definition set_pipeline (p : option string) (s : service) : service :=
  Service (outputs s) (_similarity_cache s) p
    (_abstractive_model s) (_abstractive_tokenizer s) (pipeline_calls s).

Definition set_tokenizer (t : option string) (s : service) : service :=
  Service (outputs s) (_similarity_cache s) (_summarization_pipeline s)
    (_abstractive_model s) t (pipeline_calls s).

Definition set_model (m : option string) (s : service) : service :=
  Service (outputs s) (_similarity_cache s) (_summarization_pipeline s)
    m (_abstractive_tokenizer s) (pipeline_calls s).

Definition log_call (chunk : string) (s : service) : service :=
  Service (outputs s) (_similarity_cache s) (_summarization_pipeline s)
    (_abstractive_model s) (_abstractive_tokenizer s) (pipeline_calls s ++ [chunk]).

(** ** Operations: state passing with exceptions *)

Definition M (A : Type) : Type := service -> outcome A * service.

Definition ret {A} (a : A) : M A := fun s => (Ok a, s).
Definition raise {A} (e : exn) : M A := fun s => (Raise e, s).
Definition lift {A} (o : outcome A) : M A := fun s => (o, s).
Definition bind {A B} (m : M A) (k : A -> M B) : M B :=
  fun s =>
    match m s with
    | (Ok a, s') => k a s'
    | (Raise e, s') => (Raise e, s')
    end.
Definition get : M service := fun s => (Ok s, s).
Definition modify (f : service -> service) : M unit := fun s => (Ok tt, f s).

Notation "'let*' x ':=' m 'in' k" := (bind m (fun x => k))
  (at level 10, x name, m at level 100, k at level 200).
Notation "'do*' m 'in' k" := (bind m (fun _ => k))
  (at level 10, m at level 100, k at level 200).

(** [os.path.exists(path)]. *)
Definition path_exists (path : string) : M bool :=
  let* s := get in ret (bool_decide (is_Some (outputs s !! path))).

(** [with open(path, 'r') as f: json.load(f)]. *)
Definition read_json (path : string) : M json_record :=
  let* s := get in
  match outputs s !! path with
  | None => raise FileNotFoundError
  | Some (TextFile _) => raise JSONDecodeError
  | Some (JsonFile j) => ret j
  end.

(** Reading the cleaning artifact: a JSON record of another stage has no
    ["sentences"] or ["cleaned_text"] key. *)
Definition read_cleaning (path : string) : M cleaning_data :=
  let* j := read_json path in
  match j with
  | JCleaning c => ret c
  | _ => raise KeyError
  end.

(** [with open(path, 'w') as f: ...]: the file is replaced. *)
Definition write_file (path : string) (f : file) : M unit :=
  modify (set_outputs (insert path f)).

(** ** Collaborators *)

Class Externals := {
  (** whether [torch] and [transformers] were imported *)
  TORCH_AVAILABLE : bool;
  (** the interpreter's [hash] on strings *)
  py_hash : string -> Z;
  (** [cosine_similarity(TfidfVectorizer(stop_words='english',
      max_features=5000).fit_transform(sentences))] *)
  tfidf_cosine_similarity : list string -> outcome matrix;
  (** [np.array(tfidf_matrix.sum(axis=1)).flatten()] *)
  tfidf_row_sums : list string -> outcome (list Qc);
  (** [np.linalg.norm(TruncatedSVD(n_components).fit_transform(tfidf_matrix), axis=1)],
      for one draw of the randomized solver *)
  lsa_row_norms : list string -> nat -> outcome (list Qc);
  (** [pipeline("summarization", model=model_name, ...)] *)
  pipeline_load : string -> outcome unit;
  (** [self._summarization_pipeline(chunk, max_length=..., min_length=...,
      do_sample=False)[0]["summary_text"]], for the model loaded *)
  pipeline_call : string -> string -> Z -> Z -> outcome string;
  (** [AutoTokenizer.from_pretrained(model_name)] *)
  tokenizer_load : string -> outcome unit;
  (** [AutoModelForSeq2SeqLM.from_pretrained(model_name, ...)] *)
  model_load : string -> outcome unit;
  (** tokenize, [generate(..., num_beams=2, early_stopping=True)], decode *)
  model_generate : string -> string -> Z -> Z -> outcome string;
  (** [TextUtils.split_into_sentences] (nltk's [sent_tokenize]) *)
  split_into_sentences : string -> list string;
  (** [TextUtils.get_section_wise_summary] on a JSON artifact whose
      cleaned text is the argument *)
  section_wise_summary : string -> list (string * string)
}.

(** ** Chunking of the text handed to the abstractive collaborator *)

(** One turn of the loop over [text.split(". ")]: the pair is
    [(chunks, temp_chunk)]. *)
Definition chunk_step (chunk_size : nat) (acc : list string * string)
    (sentence : string) : list string * string :=
  let '(chunks, temp_chunk) := acc in
  if (length (PyStr.split_ws temp_chunk) + length (PyStr.split_ws sentence)
        <=? chunk_size)%nat
  then (chunks, temp_chunk +:+ sentence +:+ ". ")
  else (chunks ++ [PyStr.strip temp_chunk], sentence +:+ ". ").

Definition make_chunks (chunk_size : nat) (text : string) : list string :=
  let '(chunks, temp_chunk) :=
    fold_left (chunk_step chunk_size) (PyStr.split ". " text) ([], EmptyString) in
  match temp_chunk with
  | EmptyString => chunks
  | _ => chunks ++ [PyStr.strip temp_chunk]
  end.

(** [len(chunk.strip()) > 50]. *)
Definition substantial (chunk : string) : bool :=
  (50 <? String.length (PyStr.strip chunk))%nat.

(** ** Scrubbing and the heuristics of [formatted_hybrid_summary] *)

(** The four [re.sub] calls of step 0, in order. *)
Definition scrub (cleaned_text : string) : string :=
  let t1 := Re.sub_empty Re.page_marker cleaned_text in
  let t2 := Re.sub_empty Re.page_number t1 in
  let t3 := Re.sub_empty Re.email t2 in
  Re.sub_empty Re.phone t3.

(** [[s.strip() for s in l if s.strip()]]. *)
Definition stripped_nonempty (l : list string) : list string :=
  filter (fun s => s <> EmptyString) (map PyStr.strip l).

(** The first line with 3 to 12 words. *)
Fixpoint first_title_line (lines : list string) : option string :=
  match lines with
  | [] => None
  | line :: rest =>
      let n := length (PyStr.split_ws line) in
      if ((3 <=? n) && (n <=? 12))%nat then Some line else first_title_line rest
  end.

Definition detect_title (cleaned_text : string) (abstract_sentences : list string) : string :=
  match cleaned_text with
  | EmptyString => "Untitled"
  | _ =>
      match first_title_line (stripped_nonempty (PyStr.split (String "010" EmptyString) cleaned_text)) with
      | Some line => line
      | None => match abstract_sentences with
                | s :: _ => s
                | [] => "Untitled"
                end
      end
  end.

Definition detect_objective (abstract_sentences : list string) : string :=
  if (1 <? length abstract_sentences)%nat
  then PyStr.join " " (take 2 (drop 1 abstract_sentences))
  else "Objective not detected".

(** [re.compile(sec, re.IGNORECASE).search(text)] for a literal [sec]: the
    text from the start of the first occurrence on. *)
Definition literal_i (sec : string) : Re.pattern :=
  map (fun c => Re.once (Re.chr_i c)) (list_ascii_of_string sec).

Fixpoint search_from (p : Re.pattern) (text : string) : option string :=
  match Re.match_here p text with
  | Some _ => Some text
  | None => match text with
            | EmptyString => None
            | String _ rest => search_from p rest
            end
  end.

Definition resume_sections : list string :=
  ["Education"; "Projects"; "Skills"; "Work Experience"].

Definition has_key (k : string) (d : list (string * string)) : bool :=
  existsb (fun kv => String.eqb (fst kv) k) d.

(** The fallback loop: a raw section is added unless its key is present. *)
Definition merge_sections (found raw : list (string * string)) : list (string * string) :=
  fold_left (fun d kv => if has_key (fst kv) d then d else d ++ [kv]) raw found.

(** ** The operations of [OptimizedTextSummarizer] *)

Section Summarizer.
Context `{Externals}.

Definition epsilon : Qc := Q2Qc (1 # 100000000).   (* 1e-8 *)

(** [_create_similarity_matrix_async]: every row of the cosine matrix is
    divided by its sum plus [1e-8]. *)
Definition _create_similarity_matrix_async (sents : list string) : M matrix :=
  let* c := lift (tfidf_cosine_similarity sents) in
  ret (normalise_rows epsilon c).

(** [f"textrank_{hash(' '.join(sentences))}"]. *)
Definition cache_key (sents : list string) : string :=
  "textrank_" +:+ PyStr.str_of_Z (py_hash (PyStr.join " " sents)).

(** The similarity matrix [_optimized_textrank_summarize] ranks with:
    the cached one when [use_cache] holds and the key is present, a fresh
    one otherwise, stored under the key when [use_cache] holds. *)
Definition similarity_matrix_for (sents : list string) (use_cache : bool) : M matrix :=
  let* s := get in
  match (if use_cache then _similarity_cache s !! cache_key sents else None) with
  | Some m => ret m
  | None =>
      let* m := _create_similarity_matrix_async sents in
      do* (if use_cache then modify (set_cache (insert (cache_key sents) m)) else ret tt) in
      ret m
  end.

Definition _optimized_textrank_summarize (sents : list string)
    (num_sentences : nat) (use_cache : bool) : M (list string) :=
  let* similarity_matrix := similarity_matrix_for sents use_cache in
  let* scores := lift (_pagerank similarity_matrix damping_default max_iter_default) in
  lift (select_top scores sents num_sentences).

Definition _optimized_tfidf_summarize (sents : list string)
    (num_sentences : nat) : M (list string) :=
  let* scores := lift (tfidf_row_sums sents) in
  lift (select_top scores sents num_sentences).

Definition _optimized_lsa_summarize (sents : list string)
    (num_sentences : nat) : M (list string) :=
  let* scores := lift (lsa_row_norms sents (Nat.min num_sentences (length sents))) in
  lift (select_top scores sents num_sentences).

(** [max(1, int(original_sentences * summary_ratio))] with the exact
    product; [Float64.num_sentences] takes the product in binary64, as
    line 72 does, and [Float64.extractive_summary] is the operation with
    that count. *)
Definition num_sentences_for (original_sentences : nat) (summary_ratio : Qc) : Z :=
  Z.max 1 (py_int (Qc_of_nat original_sentences * summary_ratio)).

Definition extractive_summary (filename : string) (summary_ratio : Qc)
    (algorithm : string) (use_cache : bool) : M extractive_metadata :=
  let cleaning_metadata_path := Path.cleaning_metadata filename in
  let* present := path_exists cleaning_metadata_path in
  if negb present then raise FileNotFoundError else
  let* cleaning := read_cleaning cleaning_metadata_path in
  let sents := sentences cleaning in
  let original_sentences := length sents in
  if (original_sentences =? 0)%nat then raise ValueError else
  let num_sentences := Z.to_nat (num_sentences_for original_sentences summary_ratio) in
  let* summary_sentences :=
    if String.eqb algorithm "textrank"
    then _optimized_textrank_summarize sents num_sentences use_cache
    else if String.eqb algorithm "tfidf"
    then _optimized_tfidf_summarize sents num_sentences
    else if String.eqb algorithm "lsa"
    then _optimized_lsa_summarize sents num_sentences
    else raise ValueError in
  let summary_text := PyStr.join " " summary_sentences in
  let compression_ratio :=
    Qc_of_nat (length summary_sentences) / Qc_of_nat original_sentences in
  let output_path := Path.of_stage filename "_extractive_summary.txt" in
  do* write_file output_path (TextFile summary_text) in
  let metadata :=
    ExtractiveMetadata summary_text summary_sentences original_sentences
      compression_ratio algorithm summary_ratio output_path "optimized" in
  do* write_file (Path.of_stage filename "_extractive_summary_metadata.json")
        (JsonFile (JExtractive metadata)) in
  ret metadata.

Definition _load_summarization_pipeline (model_name : string) : M unit :=
  if negb TORCH_AVAILABLE then raise ImportError else
  do* lift (pipeline_load model_name) in
  modify (set_pipeline (Some model_name)).

(** The tokenizer is assigned before the model is loaded: when the
    model fails to load, the tokenizer stays. *)
Definition _load_abstractive_model (model_name : string) : M unit :=
  if negb TORCH_AVAILABLE then raise ImportError else
  do* lift (tokenizer_load model_name) in
  do* modify (set_tokenizer (Some model_name)) in
  do* lift (model_load model_name) in
  modify (set_model (Some model_name)).

(** The loop over the chunks of [_pipeline_summarize]: a chunk of at most
    50 characters after stripping is skipped, every other one is sent to
    the pipeline. *)
Fixpoint pipeline_chunks (max_length min_length : Z) (chunks : list string)
    : M (list string) :=
  match chunks with
  | [] => ret []
  | chunk :: rest =>
      if substantial chunk
      then
        let* s := get in
        match _summarization_pipeline s with
        | None => raise TypeError
        | Some model =>
            do* modify (log_call chunk) in
            let* summary := lift (pipeline_call model chunk max_length min_length) in
            let* summaries := pipeline_chunks max_length min_length rest in
            ret (summary :: summaries)
        end
      else pipeline_chunks max_length min_length rest
  end.

Definition _pipeline_summarize (text : string) (max_length min_length : Z) : M string :=
  let* summaries := pipeline_chunks max_length min_length (make_chunks 1000 text) in
  ret (PyStr.join " " summaries).

(** The loop of [_chunked_summarize]: every chunk is summarized. *)
Fixpoint generate_chunks (max_length min_length : Z) (chunks : list string)
    : M (list string) :=
  match chunks with
  | [] => ret []
  | chunk :: rest =>
      let* s := get in
      match _abstractive_model s, _abstractive_tokenizer s with
      | Some model, Some _ =>
          let* summary := lift (model_generate model chunk max_length min_length) in
          let* summaries := generate_chunks max_length min_length rest in
          ret (summary :: summaries)
      | _, _ => raise TypeError
      end
  end.

Definition _chunked_summarize (text : string) (max_length min_length : Z) : M string :=
  let* summaries := generate_chunks max_length min_length (make_chunks 1024 text) in
  ret (PyStr.join " " summaries).

Definition is_none {A} (o : option A) : bool :=
  match o with
  | None => true
  | Some _ => false
  end.

Definition abstractive_summary (filename : string) (max_length min_length : Z)
    (model : string) (use_pipeline : bool) : M abstractive_metadata :=
  if negb TORCH_AVAILABLE then raise ImportError else
  let cleaning_metadata_path := Path.cleaning_metadata filename in
  let* present := path_exists cleaning_metadata_path in
  if negb present then raise FileNotFoundError else
  let* cleaning := read_cleaning cleaning_metadata_path in
  let text := cleaned_text cleaning in
  let original_length := String.length text in
  let* s0 := get in
  do* (if use_pipeline && is_none (_summarization_pipeline s0)
       then _load_summarization_pipeline model else ret tt) in
  let* s1 := get in
  let* summary_text :=
    if use_pipeline && negb (is_none (_summarization_pipeline s1))
    then _pipeline_summarize text max_length min_length
    else
      do* (if is_none (_abstractive_model s1) || is_none (_abstractive_tokenizer s1)
           then _load_abstractive_model model else ret tt) in
      _chunked_summarize text max_length min_length in
  let summary_length := String.length summary_text in
  let compression_ratio :=
    if (0 <? original_length)%nat
    then Qc_of_nat summary_length / Qc_of_nat original_length else 0 in
  let output_path := Path.of_stage filename "_abstractive_summary.txt" in
  do* write_file output_path (TextFile summary_text) in
  let metadata :=
    AbstractiveMetadata summary_text original_length summary_length
      compression_ratio model max_length min_length output_path
      (if use_pipeline then "pipeline" else "chunked") in
  do* write_file (Path.of_stage filename "_abstractive_summary_metadata.json")
        (JsonFile (JAbstractive metadata)) in
  ret metadata.

Definition bart_large_cnn : string := "facebook/bart-large-cnn".

Definition hybrid_summary (filename : string) (extractive_ratio : Qc)
    (max_length min_length : Z) (use_pipeline : bool) : M hybrid_metadata :=
  let* extractive_result := extractive_summary filename extractive_ratio "textrank" true in
  let cleaning_metadata_path := Path.cleaning_metadata filename in
  let* cleaning := read_cleaning cleaning_metadata_path in
  let original_cleaned_text := cleaned_text cleaning in
  let cleaning := set_cleaned_text (ex_summary_text extractive_result) cleaning in
  do* write_file cleaning_metadata_path (JsonFile (JCleaning cleaning)) in
  let* hybrid_result :=
    abstractive_summary filename max_length min_length bart_large_cnn use_pipeline in
  let cleaning := set_cleaned_text original_cleaned_text cleaning in
  do* write_file cleaning_metadata_path (JsonFile (JCleaning cleaning)) in
  let output_path := Path.of_stage filename "_hybrid_summary.txt" in
  do* write_file output_path (TextFile (ab_summary_text hybrid_result)) in
  let metadata :=
    HybridMetadata (ab_summary_text hybrid_result)
      (String.length original_cleaned_text) (ab_summary_length hybrid_result)
      (ab_compression_ratio hybrid_result) extractive_ratio output_path
      "optimized_hybrid" in
  do* write_file (Path.of_stage filename "_hybrid_summary_metadata.json")
        (JsonFile (JHybrid metadata)) in
  ret metadata.

(** The resume headings found in the text, each with its first two
    sentences. *)
Definition resume_section_summary (text : string) : list (string * string) :=
  omap (fun sec =>
          match search_from (literal_i sec) text with
          | Some rest_text =>
              Some (sec, PyStr.join " " (take 2 (split_into_sentences rest_text)))
          | None => None
          end) resume_sections.

(** Step 0 of [formatted_hybrid_summary]: when the cleaning artifact
    exists its text is scrubbed and the record is written back with the
    scrubbed text; the scrubbed text (or [""]) is the result. The record
    is read as a cleaning record: on a JSON record of another stage,
    where [cleaning_data.get("cleaned_text", ...)] of the source yields
    the empty text and the record is written back with that key, the
    read here raises [KeyError] and nothing is written. *)
Definition scrub_artifact (cleaning_metadata_path : string) : M string :=
  let* present := path_exists cleaning_metadata_path in
  if present then
    let* cleaning := read_cleaning cleaning_metadata_path in
    let text := scrub (cleaned_text cleaning) in
    do* write_file cleaning_metadata_path
          (JsonFile (JCleaning (set_cleaned_text text cleaning))) in
    ret text
  else ret EmptyString.

(** The result is the formatted summary and the ["file_path"] added to
    the returned dictionary after it was written. *)
Definition formatted_hybrid_summary (filename : string) (extractive_ratio : Qc)
    (max_length min_length : Z) (use_pipeline : bool)
    : M (formatted_summary * string) :=
  let cleaning_metadata_path := Path.cleaning_metadata filename in
  let* text := scrub_artifact cleaning_metadata_path in
  let* abstractive_result :=
    abstractive_summary filename max_length min_length bart_large_cnn use_pipeline in
  let final_abstract := ab_summary_text abstractive_result in
  let* extractive_result := extractive_summary filename extractive_ratio "textrank" true in
  let key_points := map PyStr.strip (ex_summary_sentences extractive_result) in
  let abstract_sentences := stripped_nonempty (PyStr.split "." final_abstract) in
  let title := detect_title text abstract_sentences in
  let objective := detect_objective abstract_sentences in
  let* present := path_exists cleaning_metadata_path in
  if negb present then raise FileNotFoundError else
  let* cleaning := read_cleaning cleaning_metadata_path in
  let section_summary_raw := section_wise_summary (cleaned_text cleaning) in
  let section_summary :=
    merge_sections (resume_section_summary text) section_summary_raw in
  let formatted :=
    FormattedSummary title objective key_points section_summary final_abstract
      "optimized_formatted" in
  let output_path := Path.of_stage filename "_formatted_summary.json" in
  do* write_file output_path (JsonFile (JFormatted formatted)) in
  ret (formatted, output_path).

Definition get_summary (filename summary_type : string) : M json_record :=
  let metadata_path :=
    Path.of_stage filename ("_" +:+ summary_type +:+ "_summary_metadata.json") in
  let* present := path_exists metadata_path in
  if negb present then raise FileNotFoundError else
  read_json metadata_path.

End Summarizer.

(** ** Concrete collaborators and states, for evaluating the operations *)

Module Demo.

(** A polynomial string hash standing for the interpreter's. *)
Definition hash (s : string) : Z :=
  fold_left (fun h c => (h * 31 + Z.of_nat (nat_of_ascii c)) mod 2305843009213693951)
    (list_ascii_of_string s) 7.

Definition first_char (s : string) : option ascii :=
  match s with
  | String c _ => Some c
  | EmptyString => None
  end.

(** A square matrix with one row per sentence: [1] on the diagonal,
    [1/2] between sentences that start alike, [0] elsewhere. *)
Definition cosine (sents : list string) : matrix :=
  imap (fun i a =>
          imap (fun j b =>
                  if (i =? j)%nat then 1%Qc
                  else if bool_decide (first_char a = first_char b)
                       then Q2Qc (1 # 2) else 0%Qc) sents) sents.

(** One score per sentence: its number of words. *)
Definition word_counts (sents : list string) : list Qc :=
  map (fun s => Qc_of_nat (length (PyStr.split_ws s))) sents.

(** A summarizer that keeps the first 20 characters of a chunk. *)
Definition head20 (chunk : string) : string := String.substring 0 20 chunk.

Definition externals (torch : bool) (pipeline : string -> outcome string) : Externals := {|
  TORCH_AVAILABLE := torch;
  py_hash := hash;
  tfidf_cosine_similarity := fun sents => Ok (cosine sents);
  tfidf_row_sums := fun sents => Ok (word_counts sents);
  lsa_row_norms := fun sents _ => Ok (word_counts sents);
  pipeline_load := fun _ => Ok tt;
  pipeline_call := fun _ chunk _ _ => pipeline chunk;
  tokenizer_load := fun _ => Ok tt;
  model_load := fun _ => Ok tt;
  model_generate := fun _ chunk _ _ => pipeline chunk;
  split_into_sentences := fun text => stripped_nonempty (PyStr.split "." text);
  section_wise_summary := fun _ => []
|}.

(** Everything installed and working. *)
Definition working : Externals := externals true (fun chunk => Ok (head20 chunk)).
(** The pipeline raises on every call. *)
Definition failing_pipeline : Externals := externals true (fun _ => Raise CollaboratorError).
(** [torch] and [transformers] are not installed. *)
Definition no_torch : Externals := externals false (fun chunk => Ok (head20 chunk)).

Definition cleaning (text : string) (sents : list string) : cleaning_data :=
  CleaningData text sents 0 (Z.of_nat (String.length text))
    (Z.of_nat (length (PyStr.split_ws text))) (Z.of_nat (length sents))
    "outputs/doc_cleaned.txt" (true, true, false, 10).

(** A fresh service whose output directory holds the given files. *)
Definition service_with (files : list (string * file)) : service :=
  Service (list_to_map files) ∅ None None None [].

Definition three_sentences : list string :=
  ["Cats sleep all day long inside the warm and quiet house.";
   "Dogs bark at the postman every single morning of the week.";
   "Cats and dogs rarely share the same basket in the kitchen."].

Definition three_text : string := PyStr.join " " three_sentences.

(** One document, [doc.pdf], cleaned into three sentences. *)
Definition doc_service : service :=
  service_with
    [("outputs/doc_cleaning_metadata.json",
      JsonFile (JCleaning (cleaning three_text three_sentences)))].

(** The same document with a page marker in its cleaned text. *)
Definition paged_text : string := "Annual report Page 12 " +:+ three_text.

Definition paged_service : service :=
  service_with
    [("outputs/doc_cleaning_metadata.json",
      JsonFile (JCleaning (cleaning paged_text three_sentences)))].

(** Two documents whose sentences differ and whose joined texts agree. *)
Definition one_sentence : list string := ["cats sleep dogs bark"].
Definition two_sentences : list string := ["cats sleep"; "dogs bark"].

Definition colliding_service : service :=
  service_with
    [("outputs/a_cleaning_metadata.json",
      JsonFile (JCleaning (cleaning "cats sleep dogs bark" one_sentence)));
     ("outputs/b_cleaning_metadata.json",
      JsonFile (JCleaning (cleaning "cats sleep dogs bark" two_sentences)))].

End Demo.

(** ** Notions the properties are stated with *)

(** An [n]-by-[n] matrix, and one whose rows sum to one. *)
Definition square (M : matrix) : Prop :=
  Forall (fun row => length row = length M) M.

Definition row_stochastic (M : matrix) : Prop :=
  Forall (fun row => sumQc row = 1) M.

(** The [k]-th iterate of the update from the uniform vector. *)
Definition iterate (M : matrix) (d : Qc) (k : nat) : list Qc :=
  Nat.iter k (new_scores M d) (uniform (length M)).

(** The run stopped on the closeness test in iteration [j + 1]. *)
Definition converged_at (M : matrix) (d : Qc) (j : nat) (st : pagerank_state) : Prop :=
  (forall i, (i < j)%nat -> allclose (iterate M d i) (iterate M d (S i)) = false)
  /\ allclose (iterate M d j) (iterate M d (S j)) = true
  /\ pr_scores st = iterate M d j
  /\ pr_last st = Some (iterate M d (S j))
  /\ pr_iterations st = S j.

(** The run used up its [max_iter] iterations. *)
Definition exhausted (M : matrix) (d : Qc) (max_iter : nat) (st : pagerank_state) : Prop :=
  (forall i, (i < max_iter)%nat -> allclose (iterate M d i) (iterate M d (S i)) = false)
  /\ pr_scores st = iterate M d max_iter
  /\ (pr_last st = match max_iter with O => None | S _ => Some (iterate M d max_iter) end)
  /\ pr_iterations st = max_iter.

(** A one-sentence similarity matrix, [[1 - 2^-17]], and a row-stochastic
    matrix of two sentences. *)
Definition near_one : matrix := [ [Q2Qc (131071 # 131072)] ]%list.

Definition half_half : matrix := [ [Q2Qc (1 # 2); Q2Qc (1 # 2)]; [1; 0] ]%list.

(** The corpus with its indices, and the ranked list of
    [(score, (index, sentence))] the selection slices. *)
Definition tagged {A} (sents : list A) : list (nat * A) := zip (seq 0 (length sents)) sents.

Definition ranked_with_index {A} (scores : list Qc) (sents : list A) : list (Qc * (nat * A)) :=
  sort_desc (zip scores (tagged sents)).

Definition retag {A B} (f : A -> B) (p : Qc * A) : Qc * B := (fst p, f (snd p)).

(** Scores never increase along the list. *)
Definition descending {A} (l : list (Qc * A)) : Prop :=
  forall p q x y, (p < q)%nat -> l !! p = Some x -> l !! q = Some y -> fst y <= fst x.

(** Python's [round(x)]: to the nearest integer, halves to the even one. *)
Definition py_round (q : Qc) : Z :=
  let f := Qfloor q in
  let twice := (2 * (q - Qc_of_Z f))%Qc in
  if Qc_ltb twice 1 then f
  else if Qc_ltb 1 twice then (f + 1)%Z
  else if Z.even f then f else (f + 1)%Z.

(** The count the specification states: [max(1, round(n * ratio))]. *)
Definition spec_num_sentences (n : nat) (ratio : Qc) : Z :=
  Z.max 1 (py_round (Qc_of_nat n * ratio)).

Definition half : Qc := Q2Qc (1 # 2).

(** The state [s'] differs from [s] on no file outside [paths]. *)
Definition writes_within (paths : list string) (s s' : service) : Prop :=
  forall p, p ∉ paths -> outputs s' !! p = outputs s !! p.

(** An operation that writes no file outside [paths]. *)
Definition touches {A} (paths : list string) (m : M A) : Prop :=
  forall s, writes_within paths s (snd (m s)).

Definition chars (s : string) : list ascii := list_ascii_of_string s.

(** Neither string is a tail of the other. *)
Definition tails_differ (a b : string) : Prop :=
  ¬ (chars a `suffix_of` chars b) /\ ¬ (chars b `suffix_of` chars a).

(** What step 0 of [formatted_hybrid_summary] leaves under the cleaning
    path: a cleaning record gets its text scrubbed, anything else stays. *)
Definition scrubbed_file (f : option file) : option file :=
  match f with
  | Some (JsonFile (JCleaning c)) =>
      Some (JsonFile (JCleaning (set_cleaned_text (scrub (cleaned_text c)) c)))
  | other => other
  end.

(** The cleaned text of a cleaning artifact. *)
Definition artifact_text (f : option file) : option string :=
  match f with
  | Some (JsonFile (JCleaning c)) => Some (cleaned_text c)
  | _ => None
  end.

(** The suffixes of the files the summary operations write. *)
Definition summary_suffixes : list string :=
  ["_extractive_summary.txt"; "_extractive_summary_metadata.json";
   "_abstractive_summary.txt"; "_abstractive_summary_metadata.json";
   "_hybrid_summary.txt"; "_hybrid_summary_metadata.json";
   "_formatted_summary.json"].

(** Two runs agree on the outcome and on the files they leave. *)
Definition same_result {A} (r1 r2 : outcome A * service) : Prop :=
  fst r1 = fst r2 /\ outputs (snd r1) = outputs (snd r2).

(** An operation that reads nothing of the state but its files. *)
Definition files_only {A} (m : M A) : Prop :=
  forall sa sb, outputs sa = outputs sb -> same_result (m sa) (m sb).

(** The pieces followed by [". "] each, as the chunking loop glues them,
    and the length of that text for a separator of [m] characters. *)
Fixpoint glue (pieces : list string) : string :=
  match pieces with
  | [] => EmptyString
  | p :: ps => p +:+ ". " +:+ glue ps
  end.

Fixpoint glued_length (m : nat) (pieces : list string) : nat :=
  match pieces with
  | [] => 0
  | p :: ps => String.length p + m + glued_length m ps
  end.

(** A text of fifty characters, a document of two short sentences, and a
    service whose pipeline is built. *)
Definition fifty_a : string := "aaaaaaaaaaaaaaaaaaaaaaaaaaaaaaaaaaaaaaaaaaaaaaaaaa".

Definition short_service : service :=
  Demo.service_with
    [("outputs/note_cleaning_metadata.json",
      JsonFile (JCleaning (Demo.cleaning "Cats sleep. Dogs bark." ["Cats sleep."; "Dogs bark."])))].

Definition loaded (s : service) : service := set_pipeline (Some bart_large_cnn) s.

Section Conditions.
Context `{Externals}.

(** A cached matrix under the key of [sents] has a row per sentence. *)
Definition cache_fits (s : service) (sents : list string) : Prop :=
  forall M, _similarity_cache s !! cache_key sents = Some M ->
            (length sents <= length M)%nat.

(** The collaborator of the chosen ranker answers with at least one score
    (one matrix row) per sentence, and so does a cached matrix. *)
Definition ranker_ready (s : service) (algorithm : string) (sents : list string)
    (use_cache : bool) (num_sentences : nat) : Prop :=
  (algorithm = "textrank"
   /\ (exists C, tfidf_cosine_similarity sents = Ok C /\ (length sents <= length C)%nat)
   /\ (use_cache = true -> cache_fits s sents))
  \/ (algorithm = "tfidf"
      /\ exists sc, tfidf_row_sums sents = Ok sc /\ (length sents <= length sc)%nat)
  \/ (algorithm = "lsa"
      /\ exists sc, lsa_row_norms sents (Nat.min num_sentences (length sents)) = Ok sc
                    /\ (length sents <= length sc)%nat).

(** The files after a successful [extractive_summary]. *)
Definition with_extractive (filename : string) (md : extractive_metadata)
    (files : gmap string file) : gmap string file :=
  <[Path.of_stage filename "_extractive_summary_metadata.json" := JsonFile (JExtractive md)]>
    (<[Path.of_stage filename "_extractive_summary.txt" := TextFile (ex_summary_text md)]> files).

(** The entry under the key of [sents], if there is one, is the matrix
    computed for [sents]. *)
Definition cache_consistent (s : service) (sents : list string) : Prop :=
  forall M, _similarity_cache s !! cache_key sents = Some M ->
            exists C, tfidf_cosine_similarity sents = Ok C
                      /\ M = normalise_rows epsilon C.

End Conditions.

(** ** Notions for the further properties of the summarizer *)

(** The sum of column [j] of a matrix given by its rows. *)
Definition column_sum (M : matrix) (j : nat) : Qc :=
  sumQc (map (fun row => nth j row 0) M).

(** Every entry is non-negative. *)
Definition nonnegative (M : matrix) : Prop :=
  Forall (Forall (fun x => 0 <= x)) M.

(** The [n]-by-[n] identity: the cosine matrix of [n] sentences no two of
    which share a term. *)
Definition identity_matrix (n : nat) : matrix :=
  map (fun i => map (fun j => if (i =? j)%nat then 1 else 0) (seq 0 n)) (seq 0 n).

(** An operation after which the projection [proj] of the state is
    related by [R] to what it was before. *)
Definition preserves {A B} (proj : service -> B) (R : relation B) (m : M A) : Prop :=
  forall s, R (proj s) (proj (snd (m s))).

(** A digit or the at sign: every pattern of [scrub] needs one of them. *)
Definition digit_or_at (c : ascii) : bool := PyStr.is_digit c || Ascii.eqb c "@".

(** A text without digits and without at signs. *)
Definition plain (text : string) : Prop :=
  Forall (fun c => digit_or_at c = false) (chars text).

(** A pattern that cannot match without a character of the class [Q]: one
    of its atoms is repeated at least once and accepts only such
    characters. *)
Definition needs (Q : ascii -> bool) (p : Re.pattern) : Prop :=
  Exists (fun a => (1 <= Re.rmin a)%nat /\ forall c, Re.cls a c = true -> Q c = true) p.

(** ** Text utilities: [app/utils/text_utils.py]

    The summarizer calls [TextUtils.get_section_wise_summary] and
    [TextUtils.split_into_sentences]; the cleaner calls
    [split_into_sentences] and [remove_stopwords]. nltk's tokenizers, its
    stop word list and Python's JSON writer are collaborators. *)

Module PyText.

Definition newline : ascii := "010"%char.
Definition nl : string := String newline EmptyString.      (* "\n" *)

(** An index as Python's slices and [find] read it: a negative one counts
    from the end. *)
Definition wrap (len i : Z) : Z := if (i <? 0)%Z then Z.max 0 (i + len) else i.

Definition clamp (len i : Z) : Z := Z.min (wrap len i) len.

(** [s[a:b]], with [b = None] for an omitted bound. *)
Definition slice (s : string) (a : Z) (b : option Z) : string :=
  let len := Z.of_nat (String.length s) in
  let lo := clamp len a in
  let hi := match b with Some b => clamp len b | None => len end in
  String.substring (Z.to_nat lo) (Z.to_nat (hi - lo)) s.

(** [l[:n]] and [l[a:b]] on lists. *)
Definition take_z {A} (n : Z) (l : list A) : list A :=
  take (Z.to_nat (clamp (Z.of_nat (length l)) n)) l.

Definition slice_list {A} (l : list A) (a b : Z) : list A :=
  let len := Z.of_nat (length l) in
  let lo := clamp len a in
  let hi := clamp len b in
  take (Z.to_nat (hi - lo)) (drop (Z.to_nat lo) l).

(** The least index at or after [i] where [sub] occurs in [s], which
    starts at index [i]. *)
Fixpoint find_at (sub s : string) (i : nat) : option nat :=
  if String.prefix sub s then Some i
  else match s with
       | EmptyString => None
       | String _ s' => find_at sub s' (S i)
       end.

(** [s.find(sub)] and [s.find(sub, start)]: [-1] when there is no
    occurrence. *)
Definition find (sub s : string) : Z :=
  match find_at sub s 0 with
  | Some i => Z.of_nat i
  | None => (-1)%Z
  end.

Definition find_from (sub s : string) (start : Z) : Z :=
  let len := Z.of_nat (String.length s) in
  let start := wrap len start in
  if (len <? start)%Z then (-1)%Z
  else match find_at sub (String.substring (Z.to_nat start) (String.length s) s)
               (Z.to_nat start) with
       | Some i => Z.of_nat i
       | None => (-1)%Z
       end.

(** [s.endswith(suffix)]. *)
Definition endswith (suffix s : string) : bool :=
  let n := String.length s in
  let m := String.length suffix in
  (m <=? n)%nat && String.eqb (String.substring (n - m) m s) suffix.

(** [d[k] = v] on a dictionary kept in insertion order: a key that is
    present keeps its place. *)
Fixpoint dict_set (k v : string) (d : list (string * string)) : list (string * string) :=
  match d with
  | [] => [(k, v)]
  | (k', v') :: d' =>
      if String.eqb k' k then (k, v) :: d' else (k', v') :: dict_set k v d'
  end.

End PyText.

(** [re.sub(p, repl, s)] for a pattern that matches no empty string:
    every leftmost non-overlapping match is replaced by [repl]. *)
Fixpoint re_sub_go (p : Re.pattern) (repl : string) (skip : nat) (s : string) : string :=
  match s with
  | EmptyString => EmptyString
  | String c s' =>
      match skip with
      | S k => re_sub_go p repl k s'
      | O =>
          match Re.match_here p s with
          | Some rest =>
              match (String.length s - String.length rest)%nat with
              | S k => repl +:+ re_sub_go p repl k s'
              | O => String c (re_sub_go p repl 0 s')
              end
          | None => String c (re_sub_go p repl 0 s')
          end
      end
  end.

Definition re_sub (p : Re.pattern) (repl s : string) : string := re_sub_go p repl 0 s.

(** The section pattern of [get_section_wise_summary],
    [r'(?:\n|^)([A-Z][^\n]{5,})(?=\n|$)'] with [re.MULTILINE]. *)
Module SectionPattern.

Definition capital (c : ascii) : bool :=       (* [A-Z] *)
  let n := nat_of_ascii c in ((65 <=? n) && (n <=? 90))%nat.

Definition not_newline (c : ascii) : bool := negb (Ascii.eqb c PyText.newline).  (* [^\n] *)

(** [(?=\n|$)]: the text ends here or a newline follows. *)
Definition lookahead (rest : string) : option string :=
  match rest with
  | EmptyString => Some rest
  | String c _ => if Ascii.eqb c PyText.newline then Some rest else None
  end.

(** The group and the lookahead matched at the start of [s]: the text
    left after the group. *)
Definition group_here (s : string) : option string :=
  Re.greedy (Re.once capital)
    (Re.greedy (Re.at_least 5 not_newline) lookahead 0) 0 s.

(** The text of the group, when it matches at the start of [s]. *)
Definition heading_here (s : string) : option string :=
  match group_here s with
  | Some rest => Some (String.substring 0 (String.length s - String.length rest) s)
  | None => None
  end.

(** [findall]: at a position the alternative [\n] is tried before [^];
    after a match the scan goes on behind it. [line_start] tells whether
    [^] holds at the current position, [skip] counts the characters of
    the last match still to be passed. *)
Fixpoint findall_go (line_start : bool) (skip : nat) (s : string) : list string :=
  match s with
  | EmptyString => []
  | String c s' =>
      let next := Ascii.eqb c PyText.newline in
      match skip with
      | S k => findall_go next k s'
      | O =>
          match (if next then heading_here s' else None) with
          | Some h => h :: findall_go next (String.length h) s'
          | None =>
              match (if line_start then heading_here s else None) with
              | Some h => h :: findall_go next (String.length h - 1) s'
              | None => findall_go next 0 s'
              end
          end
      end
  end.

Definition findall (text : string) : list string := findall_go true 0 text.

End SectionPattern.

(** Python's JSON writer and nltk's word tools. *)
Class TextCollaborators := {
  (** the text [json.dump(record, f, indent=2, ensure_ascii=False)] writes *)
  json_dumps : json_record -> string;
  (** [nltk.tokenize.word_tokenize] *)
  word_tokenize : string -> list string;
  (** membership in [set(stopwords.words('english'))] *)
  is_stop_word : string -> bool;
  (** [PorterStemmer().stem] *)
  stem : string -> string
}.

Module TextUtils.
Section WithCollaborators.
Context `{Externals} `{TextCollaborators}.

(** [remove_page_markers]. *)
Definition remove_page_markers (text : string) : string :=
  let text := Re.sub_empty Re.page_marker text in
  Re.sub_empty Re.page_number text.

(** [remove_numbers]: [re.sub(r'\d+', '', text)]. *)
Definition remove_numbers (text : string) : string :=
  Re.sub_empty [Re.plus Re.digit]%list text.

(** [remove_extra_whitespace]: [re.sub(r'\s+', ' ', text).strip()]. *)
Definition remove_extra_whitespace (text : string) : string :=
  PyStr.strip (re_sub [Re.plus Re.space]%list " " text).

(** [split_into_words]: [[w.strip() for w in word_tokenize(text) if w.strip()]]. *)
Definition split_into_words (text : string) : list string :=
  stripped_nonempty (word_tokenize text).

(** [str.lower()] on code points below 256: the ASCII capitals and the
    capitals of Latin-1 (U+00C0 to U+00DE but the multiplication sign). *)
Definition lower_char (c : ascii) : ascii :=
  let n := nat_of_ascii c in
  if (((65 <=? n) && (n <=? 90))
      || ((192 <=? n) && (n <=? 222) && negb (n =? 215)))%nat
  then ascii_of_nat (n + 32) else c.

Fixpoint lower (s : string) : string :=
  match s with
  | EmptyString => EmptyString
  | String c s' => String (lower_char c) (lower s')
  end.

(** [remove_stopwords]. *)
Definition remove_stopwords (text : string) : string :=
  let words := split_into_words text in
  let filtered_words := filter (fun word => is_stop_word (lower word) = false) words in
  PyStr.join " " filtered_words.

(** [stem_words]. *)
Definition stem_words (text : string) : string :=
  PyStr.join " " (map stem (split_into_words text)).

Definition auto_sections : list string :=
  ["Introduction"; "Applications"; "Challenges"; "Future"]%list.

(** The summary of one detected heading: the rest of the line in which
    the heading text first occurs. *)
Definition heading_summary (text : string) (max_sentences_per_section : Z)
    (heading : string) : string :=
  let body_start := (PyText.find heading text + Z.of_nat (String.length heading))%Z in
  let next_index := PyText.find_from PyText.nl text body_start in
  let body :=
    PyStr.strip (PyText.slice text body_start
                   (if (next_index =? -1)%Z then None else Some next_index)) in
  PyStr.join " " (PyText.take_z max_sentences_per_section (split_into_sentences body)).

(** The part of [get_section_wise_summary] that follows the reading of
    the text, for a text that is not blank. *)
Definition sections_of_text (text : string) (max_sentences_per_section : Z)
    : list (string * string) :=
  match SectionPattern.findall text with
  | [] =>
      let sents := split_into_sentences text in
      let chunk_size := Z.max 1 (Z.of_nat (length sents) / 4) in
      fold_left
        (fun section_summary '(i, sec) =>
           let start := (Z.of_nat i * chunk_size)%Z in
           let stop := ((Z.of_nat i + 1) * chunk_size)%Z in
           PyText.dict_set sec
             (PyStr.join " "
                (PyText.take_z max_sentences_per_section
                   (PyText.slice_list sents start stop)))
             section_summary)
        (imap (fun i sec => (i, sec)) auto_sections) []
  | matches =>
      fold_left
        (fun section_summary heading =>
           PyText.dict_set (PyStr.strip heading)
             (heading_summary text max_sentences_per_section heading)
             section_summary)
        matches []
  end.

(** The text of a file opened for reading. *)
Definition read_text (path : string) : M string :=
  let* s := get in
  match outputs s !! path with
  | None => raise FileNotFoundError
  | Some (TextFile t) => ret t
  | Some (JsonFile j) => ret (json_dumps j)
  end.

(** [data.get("cleaned_text", "")]. *)
Definition get_cleaned_text_or_empty (data : json_record) : string :=
  match data with
  | JCleaning c => cleaned_text c
  | _ => EmptyString
  end.

Definition get_section_wise_summary (filename : string) (max_sentences_per_section : Z)
    : M (list (string * string)) :=
  let* present := path_exists filename in
  if negb present then raise FileNotFoundError else
  let* text :=
    if PyText.endswith ".json" filename
    then
      let* data := read_json filename in
      ret (get_cleaned_text_or_empty data)
    else read_text filename in
  match PyStr.strip text with
  | EmptyString => ret [("Full Text", "No content available")]%list
  | _ => ret (sections_of_text text max_sentences_per_section)
  end.

End WithCollaborators.
End TextUtils.

(** A line the section pattern takes for a heading: a capital letter
    followed by at least five more characters. *)
Definition heading_line (line : string) : bool :=
  match line with
  | EmptyString => false
  | String c rest => SectionPattern.capital c && (5 <=? String.length rest)%nat
  end.

(** A text without newline. *)
Definition one_line (text : string) : Prop :=
  Forall (fun c => SectionPattern.not_newline c = true) (chars text).

(** A position where a line ends: the end of the text or a newline. *)
Definition at_line_end (t : string) : Prop := SectionPattern.lookahead t = Some t.

(** The words of a text, separated by single blanks. *)
Definition single_spaced (text : string) : string :=
  PyStr.join " " (PyStr.split_ws text).

(** The four fixed sections of a list of sentences: section [i] holds
    the first sentences of the [i]-th run of [max(1, len // 4)]
    sentences. *)
Definition quarter_sections (sents : list string) (max_sentences_per_section : Z)
    : list (string * string) :=
  let chunk_size := Nat.max 1 (length sents / 4) in
  imap (fun i sec =>
          (sec, PyStr.join " "
                  (PyText.take_z max_sentences_per_section
                     (take chunk_size (drop (i * chunk_size) sents)))))
    TextUtils.auto_sections.

(** The section collaborator of the summarizer is
    [get_section_wise_summary], called on the cleaning record with its
    default of two sentences for a section. *)
Definition sections_by_text_utils `{Externals} `{TextCollaborators} : Prop :=
  forall path st c,
    PyText.endswith ".json" path = true ->
    outputs st !! path = Some (JsonFile (JCleaning c)) ->
    TextUtils.get_section_wise_summary path 2 st
    = (Ok (section_wise_summary (cleaned_text c)), st).

(** ** Concrete word tools and documents, for evaluating the text utilities *)

Module DemoText.

(** Words are the runs of non-blank characters, four stop words, no
    stemming. *)
Definition tools : TextCollaborators := {|
  json_dumps := fun _ => "{}";
  word_tokenize := PyStr.split_ws;
  is_stop_word := fun w => bool_decide (w ∈ ["the"; "a"; "and"; "of"]%list);
  stem := fun w => w
|}.

(** The collaborators of [Demo.working], with the section summaries of
    this model. *)
Definition sectioned : Externals := {|
  TORCH_AVAILABLE := @TORCH_AVAILABLE Demo.working;
  py_hash := @py_hash Demo.working;
  tfidf_cosine_similarity := @tfidf_cosine_similarity Demo.working;
  tfidf_row_sums := @tfidf_row_sums Demo.working;
  lsa_row_norms := @lsa_row_norms Demo.working;
  pipeline_load := @pipeline_load Demo.working;
  pipeline_call := @pipeline_call Demo.working;
  tokenizer_load := @tokenizer_load Demo.working;
  model_load := @model_load Demo.working;
  model_generate := @model_generate Demo.working;
  split_into_sentences := @split_into_sentences Demo.working;
  section_wise_summary := fun text =>
    match PyStr.strip text with
    | EmptyString => [("Full Text", "No content available")]%list
    | _ => @TextUtils.sections_of_text Demo.working text 2
    end
|}.

(** A text without heading, in five sentences, and a document cleaned
    into it. *)
Definition notes_text : string :=
  "cats sleep. dogs bark. birds sing. fish swim. ants work.".

Definition notes_service : service :=
  Demo.service_with
    [("outputs/notes_cleaning_metadata.json",
      JsonFile (JCleaning (Demo.cleaning notes_text
                             (stripped_nonempty (PyStr.split "." notes_text)))))]%list.

(** A text with headings: every line but the last is taken for one. *)
Definition report_text : string :=
  "Introduction" +:+ PyText.nl +:+ "Cats sleep all day. Dogs bark." +:+ PyText.nl
    +:+ "Results" +:+ PyText.nl +:+ "none".

End DemoText.

(** ** The cleaner: [app/services/cleaner.py]

    The cleaner reads the metadata file of the extraction stage and
    writes the cleaned text and the cleaning record the summarizer
    reads. Neither the cleaner nor the summarizer writes an extraction
    record: these are kept apart from [outputs], by document. *)

Class ExtractionStage := {
  (** the ["text"] of the record [<root>_extraction_metadata.json], where
      [root] is the file name of the document without its extension, when
      the extractor has written it *)
  extracted_text : string -> option string
}.

Module Cleaner.

(** [\w] on code points below 256: the ASCII letters and digits, the
    underscore, and the letters and number signs of Latin-1. *)
Definition is_word_char (c : ascii) : bool :=
  let n := nat_of_ascii c in
  (((48 <=? n) && (n <=? 57)) || ((65 <=? n) && (n <=? 90)) || (n =? 95)
   || ((97 <=? n) && (n <=? 122))
   || (n =? 170) || (n =? 178) || (n =? 179) || (n =? 181) || (n =? 185) || (n =? 186)
   || ((188 <=? n) && (n <=? 190))
   || ((192 <=? n) && (n <=? 214)) || ((216 <=? n) && (n <=? 246))
   || ((248 <=? n) && (n <=? 255)))%nat.

(** One of [.,!?;:]. *)
Definition is_basic_punctuation (c : ascii) : bool :=
  existsb (Ascii.eqb c) ["."; ","; "!"; "?"; ";"; ":"]%char.

(** The class [[^\w\s.,!?;:]]. *)
Definition special (c : ascii) : bool :=
  negb (is_word_char c || Re.space c || is_basic_punctuation c).

Section WithCollaborators.
Context `{Externals} `{TextCollaborators} `{ExtractionStage}.

(** [_normalize_whitespace]. *)
Definition _normalize_whitespace (text : string) : string :=
  let text := re_sub [Re.plus Re.space]%list " " text in
  let text := PyStr.strip text in
  text.

(** [_remove_special_characters]. *)
Definition _remove_special_characters (text : string) : string :=
  let text := Re.sub_empty [Re.once special]%list text in
  text.

Definition extraction_metadata (filename : string) : string :=
  Path.of_stage filename "_extraction_metadata.json".

(** [os.path.exists] on the path of an extraction record. *)
Definition extraction_exists (filename : string) : M bool :=
  let* s := get in
  ret (bool_decide (is_Some (outputs s !! extraction_metadata filename))
       || bool_decide (is_Some (extracted_text (Path.splitext_root filename)))).

(** [json.load(f)["text"]] on that path. A file of [outputs] there has
    replaced the extraction record: a text file is no JSON, and the
    records of the cleaning and summary stages have no ["text"]. *)
Definition read_extracted_text (filename : string) : M string :=
  let* s := get in
  match outputs s !! extraction_metadata filename with
  | Some (TextFile _) => raise JSONDecodeError
  | Some (JsonFile _) => raise KeyError
  | None =>
      match extracted_text (Path.splitext_root filename) with
      | Some text => ret text
      | None => raise FileNotFoundError
      end
  end.

Definition clean_text (filename : string)
    (remove_stopwords normalize_whitespace remove_special_chars : bool)
    (min_sentence_length : Z) : M cleaning_data :=
  let* present := extraction_exists filename in
  if negb present then raise FileNotFoundError else
  let* original_text := read_extracted_text filename in
  let original_length := String.length original_text in
  let cleaned_text := original_text in
  let cleaned_text :=
    if normalize_whitespace then _normalize_whitespace cleaned_text else cleaned_text in
  let cleaned_text :=
    if remove_special_chars then _remove_special_characters cleaned_text else cleaned_text in
  let sentences := split_into_sentences cleaned_text in
  let sentences :=
    filter (fun s => (min_sentence_length <= Z.of_nat (String.length (PyStr.strip s)))%Z)
      sentences in
  let sentences :=
    if remove_stopwords then map TextUtils.remove_stopwords sentences else sentences in
  let cleaned_text := PyStr.join " " sentences in
  let word_count := length (PyStr.split_ws cleaned_text) in
  let cleaned_length := String.length cleaned_text in
  let output_path := Path.of_stage filename "_cleaned.txt" in
  do* write_file output_path (TextFile cleaned_text) in
  let metadata :=
    CleaningData cleaned_text sentences (Z.of_nat original_length)
      (Z.of_nat cleaned_length) (Z.of_nat word_count) (Z.of_nat (length sentences))
      output_path
      (remove_stopwords, normalize_whitespace, remove_special_chars, min_sentence_length) in
  let metadata_path := Path.cleaning_metadata filename in
  do* write_file metadata_path (JsonFile (JCleaning metadata)) in
  ret metadata.

Definition get_cleaned_text (filename : string) : M json_record :=
  let metadata_path := Path.cleaning_metadata filename in
  let* present := path_exists metadata_path in
  if negb present then raise FileNotFoundError else
  read_json metadata_path.

(** The result of [preview_cleaning]. *)
Record preview := Preview {
  original_sample : string;
  cleaned_sample : string;
  preview_length : nat
}.

Definition preview_cleaning (filename : string) (sample_size : Z) : M preview :=
  let* present := extraction_exists filename in
  if negb present then raise FileNotFoundError else
  let* original_text := read_extracted_text filename in
  let original_sample := PyText.slice original_text 0 (Some sample_size) in
  let cleaned_sample := _normalize_whitespace original_sample in
  let cleaned_sample := _remove_special_characters cleaned_sample in
  ret (Preview original_sample cleaned_sample (String.length cleaned_sample)).

End WithCollaborators.
End Cleaner.

(** ** The summarize router: [app/routers/summarize.py]

    A handler answers with a JSON response of status 200 or raises an
    [HTTPException]. The texts of the message and of the detail are kept
    as their parts: the detail of a failure is a fixed text followed by
    [str(e)], here the exception itself. The summarizer and the cleaner
    of the module serve every request: the state of the service passes
    from one request to the next. *)

Inductive detail :=
  | Failed (what : string) (e : exn)       (* f"{what}: {str(e)}" *)
  | NotFound (summary_type : string).      (* f"{summary_type.title()} summary not found" *)

Inductive message :=
  | Generated (text : string)              (* a fixed text *)
  | Retrieved (summary_type : string).     (* f"{summary_type.title()} summary retrieved successfully" *)

(** The content of a response holds the message, the file name and the
    entries of the result; the parameters echoed after them are left
    out. *)
Inductive reply (A : Type) :=
  | JSONResponse (status_code : Z) (m : message) (filename : string) (result : A)
  | HTTPException (status_code : Z) (d : detail).
Arguments JSONResponse {A} status_code m filename result.
Arguments HTTPException {A} status_code d.

Definition status {A} (r : reply A) : Z :=
  match r with
  | JSONResponse status_code _ _ _ => status_code
  | HTTPException status_code _ => status_code
  end.

Module Router.
Section WithCollaborators.
Context `{Externals} `{TextCollaborators} `{ExtractionStage}.

(** [try: result = await op  except FileNotFoundError: await
    cleaner.clean_text(filename); result = await op]. What [op] wrote
    before it raised stays written. *)
Definition with_cleaning {A} (filename : string) (op : M A) : M A :=
  fun s =>
    match op s with
    | (Raise FileNotFoundError, s1) =>
        (do* Cleaner.clean_text filename true true false 10 in op) s1
    | r => r
    end.

(** The outer [try] of the four summarize handlers. *)
Definition summarize_handler {A} (generated what filename : string) (op : M A)
    : service -> reply A * service :=
  fun s =>
    match with_cleaning filename op s with
    | (Ok result, s') => (JSONResponse 200 (Generated generated) filename result, s')
    | (Raise e, s') => (HTTPException 500 (Failed what e), s')
    end.

Definition extractive_summary (filename : string) (summary_ratio : Qc)
    (algorithm : string) (use_cache : bool)
    : service -> reply extractive_metadata * service :=
  summarize_handler "Extractive summary generated successfully"
    "Extractive summarization failed" filename
    (extractive_summary filename summary_ratio algorithm use_cache).

Definition abstractive_summary (filename : string) (max_length min_length : Z)
    (model : string) (use_pipeline : bool)
    : service -> reply abstractive_metadata * service :=
  summarize_handler "Abstractive summary generated successfully"
    "Abstractive summarization failed" filename
    (abstractive_summary filename max_length min_length model use_pipeline).

Definition hybrid_summary (filename : string) (extractive_ratio : Qc)
    (max_length min_length : Z) (use_pipeline : bool)
    : service -> reply hybrid_metadata * service :=
  summarize_handler "Hybrid summary generated successfully"
    "Hybrid summarization failed" filename
    (hybrid_summary filename extractive_ratio max_length min_length use_pipeline).

Definition formatted_hybrid_summary (filename : string) (extractive_ratio : Qc)
    (max_length min_length : Z) (use_pipeline : bool)
    : service -> reply (formatted_summary * string) * service :=
  summarize_handler "Formatted hybrid summary generated successfully"
    "Formatted hybrid summarization failed" filename
    (formatted_hybrid_summary filename extractive_ratio max_length min_length
       use_pipeline).

Definition get_summary (filename summary_type : string)
    : service -> reply json_record * service :=
  fun s =>
    match get_summary filename summary_type s with
    | (Ok result, s') => (JSONResponse 200 (Retrieved summary_type) filename result, s')
    | (Raise FileNotFoundError, s') => (HTTPException 404 (NotFound summary_type), s')
    | (Raise e, s') => (HTTPException 500 (Failed "Failed to retrieve summary" e), s')
    end.

End WithCollaborators.
End Router.

(** The reply [r] of a summarize handler renders the outcome [o] of an
    operation: status 200 with its result, or status 500 with the
    exception it raised, and the state it left. *)
Definition answers {A} (filename : string) (r : reply A * service)
    (o : outcome A * service) : Prop :=
  snd r = snd o
  /\ match fst o with
     | Ok result => exists m, fst r = JSONResponse 200 m filename result
     | Raise e => exists what, fst r = HTTPException 500 (Failed what e)
     end.

(** A document extracted and not yet cleaned. *)
Module DemoStage.

Definition raw_text : string :=
  "Cats   sleep all day long." +:+ PyText.nl +:+ "The cat and the dog. Ok.".

Definition stage : ExtractionStage := {|
  extracted_text := fun root => if String.eqb root "doc" then Some raw_text else None
|}.

(** A memo of two short sentences, extracted and not yet cleaned. *)
Definition memo_stage : ExtractionStage := {|
  extracted_text := fun root => if String.eqb root "memo" then Some "Ok. Fine." else None
|}.

Definition empty_service : service := Demo.service_with []%list.

End DemoStage.

(** ** Binary64: the floats of Python and numpy

    A Python [float] and a numpy [float64] are IEEE 754 double precision
    numbers: 53 bits of precision, exponents up to 1024, every operation
    rounded to the nearest representable number, ties to even. The
    operations are those of [SpecFloat] at that format. *)

Module Float64.

Definition prec : Z := 53.
Definition emax : Z := 1024.

Definition float : Type := spec_float.

Definition add : float -> float -> float := SFadd prec emax.
Definition sub : float -> float -> float := SFsub prec emax.
Definition mul : float -> float -> float := SFmul prec emax.
Definition div : float -> float -> float := SFdiv prec emax.
Definition abs : float -> float := SFabs.
Definition leb : float -> float -> bool := SFleb.     (* [<=], false on NaN *)
Definition eqb : float -> float -> bool := SFeqb.     (* [==], false on NaN *)

Definition zero : float := S754_zero false.

(** [float(z)] of an integer: the nearest float. The length of a list
    and the dimension of an array are below [2^63], far from the
    overflow of the conversion. *)
Definition of_Z (z : Z) : float := binary_normalize prec emax z 0 false.
Definition of_nat (n : nat) : float := of_Z (Z.of_nat n).

Definition one : float := of_Z 1.

(** The literal [num/den] of the source text, for integers below [2^53]:
    the float nearest to the quotient. *)
Definition decimal (num den : Z) : float := div (of_Z num) (of_Z den).

(** [np.isfinite]. *)
Definition is_finite (x : float) : bool :=
  match x with
  | S754_zero _ | S754_finite _ _ _ => true
  | S754_infinity _ | S754_nan => false
  end.

(** The rational number a finite float stands for, [m * 2^e] with its
    sign; [0] for the others. *)
Definition to_Qc (x : float) : Qc :=
  match x with
  | S754_finite s m e =>
      Q2Qc ((if s then inject_Z (Z.neg m) else inject_Z (Z.pos m)) * Qpower 2 e)
  | _ => 0
  end.

(** [int(x)]: the value truncated toward zero; [OverflowError] on an
    infinity and [ValueError] on a NaN. *)
Definition int (x : float) : outcome Z :=
  match x with
  | S754_zero _ => Ok 0%Z
  | S754_finite _ _ _ => Ok (py_int (to_Qc x))
  | S754_infinity _ => Raise OverflowError
  | S754_nan => Raise ValueError
  end.

(** An integer as it stands, with no rounding. *)
Definition unrounded (z : Z) : float :=
  match z with
  | Z0 => S754_zero false
  | Zpos m => S754_finite false m 0
  | Zneg m => S754_finite true m 0
  end.

(** [m / n] of two Python integers with [m <= n] and [0 < n]: the float
    nearest to the quotient, whatever the size of the integers. *)
Definition true_divide (m n : nat) : float :=
  div (unrounded (Z.of_nat m)) (unrounded (Z.of_nat n)).

(** *** Line 72 of [extractive_summary] *)

(** [max(1, int(original_sentences * summary_ratio))]: the integer is
    converted to a float, the product is rounded, [int] truncates it. *)
Definition num_sentences (original_sentences : nat) (summary_ratio : float) : outcome Z :=
  match int (mul (of_nat original_sentences) summary_ratio) with
  | Ok i => Ok (Z.max 1 i)
  | Raise e => Raise e
  end.

Section Summarizer.
Context `{Externals}.

(** [extractive_summary] with the ratio a float: the count of line 72 and
    the quotient of line 85 are taken in binary64, and the record holds
    the values of the two floats. The rankers are those of the exact
    reading: which sentences they prefer may turn on the rounding of their
    scores, how many sentences they hand back does not. *)
Definition extractive_summary (filename : string) (summary_ratio : float)
    (algorithm : string) (use_cache : bool) : M extractive_metadata :=
  let cleaning_metadata_path := Path.cleaning_metadata filename in
  let* present := path_exists cleaning_metadata_path in
  if negb present then raise FileNotFoundError else
  let* cleaning := read_cleaning cleaning_metadata_path in
  let sents := sentences cleaning in
  let original_sentences := length sents in
  if (original_sentences =? 0)%nat then raise ValueError else
  let* num_sentences := lift (num_sentences original_sentences summary_ratio) in
  let num_sentences := Z.to_nat num_sentences in
  let* summary_sentences :=
    if String.eqb algorithm "textrank"
    then _optimized_textrank_summarize sents num_sentences use_cache
    else if String.eqb algorithm "tfidf"
    then _optimized_tfidf_summarize sents num_sentences
    else if String.eqb algorithm "lsa"
    then _optimized_lsa_summarize sents num_sentences
    else raise ValueError in
  let summary_text := PyStr.join " " summary_sentences in
  let compression_ratio := true_divide (length summary_sentences) original_sentences in
  let output_path := Path.of_stage filename "_extractive_summary.txt" in
  do* write_file output_path (TextFile summary_text) in
  let metadata :=
    ExtractiveMetadata summary_text summary_sentences original_sentences
      (to_Qc compression_ratio) algorithm (to_Qc summary_ratio) output_path "optimized" in
  do* write_file (Path.of_stage filename "_extractive_summary_metadata.json")
        (JsonFile (JExtractive metadata)) in
  ret metadata.

End Summarizer.

(** *** The graph ranker: [_pagerank] *)

Definition matrix : Type := list (list float).

Definition damping_default : float := decimal 85 100.     (* 0.85 *)
Definition atol : float := decimal 1 1000000.             (* 1e-6 *)
Definition rtol : float := decimal 1 100000.              (* 1e-05 *)

(** One component of [np.isclose(a, b, rtol, atol)]: for two finite
    numbers [abs(a - b) <= atol + rtol * abs(b)], each operation rounded;
    otherwise [a == b]. *)
Definition isclose (a b : float) : bool :=
  if is_finite a && is_finite b
  then leb (abs (sub a b)) (add atol (mul rtol (abs b)))
  else eqb a b.

Definition allclose (a b : list float) : bool :=
  forallb (fun p => isclose (fst p) (snd p)) (zip a b).

(** [similarity_matrix.T.dot(scores)] with the sum of column [j]
    accumulated from its first row to its last. *)
Definition T_dot (M : matrix) (scores : list float) : list float :=
  map (fun j => fold_left add (zip_with (fun row s => mul (nth j row zero) s) M scores) zero)
      (seq 0 (length M)).

(** The local variables of [_pagerank] when its loop is left. *)
Record pagerank_state := PagerankState {
  pr_scores : list float;          (* [scores], the value returned *)
  pr_last : option (list float);   (* [new_scores] of the last iteration run *)
  pr_iterations : nat              (* iterations run *)
}.

Section Ranker.
(** numpy hands [dot] to the BLAS library in use, which fixes the order
    of the additions of a sum of products and whether a product is
    rounded before it is added. The ranker is read for any such [dot];
    [T_dot] is the one that adds in the order of the rows. *)
Variable dot : matrix -> list float -> list float.

(** [(1 - damping) / n + damping * similarity_matrix.T.dot(scores)]. *)
Definition new_scores (M : matrix) (damping : float) (scores : list float) : list float :=
  let n := of_nat (length M) in
  map (fun x => add (div (sub one damping) n) (mul damping x)) (dot M scores).

(** [for _ in range(max_iter)]: on [break] the update just computed is
    dropped. *)
Fixpoint pagerank_loop (M : matrix) (damping : float) (iters : nat)
    (st : pagerank_state) : pagerank_state :=
  match iters with
  | O => st
  | S k =>
      let nw := new_scores M damping (pr_scores st) in
      if allclose (pr_scores st) nw
      then PagerankState (pr_scores st) (Some nw) (S (pr_iterations st))
      else pagerank_loop M damping k
             (PagerankState nw (Some nw) (S (pr_iterations st)))
  end.

(** [np.ones(n) / n]. *)
Definition uniform (n : nat) : list float := replicate n (div one (of_nat n)).

Definition pagerank_run (M : matrix) (damping : float) (max_iter : nat) : pagerank_state :=
  pagerank_loop M damping max_iter (PagerankState (uniform (length M)) None 0).

(** [_pagerank(similarity_matrix, damping, max_iter)]; with an empty
    matrix the first iteration divides a Python float by the integer
    [0]. *)
Definition _pagerank (M : matrix) (damping : float) (max_iter : nat)
    : outcome (list float) :=
  match length M, max_iter with
  | O, S _ => Raise ZeroDivisionError
  | _, _ => Ok (pr_scores (pagerank_run M damping max_iter))
  end.

(** The [k]-th iterate of the update from the uniform vector. *)
Definition iterate (M : matrix) (d : float) (k : nat) : list float :=
  Nat.iter k (new_scores M d) (uniform (length M)).

(** The run stopped on the closeness test in iteration [j + 1]. *)
Definition converged_at (M : matrix) (d : float) (j : nat) (st : pagerank_state) : Prop :=
  (forall i, (i < j)%nat -> allclose (iterate M d i) (iterate M d (S i)) = false)
  /\ allclose (iterate M d j) (iterate M d (S j)) = true
  /\ pr_scores st = iterate M d j
  /\ pr_last st = Some (iterate M d (S j))
  /\ pr_iterations st = S j.

(** The run used up its [max_iter] iterations. *)
Definition exhausted (M : matrix) (d : float) (max_iter : nat) (st : pagerank_state) : Prop :=
  (forall i, (i < max_iter)%nat -> allclose (iterate M d i) (iterate M d (S i)) = false)
  /\ pr_scores st = iterate M d max_iter
  /\ (pr_last st = match max_iter with O => None | S _ => Some (iterate M d max_iter) end)
  /\ pr_iterations st = max_iter.

End Ranker.

(** An [n]-by-[n] array, and one whose rows sum to one: as numbers, and
    when the entries are added in binary64 from the first to the last. *)
Definition square (M : matrix) : Prop :=
  Forall (fun row => length row = length M) M.

Definition sum (l : list float) : float := fold_left add l zero.

Definition row_stochastic (M : matrix) : Prop :=
  Forall (fun row => forallb is_finite row = true
                     /\ sumQc (map to_Qc row) = 1
                     /\ sum row = one) M.

(** The matrices [[1 - 2^-17]], [[0.5, 0.5], [1, 0]] and
    [[1164862471388259 * 2^-59]] (about [0.00202]). *)
Definition near_one : matrix := [ [binary_normalize prec emax 131071 (-17) false] ]%list.

Definition half_half : matrix :=
  [ [decimal 1 2; decimal 1 2]; [one; zero] ]%list.

Definition small_entry : matrix :=
  [ [binary_normalize prec emax 1164862471388259 (-59) false] ]%list.

End Float64.

Local Close Scope Qc_scope.
Local Close Scope Z_scope.

(** * Properties

    ** Rational arithmetic and the power iteration *)

Local Open Scope Qc_scope.

(** ** Sums of rationals *)



Lemma Qc_of_nat_nonzero (n : nat) : (0 < n)%nat -> Qc_of_nat n <> 0.
Proof.
  intros Hn E. unfold Qc_of_nat, Qc_of_Z in E.
  apply Q2Qc_eq_iff in E. unfold Qeq in E. simpl in E. lia.
Qed.



Lemma sumQc_map_scale {A} (f : A -> Qc) (c : Qc) (l : list A) :
  sumQc (map (fun x => f x * c) l) = sumQc (map f l) * c.
Proof. induction l as [|x l IH]; simpl; [ring | rewrite IH; ring]. Qed.




(** ** Shape of the matrix and of the iterates *)

Lemma T_dot_length (M : matrix) (s : list Qc) : length (T_dot M s) = length M.
Proof. unfold T_dot. rewrite length_map, length_seq. reflexivity. Qed.

Lemma new_scores_length (M : matrix) (d : Qc) (s : list Qc) :
  length (new_scores M d s) = length M.
Proof. unfold new_scores. rewrite length_map. apply T_dot_length. Qed.

Lemma uniform_length (n : nat) : length (uniform n) = n.
Proof. apply length_replicate. Qed.






Lemma iterate_length (M : matrix) (d : Qc) (k : nat) : length (iterate M d k) = length M.
Proof.
  destruct k as [|k]; unfold iterate; simpl.
  - apply uniform_length.
  - apply new_scores_length.
Qed.


(** ** What the loop of [_pagerank] leaves behind *)

Lemma pagerank_loop_spec (M : matrix) (d : Qc) (k a : nat) (last : option (list Qc)) :
  (forall i, (i < a)%nat -> allclose (iterate M d i) (iterate M d (S i)) = false) ->
  last = match a with O => None | S _ => Some (iterate M d a) end ->
  let st := pagerank_loop M d k (PagerankState (iterate M d a) last a) in
  (exists j, (a <= j < a + k)%nat /\ converged_at M d j st) \/ exhausted M d (a + k) st.
Proof.
  revert a last. induction k as [|k IH]; intros a last Hbefore Hlast; simpl.
  - right. rewrite Nat.add_0_r. repeat split; auto.
  - change (new_scores M d (iterate M d a)) with (iterate M d (S a)).
    destruct (allclose (iterate M d a) (iterate M d (S a))) eqn:Hclose.
    + left. exists a. split; [lia|]. repeat split; auto.
    + destruct (IH (S a) (Some (iterate M d (S a)))) as [[j [Hj Hc]]|He].
      * intros i Hi. destruct (decide (i = a)) as [->|Hne]; [assumption|].
        apply Hbefore. lia.
      * reflexivity.
      * left. exists j. split; [lia | exact Hc].
      * right. replace (a + S k)%nat with (S a + k)%nat by lia. exact He.
Qed.

Lemma pagerank_run_spec (M : matrix) (d : Qc) (max_iter : nat) :
  let st := pagerank_run M d max_iter in
  (exists j, (j < max_iter)%nat /\ converged_at M d j st) \/ exhausted M d max_iter st.
Proof.
  destruct (pagerank_loop_spec M d max_iter 0 None) as [[j [Hj Hc]]|He].
  - intros i Hi. lia.
  - reflexivity.
  - left. exists j. split; [lia | exact Hc].
  - right. exact He.
Qed.

Lemma isclose_spec (a b : Qc) :
  isclose a b = true <-> Qcabs (a - b) <= atol + rtol * Qcabs b.
Proof. unfold isclose, Qc_leb. rewrite Qle_bool_iff. reflexivity. Qed.

Lemma allclose_spec (a b : list Qc) :
  allclose a b = true <->
  forall i x y, a !! i = Some x -> b !! i = Some y ->
                Qcabs (x - y) <= atol + rtol * Qcabs y.
Proof.
  unfold allclose. rewrite forallb_forall. split.
  - intros Hall i x y Hx Hy. apply isclose_spec.
    apply (Hall (x, y)). apply list_elem_of_In.
    apply list_elem_of_lookup. exists i.
    apply lookup_zip_with_Some. exists x, y. auto.
  - intros Hall [x y] Hin. apply isclose_spec. simpl.
    apply list_elem_of_In, list_elem_of_lookup in Hin. destruct Hin as [i Hi].
    apply lookup_zip_with_Some in Hi. destruct Hi as (x' & y' & Heq & Hx & Hy).
    inversion Heq; subst. eapply Hall; eauto.
Qed.

(** ** The graph ranker *)


Lemma new_scores_lookup (M : matrix) (d : Qc) (s : list Qc) (j : nat) :
  (j < length M)%nat ->
  new_scores M d s !! j
  = Some ((1 - d) / Qc_of_nat (length M)
          + d * sumQc (zip_with (fun row x => nth j row 0 * x) M s)).
Proof.
  intros Hj. unfold new_scores, T_dot.
  rewrite !list_lookup_fmap, lookup_seq_lt by assumption. reflexivity.
Qed.

Lemma pagerank_ok (M : matrix) (d : Qc) (max_iter : nat) :
  (0 < length M)%nat ->
  _pagerank M d max_iter = Ok (pr_scores (pagerank_run M d max_iter)).
Proof. intros Hn. unfold _pagerank. destruct (length M); [lia | reflexivity]. Qed.




(** ** The stable sort and the selection *)

Section SortFacts.
Context {A : Type}.
Implicit Types (x : Qc * A) (l : list (Qc * A)).

Lemma insert_desc_length x l : length (insert_desc x l) = S (length l).
Proof.
  induction l as [|y l IH]; simpl; [reflexivity|].
  destruct (Qc_ltb (fst x) (fst y)); simpl; [rewrite IH|]; reflexivity.
Qed.

Lemma sort_desc_length l : length (sort_desc l) = length l.
Proof.
  induction l as [|x l IH]; simpl; [reflexivity|].
  rewrite insert_desc_length, IH. reflexivity.
Qed.

Lemma insert_desc_perm x l : Permutation (x :: l) (insert_desc x l).
Proof.
  induction l as [|y l IH]; simpl; [reflexivity|].
  destruct (Qc_ltb (fst x) (fst y)); [|reflexivity].
  rewrite perm_swap. apply perm_skip. exact IH.
Qed.

Lemma sort_desc_perm l : Permutation l (sort_desc l).
Proof.
  induction l as [|x l IH]; simpl; [reflexivity|].
  rewrite <- insert_desc_perm. apply perm_skip. exact IH.
Qed.

(** Inserting leaves the elements of any one score in their order. *)
Lemma insert_desc_filter (v : Qc) x l :
  filter (fun p => fst p = v) (insert_desc x l)
  = filter (fun p => fst p = v) (x :: l).
Proof.
  induction l as [|y l IH]; simpl; [reflexivity|].
  destruct (Qc_ltb (fst x) (fst y)) eqn:Hlt; [|reflexivity].
  rewrite (filter_cons _ y (insert_desc x l)), IH.
  rewrite !(filter_cons _ x), !(filter_cons _ y).
  destruct (decide (fst y = v)) as [Hy|Hy]; [|reflexivity].
  destruct (decide (fst x = v)) as [Hx|Hx]; [|reflexivity].
  exfalso. unfold Qc_ltb in Hlt. rewrite Hx, Hy in Hlt.
  apply negb_true_iff in Hlt.
  assert (Qle_bool v v = true) by (apply Qle_bool_iff; apply Qle_refl).
  congruence.
Qed.

Lemma sort_desc_stable (v : Qc) l :
  filter (fun p => fst p = v) (sort_desc l) = filter (fun p => fst p = v) l.
Proof.
  induction l as [|x l IH]; simpl; [reflexivity|].
  rewrite insert_desc_filter, !(filter_cons _ x), IH. reflexivity.
Qed.

Lemma insert_desc_In x y l : In y (insert_desc x l) <-> y = x \/ In y l.
Proof.
  split; intros Hy.
  - apply (Permutation_in _ (Permutation_sym (insert_desc_perm x l))) in Hy.
    destruct Hy; auto.
  - apply (Permutation_in _ (insert_desc_perm x l)). destruct Hy; [left|right]; auto.
Qed.

Lemma descending_cons x l :
  descending (x :: l) <-> (forall y, In y l -> fst y <= fst x) /\ descending l.
Proof.
  split.
  - intros Hd. split.
    + intros y Hy. apply list_elem_of_In, list_elem_of_lookup in Hy.
      destruct Hy as [q Hq]. apply (Hd 0%nat (S q) x y); [lia| |]; auto.
    + intros p q a b Hpq Ha Hb. apply (Hd (S p) (S q) a b); [lia| |]; auto.
  - intros [Hx Hd] p q a b Hpq Ha Hb.
    destruct p as [|p], q as [|q]; try lia; simpl in *.
    + inversion Ha; subst. apply Hx.
      apply list_elem_of_In, list_elem_of_lookup. eauto.
    + apply (Hd p q a b); [lia| |]; auto.
Qed.

Lemma insert_desc_descending x l : descending l -> descending (insert_desc x l).
Proof.
  induction l as [|y l IH]; intros Hd; simpl.
  - apply descending_cons. split; [intros ? []|exact Hd].
  - destruct (Qc_ltb (fst x) (fst y)) eqn:Hlt.
    + apply descending_cons in Hd. destruct Hd as [Hy Hd].
      apply descending_cons. split; [|auto].
      intros z Hz. apply insert_desc_In in Hz. destruct Hz as [->|Hz]; [|auto].
      unfold Qc_ltb in Hlt. apply negb_true_iff in Hlt.
      destruct (Qclt_le_dec (fst x) (fst y)) as [Hxy|Hxy].
      * apply Qclt_le_weak. exact Hxy.
      * apply Qle_bool_iff in Hxy. congruence.
    + apply descending_cons. split; [|exact Hd].
      intros z [->|Hz].
      * unfold Qc_ltb in Hlt. apply negb_false_iff, Qle_bool_iff in Hlt. exact Hlt.
      * apply descending_cons in Hd. destruct Hd as [Hy _].
        apply Qcle_trans with (fst y); [auto|].
        unfold Qc_ltb in Hlt. apply negb_false_iff, Qle_bool_iff in Hlt. exact Hlt.
Qed.

Lemma sort_desc_descending l : descending (sort_desc l).
Proof.
  induction l as [|x l IH]; simpl.
  - intros p q a b _ Ha. rewrite lookup_nil in Ha. discriminate.
  - apply insert_desc_descending. exact IH.
Qed.

(** The sort looks at the scores only. *)
Lemma insert_desc_retag {B} (f : A -> B) x l :
  insert_desc (retag f x) (map (retag f) l) = map (retag f) (insert_desc x l).
Proof.
  induction l as [|y l IH]; simpl; [reflexivity|].
  destruct (Qc_ltb (fst x) (fst y)); simpl; [rewrite IH|]; reflexivity.
Qed.

Lemma sort_desc_retag {B} (f : A -> B) l :
  sort_desc (map (retag f) l) = map (retag f) (sort_desc l).
Proof.
  induction l as [|x l IH]; simpl; [reflexivity|].
  rewrite IH. apply insert_desc_retag.
Qed.

Lemma filter_split (P : Qc * A -> Prop) `{forall p, Decision (P p)} l a x b :
  filter P l = a ++ x :: b ->
  exists l1 l2, l = l1 ++ x :: l2 /\ filter P l1 = a /\ filter P l2 = b.
Proof.
  revert a. induction l as [|h l IH]; intros a Hf.
  - rewrite filter_nil in Hf. destruct a; discriminate.
  - rewrite filter_cons in Hf. destruct (decide (P h)) as [Hh|Hh].
    + destruct a as [|a0 a]; simpl in Hf; inversion Hf; subst.
      * exists [], l. repeat split; auto.
      * destruct (IH a) as (l1 & l2 & -> & Hl1 & Hl2); [assumption|].
        exists (a0 :: l1), l2. repeat split; auto.
        rewrite filter_cons, decide_True by assumption. rewrite Hl1. reflexivity.
    + destruct (IH a Hf) as (l1 & l2 & -> & Hl1 & Hl2).
      exists (h :: l1), l2. repeat split; auto.
      rewrite filter_cons, decide_False by assumption. exact Hl1.
Qed.

Lemma sentence_scores_zip (scores : list Qc) (sents : list A) :
  (length sents <= length scores)%nat ->
  sentence_scores scores sents = Ok (zip scores sents).
Proof.
  revert scores. induction sents as [|s sents IH]; intros scores Hlen.
  - destruct scores; reflexivity.
  - destruct scores as [|x scores]; simpl in *; [lia|].
    rewrite IH by lia. reflexivity.
Qed.

Lemma sentence_scores_short (scores : list Qc) (sents : list A) :
  (length scores < length sents)%nat ->
  sentence_scores scores sents = Raise IndexError.
Proof.
  revert scores. induction sents as [|s sents IH]; intros scores Hlen.
  - simpl in Hlen. lia.
  - destruct scores as [|x scores]; [reflexivity|]. simpl in Hlen.
    cbn [sentence_scores]. rewrite IH by lia. reflexivity.
Qed.

Lemma select_top_length (scores : list Qc) (sents : list A) (k : nat) :
  (length sents <= length scores)%nat ->
  exists out, select_top scores sents k = Ok out
              /\ length out = Nat.min k (length sents).
Proof.
  intros Hlen. unfold select_top. rewrite sentence_scores_zip by assumption.
  eexists. split; [reflexivity|].
  rewrite length_map, length_take, sort_desc_length, length_zip. lia.
Qed.

End SortFacts.

Lemma zip_tagged_retag {A} (scores : list Qc) (sents : list A) :
  map (retag snd) (zip scores (tagged sents)) = zip scores sents.
Proof.
  unfold tagged. generalize 0%nat as start. revert scores.
  induction sents as [|s sents IH]; intros scores start.
  - destruct scores; reflexivity.
  - destruct scores as [|x scores]; simpl; [reflexivity|].
    rewrite IH. reflexivity.
Qed.

Lemma select_top_ranked {A} (scores : list Qc) (sents : list A) (k : nat) :
  (length sents <= length scores)%nat ->
  select_top scores sents k
  = Ok (map (fun p => snd (snd p)) (take k (ranked_with_index scores sents))).
Proof.
  intros Hlen. unfold select_top, ranked_with_index.
  rewrite sentence_scores_zip by assumption.
  rewrite <- zip_tagged_retag, sort_desc_retag.
  rewrite <- fmap_take, <- list_fmap_compose. reflexivity.
Qed.

Lemma tagged_lookup {A} (sents : list A) i s :
  sents !! i = Some s -> tagged sents !! i = Some (i, s).
Proof.
  intros Hs. unfold tagged. apply lookup_zip_with_Some. exists i, s.
  split; [reflexivity|]. split; [|assumption].
  apply lookup_seq. split; [reflexivity|]. apply lookup_lt_Some in Hs. exact Hs.
Qed.

Lemma lookup_two_split {B} (l : list B) i j a b :
  (i < j)%nat -> l !! i = Some a -> l !! j = Some b ->
  exists l1 l2 l3, l = l1 ++ a :: l2 ++ b :: l3.
Proof.
  intros Hij Ha Hb.
  apply list_elem_of_split_length in Ha. destruct Ha as (l1 & r & -> & Hl1).
  rewrite lookup_app_r in Hb by lia.
  replace (j - length l1)%nat with (S (j - length l1 - 1)) in Hb by lia.
  simpl in Hb. apply list_elem_of_split_length in Hb.
  destruct Hb as (l2 & l3 & -> & _). eauto.
Qed.

Lemma ranked_ties_in_corpus_order {A} (scores : list Qc) (sents : list A)
    i j x si sj :
  (i < j)%nat ->
  scores !! i = Some x -> scores !! j = Some x ->
  sents !! i = Some si -> sents !! j = Some sj ->
  exists l1 l2 l3,
    ranked_with_index scores sents = l1 ++ (x, (i, si)) :: l2 ++ (x, (j, sj)) :: l3.
Proof.
  intros Hij Hxi Hxj Hsi Hsj.
  assert (Hi : zip scores (tagged sents) !! i = Some (x, (i, si))).
  { apply lookup_zip_with_Some. exists x, (i, si). auto using tagged_lookup. }
  assert (Hj : zip scores (tagged sents) !! j = Some (x, (j, sj))).
  { apply lookup_zip_with_Some. exists x, (j, sj). auto using tagged_lookup. }
  destruct (lookup_two_split _ i j _ _ Hij Hi Hj) as (a & b & c & Hsplit).
  pose proof (sort_desc_stable x (zip scores (tagged sents))) as Hst.
  fold (ranked_with_index scores sents) in Hst.
  rewrite Hsplit in Hst.
  rewrite filter_app, filter_cons_True, filter_app, filter_cons_True in Hst by reflexivity.
  apply filter_split in Hst. destruct Hst as (l1 & r & Hr & _ & Hfr).
  apply filter_split in Hfr. destruct Hfr as (l2 & l3 & -> & _ & _).
  eauto.
Qed.

(** ** Running [extractive_summary] *)

Section ExtractiveFacts.
Context `{Externals}.

Lemma path_exists_run (p : string) (s : service) :
  path_exists p s = (Ok (bool_decide (is_Some (outputs s !! p))), s).
Proof. reflexivity. Qed.

Lemma read_cleaning_run (p : string) (s : service) (c : cleaning_data) :
  outputs s !! p = Some (JsonFile (JCleaning c)) -> read_cleaning p s = (Ok c, s).
Proof. intros Hp. unfold read_cleaning, read_json, bind, get. simpl. rewrite Hp. reflexivity. Qed.

Lemma similarity_matrix_for_run (sents : list string) (use_cache : bool) (s : service) :
  similarity_matrix_for sents use_cache s
  = match (if use_cache then _similarity_cache s !! cache_key sents else None) with
    | Some m => (Ok m, s)
    | None =>
        match tfidf_cosine_similarity sents with
        | Ok c =>
            (Ok (normalise_rows epsilon c),
             if use_cache
             then set_cache (insert (cache_key sents) (normalise_rows epsilon c)) s
             else s)
        | Raise e => (Raise e, s)
        end
    end.
Proof.
  unfold similarity_matrix_for, _create_similarity_matrix_async, bind, get, lift, ret. simpl.
  destruct (if use_cache then _similarity_cache s !! cache_key sents else None); [reflexivity|].
  destruct (tfidf_cosine_similarity sents); [|reflexivity].
  destruct use_cache; reflexivity.
Qed.

Lemma pagerank_length (M : matrix) (d : Qc) (k : nat) (v : list Qc) :
  _pagerank M d k = Ok v -> length v = length M.
Proof.
  unfold _pagerank. intros Hv.
  assert (Hrun : length (pr_scores (pagerank_run M d k)) = length M).
  { destruct (pagerank_run_spec M d k) as [[j [_ Hc]]|He].
    - destruct Hc as (_ & _ & -> & _). apply iterate_length.
    - destruct He as (_ & -> & _). apply iterate_length. }
  destruct (length M) eqn:Hn, k; inversion Hv; subst; try exact Hrun.
Qed.

Lemma normalise_rows_length (eps : Qc) (c : matrix) :
  length (normalise_rows eps c) = length c.
Proof. apply length_map. Qed.

(** Every ranker hands back [min(num_sentences, n)] sentences. *)
Lemma rankers_select (s : service) (algorithm : string) (sents : list string)
    (use_cache : bool) (k : nat) :
  (0 < length sents)%nat ->
  ranker_ready s algorithm sents use_cache k ->
  exists out s',
    (if String.eqb algorithm "textrank"
     then _optimized_textrank_summarize sents k use_cache
     else if String.eqb algorithm "tfidf"
     then _optimized_tfidf_summarize sents k
     else if String.eqb algorithm "lsa"
     then _optimized_lsa_summarize sents k
     else raise ValueError) s = (Ok out, s')
    /\ length out = Nat.min k (length sents)
    /\ outputs s' = outputs s.
Proof.
  intros Hn [(-> & (C & HC & HlenC) & Hfit)|[(-> & sc & Hsc & Hlen)|(-> & sc & Hsc & Hlen)]];
    simpl.
  - unfold _optimized_textrank_summarize, bind.
    rewrite similarity_matrix_for_run, HC.
    assert (Hgo : forall M st, (length sents <= length M)%nat -> outputs st = outputs s ->
              exists out s',
                (let (o, s') := lift (_pagerank M damping_default max_iter_default) st in
                 match o with
                 | Ok a => lift (select_top a sents k) s'
                 | Raise e => (Raise e, s')
                 end) = (Ok out, s')
                /\ length out = Nat.min k (length sents) /\ outputs s' = outputs s).
    { intros M st HM Hst. unfold lift.
      rewrite pagerank_ok by lia.
      destruct (select_top_length (pr_scores (pagerank_run M damping_default max_iter_default))
                  sents k) as (out & Hout & Hlen).
      { rewrite (pagerank_length M damping_default max_iter_default);
          [exact HM | apply pagerank_ok; lia]. }
      rewrite Hout. eauto. }
    destruct use_cache.
    + destruct (_similarity_cache s !! cache_key sents) as [M|] eqn:Hc.
      * apply Hgo; [apply Hfit; auto | reflexivity].
      * apply Hgo; [rewrite normalise_rows_length; exact HlenC | reflexivity].
    + apply Hgo; [rewrite normalise_rows_length; exact HlenC | reflexivity].
  - unfold _optimized_tfidf_summarize, bind, lift. rewrite Hsc.
    destruct (select_top_length sc sents k Hlen) as (out & -> & Hout). eauto.
  - unfold _optimized_lsa_summarize, bind, lift. rewrite Hsc.
    destruct (select_top_length sc sents k Hlen) as (out & -> & Hout). eauto.
Qed.

(** A successful run of [extractive_summary], for any ratio. *)
Lemma extractive_summary_ok (s : service) (filename : string) (ratio : Qc)
    (algorithm : string) (use_cache : bool) (c : cleaning_data) :
  outputs s !! Path.cleaning_metadata filename = Some (JsonFile (JCleaning c)) ->
  let n := length (sentences c) in
  let k := Z.to_nat (num_sentences_for n ratio) in
  (0 < n)%nat ->
  ranker_ready s algorithm (sentences c) use_cache k ->
  exists md s',
    extractive_summary filename ratio algorithm use_cache s = (Ok md, s')
    /\ length (ex_summary_sentences md) = Nat.min k n
    /\ ex_summary_text md = PyStr.join " " (ex_summary_sentences md)
    /\ outputs s' = with_extractive filename md (outputs s).
Proof.
  intros Hc n k Hn Hready.
  unfold extractive_summary.
  unfold bind at 1. rewrite path_exists_run, Hc.
  rewrite bool_decide_true by eauto. cbn [negb].
  unfold bind at 1. rewrite (read_cleaning_run _ _ _ Hc).
  fold n. destruct (Nat.eqb_spec n 0) as [Hz|_]; [lia|].
  fold k. unfold bind at 1.
  destruct (rankers_select s algorithm (sentences c) use_cache k Hn Hready)
    as (out & s' & -> & Hlen & Hout).
  eexists _, _. split; [reflexivity|]. cbn.
  split; [exact Hlen|]. split; [reflexivity|].
  unfold with_extractive. cbn. rewrite Hout. reflexivity.
Qed.

End ExtractiveFacts.

Local Close Scope Qc_scope.

(** ** Strings *)

Lemma append_cons (x : ascii) (a b : string) : String x a +:+ b = String x (a +:+ b).
Proof. reflexivity. Qed.

Lemma append_nil_l (b : string) : "" +:+ b = b.
Proof. reflexivity. Qed.

Lemma append_assoc (a b c : string) : (a +:+ b) +:+ c = a +:+ (b +:+ c).
Proof.
  induction a as [|x a IH]; [reflexivity|].
  rewrite !append_cons, IH. reflexivity.
Qed.

Lemma append_nil_r (a : string) : a +:+ "" = a.
Proof.
  induction a as [|x a IH]; [reflexivity|].
  rewrite append_cons, IH. reflexivity.
Qed.

Lemma length_append (a b : string) :
  String.length (a +:+ b) = (String.length a + String.length b)%nat.
Proof.
  induction a as [|x a IH]; [reflexivity|].
  rewrite append_cons. simpl. rewrite IH. reflexivity.
Qed.

Lemma chars_append (a b : string) : chars (a +:+ b) = chars a ++ chars b.
Proof.
  induction a as [|x a IH]; [reflexivity|].
  rewrite append_cons. unfold chars in *. simpl. rewrite IH. reflexivity.
Qed.

Lemma append_tails (a b x y : string) :
  tails_differ x y -> a +:+ x <> b +:+ y.
Proof.
  intros [Hxy Hyx] E. apply (f_equal chars) in E. rewrite !chars_append in E.
  apply app_eq_inv in E. destruct E as [[k [_ Hk]]|[k [_ Hk]]].
  - apply Hxy. exists k. exact Hk.
  - apply Hyx. exists k. exact Hk.
Qed.

(** ** Paths *)

Lemma of_stage_tail (filename suffix : string) :
  exists pre, Path.of_stage filename suffix = pre +:+ suffix.
Proof.
  unfold Path.of_stage, Path.join.
  destruct (String.prefix "/" (Path.splitext_root filename +:+ suffix)).
  - eauto.
  - exists (Path.output_dir +:+ "/" +:+ Path.splitext_root filename).
    rewrite !append_assoc. reflexivity.
Qed.

Lemma of_stage_differ (f f' suffix suffix' : string) :
  tails_differ suffix suffix' -> Path.of_stage f suffix <> Path.of_stage f' suffix'.
Proof.
  intros Hd. destruct (of_stage_tail f suffix) as [a ->].
  destruct (of_stage_tail f' suffix') as [b ->]. apply append_tails. exact Hd.
Qed.

Ltac tails := split; (apply (bool_decide_unpack _); vm_compute; exact I).

Lemma cleaning_not_stage (f f' suffix : string) :
  tails_differ "_cleaning_metadata.json" suffix ->
  Path.cleaning_metadata f <> Path.of_stage f' suffix.
Proof. apply of_stage_differ. Qed.

(** ** Frame rules *)

Section Frames.
Context {A B : Type}.

Lemma writes_within_refl paths s : writes_within paths s s.
Proof. intros p _. reflexivity. Qed.

Lemma writes_within_trans paths s1 s2 s3 :
  writes_within paths s1 s2 -> writes_within paths s2 s3 -> writes_within paths s1 s3.
Proof. intros H12 H23 p Hp. rewrite H23, H12 by assumption. reflexivity. Qed.

Lemma touches_ret paths (a : A) : touches paths (ret a).
Proof. intros s. apply writes_within_refl. Qed.

Lemma touches_raise paths (e : exn) : touches paths (@raise A e).
Proof. intros s. apply writes_within_refl. Qed.

Lemma touches_lift paths (o : outcome A) : touches paths (lift o).
Proof. intros s. apply writes_within_refl. Qed.

Lemma touches_bind paths (m : M A) (k : A -> M B) :
  touches paths m -> (forall a, touches paths (k a)) -> touches paths (bind m k).
Proof.
  intros Hm Hk s. unfold bind. specialize (Hm s).
  destruct (m s) as [[a|e] s1]; simpl in *.
  - eapply writes_within_trans; [exact Hm | apply Hk].
  - exact Hm.
Qed.
End Frames.

Lemma touches_get paths : touches paths get.
Proof. intros s. apply writes_within_refl. Qed.

Lemma touches_path_exists paths p : touches paths (path_exists p).
Proof. intros s. apply writes_within_refl. Qed.

Lemma touches_read_json paths p : touches paths (read_json p).
Proof.
  intros s. unfold read_json, bind, get. simpl.
  destruct (outputs s !! p) as [[?|?]|]; apply writes_within_refl.
Qed.

Lemma touches_read_cleaning paths p : touches paths (read_cleaning p).
Proof.
  apply touches_bind; [apply touches_read_json|].
  intros []; first [apply touches_ret | apply touches_raise].
Qed.

Lemma touches_write paths p f : p ∈ paths -> touches paths (write_file p f).
Proof.
  intros Hp s q Hq. unfold write_file, modify. simpl.
  apply lookup_insert_ne. intros ->. contradiction.
Qed.

Lemma touches_modify paths (f : service -> service) :
  (forall s, outputs (f s) = outputs s) -> touches paths (modify f).
Proof. intros Hf s p _. unfold modify. simpl. rewrite Hf. reflexivity. Qed.

Lemma touches_if {A} paths (b : bool) (m1 m2 : M A) :
  touches paths m1 -> touches paths m2 -> touches paths (if b then m1 else m2).
Proof. destruct b; auto. Qed.

Lemma touches_mono {A} paths paths' (m : M A) :
  (forall p, p ∈ paths -> p ∈ paths') -> touches paths m -> touches paths' m.
Proof. intros Hsub Hm s p Hp. apply Hm. intros Hin. apply Hp, Hsub, Hin. Qed.

Create HintDb frames.
#[export] Hint Resolve touches_ret touches_raise touches_lift touches_get
  touches_path_exists touches_read_json touches_read_cleaning : frames.

Ltac in_list :=
  solve [repeat first [apply list_elem_of_here | apply list_elem_of_further]].

Ltac sub_list :=
  let p := fresh "p" in
  let Hin := fresh "Hin" in
  intros p Hin;
  repeat (apply elem_of_cons in Hin; destruct Hin as [->|Hin]);
  [in_list.. | apply elem_of_nil in Hin; contradiction].

Ltac frame_step :=
  first
    [ solve [auto with frames]
    | apply touches_modify; intros ?; reflexivity
    | apply touches_write; in_list
    | apply touches_bind; [|intros ?]
    | apply touches_if
    | match goal with |- touches _ (match ?x with _ => _ end) => destruct x end ].

Ltac frame := repeat frame_step.

Section OperationFrames.
Context `{Externals}.

Lemma touches_similarity_matrix_for paths sents use_cache :
  touches paths (similarity_matrix_for sents use_cache).
Proof. unfold similarity_matrix_for, _create_similarity_matrix_async. frame. Qed.

Lemma touches_extractive_summary filename ratio algorithm use_cache :
  touches [Path.of_stage filename "_extractive_summary.txt";
           Path.of_stage filename "_extractive_summary_metadata.json"]
    (extractive_summary filename ratio algorithm use_cache).
Proof.
  unfold extractive_summary, _optimized_textrank_summarize,
    _optimized_tfidf_summarize, _optimized_lsa_summarize.
  frame; apply touches_similarity_matrix_for.
Qed.

Lemma touches_pipeline_chunks paths max_length min_length chunks :
  touches paths (pipeline_chunks max_length min_length chunks).
Proof. induction chunks as [|c chunks IH]; simpl; frame; exact IH. Qed.

Lemma touches_generate_chunks paths max_length min_length chunks :
  touches paths (generate_chunks max_length min_length chunks).
Proof. induction chunks as [|c chunks IH]; simpl; frame; exact IH. Qed.

Lemma touches_abstractive_summary filename max_length min_length model use_pipeline :
  touches [Path.of_stage filename "_abstractive_summary.txt";
           Path.of_stage filename "_abstractive_summary_metadata.json"]
    (abstractive_summary filename max_length min_length model use_pipeline).
Proof.
  unfold abstractive_summary, _load_summarization_pipeline, _load_abstractive_model,
    _pipeline_summarize, _chunked_summarize.
  frame; first [apply touches_pipeline_chunks | apply touches_generate_chunks].
Qed.

End OperationFrames.

(** ** What the operations do to the cleaning artifact *)

Lemma bind_ok_inv {A B} (m : M A) (k : A -> M B) s b s' :
  bind m k s = (Ok b, s') ->
  exists a s1, m s = (Ok a, s1) /\ k a s1 = (Ok b, s').
Proof.
  unfold bind. destruct (m s) as [[a|e] s1]; intros E; [eauto | discriminate].
Qed.

Lemma bind_lookup_after {A B} paths (m : M A) (k : A -> M B) s p :
  (forall a, touches paths (k a)) -> p ∉ paths ->
  outputs (snd (bind m k s)) !! p = outputs (snd (m s)) !! p.
Proof.
  intros Hk Hp. unfold bind. destruct (m s) as [[a|e] s1]; simpl; [|reflexivity].
  apply Hk. exact Hp.
Qed.

Lemma set_cleaned_text_restore (t : string) (c : cleaning_data) :
  set_cleaned_text (cleaned_text c) (set_cleaned_text t c) = c.
Proof. destruct c. reflexivity. Qed.

Lemma cleaning_not_summary (f f' suffix : string) :
  suffix ∈ summary_suffixes -> Path.cleaning_metadata f <> Path.of_stage f' suffix.
Proof.
  intros Hs. apply cleaning_not_stage.
  unfold summary_suffixes in Hs. rewrite !elem_of_cons in Hs.
  destruct Hs as [->|[->|[->|[->|[->|[->|[->|Hs]]]]]]]; [tails..|].
  apply elem_of_nil in Hs. contradiction.
Qed.

Ltac not_cleaning :=
  repeat (apply not_elem_of_cons; split);
  [ try (apply cleaning_not_summary; unfold summary_suffixes; in_list)..
  | apply not_elem_of_nil ].

Lemma classic_cleaning (f : file) :
  (exists c, f = JsonFile (JCleaning c)) \/ (forall c, f <> JsonFile (JCleaning c)).
Proof. destruct f as [t|[c|m|m|m|m]]; (left; eexists; reflexivity) || (right; intros c' E; discriminate). Qed.

Lemma classic_cleaning_at (s : service) (p : string) :
  (exists c, outputs s !! p = Some (JsonFile (JCleaning c)))
  \/ (forall c, outputs s !! p <> Some (JsonFile (JCleaning c))).
Proof.
  destruct (outputs s !! p) as [f|]; [|right; intros c E; discriminate].
  destruct (classic_cleaning f) as [[c ->]|Hf]; [left; eauto|].
  right. intros c E. inversion E. eapply Hf; eauto.
Qed.

Section StoreEffects.
Context `{Externals}.

Ltac frames :=
  repeat first
    [ eapply touches_mono; [|apply touches_abstractive_summary]; sub_list
    | eapply touches_mono; [|apply touches_extractive_summary]; sub_list
    | frame_step ].

Lemma read_cleaning_fails (p : string) (s : service) :
  (forall c, outputs s !! p <> Some (JsonFile (JCleaning c))) ->
  exists e, read_cleaning p s = (Raise e, s).
Proof.
  intros Hp. unfold read_cleaning, read_json, bind, get, ret, raise. simpl.
  destruct (outputs s !! p) as [[t|[c|m|m|m|m]]|]; simpl; eauto.
  exfalso. apply (Hp c). reflexivity.
Qed.

Lemma scrub_artifact_lookup (p : string) (s : service) :
  outputs (snd (scrub_artifact p s)) !! p = scrubbed_file (outputs s !! p).
Proof.
  unfold scrub_artifact. unfold bind at 1. rewrite path_exists_run.
  destruct (outputs s !! p) as [f|] eqn:Hp.
  - rewrite bool_decide_true by eauto.
    destruct (classic_cleaning f) as [[c ->]|Hf].
    + unfold bind at 1. rewrite (read_cleaning_run _ _ _ Hp).
      unfold bind, write_file, modify, ret. simpl. apply lookup_insert_eq.
    + destruct (read_cleaning_fails p s) as [e He].
      { intros c Hc. rewrite Hp in Hc. inversion Hc. eapply Hf; eauto. }
      unfold bind at 1. rewrite He. simpl. rewrite Hp.
      destruct f as [t|[c|m|m|m|m]]; try reflexivity.
      exfalso. eapply Hf; eauto.
  - rewrite bool_decide_false; [exact Hp|]. intros [x Hx]. discriminate.
Qed.

(** [extractive_summary] leaves every cleaning artifact alone. *)
Lemma extractive_summary_keeps_cleaning filename ratio algorithm use_cache s f' :
  outputs (snd (extractive_summary filename ratio algorithm use_cache s))
    !! Path.cleaning_metadata f'
  = outputs s !! Path.cleaning_metadata f'.
Proof. apply touches_extractive_summary. not_cleaning. Qed.

Lemma abstractive_summary_keeps_cleaning filename max_length min_length model use_pipeline s f' :
  outputs (snd (abstractive_summary filename max_length min_length model use_pipeline s))
    !! Path.cleaning_metadata f'
  = outputs s !! Path.cleaning_metadata f'.
Proof. apply touches_abstractive_summary. not_cleaning. Qed.

Lemma get_summary_keeps_state filename summary_type s :
  snd (get_summary filename summary_type s) = s.
Proof.
  unfold get_summary, bind, path_exists, read_json, bind, get, ret, raise. simpl.
  destruct (bool_decide _); simpl; [|reflexivity].
  destruct (outputs s !! _) as [[?|?]|]; reflexivity.
Qed.

(** After [formatted_hybrid_summary], whatever its outcome, the cleaning
    artifact of the document holds the scrubbed text. *)
Lemma formatted_hybrid_summary_scrubs filename ratio max_length min_length use_pipeline s :
  outputs (snd (formatted_hybrid_summary filename ratio max_length min_length use_pipeline s))
    !! Path.cleaning_metadata filename
  = scrubbed_file (outputs s !! Path.cleaning_metadata filename).
Proof.
  unfold formatted_hybrid_summary.
  rewrite bind_lookup_after with
    (paths := [Path.of_stage filename "_abstractive_summary.txt";
               Path.of_stage filename "_abstractive_summary_metadata.json";
               Path.of_stage filename "_extractive_summary.txt";
               Path.of_stage filename "_extractive_summary_metadata.json";
               Path.of_stage filename "_formatted_summary.json"]).
  - apply scrub_artifact_lookup.
  - intros text. frames.
  - not_cleaning.
Qed.

Lemma touches_hybrid_summary filename ratio max_length min_length use_pipeline :
  touches [Path.cleaning_metadata filename;
           Path.of_stage filename "_extractive_summary.txt";
           Path.of_stage filename "_extractive_summary_metadata.json";
           Path.of_stage filename "_abstractive_summary.txt";
           Path.of_stage filename "_abstractive_summary_metadata.json";
           Path.of_stage filename "_hybrid_summary.txt";
           Path.of_stage filename "_hybrid_summary_metadata.json"]
    (hybrid_summary filename ratio max_length min_length use_pipeline).
Proof. unfold hybrid_summary. frames. Qed.

Lemma touches_formatted_hybrid_summary filename ratio max_length min_length use_pipeline :
  touches [Path.cleaning_metadata filename;
           Path.of_stage filename "_extractive_summary.txt";
           Path.of_stage filename "_extractive_summary_metadata.json";
           Path.of_stage filename "_abstractive_summary.txt";
           Path.of_stage filename "_abstractive_summary_metadata.json";
           Path.of_stage filename "_formatted_summary.json"]
    (formatted_hybrid_summary filename ratio max_length min_length use_pipeline).
Proof. unfold formatted_hybrid_summary, scrub_artifact. frames. Qed.

Lemma read_cleaning_ok_inv p s c s' :
  read_cleaning p s = (Ok c, s') ->
  s' = s /\ outputs s !! p = Some (JsonFile (JCleaning c)).
Proof.
  unfold read_cleaning, read_json, bind, get, ret, raise. simpl.
  destruct (outputs s !! p) as [[t|[c'|m|m|m|m]]|]; simpl; intros E;
    inversion E; subst; auto.
Qed.

(** When [hybrid_summary] returns, the cleaning artifact is back. *)
Lemma hybrid_summary_restores filename ratio max_length min_length use_pipeline s md s' :
  hybrid_summary filename ratio max_length min_length use_pipeline s = (Ok md, s') ->
  outputs s' !! Path.cleaning_metadata filename
  = outputs s !! Path.cleaning_metadata filename.
Proof.
  unfold hybrid_summary. intros E.
  apply bind_ok_inv in E. destruct E as (ex & s1 & Hex & E).
  apply bind_ok_inv in E. destruct E as (c & s1' & Hread & E).
  apply read_cleaning_ok_inv in Hread. destruct Hread as [-> Hc].
  apply bind_ok_inv in E. destruct E as ([] & s2 & Hw & E).
  apply bind_ok_inv in E. destruct E as (ab & s3 & Hab & E).
  apply bind_ok_inv in E. destruct E as ([] & s4 & Hrestore & E).
  apply bind_ok_inv in E. destruct E as ([] & s5 & Hw5 & E).
  apply bind_ok_inv in E. destruct E as ([] & s6 & Hw6 & E).
  inversion E; subst s'. clear E.
  unfold write_file, modify in Hw6, Hw5, Hrestore.
  inversion Hw6; subst s6. inversion Hw5; subst s5. inversion Hrestore; subst s4.
  simpl.
  rewrite lookup_insert_ne by (apply not_eq_sym, cleaning_not_summary; unfold summary_suffixes; in_list).
  rewrite lookup_insert_ne by (apply not_eq_sym, cleaning_not_summary; unfold summary_suffixes; in_list).
  rewrite lookup_insert_eq, set_cleaned_text_restore.
  pose proof (extractive_summary_keeps_cleaning filename ratio "textrank" true s filename) as Hk.
  rewrite Hex in Hk. simpl in Hk. rewrite <- Hk. symmetry. exact Hc.
Qed.

Lemma hybrid_summary_keeps_others filename ratio max_length min_length use_pipeline s f' :
  Path.cleaning_metadata f' <> Path.cleaning_metadata filename ->
  outputs (snd (hybrid_summary filename ratio max_length min_length use_pipeline s))
    !! Path.cleaning_metadata f'
  = outputs s !! Path.cleaning_metadata f'.
Proof.
  intros Hne. apply touches_hybrid_summary.
  apply not_elem_of_cons. split; [exact Hne | not_cleaning].
Qed.

Lemma formatted_hybrid_summary_keeps_others filename ratio max_length min_length
    use_pipeline s f' :
  Path.cleaning_metadata f' <> Path.cleaning_metadata filename ->
  outputs (snd (formatted_hybrid_summary filename ratio max_length min_length use_pipeline s))
    !! Path.cleaning_metadata f'
  = outputs s !! Path.cleaning_metadata f'.
Proof.
  intros Hne. apply touches_formatted_hybrid_summary.
  apply not_elem_of_cons. split; [exact Hne | not_cleaning].
Qed.

(** When the abstractive step raises, [hybrid_summary] raises the same
    exception and the cleaning artifact keeps the extractive summary as
    its text. *)
Lemma hybrid_summary_failure filename ratio max_length min_length use_pipeline s ex s1 c e s3 :
  extractive_summary filename ratio "textrank" true s = (Ok ex, s1) ->
  outputs s !! Path.cleaning_metadata filename = Some (JsonFile (JCleaning c)) ->
  abstractive_summary filename max_length min_length bart_large_cnn use_pipeline
    (set_outputs (insert (Path.cleaning_metadata filename)
                    (JsonFile (JCleaning (set_cleaned_text (ex_summary_text ex) c)))) s1)
  = (Raise e, s3) ->
  hybrid_summary filename ratio max_length min_length use_pipeline s = (Raise e, s3)
  /\ outputs s3 !! Path.cleaning_metadata filename
     = Some (JsonFile (JCleaning (set_cleaned_text (ex_summary_text ex) c))).
Proof.
  intros Hex Hc Hab.
  assert (Hc1 : outputs s1 !! Path.cleaning_metadata filename = Some (JsonFile (JCleaning c))).
  { pose proof (extractive_summary_keeps_cleaning filename ratio "textrank" true s filename) as Hk.
    rewrite Hex in Hk. simpl in Hk. rewrite Hk. exact Hc. }
  split.
  - unfold hybrid_summary. unfold bind at 1. rewrite Hex.
    unfold bind at 1. rewrite (read_cleaning_run _ _ _ Hc1).
    unfold bind at 1. unfold write_file at 1, modify at 1.
    unfold bind at 1. rewrite Hab. reflexivity.
  - pose proof (abstractive_summary_keeps_cleaning filename max_length min_length
                  bart_large_cnn use_pipeline
                  (set_outputs (insert (Path.cleaning_metadata filename)
                    (JsonFile (JCleaning (set_cleaned_text (ex_summary_text ex) c)))) s1)
                  filename) as Hk.
    rewrite Hab in Hk. simpl in Hk. rewrite Hk. apply lookup_insert_eq.
Qed.

End StoreEffects.

(** ** The similarity cache *)

Lemma files_only_ret {A} (a : A) : files_only (ret a).
Proof. intros sa sb Hab. split; [reflexivity | exact Hab]. Qed.

Lemma files_only_raise {A} (e : exn) : files_only (@raise A e).
Proof. intros sa sb Hab. split; [reflexivity | exact Hab]. Qed.

Lemma files_only_write p f : files_only (write_file p f).
Proof.
  intros sa sb Hab. split; [reflexivity|].
  unfold write_file, modify. simpl. rewrite Hab. reflexivity.
Qed.

Lemma same_result_bind {A B} (r1 r2 : outcome A * service) (k : A -> M B) :
  same_result r1 r2 -> (forall a, files_only (k a)) ->
  same_result
    (match r1 with (Ok a, s) => k a s | (Raise e, s) => (Raise e, s) end)
    (match r2 with (Ok a, s) => k a s | (Raise e, s) => (Raise e, s) end).
Proof.
  destruct r1 as [[a1|e1] s1], r2 as [[a2|e2] s2]; intros [Ho Hs] Hk;
    simpl in *; inversion Ho; subst.
  - apply Hk. exact Hs.
  - split; [reflexivity | exact Hs].
Qed.

Lemma files_only_bind {A B} (m : M A) (k : A -> M B) :
  files_only m -> (forall a, files_only (k a)) -> files_only (bind m k).
Proof.
  intros Hm Hk sa sb Hab. unfold bind. apply same_result_bind; auto.
Qed.

Section CacheFacts.
Context `{Externals}.

Lemma cache_key_join (sents1 sents2 : list string) :
  PyStr.join " " sents1 = PyStr.join " " sents2 -> cache_key sents1 = cache_key sents2.
Proof. intros Hj. unfold cache_key. rewrite Hj. reflexivity. Qed.

Lemma similarity_matrix_for_outputs sents use_cache s :
  outputs (snd (similarity_matrix_for sents use_cache s)) = outputs s.
Proof.
  rewrite similarity_matrix_for_run.
  destruct (if use_cache then _ else None); [reflexivity|].
  destruct (tfidf_cosine_similarity sents); [|reflexivity].
  destruct use_cache; reflexivity.
Qed.

Lemma similarity_matrix_cache_irrelevant sents s :
  cache_consistent s sents ->
  fst (similarity_matrix_for sents true s) = fst (similarity_matrix_for sents false s).
Proof.
  intros Hc. rewrite !similarity_matrix_for_run.
  destruct (_similarity_cache s !! cache_key sents) as [M|] eqn:HM.
  - destruct (Hc M HM) as (C & -> & ->). reflexivity.
  - destruct (tfidf_cosine_similarity sents); reflexivity.
Qed.

Lemma similarity_matrix_keeps_consistent sents use_cache s :
  cache_consistent s sents ->
  cache_consistent (snd (similarity_matrix_for sents use_cache s)) sents.
Proof.
  intros Hc. rewrite similarity_matrix_for_run.
  destruct use_cache; [|destruct (tfidf_cosine_similarity sents); exact Hc].
  destruct (_similarity_cache s !! cache_key sents) as [M|] eqn:HM; [exact Hc|].
  destruct (tfidf_cosine_similarity sents) as [C|e] eqn:HC; [|exact Hc].
  intros M. simpl. rewrite lookup_insert_eq. intros E. inversion E; subst. eauto.
Qed.

Lemma textrank_cache_irrelevant sents k s :
  cache_consistent s sents ->
  same_result (_optimized_textrank_summarize sents k true s)
              (_optimized_textrank_summarize sents k false s).
Proof.
  intros Hc. unfold _optimized_textrank_summarize. unfold bind at 1 3.
  apply same_result_bind.
  - split.
    + apply similarity_matrix_cache_irrelevant. exact Hc.
    + rewrite !similarity_matrix_for_outputs. reflexivity.
  - intros M. apply files_only_bind.
    + intros sa sb Hab. split; [reflexivity | exact Hab].
    + intros v sa sb Hab. split; [reflexivity | exact Hab].
Qed.

Lemma textrank_keeps_consistent sents k use_cache s :
  cache_consistent s sents ->
  cache_consistent (snd (_optimized_textrank_summarize sents k use_cache s)) sents.
Proof.
  intros Hc. unfold _optimized_textrank_summarize, bind at 1.
  pose proof (similarity_matrix_keeps_consistent sents use_cache s Hc) as Hk.
  destruct (similarity_matrix_for sents use_cache s) as [[M|e] s1]; simpl in *; [|exact Hk].
  unfold bind, lift.
  destruct (_pagerank M damping_default max_iter_default); [|exact Hk].
  exact Hk.
Qed.

(** With a consistent cache entry, ranking through the cache and ranking
    from scratch give the same result and the same files. *)
Lemma extractive_cache_irrelevant filename ratio s :
  (forall c, outputs s !! Path.cleaning_metadata filename = Some (JsonFile (JCleaning c)) ->
             cache_consistent s (sentences c)) ->
  same_result (extractive_summary filename ratio "textrank" true s)
              (extractive_summary filename ratio "textrank" false s).
Proof.
  intros Hc. unfold extractive_summary.
  unfold bind at 1 6. rewrite path_exists_run.
  destruct (bool_decide _); cbn [negb]; [|split; reflexivity].
  unfold bind at 1 5.
  destruct (classic_cleaning_at s (Path.cleaning_metadata filename)) as [[c Hp]|Hp].
  - rewrite (read_cleaning_run _ _ _ Hp).
    destruct (Nat.eqb (length (sentences c)) 0); [split; reflexivity|].
    unfold bind at 1 4. apply same_result_bind.
    + apply textrank_cache_irrelevant. apply Hc. exact Hp.
    + intros out. apply files_only_bind; [apply files_only_write|].
      intros []. apply files_only_bind; [apply files_only_write|].
      intros []. apply files_only_ret.
  - destruct (read_cleaning_fails _ _ Hp) as [e ->]. split; reflexivity.
Qed.

Lemma extractive_keeps_consistent filename ratio use_cache s c :
  outputs s !! Path.cleaning_metadata filename = Some (JsonFile (JCleaning c)) ->
  cache_consistent s (sentences c) ->
  cache_consistent (snd (extractive_summary filename ratio "textrank" use_cache s)) (sentences c).
Proof.
  intros Hp Hc. unfold extractive_summary.
  unfold bind at 1. rewrite path_exists_run, Hp, bool_decide_true by eauto. cbn [negb].
  unfold bind at 1. rewrite (read_cleaning_run _ _ _ Hp).
  destruct (Nat.eqb (length (sentences c)) 0); [exact Hc|].
  unfold bind at 1. simpl.
  pose proof (textrank_keeps_consistent (sentences c)
                (Z.to_nat (num_sentences_for (length (sentences c)) ratio)) use_cache s Hc) as Hk.
  destruct (_optimized_textrank_summarize _ _ _ s) as [[out|e] s1]; simpl in *; exact Hk.
Qed.

(** A corpus with the same joined text is served the matrix stored for
    the first one. *)
Lemma cache_shared_between_colliding sents1 sents2 s C :
  PyStr.join " " sents1 = PyStr.join " " sents2 ->
  _similarity_cache s !! cache_key sents1 = None ->
  tfidf_cosine_similarity sents1 = Ok C ->
  let s1 := snd (similarity_matrix_for sents1 true s) in
  similarity_matrix_for sents2 true s1 = (Ok (normalise_rows epsilon C), s1).
Proof.
  intros Hj Hnone HC s1. subst s1.
  rewrite (similarity_matrix_for_run sents1), Hnone, HC. simpl.
  rewrite similarity_matrix_for_run. simpl.
  rewrite <- (cache_key_join _ _ Hj), lookup_insert_eq. reflexivity.
Qed.

End CacheFacts.

(** ** Lengths of stripped and split strings *)

Lemma lstrip_length (s : string) : String.length (PyStr.lstrip s) <= String.length s.
Proof.
  induction s as [|c s IH]; simpl; [lia|].
  destruct (PyStr.is_space c); simpl; lia.
Qed.

Lemma rstrip_length (s : string) : String.length (PyStr.rstrip s) <= String.length s.
Proof.
  induction s as [|c s IH]; simpl; [lia|].
  destruct (PyStr.rstrip s); simpl in *; [destruct (PyStr.is_space c); simpl; lia | lia].
Qed.

Lemma rstrip_trailing_space (s : string) : PyStr.rstrip (s +:+ " ") = PyStr.rstrip s.
Proof.
  induction s as [|c s IH]; [reflexivity|].
  rewrite append_cons. simpl. rewrite IH. reflexivity.
Qed.

Lemma lstrip_trailing_space (s : string) :
  PyStr.lstrip (s +:+ " ") = EmptyString
  \/ exists y, PyStr.lstrip (s +:+ " ") = y +:+ " " /\ String.length y <= String.length s.
Proof.
  induction s as [|c s IH]; [left; reflexivity|].
  rewrite append_cons. simpl. destruct (PyStr.is_space c).
  - destruct IH as [->|(y & -> & Hy)]; [left; reflexivity|].
    right. exists y. split; [reflexivity | lia].
  - right. exists (String c s). split; [reflexivity | simpl; lia].
Qed.

Lemma strip_trailing_space (s : string) :
  String.length (PyStr.strip (s +:+ " ")) <= String.length s.
Proof.
  unfold PyStr.strip. destruct (lstrip_trailing_space s) as [->|(y & -> & Hy)].
  - simpl. lia.
  - rewrite rstrip_trailing_space. pose proof (rstrip_length y). lia.
Qed.

Lemma split_ws_length (s : string) : length (PyStr.split_ws s) <= String.length s.
Proof.
  induction s as [|c s IH]; simpl; [lia|].
  destruct (PyStr.is_space c); [lia|].
  destruct s as [|c' s']; [simpl; lia|].
  destruct (PyStr.is_space c'); [simpl in *; lia|].
  destruct (PyStr.split_ws (String c' s')); simpl in *; lia.
Qed.

Lemma prefix_length (a s : string) :
  String.prefix a s = true -> String.length a <= String.length s.
Proof.
  revert s. induction a as [|x a IH]; intros s Hp; simpl; [lia|].
  destruct s as [|y s]; simpl in Hp; [discriminate|].
  destruct (ascii_dec x y); [|discriminate]. apply IH in Hp. simpl. lia.
Qed.

(** The pieces of [s.split(sep)] and the separators between them make up
    [s]. *)
Lemma split_go_length (sep : string) (k : nat) (s : string) :
  0 < String.length sep ->
  glued_length (String.length sep) (PyStr.split_go sep k s)
  = String.length s - k + String.length sep.
Proof.
  intros Hsep. revert k. induction s as [|c s IH]; intros k.
  - simpl. lia.
  - destruct k as [|k].
    + cbn [PyStr.split_go]. destruct (String.prefix sep (String c s)) eqn:Hp.
      * apply prefix_length in Hp. simpl in Hp.
        cbn [glued_length]. rewrite IH. simpl. lia.
      * specialize (IH 0). destruct (PyStr.split_go sep 0 s) as [|w ws].
        -- simpl in *. lia.
        -- simpl in *. lia.
    + cbn [PyStr.split_go]. rewrite IH. simpl. lia.
Qed.

Lemma split_length (text : string) :
  glued_length 2 (PyStr.split ". " text) = String.length text + 2.
Proof.
  unfold PyStr.split. pose proof (split_go_length ". " 0 text) as Hs.
  change (String.length ". ") with 2 in Hs. rewrite Hs by lia. lia.
Qed.

Lemma glue_length (pieces : list string) :
  String.length (glue pieces) = glued_length 2 pieces.
Proof.
  induction pieces as [|p ps IH]; [reflexivity|].
  cbn [glue glued_length]. rewrite !length_append, IH. simpl. lia.
Qed.

Lemma glue_ends_with_space (pieces : list string) :
  pieces <> [] ->
  exists x, glue pieces = x +:+ " " /\ String.length x + 1 = glued_length 2 pieces.
Proof.
  induction pieces as [|p ps IH]; intros Hne; [contradiction|].
  destruct ps as [|q qs].
  - exists (p +:+ "."). split.
    + cbn [glue]. rewrite append_nil_r, append_assoc. reflexivity.
    + cbn [glued_length]. rewrite length_append. simpl. lia.
  - destruct IH as (x & Hx & Hlen); [discriminate|].
    exists (p +:+ ". " +:+ x). split.
    + cbn [glue] in *. rewrite Hx, !append_assoc. reflexivity.
    + cbn [glued_length] in *. rewrite !length_append. simpl. lia.
Qed.

(** ** The chunks of a short text *)

Lemma chunk_fold_fits (pieces : list string) (t : string) :
  String.length t + glued_length 2 pieces <= 1000 ->
  fold_left (chunk_step 1000) pieces ([], t) = ([], t +:+ glue pieces).
Proof.
  revert t. induction pieces as [|p ps IH]; intros t Hfit.
  - simpl. rewrite append_nil_r. reflexivity.
  - cbn [fold_left chunk_step glued_length] in *.
    pose proof (split_ws_length t). pose proof (split_ws_length p).
    destruct (Nat.leb_spec (length (PyStr.split_ws t) + length (PyStr.split_ws p)) 1000); [|lia].
    rewrite IH.
    + cbn [glue]. rewrite !append_assoc. reflexivity.
    + rewrite !length_append. simpl. lia.
Qed.

Lemma split_nonempty (sep : string) (k : nat) (s : string) : PyStr.split_go sep k s <> [].
Proof.
  revert k. induction s as [|c s IH]; intros k; [discriminate|].
  destruct k as [|k]; cbn [PyStr.split_go]; [|apply IH].
  destruct (String.prefix sep (String c s)); [discriminate|].
  destruct (PyStr.split_go sep 0 s); discriminate.
Qed.

Lemma make_chunks_short (text : string) :
  String.length text <= 998 ->
  make_chunks 1000 text = [PyStr.strip (glue (PyStr.split ". " text))].
Proof.
  intros Hlen. unfold make_chunks.
  rewrite chunk_fold_fits by (rewrite split_length; simpl; lia).
  rewrite append_nil_l.
  destruct (glue_ends_with_space (PyStr.split ". " text)) as (x & Hx & _).
  { apply split_nonempty. }
  rewrite Hx. destruct x; reflexivity.
Qed.

Lemma short_text_chunks (text : string) :
  String.length text <= 49 ->
  Forall (fun chunk => substantial chunk = false) (make_chunks 1000 text).
Proof.
  intros Hlen. rewrite make_chunks_short by lia.
  constructor; [|constructor].
  destruct (glue_ends_with_space (PyStr.split ". " text)) as (x & Hx & Hxl).
  { apply split_nonempty. }
  rewrite split_length in Hxl.
  unfold substantial. apply Nat.ltb_ge.
  rewrite Hx.
  (* [strip (strip y)] has at most the length of [strip y] *)
  assert (Hs : forall y, String.length (PyStr.strip y) <= String.length y).
  { intros y. unfold PyStr.strip.
    pose proof (rstrip_length (PyStr.lstrip y)). pose proof (lstrip_length y). lia. }
  pose proof (Hs (PyStr.strip (x +:+ " "))).
  pose proof (strip_trailing_space x). lia.
Qed.

Section PipelineFacts.
Context `{Externals}.

Lemma pipeline_chunks_skip max_length min_length chunks s :
  Forall (fun chunk => substantial chunk = false) chunks ->
  pipeline_chunks max_length min_length chunks s = (Ok [], s).
Proof.
  induction 1 as [|c chunks Hc _ IH]; [reflexivity|].
  cbn [pipeline_chunks]. rewrite Hc. exact IH.
Qed.

Lemma pipeline_summarize_skip text max_length min_length s :
  Forall (fun chunk => substantial chunk = false) (make_chunks 1000 text) ->
  _pipeline_summarize text max_length min_length s = (Ok EmptyString, s).
Proof.
  intros Hc. unfold _pipeline_summarize, bind.
  rewrite pipeline_chunks_skip by assumption. reflexivity.
Qed.

End PipelineFacts.

(** ** The properties of the operations *)

Local Open Scope Qc_scope.

(** Truncation toward zero and the floor. *)

Lemma py_int_floor (q : Qc) : 0 <= q -> py_int q = Qfloor q.
Proof.
  intros Hq. unfold py_int, Qfloor. destruct q as [[n d] Hc]. simpl in *.
  apply Z.quot_div_nonneg; [|lia].
  unfold Qcle, Qle in Hq. simpl in Hq. lia.
Qed.

Lemma Qc_of_nat_nonneg (n : nat) : 0 <= Qc_of_nat n.
Proof.
  unfold Qcle. change (this 0) with 0%Q.
  change (this (Qc_of_nat n)) with (Qred (inject_Z (Z.of_nat n))).
  rewrite Qred_correct. unfold Qle, inject_Z. cbn [Qnum Qden]. lia.
Qed.

Lemma py_int_scaled_le (n : nat) (r : Qc) :
  0 <= r -> r <= 1 -> (py_int (Qc_of_nat n * r) <= Z.of_nat n)%Z.
Proof.
  intros H0 H1.
  assert (Hle : Qc_of_nat n * r <= Qc_of_nat n).
  { rewrite <- (Qcmult_1_r (Qc_of_nat n)) at 2.
    apply Qcmult_le_mono_nonneg_l; [apply Qc_of_nat_nonneg | exact H1]. }
  rewrite py_int_floor.
  - rewrite <- (Qfloor_Z (Z.of_nat n)). apply Qfloor_resp_le.
    unfold Qcle in Hle.
    change (this (Qc_of_nat n)) with (Qred (inject_Z (Z.of_nat n))) in Hle.
    rewrite Qred_correct in Hle. exact Hle.
  - apply Qcmult_nonneg_nonneg; [apply Qc_of_nat_nonneg | exact H0].
Qed.

Lemma py_int_nonpositive (q : Qc) : q <= 0 -> (py_int q <= 0)%Z.
Proof.
  intros Hq. unfold py_int. destruct q as [[n d] Hc]. simpl in *.
  unfold Qcle, Qle in Hq. simpl in Hq.
  assert (Hn : (n <= 0)%Z) by lia.
  pose proof (Z.quot_opp_l n (Z.pos d)) as Ho.
  pose proof (Z.quot_pos (- n) (Z.pos d)) as Hp.
  assert ((0 <= - n ÷ Z.pos d)%Z) by (apply Z.quot_pos; lia).
  rewrite Z.quot_opp_l in H by lia. lia.
Qed.

Section Claims.
Context `{Externals}.

(** C7. Every ranker ends by pairing scores with sentences, sorting and
    slicing; the ranked list is the score-descending arrangement of the
    indexed corpus in which two sentences of equal score keep their
    corpus order, the lower index first. *)
Theorem tie_break_lower_index_first (scores : list Qc) (sents : list string) :
  (length sents <= length scores)%nat ->
  (forall k, select_top scores sents k
             = Ok (map (fun p => snd (snd p)) (take k (ranked_with_index scores sents))))
  /\ Permutation (zip scores (tagged sents)) (ranked_with_index scores sents)
  /\ descending (ranked_with_index scores sents)
  /\ (forall i j x si sj,
        (i < j)%nat ->
        scores !! i = Some x -> scores !! j = Some x ->
        sents !! i = Some si -> sents !! j = Some sj ->
        exists l1 l2 l3,
          ranked_with_index scores sents
          = l1 ++ (x, (i, si)) :: l2 ++ (x, (j, sj)) :: l3).
Proof.
  intros Hlen. split; [|split; [|split]].
  - intros k. apply select_top_ranked. exact Hlen.
  - apply sort_desc_perm.
  - apply sort_desc_descending.
  - intros i j x si sj. apply ranked_ties_in_corpus_order.
Qed.

(** C3 (amended). When the cache holds nothing under the key of the
    corpus, or holds the matrix computed for this very corpus, the graph
    algorithm returns the same result and writes the same files with and
    without the cache, and the cache stays so after the call. The key is
    the hash of the sentences joined by spaces and nothing else is
    compared: a corpus with the same joined text is served the matrix
    stored for the first one. *)
Theorem cache_hit_equals_recompute (s : service) (filename : string) (ratio : Qc) :
  ((forall c, outputs s !! Path.cleaning_metadata filename = Some (JsonFile (JCleaning c)) ->
              cache_consistent s (sentences c)) ->
   same_result (extractive_summary filename ratio "textrank" true s)
               (extractive_summary filename ratio "textrank" false s)
   /\ let s1 := snd (extractive_summary filename ratio "textrank" true s) in
      same_result (extractive_summary filename ratio "textrank" true s1)
                  (extractive_summary filename ratio "textrank" false s1))
  /\ (forall sents1 sents2 C,
        PyStr.join " " sents1 = PyStr.join " " sents2 ->
        _similarity_cache s !! cache_key sents1 = None ->
        tfidf_cosine_similarity sents1 = Ok C ->
        let s1 := snd (similarity_matrix_for sents1 true s) in
        similarity_matrix_for sents2 true s1 = (Ok (normalise_rows epsilon C), s1)).
Proof.
  split.
  - intros Hc. split; [apply extractive_cache_irrelevant; exact Hc|].
    intros s1. apply extractive_cache_irrelevant. intros c Hp.
    assert (Hp0 : outputs s !! Path.cleaning_metadata filename = Some (JsonFile (JCleaning c))).
    { rewrite <- Hp. symmetry. apply extractive_summary_keeps_cleaning. }
    apply extractive_keeps_consistent; [exact Hp0 | apply Hc; exact Hp0].
  - intros sents1 sents2 C. apply cache_shared_between_colliding.
Qed.

(** C5 (amended). [extractive_summary], [abstractive_summary] and
    [get_summary] leave every cleaning artifact as it was, and
    [hybrid_summary] does whenever it returns. [formatted_hybrid_summary]
    overwrites the cleaned text of the document's artifact with its
    scrubbed form and does not restore it: after the call, whatever its
    outcome, the artifact is the old record with the scrubbed text, equal
    to the old one only when scrubbing changes nothing; an absent
    artifact stays absent and other documents' artifacts are not
    touched. *)
Theorem cleaning_artifact_frame (s : service) (filename : string) :
  (forall ratio algorithm use_cache f',
      outputs (snd (extractive_summary filename ratio algorithm use_cache s))
        !! Path.cleaning_metadata f'
      = outputs s !! Path.cleaning_metadata f')
  /\ (forall max_length min_length model use_pipeline f',
        outputs (snd (abstractive_summary filename max_length min_length model use_pipeline s))
          !! Path.cleaning_metadata f'
        = outputs s !! Path.cleaning_metadata f')
  /\ (forall summary_type, snd (get_summary filename summary_type s) = s)
  /\ (forall ratio max_length min_length use_pipeline md s' f',
        hybrid_summary filename ratio max_length min_length use_pipeline s = (Ok md, s') ->
        outputs s' !! Path.cleaning_metadata f' = outputs s !! Path.cleaning_metadata f')
  /\ (forall ratio max_length min_length use_pipeline,
        let s' := snd (formatted_hybrid_summary filename ratio max_length min_length
                         use_pipeline s) in
        (forall c,
            outputs s !! Path.cleaning_metadata filename = Some (JsonFile (JCleaning c)) ->
            outputs s' !! Path.cleaning_metadata filename
            = Some (JsonFile (JCleaning (set_cleaned_text (scrub (cleaned_text c)) c)))
            /\ (outputs s' !! Path.cleaning_metadata filename
                = outputs s !! Path.cleaning_metadata filename
                <-> scrub (cleaned_text c) = cleaned_text c))
        /\ (outputs s !! Path.cleaning_metadata filename = None ->
            outputs s' !! Path.cleaning_metadata filename = None)
        /\ (forall f',
              Path.cleaning_metadata f' <> Path.cleaning_metadata filename ->
              outputs s' !! Path.cleaning_metadata f'
              = outputs s !! Path.cleaning_metadata f')).
Proof.
  split; [|split; [|split; [|split]]].
  - intros. apply extractive_summary_keeps_cleaning.
  - intros. apply abstractive_summary_keeps_cleaning.
  - intros. apply get_summary_keeps_state.
  - intros ratio max_length min_length use_pipeline md s' f' Hrun.
    destruct (decide (Path.cleaning_metadata f' = Path.cleaning_metadata filename))
      as [->|Hne].
    + eapply hybrid_summary_restores. exact Hrun.
    + pose proof (hybrid_summary_keeps_others filename ratio max_length min_length
                    use_pipeline s f' Hne) as Hk.
      rewrite Hrun in Hk. exact Hk.
  - intros ratio max_length min_length use_pipeline s'. subst s'.
    split; [|split].
    + intros c Hc. rewrite formatted_hybrid_summary_scrubs, Hc. cbn [scrubbed_file].
      split; [reflexivity|]. split.
      * intros E. apply (f_equal artifact_text) in E. cbn in E. congruence.
      * intros E. rewrite E. destruct c. reflexivity.
    + intros Hnone. rewrite formatted_hybrid_summary_scrubs, Hnone. reflexivity.
    + intros f'. apply formatted_hybrid_summary_keeps_others.
Qed.

Lemma abstractive_summary_empty (s : service) (filename : string)
    (max_length min_length : Z) (model : string) (c : cleaning_data) :
  TORCH_AVAILABLE = true ->
  outputs s !! Path.cleaning_metadata filename = Some (JsonFile (JCleaning c)) ->
  Forall (fun chunk => substantial chunk = false) (make_chunks 1000 (cleaned_text c)) ->
  (_summarization_pipeline s <> None \/ pipeline_load model = Ok tt) ->
  exists md s',
    abstractive_summary filename max_length min_length model true s = (Ok md, s')
    /\ ab_summary_text md = EmptyString
    /\ ab_summary_length md = 0%nat
    /\ outputs s'
       = <[Path.of_stage filename "_abstractive_summary_metadata.json" :=
             JsonFile (JAbstractive md)]>
           (<[Path.of_stage filename "_abstractive_summary.txt" := TextFile EmptyString]>
              (outputs s))
    /\ pipeline_calls s' = pipeline_calls s.
Proof.
  intros Htorch Hc Hchunks Hpipe.
  unfold abstractive_summary. rewrite Htorch. cbn [negb].
  unfold bind at 1. rewrite path_exists_run, Hc, bool_decide_true by eauto. cbn [negb].
  unfold bind at 1. rewrite (read_cleaning_run _ _ _ Hc).
  unfold bind at 1. unfold get at 1. cbn [andb].
  destruct (_summarization_pipeline s) as [m|] eqn:Hm.
  - cbn [is_none]. unfold bind at 1. unfold ret at 1.
    unfold bind at 1. unfold get at 1. rewrite Hm. cbn [is_none negb].
    unfold bind at 1. rewrite pipeline_summarize_skip by assumption.
    eexists _, _. split; [reflexivity|]. cbn. auto.
  - destruct Hpipe as [Hp|Hload]; [contradiction|].
    cbn [is_none]. unfold bind at 1.
    unfold _load_summarization_pipeline. rewrite Htorch. cbn [negb].
    unfold bind at 1. unfold lift at 1. rewrite Hload.
    unfold modify at 1.
    unfold bind at 1. unfold get at 1. cbn [_summarization_pipeline set_pipeline is_none negb].
    unfold bind at 1. rewrite pipeline_summarize_skip by assumption.
    eexists _, _. split; [reflexivity|]. cbn. auto.
Qed.

(** C10 (amended). When every chunk of the text has at most 50
    characters after stripping, which holds for any cleaned text of 49
    or fewer characters, [_pipeline_summarize] sends nothing to the
    pipeline and returns the empty string, and [abstractive_summary]
    persists that empty summary and returns. *)
Theorem short_chunks_are_skipped (s : service) (filename : string)
    (max_length min_length : Z) (model : string) (c : cleaning_data) :
  (forall text, (String.length text <= 49)%nat ->
                Forall (fun chunk => substantial chunk = false) (make_chunks 1000 text))
  /\ (forall text,
        Forall (fun chunk => substantial chunk = false) (make_chunks 1000 text) ->
        _pipeline_summarize text max_length min_length s = (Ok EmptyString, s))
  /\ (TORCH_AVAILABLE = true ->
      outputs s !! Path.cleaning_metadata filename = Some (JsonFile (JCleaning c)) ->
      Forall (fun chunk => substantial chunk = false) (make_chunks 1000 (cleaned_text c)) ->
      (_summarization_pipeline s <> None \/ pipeline_load model = Ok tt) ->
      exists md s',
        abstractive_summary filename max_length min_length model true s = (Ok md, s')
        /\ ab_summary_text md = EmptyString
        /\ outputs s' !! Path.of_stage filename "_abstractive_summary_metadata.json"
           = Some (JsonFile (JAbstractive md))
        /\ outputs s' !! Path.of_stage filename "_abstractive_summary.txt"
           = Some (TextFile EmptyString)
        /\ pipeline_calls s' = pipeline_calls s).
Proof.
  split; [exact short_text_chunks|]. split.
  - intros text. apply pipeline_summarize_skip.
  - intros Htorch Hc Hchunks Hpipe.
    destruct (abstractive_summary_empty s filename max_length min_length model c
                Htorch Hc Hchunks Hpipe) as (md & s' & Hrun & Htext & _ & Hout & Hcalls).
    exists md, s'. split; [exact Hrun|]. split; [exact Htext|].
    rewrite Hout. split; [apply lookup_insert_eq|]. split; [|exact Hcalls].
    rewrite lookup_insert_ne; [apply lookup_insert_eq|].
    apply not_eq_sym, of_stage_differ. tails.
Qed.

End Claims.

(** ** Evaluations on concrete documents *)

Lemma demo_doc_lookup :
  outputs Demo.doc_service !! Path.cleaning_metadata "doc.pdf"
  = Some (JsonFile (JCleaning (Demo.cleaning Demo.three_text Demo.three_sentences))).
Proof. vm_compute. reflexivity. Qed.

Lemma demo_ready (algorithm : string) (k : nat) :
  algorithm = "textrank" \/ algorithm = "tfidf" \/ algorithm = "lsa" ->
  @ranker_ready Demo.working Demo.doc_service algorithm Demo.three_sentences true k.
Proof.
  intros [-> | [-> | ->]].
  - left. split; [reflexivity|]. split.
    + exists (Demo.cosine Demo.three_sentences). split; [reflexivity|]. vm_compute. lia.
    + intros _ M HM. change (_similarity_cache Demo.doc_service) with (∅ : gmap string matrix) in HM.
      rewrite lookup_empty in HM. discriminate.
  - right. left. split; [reflexivity|].
    exists (Demo.word_counts Demo.three_sentences). split; [reflexivity|]. vm_compute. lia.
  - right. right. split; [reflexivity|].
    exists (Demo.word_counts Demo.three_sentences). split; [reflexivity|]. vm_compute. lia.
Qed.

(** Three sentences at ratio [1/2]: the summary has one sentence, where
    [max(1, round(3 * 0.5))] is two. *)
Lemma extractive_count_truncates :
  exists md s',
    @extractive_summary Demo.working "doc.pdf" half "textrank" true Demo.doc_service = (Ok md, s')
    /\ ex_original_sentences md = 3%nat
    /\ length (ex_summary_sentences md) = 1%nat
    /\ spec_num_sentences 3 half = 2%Z.
Proof.
  eexists _, _. split; [vm_compute; reflexivity|].
  split; [reflexivity|]. split; [reflexivity|]. vm_compute. reflexivity.
Qed.

(** With the ratio [0], outside (0, 1], [extractive_summary] raises nothing
    and returns a summary of one sentence. *)
Lemma ratio_zero_is_accepted :
  exists md s',
    @extractive_summary Demo.working "doc.pdf" 0 "textrank" true Demo.doc_service = (Ok md, s')
    /\ ex_summary_sentences md
       = ("Cats sleep all day long inside the warm and quiet house." :: nil)%list
    /\ ~ (0 < ex_summary_ratio md).
Proof.
  eexists _, _. split; [vm_compute; reflexivity|].
  split; [reflexivity|]. vm_compute. discriminate.
Qed.

(** Scores [1, 2, 1]: sentence 0 stands before sentence 2. *)
Lemma tie_break_lower_index_first_witness :
  exists l1 l2 l3,
    ranked_with_index (1 :: Q2Qc 2 :: 1 :: nil)%list ("a" :: "b" :: "c" :: nil)%list
    = (l1 ++ (1, (0%nat, "a")) :: l2 ++ (1, (2%nat, "c")) :: l3)%list.
Proof.
  destruct (tie_break_lower_index_first (1 :: Q2Qc 2 :: 1 :: nil)%list
              ("a" :: "b" :: "c" :: nil)%list) as (_ & _ & _ & Hties).
  - simpl. lia.
  - apply (Hties 0%nat 2%nat 1 "a" "c"); [lia | reflexivity..].
Defined.

(** A fresh service: with and without the cache the result is the same. *)
Lemma cache_hit_equals_recompute_witness :
  same_result
    (@extractive_summary Demo.working "doc.pdf" half "textrank" true Demo.doc_service)
    (@extractive_summary Demo.working "doc.pdf" half "textrank" false Demo.doc_service).
Proof.
  destruct (@cache_hit_equals_recompute Demo.working Demo.doc_service "doc.pdf" half)
    as [Hsame _].
  apply Hsame. intros c _ M HM.
  change (_similarity_cache Demo.doc_service) with (∅ : gmap string matrix) in HM.
  rewrite lookup_empty in HM. discriminate.
Defined.

(** Two documents whose sentence lists differ and whose joined texts agree
    share one cache key. After the one-sentence document was summarized,
    the two-sentence one is served its 1-by-1 matrix: with the cache the
    call raises [IndexError], without it the call returns a summary. *)
Lemma cache_collision_changes_result :
  let s1 := snd (@extractive_summary Demo.working "a.pdf" half "textrank" true
                   Demo.colliding_service) in
  Demo.one_sentence <> Demo.two_sentences
  /\ @cache_key Demo.working Demo.one_sentence = @cache_key Demo.working Demo.two_sentences
  /\ fst (@extractive_summary Demo.working "b.pdf" half "textrank" true s1) = Raise IndexError
  /\ (exists md, fst (@extractive_summary Demo.working "b.pdf" half "textrank" false s1) = Ok md)
  /\ (exists served computed,
        fst (@similarity_matrix_for Demo.working Demo.two_sentences true s1) = Ok served
        /\ fst (@similarity_matrix_for Demo.working Demo.two_sentences false s1) = Ok computed
        /\ length served = 1%nat /\ length computed = 2%nat).
Proof.
  intros s1. split; [discriminate|]. split; [reflexivity|].
  split; [vm_compute; reflexivity|]. split.
  - eexists. vm_compute. reflexivity.
  - eexists _, _. split; [vm_compute; reflexivity|]. split; [vm_compute; reflexivity|].
    split; reflexivity.
Qed.

(** A successful [hybrid_summary] leaves the artifact as it was. *)
Lemma cleaning_artifact_frame_witness :
  exists md s',
    @hybrid_summary Demo.working "doc.pdf" half 200 50 true Demo.doc_service = (Ok md, s')
    /\ outputs s' !! Path.cleaning_metadata "doc.pdf"
       = outputs Demo.doc_service !! Path.cleaning_metadata "doc.pdf".
Proof.
  destruct (@cleaning_artifact_frame Demo.working Demo.doc_service "doc.pdf")
    as (_ & _ & _ & Hhybrid & _).
  destruct (@hybrid_summary Demo.working "doc.pdf" half 200 50 true Demo.doc_service)
    as [[md|e] s'] eqn:Hrun; [|vm_compute in Hrun; discriminate Hrun].
  exists md, s'. split; [reflexivity|].
  exact (Hhybrid half 200%Z 50%Z true md s' "doc.pdf" Hrun).
Defined.

(** A cleaned text with a page marker: after a successful
    [formatted_hybrid_summary] the persisted text has lost it. *)
Lemma formatted_hybrid_rewrites_cleaning :
  let r := @formatted_hybrid_summary Demo.working "doc.pdf" half 200 50 true Demo.paged_service in
  (exists v, fst r = Ok v)
  /\ artifact_text (outputs Demo.paged_service !! Path.cleaning_metadata "doc.pdf")
     = Some ("Annual report Page 12 " +:+ Demo.three_text)
  /\ artifact_text (outputs (snd r) !! Path.cleaning_metadata "doc.pdf")
     = Some ("Annual report  " +:+ Demo.three_text).
Proof.
  intros r. split; [eexists; vm_compute; reflexivity|].
  split; vm_compute; reflexivity.
Qed.

(** A cleaned text of 22 characters: the empty summary is persisted and
    nothing is sent to the pipeline. *)
Lemma short_chunks_are_skipped_witness :
  exists md s',
    @abstractive_summary Demo.working "note.pdf" 150 30 bart_large_cnn true short_service
    = (Ok md, s')
    /\ ab_summary_text md = EmptyString
    /\ pipeline_calls s' = nil.
Proof.
  destruct (@short_chunks_are_skipped Demo.working short_service "note.pdf" 150 30 bart_large_cnn
              (Demo.cleaning "Cats sleep. Dogs bark." ["Cats sleep."; "Dogs bark."]))
    as (Hshort & _ & Hrun).
  destruct Hrun as (md & s' & Hmd & Htext & _ & _ & Hcalls).
  - reflexivity.
  - vm_compute. reflexivity.
  - apply Hshort. vm_compute. lia.
  - right. reflexivity.
  - exists md, s'. split; [exact Hmd|]. split; [exact Htext | exact Hcalls].
Defined.

(** A text of fifty letters makes one chunk of 51 characters, the text and
    a full stop, and that chunk is sent to the pipeline. *)
Lemma fifty_characters_are_sent :
  let r := @_pipeline_summarize Demo.working fifty_a 150 30 (loaded (Demo.service_with nil)) in
  String.length fifty_a = 50%nat
  /\ make_chunks 1000 fifty_a = (fifty_a +:+ ".") :: nil
  /\ pipeline_calls (snd r) = (fifty_a +:+ ".") :: nil
  /\ fst r = Ok "aaaaaaaaaaaaaaaaaaaa".
Proof.
  intros r. split; [reflexivity|]. split; [vm_compute; reflexivity|].
  split; vm_compute; reflexivity.
Qed.

(** C2. With a pipeline that raises, [hybrid_summary] raises too and the
    document's cleaning artifact is left with the extractive summary as its
    text instead of the text it held before the call. *)
Theorem hybrid_failure_leaves_override :
  let r := @hybrid_summary Demo.failing_pipeline "doc.pdf" half 200 50 true Demo.doc_service in
  fst r = Raise CollaboratorError
  /\ artifact_text (outputs Demo.doc_service !! Path.cleaning_metadata "doc.pdf")
     = Some ("Cats sleep all day long inside the warm and quiet house. "
             +:+ "Dogs bark at the postman every single morning of the week. "
             +:+ "Cats and dogs rarely share the same basket in the kitchen.")
  /\ artifact_text (outputs (snd r) !! Path.cleaning_metadata "doc.pdf")
     = Some "Cats sleep all day long inside the warm and quiet house.".
Proof.
  intros r. split; [vm_compute; reflexivity|]. split; vm_compute; reflexivity.
Qed.

(** C6. After a successful [formatted_hybrid_summary] the record lies under
    [<root>_formatted_summary.json], and [get_summary] with the type
    [formatted_hybrid] looks under [<root>_formatted_hybrid_summary_metadata.json]
    and raises [FileNotFoundError]. *)
Theorem formatted_hybrid_not_retrievable :
  let r := @formatted_hybrid_summary Demo.working "doc.pdf" half 200 50 true Demo.doc_service in
  (exists v, fst r = Ok v
             /\ outputs (snd r) !! "outputs/doc_formatted_summary.json"
                = Some (JsonFile (JFormatted (fst v))))
  /\ fst (get_summary "doc.pdf" "formatted_hybrid" (snd r)) = Raise FileNotFoundError.
Proof.
  intros r. split.
  - eexists. split; vm_compute; reflexivity.
  - vm_compute. reflexivity.
Qed.

(** ** Retrieval with [get_summary] *)

Lemma get_summary_found (filename summary_type : string) (s : service) (j : json_record) :
  outputs s !! Path.of_stage filename ("_" +:+ summary_type +:+ "_summary_metadata.json")
  = Some (JsonFile j) ->
  get_summary filename summary_type s = (Ok j, s).
Proof.
  intros Hj. unfold get_summary. unfold bind at 1.
  rewrite path_exists_run, Hj, bool_decide_true by eauto. cbn [negb].
  unfold read_json, bind, get. simpl. rewrite Hj. reflexivity.
Qed.

Lemma get_summary_absent (filename summary_type : string) (s : service) :
  outputs s !! Path.of_stage filename ("_" +:+ summary_type +:+ "_summary_metadata.json")
  = None ->
  get_summary filename summary_type s = (Raise FileNotFoundError, s).
Proof.
  intros Hj. unfold get_summary. unfold bind at 1.
  rewrite path_exists_run, Hj, bool_decide_false; [reflexivity|].
  intros [x Hx]. discriminate.
Qed.

Lemma if_raise_ok_inv {A} (b : bool) (e : exn) (m : M A) s a s' :
  (if b then raise e else m) s = (Ok a, s') -> b = false /\ m s = (Ok a, s').
Proof. destruct b; intros E; [discriminate | auto]. Qed.

Section Retrieval.
Context `{Externals}.

(** The record [extractive_summary] returns is the one [get_summary]
    finds under the type [extractive]. *)
Lemma get_summary_after_extractive filename ratio algorithm use_cache s md s' :
  extractive_summary filename ratio algorithm use_cache s = (Ok md, s') ->
  get_summary filename "extractive" s' = (Ok (JExtractive md), s').
Proof.
  unfold extractive_summary. intros E.
  apply bind_ok_inv in E. destruct E as (present & s1 & _ & E).
  apply if_raise_ok_inv in E. destruct E as [_ E].
  apply bind_ok_inv in E. destruct E as (c & s2 & _ & E).
  apply if_raise_ok_inv in E. destruct E as [_ E].
  apply bind_ok_inv in E. destruct E as (out & s3 & _ & E).
  apply bind_ok_inv in E. destruct E as ([] & s4 & Hw1 & E).
  apply bind_ok_inv in E. destruct E as ([] & s5 & Hw2 & E).
  inversion E; subst. clear E.
  apply get_summary_found.
  unfold write_file, modify in Hw2. inversion Hw2; subst. simpl.
  apply lookup_insert_eq.
Qed.

Lemma get_summary_after_abstractive filename max_length min_length model use_pipeline s md s' :
  abstractive_summary filename max_length min_length model use_pipeline s = (Ok md, s') ->
  get_summary filename "abstractive" s' = (Ok (JAbstractive md), s').
Proof.
  unfold abstractive_summary. intros E.
  apply if_raise_ok_inv in E. destruct E as [_ E].
  apply bind_ok_inv in E. destruct E as (present & s1 & _ & E).
  apply if_raise_ok_inv in E. destruct E as [_ E].
  apply bind_ok_inv in E. destruct E as (c & s2 & _ & E).
  apply bind_ok_inv in E. destruct E as (s0 & s3 & _ & E).
  apply bind_ok_inv in E. destruct E as ([] & s4 & _ & E).
  apply bind_ok_inv in E. destruct E as (s1' & s5 & _ & E).
  apply bind_ok_inv in E. destruct E as (text & s6 & _ & E).
  apply bind_ok_inv in E. destruct E as ([] & s7 & Hw1 & E).
  apply bind_ok_inv in E. destruct E as ([] & s8 & Hw2 & E).
  inversion E; subst. clear E.
  apply get_summary_found.
  unfold write_file, modify in Hw2. inversion Hw2; subst. simpl.
  apply lookup_insert_eq.
Qed.

Lemma get_summary_after_hybrid filename ratio max_length min_length use_pipeline s md s' :
  hybrid_summary filename ratio max_length min_length use_pipeline s = (Ok md, s') ->
  get_summary filename "hybrid" s' = (Ok (JHybrid md), s').
Proof.
  unfold hybrid_summary. intros E.
  apply bind_ok_inv in E. destruct E as (ex & s1 & _ & E).
  apply bind_ok_inv in E. destruct E as (c & s2 & _ & E).
  apply bind_ok_inv in E. destruct E as ([] & s3 & _ & E).
  apply bind_ok_inv in E. destruct E as (ab & s4 & _ & E).
  apply bind_ok_inv in E. destruct E as ([] & s5 & _ & E).
  apply bind_ok_inv in E. destruct E as ([] & s6 & Hw1 & E).
  apply bind_ok_inv in E. destruct E as ([] & s7 & Hw2 & E).
  inversion E; subst. clear E.
  apply get_summary_found.
  unfold write_file, modify in Hw2. inversion Hw2; subst. simpl.
  apply lookup_insert_eq.
Qed.

(** [formatted_hybrid_summary] writes no file that [get_summary] reads
    for the type [formatted_hybrid]: a record absent before the call is
    absent after it. *)
Lemma get_summary_after_formatted filename ratio max_length min_length use_pipeline s :
  outputs s !! Path.of_stage filename "_formatted_hybrid_summary_metadata.json" = None ->
  get_summary filename "formatted_hybrid"
    (snd (formatted_hybrid_summary filename ratio max_length min_length use_pipeline s))
  = (Raise FileNotFoundError,
     snd (formatted_hybrid_summary filename ratio max_length min_length use_pipeline s)).
Proof.
  intros Hnone. apply get_summary_absent.
  change ("_" +:+ "formatted_hybrid" +:+ "_summary_metadata.json")
    with "_formatted_hybrid_summary_metadata.json".
  rewrite <- Hnone. apply touches_formatted_hybrid_summary.
  repeat (apply not_elem_of_cons; split);
    [apply not_eq_sym, cleaning_not_stage; tails
    | apply of_stage_differ; tails ..
    | apply not_elem_of_nil].
Qed.

(** After a successful extractive, abstractive or hybrid run,
  [get_summary] with the matching type returns the record the run
  returned. *)
Theorem get_summary_returns_persisted_record (s s' : service) (filename : string) :
(forall ratio algorithm use_cache md,
    extractive_summary filename ratio algorithm use_cache s = (Ok md, s') ->
    get_summary filename "extractive" s' = (Ok (JExtractive md), s'))
/\ (forall max_length min_length model use_pipeline md,
      abstractive_summary filename max_length min_length model use_pipeline s = (Ok md, s') ->
      get_summary filename "abstractive" s' = (Ok (JAbstractive md), s'))
/\ (forall ratio max_length min_length use_pipeline md,
      hybrid_summary filename ratio max_length min_length use_pipeline s = (Ok md, s') ->
      get_summary filename "hybrid" s' = (Ok (JHybrid md), s')).
Proof.
split; [|split].
- intros ratio algorithm use_cache md. apply get_summary_after_extractive.
- intros max_length min_length model use_pipeline md. apply get_summary_after_abstractive.
- intros ratio max_length min_length use_pipeline md. apply get_summary_after_hybrid.
Qed.

(** Whatever [formatted_hybrid_summary] does, a record that was absent
  under [<root>_formatted_hybrid_summary_metadata.json] stays absent, and
  [get_summary] with the type [formatted_hybrid] raises
  [FileNotFoundError]. *)
Theorem formatted_record_out_of_reach (s : service) (filename : string) (ratio : Qc)
  (max_length min_length : Z) (use_pipeline : bool) :
outputs s !! Path.of_stage filename "_formatted_hybrid_summary_metadata.json" = None ->
fst (get_summary filename "formatted_hybrid"
       (snd (formatted_hybrid_summary filename ratio max_length min_length use_pipeline s)))
= Raise FileNotFoundError.
Proof.
intros Hnone. rewrite get_summary_after_formatted by exact Hnone. reflexivity.
Qed.

(** When the extractive step succeeds and the abstractive step raises on
  the overridden artifact, [hybrid_summary] raises the same exception and
  leaves the extractive summary as the artifact's cleaned text. *)
Theorem hybrid_failure_keeps_override (s s1 s3 : service) (filename : string) (ratio : Qc)
  (max_length min_length : Z) (use_pipeline : bool) (ex : extractive_metadata)
  (c : cleaning_data) (e : exn) :
extractive_summary filename ratio "textrank" true s = (Ok ex, s1) ->
outputs s !! Path.cleaning_metadata filename = Some (JsonFile (JCleaning c)) ->
abstractive_summary filename max_length min_length bart_large_cnn use_pipeline
  (set_outputs (insert (Path.cleaning_metadata filename)
                  (JsonFile (JCleaning (set_cleaned_text (ex_summary_text ex) c)))) s1)
= (Raise e, s3) ->
hybrid_summary filename ratio max_length min_length use_pipeline s = (Raise e, s3)
/\ artifact_text (outputs s3 !! Path.cleaning_metadata filename)
   = Some (ex_summary_text ex).
Proof.
intros Hex Hc Hab.
destruct (hybrid_summary_failure filename ratio max_length min_length use_pipeline
            s ex s1 c e s3 Hex Hc Hab) as [Hrun Hfile].
split; [exact Hrun|]. rewrite Hfile. destruct c. reflexivity.
Qed.

End Retrieval.

(** The three retrievable types on the three-sentence document. *)
Lemma get_summary_returns_persisted_record_witness :
  exists md s',
    @extractive_summary Demo.working "doc.pdf" half "tfidf" true Demo.doc_service = (Ok md, s')
    /\ @get_summary "doc.pdf" "extractive" s' = (Ok (JExtractive md), s').
Proof.
  destruct (@extractive_summary Demo.working "doc.pdf" half "tfidf" true Demo.doc_service)
    as [[md|e] s'] eqn:Hrun; [|vm_compute in Hrun; discriminate Hrun].
  exists md, s'. split; [reflexivity|].
  destruct (@get_summary_returns_persisted_record Demo.working Demo.doc_service s' "doc.pdf")
    as [Hextractive _].
  exact (Hextractive half "tfidf" true md Hrun).
Defined.

(** The formatted record of the three-sentence document cannot be read back. *)
Lemma formatted_record_out_of_reach_witness :
  fst (get_summary "doc.pdf" "formatted_hybrid"
         (snd (@formatted_hybrid_summary Demo.working "doc.pdf" half 200 50 true
                 Demo.doc_service)))
  = Raise FileNotFoundError.
Proof.
  exact (@formatted_record_out_of_reach Demo.working Demo.doc_service "doc.pdf" half
           200%Z 50%Z true (eq_refl : outputs Demo.doc_service
             !! Path.of_stage "doc.pdf" "_formatted_hybrid_summary_metadata.json" = None)).
Defined.

(** The raising pipeline on the three-sentence document. *)
Lemma hybrid_failure_keeps_override_witness :
  exists s3,
    @hybrid_summary Demo.failing_pipeline "doc.pdf" half 200 50 true Demo.doc_service
    = (Raise CollaboratorError, s3)
    /\ artifact_text (outputs s3 !! Path.cleaning_metadata "doc.pdf")
       = Some "Cats sleep all day long inside the warm and quiet house.".
Proof.
  destruct (@extractive_summary Demo.failing_pipeline "doc.pdf" half "textrank" true
              Demo.doc_service) as [[ex|e] s1] eqn:Hex; [|vm_compute in Hex; discriminate Hex].
  destruct (@abstractive_summary Demo.failing_pipeline "doc.pdf" 200 50 bart_large_cnn true
              (set_outputs (insert (Path.cleaning_metadata "doc.pdf")
                 (JsonFile (JCleaning (set_cleaned_text (ex_summary_text ex)
                    (Demo.cleaning Demo.three_text Demo.three_sentences))))) s1))
    as [[ab|e] s3] eqn:Hab.
  { exfalso. vm_compute in Hex. inversion Hex; subst. vm_compute in Hab. discriminate Hab. }
  destruct (@hybrid_failure_keeps_override Demo.failing_pipeline Demo.doc_service s1 s3
              "doc.pdf" half 200%Z 50%Z true ex
              (Demo.cleaning Demo.three_text Demo.three_sentences) e Hex demo_doc_lookup Hab)
    as [Hrun Htext].
  exists s3. vm_compute in Hex. inversion Hex; subst.
  vm_compute in Hab. inversion Hab; subst. split; [exact Hrun | exact Htext].
Defined.

Local Close Scope Qc_scope.

(** * Further properties of the summarizer

    ** What a successful [extractive_summary] returns *)

Local Open Scope Qc_scope.

Lemma select_top_inv {A} (scores : list Qc) (sents : list A) (k : nat) (out : list A) :
  select_top scores sents k = Ok out ->
  (length sents <= length scores)%nat
  /\ out = map snd (take k (sort_desc (zip scores sents))).
Proof.
  intros Hsel.
  destruct (le_lt_dec (length sents) (length scores)) as [Hle|Hlt].
  - split; [exact Hle|].
    unfold select_top in Hsel. rewrite (sentence_scores_zip _ _ Hle) in Hsel.
    inversion Hsel. reflexivity.
  - unfold select_top in Hsel. rewrite (sentence_scores_short _ _ Hlt) in Hsel.
    discriminate.
Qed.

Lemma select_top_submseteq {A} (scores : list Qc) (sents : list A) (k : nat) (out : list A) :
  select_top scores sents k = Ok out -> out ⊆+ sents.
Proof.
  intros Hsel. destruct (select_top_inv _ _ _ _ Hsel) as [Hle ->].
  transitivity (map snd (sort_desc (zip scores sents))).
  - change (snd <$> take k (sort_desc (zip scores sents))
            ⊆+ snd <$> sort_desc (zip scores sents)).
    apply fmap_submseteq, sublist_submseteq, sublist_take.
  - apply Permutation_submseteq.
    rewrite <- (sort_desc_perm (zip scores sents)).
    change (map snd (zip scores sents)) with ((zip scores sents).*2).
    rewrite snd_zip by exact Hle. reflexivity.
Qed.

Lemma select_top_all {A} (scores : list Qc) (sents : list A) (k : nat) (out : list A) :
  select_top scores sents k = Ok out -> (length sents <= k)%nat -> Permutation out sents.
Proof.
  intros Hsel Hk. destruct (select_top_inv _ _ _ _ Hsel) as [Hle ->].
  rewrite take_ge.
  - rewrite <- (sort_desc_perm (zip scores sents)).
    change (map snd (zip scores sents)) with ((zip scores sents).*2).
    rewrite snd_zip by exact Hle. reflexivity.
  - rewrite sort_desc_length, length_zip. lia.
Qed.

Lemma select_top_count {A} (scores : list Qc) (sents : list A) (k : nat) (out : list A) :
  select_top scores sents k = Ok out -> length out = Nat.min k (length sents).
Proof.
  intros Hsel. destruct (select_top_inv _ _ _ _ Hsel) as [Hle ->].
  rewrite length_map, length_take, sort_desc_length, length_zip. lia.
Qed.

Lemma Qcinv_pos (x : Qc) : 0 < x -> 0 < / x.
Proof.
  intros Hx. change (0 < Qred (/ this x))%Q.
  rewrite Qred_correct. apply Qinv_lt_0_compat. exact Hx.
Qed.

Lemma Qc_of_nat_pos (n : nat) : (0 < n)%nat -> 0 < Qc_of_nat n.
Proof.
  intros Hn.
  destruct (Qcle_lt_or_eq _ _ (Qc_of_nat_nonneg n)) as [Hlt|Heq]; [exact Hlt|].
  exfalso. apply (Qc_of_nat_nonzero n); [lia | symmetry; exact Heq].
Qed.

Lemma Qc_of_nat_le (m n : nat) : (m <= n)%nat -> Qc_of_nat m <= Qc_of_nat n.
Proof.
  intros Hmn. unfold Qc_of_nat, Qc_of_Z, Qcle. cbn [this Q2Qc].
  rewrite !Qred_correct. rewrite <- Zle_Qle. lia.
Qed.

Lemma Qcmult_pos (x y : Qc) : 0 < x -> 0 < y -> 0 < x * y.
Proof.
  intros Hx Hy. rewrite <- (Qcmult_0_l y). apply Qcmult_lt_compat_r; assumption.
Qed.

Lemma lift_ok_inv {A} (o : outcome A) (s : service) (a : A) (s' : service) :
  lift o s = (Ok a, s') -> o = Ok a /\ s' = s.
Proof. unfold lift. intros Heq. inversion Heq. auto. Qed.

Section ExtractiveResults.
Context `{Externals}.

(** Whatever the ranker, its result is a selection from scores. *)
Lemma rankers_inv (algorithm : string) (sents : list string) (use_cache : bool) (k : nat)
    (s : service) (out : list string) (s' : service) :
  (if String.eqb algorithm "textrank"
   then _optimized_textrank_summarize sents k use_cache
   else if String.eqb algorithm "tfidf"
   then _optimized_tfidf_summarize sents k
   else if String.eqb algorithm "lsa"
   then _optimized_lsa_summarize sents k
   else raise ValueError) s = (Ok out, s') ->
  (exists scores, select_top scores sents k = Ok out)
  /\ outputs s' = outputs s.
Proof.
  destruct (String.eqb algorithm "textrank").
  { unfold _optimized_textrank_summarize. intros Hrun.
    apply bind_ok_inv in Hrun. destruct Hrun as (M & s1 & Hm & Hrun).
    apply bind_ok_inv in Hrun. destruct Hrun as (scores & s2 & Hp & Hrun).
    apply lift_ok_inv in Hp. destruct Hp as [_ ->].
    apply lift_ok_inv in Hrun. destruct Hrun as [Hsel ->].
    split; [eauto|].
    rewrite <- (similarity_matrix_for_outputs sents use_cache s), Hm. reflexivity. }
  destruct (String.eqb algorithm "tfidf").
  { unfold _optimized_tfidf_summarize. intros Hrun.
    apply bind_ok_inv in Hrun. destruct Hrun as (scores & s2 & Hp & Hrun).
    apply lift_ok_inv in Hp. destruct Hp as [_ ->].
    apply lift_ok_inv in Hrun. destruct Hrun as [Hsel ->]. eauto. }
  destruct (String.eqb algorithm "lsa").
  { unfold _optimized_lsa_summarize. intros Hrun.
    apply bind_ok_inv in Hrun. destruct Hrun as (scores & s2 & Hp & Hrun).
    apply lift_ok_inv in Hp. destruct Hp as [_ ->].
    apply lift_ok_inv in Hrun. destruct Hrun as [Hsel ->]. eauto. }
  discriminate.
Qed.

(** A successful run read a cleaning record with at least one sentence,
    selected from it, and wrote its two files. *)
Lemma extractive_summary_ok_inv (filename : string) (ratio : Qc) (algorithm : string)
    (use_cache : bool) (s : service) (md : extractive_metadata) (s' : service) :
  extractive_summary filename ratio algorithm use_cache s = (Ok md, s') ->
  exists c scores,
    outputs s !! Path.cleaning_metadata filename = Some (JsonFile (JCleaning c))
    /\ (0 < length (sentences c))%nat
    /\ select_top scores (sentences c)
         (Z.to_nat (num_sentences_for (length (sentences c)) ratio))
       = Ok (ex_summary_sentences md)
    /\ md = ExtractiveMetadata (PyStr.join " " (ex_summary_sentences md))
              (ex_summary_sentences md) (length (sentences c))
              (Qc_of_nat (length (ex_summary_sentences md)) / Qc_of_nat (length (sentences c)))
              algorithm ratio (Path.of_stage filename "_extractive_summary.txt") "optimized"
    /\ outputs s' = with_extractive filename md (outputs s).
Proof.
  unfold extractive_summary. intros Hrun.
  apply bind_ok_inv in Hrun. destruct Hrun as (present & s1 & Hp & Hrun).
  rewrite path_exists_run in Hp. inversion Hp; subst present s1; clear Hp.
  apply if_raise_ok_inv in Hrun. destruct Hrun as [_ Hrun].
  apply bind_ok_inv in Hrun. destruct Hrun as (c & s1 & Hc & Hrun).
  apply read_cleaning_ok_inv in Hc. destruct Hc as [-> Hc].
  apply if_raise_ok_inv in Hrun. destruct Hrun as [Hn Hrun].
  apply bind_ok_inv in Hrun. destruct Hrun as (out & s2 & Hrank & Hrun).
  apply rankers_inv in Hrank. destruct Hrank as [[scores Hsel] Hout].
  unfold bind, write_file, modify, ret in Hrun. cbn in Hrun.
  inversion Hrun; subst md s'; clear Hrun. cbn.
  exists c, scores. split; [exact Hc|].
  split; [apply Nat.eqb_neq in Hn; lia|].
  split; [exact Hsel|]. split; [reflexivity|].
  unfold with_extractive. cbn. rewrite Hout. reflexivity.
Qed.

(** Whenever [extractive_summary] returns, every sentence of the summary
    is a sentence of the cleaned corpus, taken at most as often as it
    occurs there; the summary text is these sentences joined by single
    spaces, and it is the content of the text file written. *)
Theorem extractive_summary_draws_from_corpus (filename : string) (ratio : Qc)
    (algorithm : string) (use_cache : bool) (s : service)
    (md : extractive_metadata) (s' : service) :
  extractive_summary filename ratio algorithm use_cache s = (Ok md, s') ->
  exists c,
    outputs s !! Path.cleaning_metadata filename = Some (JsonFile (JCleaning c))
    /\ ex_summary_sentences md ⊆+ sentences c
    /\ ex_summary_text md = PyStr.join " " (ex_summary_sentences md)
    /\ outputs s' !! Path.of_stage filename "_extractive_summary.txt"
       = Some (TextFile (PyStr.join " " (ex_summary_sentences md))).
Proof.
  intros Hrun.
  destruct (extractive_summary_ok_inv _ _ _ _ _ _ _ Hrun)
    as (c & scores & Hc & Hn & Hsel & Hmd & Hout).
  exists c. split; [exact Hc|].
  split; [exact (select_top_submseteq _ _ _ _ Hsel)|].
  split; [rewrite Hmd at 1; reflexivity|].
  rewrite Hout. unfold with_extractive.
  rewrite lookup_insert_ne.
  - rewrite lookup_insert_eq. rewrite Hmd at 1. reflexivity.
  - apply of_stage_differ. tails.
Qed.

Lemma py_int_scaled_ge (n : nat) (r : Qc) :
  1 <= r -> (Z.of_nat n <= py_int (Qc_of_nat n * r))%Z.
Proof.
  intros Hr.
  assert (Hn : 0 <= Qc_of_nat n) by apply Qc_of_nat_nonneg.
  assert (Hle : Qc_of_nat n <= Qc_of_nat n * r).
  { rewrite <- (Qcmult_1_r (Qc_of_nat n)) at 1.
    rewrite (Qcmult_comm (Qc_of_nat n) 1), (Qcmult_comm (Qc_of_nat n) r).
    apply Qcmult_le_compat_r; assumption. }
  rewrite py_int_floor by (eapply Qcle_trans; eassumption).
  assert (Hfl : Qfloor (Qc_of_nat n) = Z.of_nat n).
  { unfold Qc_of_nat, Qc_of_Z. cbn [this Q2Qc].
    rewrite (Qfloor_comp _ (inject_Z (Z.of_nat n))) by apply Qred_correct.
    apply Qfloor_Z. }
  rewrite <- Hfl. apply Qfloor_resp_le. exact Hle.
Qed.

(** Whenever [extractive_summary] returns, the compression ratio it
    reports is the number of summary sentences over the number of corpus
    sentences, it is positive and at most one; for a ratio of one or more
    the summary is a rearrangement of the whole corpus and the
    compression ratio is exactly one. *)
Theorem extractive_compression_ratio_bounds (filename : string) (ratio : Qc)
    (algorithm : string) (use_cache : bool) (s : service)
    (md : extractive_metadata) (s' : service) :
  extractive_summary filename ratio algorithm use_cache s = (Ok md, s') ->
  ex_compression_ratio md
  = Qc_of_nat (length (ex_summary_sentences md)) / Qc_of_nat (ex_original_sentences md)
  /\ 0 < ex_compression_ratio md
  /\ ex_compression_ratio md <= 1
  /\ (1 <= ratio ->
      ex_compression_ratio md = 1
      /\ exists c,
           outputs s !! Path.cleaning_metadata filename = Some (JsonFile (JCleaning c))
           /\ Permutation (ex_summary_sentences md) (sentences c)).
Proof.
  intros Hrun.
  destruct (extractive_summary_ok_inv _ _ _ _ _ _ _ Hrun)
    as (c & scores & Hc & Hn & Hsel & Hmd & Hout).
  pose proof (select_top_count _ _ _ _ Hsel) as Hcount.
  set (n := length (sentences c)) in *.
  set (m := length (ex_summary_sentences md)) in *.
  assert (Hk : (1 <= Z.to_nat (num_sentences_for n ratio))%nat).
  { unfold num_sentences_for. lia. }
  assert (Hm : (1 <= m <= n)%nat) by lia.
  assert (Hcr : ex_compression_ratio md = Qc_of_nat m / Qc_of_nat n).
  { rewrite Hmd at 1. reflexivity. }
  assert (Hon : ex_original_sentences md = n).
  { rewrite Hmd at 1. reflexivity. }
  assert (Hnpos : 0 < Qc_of_nat n) by (apply Qc_of_nat_pos; lia).
  assert (Hmpos : 0 < Qc_of_nat m) by (apply Qc_of_nat_pos; lia).
  assert (Hinv : 0 < / Qc_of_nat n) by (apply Qcinv_pos; exact Hnpos).
  assert (Hmn : Qc_of_nat m <= Qc_of_nat n) by (apply Qc_of_nat_le; lia).
  assert (Hnz : Qc_of_nat n <> 0) by (apply Qc_of_nat_nonzero; lia).
  split; [rewrite Hon; exact Hcr|].
  split.
  { rewrite Hcr. unfold Qcdiv. apply Qcmult_pos; assumption. }
  split.
  { rewrite Hcr. unfold Qcdiv.
    rewrite <- (Qcmult_inv_r (Qc_of_nat n)) by exact Hnz.
    apply Qcmult_le_compat_r; [exact Hmn | apply Qclt_le_weak; exact Hinv]. }
  intros Hr.
  assert (Hall : (n <= Z.to_nat (num_sentences_for n ratio))%nat).
  { unfold num_sentences_for. pose proof (py_int_scaled_ge n ratio Hr). lia. }
  assert (Hmn' : m = n) by lia.
  split.
  - rewrite Hcr, Hmn'. unfold Qcdiv. apply Qcmult_inv_r. exact Hnz.
  - exists c. split; [exact Hc|]. exact (select_top_all _ _ _ _ Hsel Hall).
Qed.

End ExtractiveResults.

(** Three sentences at ratio one half: the summary is one sentence of the
    three. *)
Lemma extractive_summary_draws_from_corpus_witness :
  exists md s' c,
    @extractive_summary Demo.working "doc.pdf" half "textrank" true Demo.doc_service
    = (Ok md, s')
    /\ outputs Demo.doc_service !! Path.cleaning_metadata "doc.pdf"
       = Some (JsonFile (JCleaning c))
    /\ ex_summary_sentences md ⊆+ sentences c.
Proof.
  destruct (@extractive_summary Demo.working "doc.pdf" half "textrank" true Demo.doc_service)
    as [[md|e] s'] eqn:Hrun; [|vm_compute in Hrun; discriminate Hrun].
  destruct (@extractive_summary_draws_from_corpus Demo.working _ _ _ _ _ _ _ Hrun)
    as (c & Hc & Hsub & _).
  exists md, s', c. split; [reflexivity|]. split; assumption.
Defined.

(** Three sentences at ratio two: all three are returned. *)
Lemma extractive_compression_ratio_bounds_witness :
  exists md s',
    @extractive_summary Demo.working "doc.pdf" (Q2Qc 2) "tfidf" true Demo.doc_service
    = (Ok md, s')
    /\ 0 < ex_compression_ratio md /\ ex_compression_ratio md <= 1.
Proof.
  destruct (@extractive_summary Demo.working "doc.pdf" (Q2Qc 2) "tfidf" true Demo.doc_service)
    as [[md|e] s'] eqn:Hrun; [|vm_compute in Hrun; discriminate Hrun].
  destruct (@extractive_compression_ratio_bounds Demo.working _ _ _ _ _ _ _ Hrun)
    as (_ & Hpos & Hle & _).
  exists md, s'. split; [reflexivity|]. split; assumption.
Defined.

Local Close Scope Qc_scope.

(** ** The scores of the graph ranker *)

Local Open Scope Qc_scope.

Lemma Qcmult_nonneg (x y : Qc) : 0 <= x -> 0 <= y -> 0 <= x * y.
Proof.
  intros Hx Hy. rewrite <- (Qcmult_0_l y). apply Qcmult_le_compat_r; assumption.
Qed.

Lemma Qcplus_nonneg (x y : Qc) : 0 <= x -> 0 <= y -> 0 <= x + y.
Proof.
  intros Hx Hy. rewrite <- (Qcplus_0_l 0). apply Qcplus_le_compat; assumption.
Qed.

Lemma Qcle_plus_nonneg (x y : Qc) : 0 <= y -> x <= x + y.
Proof.
  intros Hy. rewrite <- (Qcplus_0_r x) at 1.
  apply Qcplus_le_compat; [apply Qcle_refl | exact Hy].
Qed.

Lemma sumQc_nonneg (l : list Qc) : Forall (fun x => 0 <= x) l -> 0 <= sumQc l.
Proof.
  induction 1 as [|x l Hx _ IH]; simpl.
  - apply Qcle_refl.
  - apply Qcplus_nonneg; assumption.
Qed.

Lemma nth_nonneg (row : list Qc) (j : nat) :
  Forall (fun x => 0 <= x) row -> 0 <= nth j row 0.
Proof.
  intros Hrow. revert j. induction Hrow as [|x row Hx _ IH]; intros [|j]; simpl;
    try apply Qcle_refl; auto.
Qed.

Lemma column_products_nonneg (M : matrix) (s : list Qc) (j : nat) :
  nonnegative M -> Forall (fun x => 0 <= x) s ->
  Forall (fun x => 0 <= x) (zip_with (fun row x => nth j row 0 * x) M s).
Proof.
  intros HM. revert s. induction HM as [|row M Hrow _ IH]; intros s Hs; simpl.
  - constructor.
  - destruct Hs as [|x s Hx Hs]; constructor.
    + apply Qcmult_nonneg; [apply nth_nonneg; exact Hrow | exact Hx].
    + apply IH. exact Hs.
Qed.

(** The update keeps every score at or above [(1 - d) / n]. *)
Lemma new_scores_bounded_below (M : matrix) (d : Qc) (s : list Qc) :
  nonnegative M -> 0 <= d -> Forall (fun x => 0 <= x) s ->
  Forall (fun x => (1 - d) / Qc_of_nat (length M) <= x) (new_scores M d s).
Proof.
  intros HM Hd Hs. unfold new_scores, T_dot.
  rewrite map_map. apply Forall_forall. intros x Hx.
  apply list_elem_of_In, in_map_iff in Hx. destruct Hx as (j & <- & _).
  apply Qcle_plus_nonneg. apply Qcmult_nonneg; [exact Hd|].
  apply sumQc_nonneg, column_products_nonneg; assumption.
Qed.

Lemma floor_nonneg (M : matrix) (d : Qc) :
  (0 < length M)%nat -> d <= 1 -> 0 <= (1 - d) / Qc_of_nat (length M).
Proof.
  intros Hn Hd. unfold Qcdiv. apply Qcmult_nonneg.
  - unfold Qcminus. apply Qcle_minus_iff in Hd. exact Hd.
  - apply Qclt_le_weak, Qcinv_pos, Qc_of_nat_pos. exact Hn.
Qed.

Lemma uniform_bounded_below (n : nat) (d : Qc) :
  (0 < n)%nat -> 0 <= d ->
  Forall (fun x => (1 - d) / Qc_of_nat n <= x) (uniform n).
Proof.
  intros Hn Hd. unfold uniform. apply Forall_forall. intros x Hx.
  apply elem_of_replicate in Hx. destruct Hx as [-> _].
  unfold Qcdiv. apply Qcmult_le_compat_r.
  - apply Qcle_minus_iff. unfold Qcminus.
    replace (1 + - (1 + - d)) with d by ring. exact Hd.
  - apply Qclt_le_weak, Qcinv_pos, Qc_of_nat_pos. exact Hn.
Qed.

Lemma Forall_le_trans (lo : Qc) (l : list Qc) :
  0 <= lo -> Forall (fun x => lo <= x) l -> Forall (fun x => 0 <= x) l.
Proof.
  intros Hlo Hl. eapply Forall_impl; [exact Hl|].
  intros x Hx. eapply Qcle_trans; eassumption.
Qed.

Lemma iterate_bounded_below (M : matrix) (d : Qc) (k : nat) :
  (0 < length M)%nat -> nonnegative M -> 0 <= d -> d <= 1 ->
  Forall (fun x => (1 - d) / Qc_of_nat (length M) <= x) (iterate M d k).
Proof.
  intros Hn HM Hd0 Hd1. induction k as [|k IH].
  - apply uniform_bounded_below; assumption.
  - change (iterate M d (S k)) with (new_scores M d (iterate M d k)).
    apply new_scores_bounded_below; [exact HM | exact Hd0 |].
    apply (Forall_le_trans ((1 - d) / Qc_of_nat (length M)));
      [apply floor_nonneg; assumption | exact IH].
Qed.

(** For a square similarity matrix with at least one row and no negative
    entry, and a damping factor between zero and one, the ranker returns
    one score per row, every score is at least [(1 - damping) / n], and
    none is negative. *)
Theorem pagerank_scores_bounded_below (M : matrix) (d : Qc) (max_iter : nat) :
  (0 < length M)%nat -> square M -> nonnegative M -> 0 <= d -> d <= 1 ->
  exists v,
    _pagerank M d max_iter = Ok v
    /\ length v = length M
    /\ Forall (fun x => (1 - d) / Qc_of_nat (length M) <= x) v
    /\ Forall (fun x => 0 <= x) v.
Proof.
  intros Hn _ HM Hd0 Hd1.
  exists (pr_scores (pagerank_run M d max_iter)).
  split; [apply pagerank_ok; exact Hn|].
  assert (Hit : exists k, pr_scores (pagerank_run M d max_iter) = iterate M d k).
  { destruct (pagerank_run_spec M d max_iter) as [[j [_ Hc]]|He].
    - destruct Hc as (_ & _ & Hs & _). eauto.
    - destruct He as (_ & Hs & _). eauto. }
  destruct Hit as [k ->].
  split; [apply iterate_length|].
  assert (Hlo := iterate_bounded_below M d k Hn HM Hd0 Hd1).
  split; [exact Hlo|].
  apply (Forall_le_trans ((1 - d) / Qc_of_nat (length M)));
    [apply floor_nonneg; assumption | exact Hlo].
Qed.

Lemma half_half_nonnegative : nonnegative half_half.
Proof.
  repeat constructor; unfold Qcle; vm_compute; discriminate.
Qed.

Lemma pagerank_scores_bounded_below_witness :
  exists v,
    _pagerank half_half damping_default max_iter_default = Ok v
    /\ Forall (fun x => 0 <= x) v.
Proof.
  destruct (pagerank_scores_bounded_below half_half damping_default max_iter_default)
    as (v & Hv & _ & _ & Hpos).
  - simpl. lia.
  - repeat constructor.
  - exact half_half_nonnegative.
  - unfold Qcle; vm_compute; discriminate.
  - unfold Qcle; vm_compute; discriminate.
  - exists v. split; assumption.
Defined.

(** ** Tied scores: the lead sentences *)

Lemma Qc_ltb_irrefl (v : Qc) : Qc_ltb v v = false.
Proof.
  unfold Qc_ltb. apply negb_false_iff, Qle_bool_iff, Qle_refl.
Qed.

(** Sorting a list of equal scores changes nothing. *)
Lemma sort_desc_constant {A} (v : Qc) (l : list (Qc * A)) :
  Forall (fun p => fst p = v) l -> sort_desc l = l.
Proof.
  induction 1 as [|x l Hx Hl IH]; [reflexivity|].
  change (sort_desc (x :: l)) with (insert_desc x (sort_desc l)). rewrite IH.
  destruct Hl as [|y l Hy _]; [reflexivity|].
  simpl. rewrite Hx, Hy, Qc_ltb_irrefl. reflexivity.
Qed.

Lemma zip_replicate_fst {A} (v : Qc) (n : nat) (l : list A) :
  Forall (fun p => fst p = v) (zip (replicate n v) l).
Proof.
  revert l. induction n as [|n IH]; intros [|x l]; simpl; constructor; auto.
Qed.

Lemma select_top_tied {A} (v : Qc) (sents : list A) (k : nat) :
  select_top (replicate (length sents) v) sents k = Ok (take k sents).
Proof.
  unfold select_top.
  rewrite sentence_scores_zip by (rewrite length_replicate; lia).
  rewrite (sort_desc_constant v) by apply zip_replicate_fst.
  f_equal.
  change (snd <$> take k (zip (replicate (length sents) v) sents) = take k sents).
  rewrite fmap_take, snd_zip by (rewrite length_replicate; lia). reflexivity.
Qed.

Lemma column_of_uniform (M : matrix) (u : Qc) (j : nat) :
  sumQc (zip_with (fun row x => nth j row 0 * x) M (replicate (length M) u))
  = column_sum M j * u.
Proof.
  unfold column_sum. induction M as [|row M IH]; simpl.
  - ring.
  - rewrite IH. ring.
Qed.

Lemma Qcabs_le_1_inv (n : nat) : (0 < n)%nat -> Qcabs (/ Qc_of_nat n) <= 1.
Proof.
  intros Hn.
  assert (Hpos : 0 < Qc_of_nat n) by (apply Qc_of_nat_pos; exact Hn).
  rewrite Qcabs_pos by (apply Qclt_le_weak, Qcinv_pos; exact Hpos).
  apply (Qcmult_lt_0_le_reg_r _ _ (Qc_of_nat n)); [exact Hpos|].
  rewrite Qcmult_inv_l by (apply Qc_of_nat_nonzero; exact Hn).
  rewrite Qcmult_1_l.
  change 1 with (Qc_of_nat 1). apply Qc_of_nat_le. lia.
Qed.

(** With every column sum of the matrix within [atol] of one, the first
    update passes the closeness test. *)
Lemma uniform_is_close (M : matrix) (d : Qc) :
  (0 < length M)%nat -> 0 <= d -> d <= 1 ->
  (forall j, (j < length M)%nat -> Qcabs (1 - column_sum M j) <= atol) ->
  allclose (uniform (length M)) (new_scores M d (uniform (length M))) = true.
Proof.
  intros Hn Hd0 Hd1 Hcol. apply allclose_spec. intros i x y Hx Hy.
  assert (Hi : (i < length M)%nat).
  { apply lookup_lt_Some in Hx. rewrite uniform_length in Hx. exact Hx. }
  unfold uniform in Hx. apply lookup_replicate in Hx. destruct Hx as [-> _].
  rewrite (new_scores_lookup M d _ i Hi) in Hy. inversion Hy; subst y; clear Hy.
  unfold uniform. rewrite column_of_uniform.
  set (n := Qc_of_nat (length M)).
  assert (Hnz : n <> 0) by (apply Qc_of_nat_nonzero; exact Hn).
  set (c := column_sum M i).
  replace (1 / n - ((1 - d) / n + d * (c * (1 / n))))
    with (d * (1 - c) * / n) by (field; exact Hnz).
  eapply Qcle_trans; [|apply Qcle_plus_nonneg].
  - rewrite !Qcabs_Qcmult. rewrite (Qcabs_pos d) by exact Hd0.
    eapply Qcle_trans.
    { apply Qcmult_le_compat_r; [|apply Qcabs_nonneg].
      apply Qcmult_le_compat_r; [exact Hd1 | apply Qcabs_nonneg]. }
    rewrite Qcmult_1_l.
    eapply Qcle_trans.
    { apply Qcmult_le_compat_r; [apply (Hcol i Hi) | apply Qcabs_nonneg]. }
    rewrite <- (Qcmult_1_r atol) at 2.
    rewrite (Qcmult_comm atol (Qcabs (/ n))), (Qcmult_comm atol 1).
    apply Qcmult_le_compat_r; [apply Qcabs_le_1_inv; exact Hn|].
    unfold Qcle; vm_compute; discriminate.
  - apply Qcmult_nonneg; [unfold Qcle; vm_compute; discriminate | apply Qcabs_nonneg].
Qed.

Lemma pagerank_uniform (M : matrix) (d : Qc) (max_iter : nat) :
  (0 < length M)%nat -> 0 <= d -> d <= 1 ->
  (forall j, (j < length M)%nat -> Qcabs (1 - column_sum M j) <= atol) ->
  _pagerank M d max_iter = Ok (uniform (length M))
  /\ (pr_iterations (pagerank_run M d max_iter) <= 1)%nat.
Proof.
  intros Hn Hd0 Hd1 Hcol. rewrite pagerank_ok by exact Hn.
  unfold pagerank_run. destruct max_iter as [|k]; simpl.
  - split; [reflexivity | lia].
  - rewrite (uniform_is_close M d Hn Hd0 Hd1 Hcol). simpl. split; [reflexivity | lia].
Qed.

Lemma sum_indicator (j a n : nat) :
  sumQc (map (fun i => if (i =? j)%nat then 1 else 0) (seq a n))
  = if ((a <=? j) && (j <? a + n))%nat then 1 else 0.
Proof.
  revert a. induction n as [|n IH]; intros a.
  - simpl. destruct ((a <=? j) && (j <? a + 0))%nat eqn:E; [|reflexivity].
    apply andb_true_iff in E. destruct E as [E1 E2].
    apply Nat.leb_le in E1. apply Nat.ltb_lt in E2. lia.
  - change (sumQc (map (fun i => if (i =? j)%nat then 1 else 0) (seq a (S n))))
      with ((if (a =? j)%nat then 1 else 0)
            + sumQc (map (fun i => if (i =? j)%nat then 1 else 0) (seq (S a) n))).
    rewrite IH.
    destruct (a =? j)%nat eqn:E1;
      destruct ((S a <=? j) && (j <? S a + n))%nat eqn:E2;
      destruct ((a <=? j) && (j <? a + S n))%nat eqn:E3;
      try ring; exfalso;
      rewrite ?andb_true_iff, ?andb_false_iff, ?Nat.leb_le, ?Nat.leb_gt,
        ?Nat.ltb_lt, ?Nat.ltb_ge, ?Nat.eqb_eq, ?Nat.eqb_neq in *; lia.
Qed.

Lemma identity_row_sum (n i : nat) :
  (i < n)%nat ->
  sumQc (map (fun j => if (i =? j)%nat then 1 else 0) (seq 0 n)) = 1.
Proof.
  intros Hi.
  rewrite (map_ext _ (fun j => if (j =? i)%nat then 1 else 0))
    by (intros j; rewrite Nat.eqb_sym; reflexivity).
  rewrite sum_indicator. simpl.
  destruct (Nat.ltb_spec i n); [reflexivity | lia].
Qed.

Lemma identity_matrix_length (n : nat) : length (identity_matrix n) = n.
Proof. unfold identity_matrix. rewrite length_map, length_seq. reflexivity. Qed.

(** Every column of the normalised identity sums to [1 / (1 + eps)]. *)
Lemma identity_column_sum (eps : Qc) (n j : nat) :
  (j < n)%nat ->
  column_sum (normalise_rows eps (identity_matrix n)) j = 1 / (1 + eps).
Proof.
  intros Hj. unfold column_sum, normalise_rows, identity_matrix.
  rewrite !map_map.
  rewrite (map_ext_in _ (fun i => (if (i =? j)%nat then 1 else 0) * (1 / (1 + eps)))).
  - rewrite sumQc_map_scale, sum_indicator. simpl.
    destruct (Nat.ltb_spec j n); [ring | lia].
  - intros i Hi. apply in_seq in Hi.
    rewrite identity_row_sum by lia.
    rewrite map_map.
    apply nth_lookup_Some.
    change ((fmap (M := list)
               (fun x => (if (i =? x)%nat then 1 else 0) / (1 + eps)) (seq 0 n)) !! j
            = Some ((if (i =? j)%nat then 1 else 0) * (1 / (1 + eps)))).
    rewrite list_lookup_fmap, lookup_seq_lt by exact Hj. simpl.
    f_equal. unfold Qcdiv. ring.
Qed.

Lemma identity_columns_close (n : nat) :
  forall j, (j < length (normalise_rows epsilon (identity_matrix n)))%nat ->
            Qcabs (1 - column_sum (normalise_rows epsilon (identity_matrix n)) j) <= atol.
Proof.
  intros j Hj. rewrite normalise_rows_length, identity_matrix_length in Hj.
  rewrite identity_column_sum by exact Hj.
  unfold Qcle; vm_compute; discriminate.
Qed.

Section LeadSentences.
Context `{Externals}.

(** If every column of the similarity matrix the graph ranker works on
    (cached or computed, one row per sentence) sums to one within
    [1e-6], the loop stops in its first iteration, every sentence keeps
    the score [1/n], and the summary is the first [num_sentences]
    sentences of the corpus in corpus order. This is so in particular
    when no two sentences share a term, the cosine matrix being the
    identity. *)
Theorem textrank_ties_give_lead_sentences (sents : list string) (k : nat) (s : service) :
  (0 < length sents)%nat ->
  (forall use_cache s1 D,
      similarity_matrix_for sents use_cache s = (Ok D, s1) ->
      length D = length sents ->
      (forall j, (j < length D)%nat -> Qcabs (1 - column_sum D j) <= atol) ->
      _pagerank D damping_default max_iter_default = Ok (uniform (length sents))
      /\ _optimized_textrank_summarize sents k use_cache s = (Ok (take k sents), s1))
  /\ (tfidf_cosine_similarity sents = Ok (identity_matrix (length sents)) ->
      _optimized_textrank_summarize sents k false s = (Ok (take k sents), s)).
Proof.
  intros Hn.
  assert (Hgo : forall use_cache' s' D',
            similarity_matrix_for sents use_cache' s = (Ok D', s') ->
            length D' = length sents ->
            (forall j, (j < length D')%nat -> Qcabs (1 - column_sum D' j) <= atol) ->
            _pagerank D' damping_default max_iter_default = Ok (uniform (length sents))
            /\ _optimized_textrank_summarize sents k use_cache' s
               = (Ok (take k sents), s')).
  { intros use_cache' s' D' Hm Hlen Hcol.
    assert (Hpr : _pagerank D' damping_default max_iter_default
                  = Ok (uniform (length sents))).
    { rewrite <- Hlen. apply pagerank_uniform; [lia | | | exact Hcol];
        unfold Qcle; vm_compute; discriminate. }
    split; [exact Hpr|].
    unfold _optimized_textrank_summarize. unfold bind at 1. rewrite Hm.
    unfold bind, lift. rewrite Hpr. unfold uniform. rewrite select_top_tied.
    reflexivity. }
  split; [apply Hgo|].
  intros HC.
  refine (proj2 (Hgo false s (normalise_rows epsilon (identity_matrix (length sents)))
                   _ _ _)).
  - rewrite similarity_matrix_for_run, HC. reflexivity.
  - rewrite normalise_rows_length, identity_matrix_length. reflexivity.
  - apply identity_columns_close.
Qed.

End LeadSentences.

(** Two sentences that start with different letters: the cosine matrix of
    the concrete collaborators is the identity. *)
Lemma textrank_ties_give_lead_sentences_witness :
  @_optimized_textrank_summarize Demo.working ("Cats sleep." :: "Dogs bark." :: nil) 1 false
    short_service
  = (Ok ("Cats sleep." :: nil), short_service).
Proof.
  refine (proj2 (@textrank_ties_give_lead_sentences Demo.working
                   ("Cats sleep." :: "Dogs bark." :: nil) 1 short_service _) _).
  - simpl. lia.
  - reflexivity.
Defined.

Local Close Scope Qc_scope.

(** ** What the operations keep of the in-process state *)

Section Preservation.
Context {B : Type} (proj : service -> B) (R : relation B) `{!PreOrder R}.
Hypothesis proj_outputs : forall f s, proj (set_outputs f s) = proj s.

Lemma preserves_ret {A} (a : A) : preserves proj R (ret a).
Proof. intros s. reflexivity. Qed.

Lemma preserves_raise {A} (e : exn) : preserves proj R (@raise A e).
Proof. intros s. reflexivity. Qed.

Lemma preserves_lift {A} (o : outcome A) : preserves proj R (lift o).
Proof. intros s. reflexivity. Qed.

Lemma preserves_get : preserves proj R get.
Proof. intros s. reflexivity. Qed.

Lemma preserves_bind {A C} (m : M A) (k : A -> M C) :
  preserves proj R m -> (forall a, preserves proj R (k a)) -> preserves proj R (bind m k).
Proof.
  intros Hm Hk s. unfold bind. specialize (Hm s).
  destruct (m s) as [[a|e] s1]; simpl in *; [|exact Hm].
  transitivity (proj s1); [exact Hm | apply Hk].
Qed.

Lemma preserves_if {A} (b : bool) (m1 m2 : M A) :
  preserves proj R m1 -> preserves proj R m2 -> preserves proj R (if b then m1 else m2).
Proof. destruct b; auto. Qed.

Lemma preserves_modify (f : service -> service) :
  (forall s, R (proj s) (proj (f s))) -> preserves proj R (modify f).
Proof. intros Hf s. apply Hf. Qed.

Lemma preserves_write (p : string) (f : file) : preserves proj R (write_file p f).
Proof. intros s. unfold write_file, modify. simpl. rewrite proj_outputs. reflexivity. Qed.

Lemma preserves_path_exists (p : string) : preserves proj R (path_exists p).
Proof. intros s. reflexivity. Qed.

Lemma preserves_read_json (p : string) : preserves proj R (read_json p).
Proof.
  intros s. unfold read_json, bind, get, ret, raise. simpl.
  destruct (outputs s !! p) as [[?|?]|]; reflexivity.
Qed.

Lemma preserves_read_cleaning (p : string) : preserves proj R (read_cleaning p).
Proof.
  intros s. unfold read_cleaning, read_json, bind, get, ret, raise. simpl.
  destruct (outputs s !! p) as [[?|[]]|]; reflexivity.
Qed.

End Preservation.

Ltac keep_step :=
  first
    [ assumption
    | lazymatch goal with
      | |- PreOrder _ => exact _
      | |- preserves _ _ (ret _) => apply preserves_ret
      | |- preserves _ _ (raise _) => apply preserves_raise
      | |- preserves _ _ (lift _) => apply preserves_lift
      | |- preserves _ _ get => apply preserves_get
      | |- preserves _ _ (path_exists _) => apply preserves_path_exists
      | |- preserves _ _ (read_cleaning _) => apply preserves_read_cleaning
      | |- preserves _ _ (read_json _) => apply preserves_read_json
      | |- preserves _ _ (write_file _ _) =>
          apply preserves_write; [exact _ .. | intros ? ?; reflexivity]
      | |- preserves _ _ (modify _) =>
          apply preserves_modify; [exact _ .. | try (intros ?; reflexivity)]
      | |- preserves _ _ (bind _ _) => apply preserves_bind; [exact _ .. | | intros ?]
      | |- preserves _ _ (match ?x with _ => _ end) => destruct x
      end ].

Ltac keep := cbv zeta; repeat keep_step.

Section StateKept.
Context `{Externals}.

(** The one place that writes the cache adds an entry under a key that
    had none. *)
Lemma similarity_matrix_for_cache (sents : list string) (use_cache : bool) :
  preserves _similarity_cache (⊆) (similarity_matrix_for sents use_cache).
Proof.
  intros s. rewrite similarity_matrix_for_run.
  destruct use_cache; simpl.
  - destruct (_similarity_cache s !! cache_key sents) eqn:Hk; simpl; [reflexivity|].
    destruct (tfidf_cosine_similarity sents); simpl; [|reflexivity].
    apply insert_subseteq. exact Hk.
  - destruct (tfidf_cosine_similarity sents); reflexivity.
Qed.

Lemma similarity_matrix_for_uncached (sents : list string) :
  preserves _similarity_cache eq (similarity_matrix_for sents false).
Proof.
  intros s. rewrite similarity_matrix_for_run. simpl.
  destruct (tfidf_cosine_similarity sents); reflexivity.
Qed.

Lemma extractive_summary_cache (filename : string) (ratio : Qc) (algorithm : string)
    (use_cache : bool) :
  preserves _similarity_cache (⊆) (extractive_summary filename ratio algorithm use_cache).
Proof.
  pose proof (similarity_matrix_for_cache) as Hsim.
  unfold extractive_summary, _optimized_textrank_summarize, _optimized_tfidf_summarize,
    _optimized_lsa_summarize.
  keep; apply Hsim.
Qed.

Lemma extractive_summary_uncached (filename : string) (ratio : Qc) (algorithm : string)
    (use_cache : bool) :
  use_cache = false \/ algorithm <> "textrank" ->
  preserves _similarity_cache eq (extractive_summary filename ratio algorithm use_cache).
Proof.
  intros Hno.
  pose proof (similarity_matrix_for_uncached) as Hsim.
  unfold extractive_summary, _optimized_textrank_summarize, _optimized_tfidf_summarize,
    _optimized_lsa_summarize.
  destruct (String.eqb_spec algorithm "textrank") as [->|Hne].
  - destruct Hno as [->|Hne]; [|congruence]. keep; apply Hsim.
  - keep.
Qed.

Lemma pipeline_chunks_keeps {B} (proj : service -> B) (R : relation B) `{!PreOrder R}
    (max_length min_length : Z) (chunks : list string) :
  (forall chunk s, R (proj s) (proj (log_call chunk s))) ->
  preserves proj R (pipeline_chunks max_length min_length chunks).
Proof.
  intros Hlog. induction chunks as [|chunk rest IH]; simpl; [keep|].
  destruct (substantial chunk); [|exact IH].
  keep. apply Hlog.
Qed.

Lemma generate_chunks_keeps {B} (proj : service -> B) (R : relation B) `{!PreOrder R}
    (max_length min_length : Z) (chunks : list string) :
  preserves proj R (generate_chunks max_length min_length chunks).
Proof.
  induction chunks as [|chunk rest IH]; simpl; keep.
Qed.

Lemma abstractive_summary_cache (filename : string) (max_length min_length : Z)
    (model : string) (use_pipeline : bool) :
  preserves _similarity_cache eq
    (abstractive_summary filename max_length min_length model use_pipeline).
Proof.
  pose proof (pipeline_chunks_keeps _similarity_cache eq max_length min_length) as Hp.
  pose proof (generate_chunks_keeps _similarity_cache eq max_length min_length) as Hg.
  unfold abstractive_summary, _load_summarization_pipeline, _load_abstractive_model,
    _pipeline_summarize, _chunked_summarize.
  keep; first [apply Hp; intros ? ?; reflexivity | apply Hg].
Qed.

Lemma eq_subseteq_cache {A} (m : M A) :
  preserves _similarity_cache eq m -> preserves _similarity_cache (⊆) m.
Proof. intros Hm s. rewrite <- (Hm s). reflexivity. Qed.

Lemma hybrid_summary_cache (filename : string) (ratio : Qc) (max_length min_length : Z)
    (use_pipeline : bool) :
  preserves _similarity_cache (⊆)
    (hybrid_summary filename ratio max_length min_length use_pipeline).
Proof.
  unfold hybrid_summary.
  keep; first [apply extractive_summary_cache
              | apply eq_subseteq_cache, abstractive_summary_cache].
Qed.

Lemma formatted_hybrid_summary_cache (filename : string) (ratio : Qc)
    (max_length min_length : Z) (use_pipeline : bool) :
  preserves _similarity_cache (⊆)
    (formatted_hybrid_summary filename ratio max_length min_length use_pipeline).
Proof.
  unfold formatted_hybrid_summary, scrub_artifact.
  keep; first [apply extractive_summary_cache
              | apply eq_subseteq_cache, abstractive_summary_cache].
Qed.

(** The similarity cache is never evicted. *)

(** No operation of the summarizer removes or replaces an entry of the
    similarity cache: after [extractive_summary], [hybrid_summary] and
    [formatted_hybrid_summary], whatever their outcome, every entry is
    still there with the matrix it had; [abstractive_summary],
    [get_summary] and an [extractive_summary] that does not use the
    cache (another algorithm than textrank, or [use_cache] false) leave
    the cache exactly as it was. *)
Theorem similarity_cache_only_grows (s : service) (filename : string) :
  (forall ratio algorithm use_cache,
      _similarity_cache s
      ⊆ _similarity_cache (snd (extractive_summary filename ratio algorithm use_cache s)))
  /\ (forall ratio max_length min_length use_pipeline,
        _similarity_cache s
        ⊆ _similarity_cache
            (snd (hybrid_summary filename ratio max_length min_length use_pipeline s)))
  /\ (forall ratio max_length min_length use_pipeline,
        _similarity_cache s
        ⊆ _similarity_cache
            (snd (formatted_hybrid_summary filename ratio max_length min_length
                    use_pipeline s)))
  /\ (forall ratio algorithm use_cache,
        use_cache = false \/ algorithm <> "textrank" ->
        _similarity_cache (snd (extractive_summary filename ratio algorithm use_cache s))
        = _similarity_cache s)
  /\ (forall max_length min_length model use_pipeline,
        _similarity_cache
          (snd (abstractive_summary filename max_length min_length model use_pipeline s))
        = _similarity_cache s)
  /\ (forall summary_type,
        _similarity_cache (snd (get_summary filename summary_type s))
        = _similarity_cache s).
Proof.
  split; [intros; apply extractive_summary_cache|].
  split; [intros; apply hybrid_summary_cache|].
  split; [intros; apply formatted_hybrid_summary_cache|].
  split; [intros ratio algorithm use_cache Hno; symmetry;
          apply (extractive_summary_uncached _ _ _ _ Hno)|].
  split; [intros; symmetry; apply abstractive_summary_cache|].
  intros summary_type. rewrite get_summary_keeps_state. reflexivity.
Qed.

End StateKept.

(** ** Failures of the abstractive operation, and the pipeline it keeps *)

Section AbstractiveRuns.
Context `{Externals}.

Lemma abstractive_summary_no_torch (filename : string) (max_length min_length : Z)
    (model : string) (use_pipeline : bool) (s : service) :
  TORCH_AVAILABLE = false ->
  abstractive_summary filename max_length min_length model use_pipeline s
  = (Raise ImportError, s).
Proof. intros Htorch. unfold abstractive_summary. rewrite Htorch. reflexivity. Qed.

Lemma abstractive_summary_absent (filename : string) (max_length min_length : Z)
    (model : string) (use_pipeline : bool) (s : service) :
  TORCH_AVAILABLE = true ->
  outputs s !! Path.cleaning_metadata filename = None ->
  abstractive_summary filename max_length min_length model use_pipeline s
  = (Raise FileNotFoundError, s).
Proof.
  intros Htorch Hnone. unfold abstractive_summary. rewrite Htorch. cbn [negb].
  unfold bind at 1. rewrite path_exists_run, Hnone.
  rewrite bool_decide_false by (intros [x Hx]; discriminate). reflexivity.
Qed.

(** With the artifact in place and [torch] installed, the operation is
    what follows the two checks. *)
Lemma abstractive_summary_present (filename : string) (max_length min_length : Z)
    (model : string) (use_pipeline : bool) (s : service) (c : cleaning_data) :
  TORCH_AVAILABLE = true ->
  outputs s !! Path.cleaning_metadata filename = Some (JsonFile (JCleaning c)) ->
  abstractive_summary filename max_length min_length model use_pipeline s
  = (let text := cleaned_text c in
     let original_length := String.length text in
     do* (if use_pipeline && is_none (_summarization_pipeline s)
          then _load_summarization_pipeline model else ret tt) in
     let* s1 := get in
     let* summary_text :=
       if use_pipeline && negb (is_none (_summarization_pipeline s1))
       then _pipeline_summarize text max_length min_length
       else
         do* (if is_none (_abstractive_model s1) || is_none (_abstractive_tokenizer s1)
              then _load_abstractive_model model else ret tt) in
         _chunked_summarize text max_length min_length in
     let summary_length := String.length summary_text in
     let compression_ratio :=
       if (0 <? original_length)%nat
       then (Qc_of_nat summary_length / Qc_of_nat original_length)%Qc else 0%Qc in
     let output_path := Path.of_stage filename "_abstractive_summary.txt" in
     do* write_file output_path (TextFile summary_text) in
     let metadata :=
       AbstractiveMetadata summary_text original_length summary_length
         compression_ratio model max_length min_length output_path
         (if use_pipeline then "pipeline" else "chunked") in
     do* write_file (Path.of_stage filename "_abstractive_summary_metadata.json")
           (JsonFile (JAbstractive metadata)) in
     ret metadata) s.
Proof.
  intros Htorch Hc. unfold abstractive_summary. rewrite Htorch. cbn [negb].
  unfold bind at 1. rewrite path_exists_run, Hc, bool_decide_true by eauto. cbn [negb].
  unfold bind at 1. rewrite (read_cleaning_run _ _ _ Hc).
  unfold bind at 1. unfold get at 1. reflexivity.
Qed.

(** A pipeline that cannot be built makes the operation fail: the
    chunked model is no fallback for it. *)
Lemma abstractive_summary_load_failure (filename : string) (max_length min_length : Z)
    (model : string) (s : service) (c : cleaning_data) (e : exn) :
  TORCH_AVAILABLE = true ->
  outputs s !! Path.cleaning_metadata filename = Some (JsonFile (JCleaning c)) ->
  _summarization_pipeline s = None ->
  pipeline_load model = Raise e ->
  abstractive_summary filename max_length min_length model true s = (Raise e, s).
Proof.
  intros Htorch Hc Hnone Hload.
  rewrite (abstractive_summary_present _ _ _ _ _ _ _ Htorch Hc). cbv zeta.
  rewrite Hnone. cbn [andb is_none].
  unfold bind at 1. unfold _load_summarization_pipeline. rewrite Htorch. cbn [negb].
  unfold bind at 1. unfold lift at 1. rewrite Hload. reflexivity.
Qed.

(** The failures before summarisation. *)

(** [abstractive_summary] fails without a trace in three cases. Without
    [torch] it raises [ImportError] before it looks at any file. With
    [torch] and no cleaning artifact it raises [FileNotFoundError]
    before any model is loaded. With the artifact in place and no
    pipeline built yet, a pipeline that cannot be built makes it raise
    the loader's exception: it does not fall back on the chunked model.
    In all three the state is left as it was. *)
Theorem abstractive_summary_fails_early (s : service) (filename : string)
    (max_length min_length : Z) (model : string) :
  (TORCH_AVAILABLE = false ->
   forall use_pipeline,
     abstractive_summary filename max_length min_length model use_pipeline s
     = (Raise ImportError, s))
  /\ (TORCH_AVAILABLE = true ->
      outputs s !! Path.cleaning_metadata filename = None ->
      forall use_pipeline,
        abstractive_summary filename max_length min_length model use_pipeline s
        = (Raise FileNotFoundError, s))
  /\ (TORCH_AVAILABLE = true ->
      forall c e,
        outputs s !! Path.cleaning_metadata filename = Some (JsonFile (JCleaning c)) ->
        _summarization_pipeline s = None ->
        pipeline_load model = Raise e ->
        abstractive_summary filename max_length min_length model true s = (Raise e, s)).
Proof.
  split; [intros Htorch up; apply abstractive_summary_no_torch; exact Htorch|].
  split; [intros Htorch Hnone up; apply abstractive_summary_absent; assumption|].
  intros Htorch c e Hc Hnone Hload.
  eapply abstractive_summary_load_failure; eassumption.
Qed.

(** When the cleaning artifact is missing. *)

(** For a document without cleaning artifact, [extractive_summary] and
    [hybrid_summary] raise [FileNotFoundError]; [abstractive_summary]
    and [formatted_hybrid_summary] raise [FileNotFoundError] when
    [torch] is installed and [ImportError] when it is not. None of the
    four changes the state. *)
Theorem missing_artifact_errors (s : service) (filename : string) :
  outputs s !! Path.cleaning_metadata filename = None ->
  let e := if TORCH_AVAILABLE then FileNotFoundError else ImportError in
  (forall ratio algorithm use_cache,
      extractive_summary filename ratio algorithm use_cache s = (Raise FileNotFoundError, s))
  /\ (forall ratio max_length min_length use_pipeline,
        hybrid_summary filename ratio max_length min_length use_pipeline s
        = (Raise FileNotFoundError, s))
  /\ (forall max_length min_length model use_pipeline,
        abstractive_summary filename max_length min_length model use_pipeline s
        = (Raise e, s))
  /\ (forall ratio max_length min_length use_pipeline,
        formatted_hybrid_summary filename ratio max_length min_length use_pipeline s
        = (Raise e, s)).
Proof.
  intros Hnone e.
  assert (Hex : forall ratio algorithm use_cache,
            extractive_summary filename ratio algorithm use_cache s
            = (Raise FileNotFoundError, s)).
  { intros ratio algorithm use_cache. unfold extractive_summary.
    unfold bind at 1. rewrite path_exists_run, Hnone.
    rewrite bool_decide_false by (intros [x Hx]; discriminate). reflexivity. }
  assert (Hab : forall max_length min_length model use_pipeline,
            abstractive_summary filename max_length min_length model use_pipeline s
            = (Raise e, s)).
  { intros max_length min_length model use_pipeline. subst e.
    destruct TORCH_AVAILABLE eqn:Htorch.
    - apply abstractive_summary_absent; assumption.
    - apply abstractive_summary_no_torch; assumption. }
  split; [exact Hex|].
  split.
  { intros ratio max_length min_length use_pipeline. unfold hybrid_summary.
    unfold bind at 1. rewrite Hex. reflexivity. }
  split; [exact Hab|].
  intros ratio max_length min_length use_pipeline. unfold formatted_hybrid_summary.
  unfold bind at 1. unfold scrub_artifact. unfold bind at 1.
  rewrite path_exists_run, Hnone.
  rewrite bool_decide_false by (intros [x Hx]; discriminate).
  unfold ret at 1. unfold bind at 1. rewrite Hab. reflexivity.
Qed.

Lemma pipeline_summarize_keeps_pipeline (text : string) (max_length min_length : Z) :
  preserves _summarization_pipeline eq (_pipeline_summarize text max_length min_length).
Proof.
  unfold _pipeline_summarize. keep.
  apply pipeline_chunks_keeps; [exact _|]. intros chunk s. reflexivity.
Qed.

(** With a pipeline in place, the operation is the pipeline's summary
    followed by the two writes. *)
Lemma abstractive_summary_loaded (filename : string) (max_length min_length : Z)
    (model loaded_model : string) (s : service) (c : cleaning_data) :
  TORCH_AVAILABLE = true ->
  outputs s !! Path.cleaning_metadata filename = Some (JsonFile (JCleaning c)) ->
  _summarization_pipeline s = Some loaded_model ->
  abstractive_summary filename max_length min_length model true s
  = match _pipeline_summarize (cleaned_text c) max_length min_length s with
    | (Ok summary_text, s1) =>
        let original_length := String.length (cleaned_text c) in
        let metadata :=
          AbstractiveMetadata summary_text original_length (String.length summary_text)
            (if (0 <? original_length)%nat
             then (Qc_of_nat (String.length summary_text) / Qc_of_nat original_length)%Qc
             else 0%Qc)
            model max_length min_length
            (Path.of_stage filename "_abstractive_summary.txt") "pipeline" in
        (Ok metadata,
         set_outputs (insert (Path.of_stage filename "_abstractive_summary_metadata.json")
                        (JsonFile (JAbstractive metadata)))
           (set_outputs (insert (Path.of_stage filename "_abstractive_summary.txt")
                           (TextFile summary_text)) s1))
    | (Raise e, s1) => (Raise e, s1)
    end.
Proof.
  intros Htorch Hc Hm.
  rewrite (abstractive_summary_present _ _ _ _ _ _ _ Htorch Hc). cbv zeta.
  rewrite Hm. cbn [andb is_none].
  unfold bind at 1. unfold ret at 1.
  unfold bind at 1. unfold get at 1. rewrite Hm. cbn [andb is_none negb].
  unfold bind at 1.
  destruct (_pipeline_summarize (cleaned_text c) max_length min_length s)
    as [[summary_text|e] s1]; reflexivity.
Qed.

(** The model argument after the first load. *)

(** Once a summarization pipeline has been built, [abstractive_summary]
    with [use_pipeline] uses it whatever model it is asked for: the call
    with any model name has the outcome of the call with the name the
    pipeline was built for, except that the record names the model asked
    for; the pipeline in place stays the one that was built, and the
    same chunks are sent to it. *)
Theorem loaded_pipeline_serves_every_model (s : service) (filename : string)
    (max_length min_length : Z) (loaded_model model : string) :
  _summarization_pipeline s = Some loaded_model ->
  let r := abstractive_summary filename max_length min_length model true s in
  let r0 := abstractive_summary filename max_length min_length loaded_model true s in
  match fst r, fst r0 with
  | Ok md, Ok md0 =>
      ab_model md = model /\ ab_model md0 = loaded_model
      /\ ab_summary_text md = ab_summary_text md0
      /\ ab_original_length md = ab_original_length md0
      /\ ab_summary_length md = ab_summary_length md0
      /\ ab_compression_ratio md = ab_compression_ratio md0
      /\ ab_file_path md = ab_file_path md0
      /\ ab_processing_method md = ab_processing_method md0
  | Raise e, Raise e0 => e = e0
  | _, _ => False
  end
  /\ _summarization_pipeline (snd r) = Some loaded_model
  /\ pipeline_calls (snd r) = pipeline_calls (snd r0).
Proof.
  intros Hm r r0. subst r r0.
  destruct TORCH_AVAILABLE eqn:Htorch.
  2:{ rewrite !abstractive_summary_no_torch by exact Htorch. simpl. auto. }
  destruct (outputs s !! Path.cleaning_metadata filename) as [f|] eqn:Hf.
  2:{ rewrite !abstractive_summary_absent by assumption. simpl. auto. }
  destruct (classic_cleaning f) as [[c ->]|Hnc].
  - rewrite !(abstractive_summary_loaded _ _ _ _ loaded_model _ c Htorch Hf Hm).
    pose proof (pipeline_summarize_keeps_pipeline (cleaned_text c) max_length min_length s)
      as Hkeep.
    destruct (_pipeline_summarize (cleaned_text c) max_length min_length s)
      as [[summary_text|e] s1]; simpl in *.
    + rewrite <- Hkeep. repeat split; auto.
    + rewrite <- Hkeep. auto.
  - destruct (read_cleaning_fails (Path.cleaning_metadata filename) s) as [e He].
    { intros c Hc. rewrite Hf in Hc. inversion Hc. eapply Hnc; eauto. }
    assert (Hrun : forall model',
              abstractive_summary filename max_length min_length model' true s
              = (Raise e, s)).
    { intros model'. unfold abstractive_summary. rewrite Htorch. cbn [negb].
      unfold bind at 1. rewrite path_exists_run, Hf, bool_decide_true by eauto.
      cbn [negb]. unfold bind at 1. rewrite He. reflexivity. }
    rewrite !Hrun. simpl. auto.
Qed.

End AbstractiveRuns.

Lemma missing_artifact_errors_witness :
  @hybrid_summary Demo.working "missing.pdf" half 200 50 true Demo.doc_service
  = (Raise FileNotFoundError, Demo.doc_service)
  /\ @formatted_hybrid_summary Demo.no_torch "missing.pdf" half 200 50 true Demo.doc_service
     = (Raise ImportError, Demo.doc_service).
Proof.
  split.
  - apply (@missing_artifact_errors Demo.working Demo.doc_service "missing.pdf"). reflexivity.
  - apply (@missing_artifact_errors Demo.no_torch Demo.doc_service "missing.pdf"). reflexivity.
Defined.

(** The pipeline was built for [bart-large-cnn]; a call that asks for
    another model is served by it. *)
Lemma loaded_pipeline_serves_every_model_witness :
  exists md,
    fst (@abstractive_summary Demo.working "doc.pdf" 150 30 "t5-small" true
           (loaded Demo.doc_service)) = Ok md
    /\ ab_model md = "t5-small"
    /\ _summarization_pipeline
         (snd (@abstractive_summary Demo.working "doc.pdf" 150 30 "t5-small" true
                 (loaded Demo.doc_service)))
       = Some bart_large_cnn.
Proof.
  pose proof (@loaded_pipeline_serves_every_model Demo.working (loaded Demo.doc_service)
                "doc.pdf" 150%Z 30%Z bart_large_cnn "t5-small" eq_refl) as Hw.
  cbv zeta in Hw. destruct Hw as (Hout & Hpipe & _).
  destruct (fst (@abstractive_summary Demo.working "doc.pdf" 150 30 "t5-small" true
                   (loaded Demo.doc_service))) as [md|e] eqn:Hrun.
  - exists md. split; [reflexivity|]. split; [|exact Hpipe].
    destruct (fst (@abstractive_summary Demo.working "doc.pdf" 150 30 bart_large_cnn true
                     (loaded Demo.doc_service))); [apply Hout | contradiction].
  - vm_compute in Hrun. discriminate Hrun.
Defined.

(** ** What a successful [hybrid_summary] leaves behind *)

Section HybridResults.
Context `{Externals}.

Lemma get_ok_inv (s s0 s1 : service) : get s = (Ok s0, s1) -> s0 = s /\ s1 = s.
Proof. unfold get. intros E. inversion E. auto. Qed.

Lemma write_file_ok_inv (p : string) (f : file) (s : service) (u : unit) (s' : service) :
  write_file p f s = (Ok u, s') -> s' = set_outputs (insert p f) s.
Proof. unfold write_file, modify. intros E. inversion E. reflexivity. Qed.

Lemma load_pipeline_outputs (model : string) :
  preserves outputs eq (_load_summarization_pipeline model).
Proof. unfold _load_summarization_pipeline. keep. Qed.

Lemma load_model_outputs (model : string) :
  preserves outputs eq (_load_abstractive_model model).
Proof. unfold _load_abstractive_model. keep. Qed.

Lemma pipeline_summarize_outputs (text : string) (max_length min_length : Z) :
  preserves outputs eq (_pipeline_summarize text max_length min_length).
Proof.
  unfold _pipeline_summarize. keep.
  apply pipeline_chunks_keeps; [exact _|]. intros chunk s. reflexivity.
Qed.

Lemma chunked_summarize_outputs (text : string) (max_length min_length : Z) :
  preserves outputs eq (_chunked_summarize text max_length min_length).
Proof.
  unfold _chunked_summarize. keep. apply generate_chunks_keeps. exact _.
Qed.

Lemma preserved_outputs {A} (m : M A) (s : service) (o : outcome A) (s' : service) :
  preserves outputs eq m -> m s = (o, s') -> outputs s' = outputs s.
Proof. intros Hm Hrun. specialize (Hm s). rewrite Hrun in Hm. symmetry. exact Hm. Qed.

(** A successful run read a cleaning record, summarised its text, and
    wrote its two files. *)
Lemma abstractive_summary_ok_inv (filename : string) (max_length min_length : Z)
    (model : string) (use_pipeline : bool) (s : service) (md : abstractive_metadata)
    (s' : service) :
  abstractive_summary filename max_length min_length model use_pipeline s = (Ok md, s') ->
  exists c,
    outputs s !! Path.cleaning_metadata filename = Some (JsonFile (JCleaning c))
    /\ md = AbstractiveMetadata (ab_summary_text md) (String.length (cleaned_text c))
              (String.length (ab_summary_text md))
              (if (0 <? String.length (cleaned_text c))%nat
               then (Qc_of_nat (String.length (ab_summary_text md))
                     / Qc_of_nat (String.length (cleaned_text c)))%Qc
               else 0%Qc)
              model max_length min_length
              (Path.of_stage filename "_abstractive_summary.txt")
              (if use_pipeline then "pipeline" else "chunked")
    /\ outputs s'
       = <[Path.of_stage filename "_abstractive_summary_metadata.json" :=
             JsonFile (JAbstractive md)]>
           (<[Path.of_stage filename "_abstractive_summary.txt" :=
                TextFile (ab_summary_text md)]> (outputs s)).
Proof.
  unfold abstractive_summary. intros Hrun.
  apply if_raise_ok_inv in Hrun. destruct Hrun as [_ Hrun].
  apply bind_ok_inv in Hrun. destruct Hrun as (present & s1 & Hp & Hrun).
  rewrite path_exists_run in Hp. inversion Hp; subst present s1; clear Hp.
  apply if_raise_ok_inv in Hrun. destruct Hrun as [_ Hrun].
  apply bind_ok_inv in Hrun. destruct Hrun as (c & s1 & Hc & Hrun).
  apply read_cleaning_ok_inv in Hc. destruct Hc as [-> Hc].
  apply bind_ok_inv in Hrun. destruct Hrun as (s0 & s1 & Hg & Hrun).
  apply get_ok_inv in Hg. destruct Hg as [-> ->].
  apply bind_ok_inv in Hrun. destruct Hrun as ([] & s2 & Hload & Hrun).
  assert (Hs2 : outputs s2 = outputs s).
  { refine (preserved_outputs _ _ _ _ _ Hload).
    destruct (use_pipeline && is_none (_summarization_pipeline s));
      [apply load_pipeline_outputs | apply preserves_ret; exact _]. }
  apply bind_ok_inv in Hrun. destruct Hrun as (s0 & s1 & Hg & Hrun).
  apply get_ok_inv in Hg. destruct Hg as [-> ->].
  apply bind_ok_inv in Hrun. destruct Hrun as (summary_text & s3 & Hsum & Hrun).
  assert (Hs3 : outputs s3 = outputs s2).
  { refine (preserved_outputs _ _ _ _ _ Hsum).
    destruct (use_pipeline && negb (is_none (_summarization_pipeline s2)));
      [apply pipeline_summarize_outputs|].
    apply preserves_bind; [exact _ | | intros _; apply chunked_summarize_outputs].
    destruct (is_none (_abstractive_model s2) || is_none (_abstractive_tokenizer s2));
      [apply load_model_outputs | apply preserves_ret; exact _]. }
  apply bind_ok_inv in Hrun. destruct Hrun as ([] & s4 & Hw4 & Hrun).
  apply write_file_ok_inv in Hw4. subst s4.
  apply bind_ok_inv in Hrun. destruct Hrun as ([] & s5 & Hw5 & Hrun).
  apply write_file_ok_inv in Hw5. subst s5.
  unfold ret in Hrun. inversion Hrun; subst md s'; clear Hrun.
  exists c. split; [exact Hc|]. split; [reflexivity|].
  cbn. rewrite Hs3, Hs2. reflexivity.
Qed.

(** A successful hybrid run is an extractive run, an abstractive run on
    the overridden artifact, the restore and two writes. *)
Lemma hybrid_summary_ok_inv (filename : string) (ratio : Qc) (max_length min_length : Z)
    (use_pipeline : bool) (s : service) (md : hybrid_metadata) (s' : service) :
  hybrid_summary filename ratio max_length min_length use_pipeline s = (Ok md, s') ->
  exists ex s1 c ab s3,
    extractive_summary filename ratio "textrank" true s = (Ok ex, s1)
    /\ outputs s !! Path.cleaning_metadata filename = Some (JsonFile (JCleaning c))
    /\ abstractive_summary filename max_length min_length bart_large_cnn use_pipeline
         (set_outputs (insert (Path.cleaning_metadata filename)
                         (JsonFile (JCleaning (set_cleaned_text (ex_summary_text ex) c)))) s1)
       = (Ok ab, s3)
    /\ md = HybridMetadata (ab_summary_text ab) (String.length (cleaned_text c))
              (ab_summary_length ab) (ab_compression_ratio ab) ratio
              (Path.of_stage filename "_hybrid_summary.txt") "optimized_hybrid"
    /\ outputs s'
       = <[Path.of_stage filename "_hybrid_summary_metadata.json" := JsonFile (JHybrid md)]>
           (<[Path.of_stage filename "_hybrid_summary.txt" := TextFile (ab_summary_text ab)]>
              (<[Path.cleaning_metadata filename := JsonFile (JCleaning c)]> (outputs s3))).
Proof.
  unfold hybrid_summary. intros E.
  apply bind_ok_inv in E. destruct E as (ex & s1 & Hex & E).
  apply bind_ok_inv in E. destruct E as (c & s1' & Hread & E).
  apply read_cleaning_ok_inv in Hread. destruct Hread as [-> Hc1].
  apply bind_ok_inv in E. destruct E as ([] & s2 & Hw & E).
  apply write_file_ok_inv in Hw. subst s2.
  apply bind_ok_inv in E. destruct E as (ab & s3 & Hab & E).
  apply bind_ok_inv in E. destruct E as ([] & s4 & Hw4 & E).
  apply write_file_ok_inv in Hw4. subst s4.
  apply bind_ok_inv in E. destruct E as ([] & s5 & Hw5 & E).
  apply write_file_ok_inv in Hw5. subst s5.
  apply bind_ok_inv in E. destruct E as ([] & s6 & Hw6 & E).
  apply write_file_ok_inv in Hw6. subst s6.
  unfold ret in E. inversion E; subst md s'; clear E.
  assert (Hc : outputs s !! Path.cleaning_metadata filename = Some (JsonFile (JCleaning c))).
  { pose proof (extractive_summary_keeps_cleaning filename ratio "textrank" true s filename)
      as Hk.
    rewrite Hex in Hk. simpl in Hk. rewrite <- Hk. exact Hc1. }
  exists ex, s1, c, ab, s3. split; [exact Hex|]. split; [exact Hc|].
  split; [exact Hab|]. split; [reflexivity|].
  cbn. rewrite set_cleaned_text_restore. reflexivity.
Qed.

(** The step records a hybrid run overwrites. *)

(** When [hybrid_summary] returns, the extractive and abstractive
    records of the document are those of its two steps: the extractive
    record is a textrank summary at the hybrid's ratio, and the
    abstractive record is the summary of that extract, with the text the
    hybrid returns and the extract's length as its original length.
    [get_summary] with the types [extractive] and [abstractive] returns
    these records, whatever was stored under them before. *)
Theorem hybrid_summary_overwrites_step_records (filename : string) (ratio : Qc)
    (max_length min_length : Z) (use_pipeline : bool) (s : service)
    (md : hybrid_metadata) (s' : service) :
  hybrid_summary filename ratio max_length min_length use_pipeline s = (Ok md, s') ->
  exists ex ab,
    get_summary filename "extractive" s' = (Ok (JExtractive ex), s')
    /\ get_summary filename "abstractive" s' = (Ok (JAbstractive ab), s')
    /\ ex_algorithm ex = "textrank"
    /\ ex_summary_ratio ex = ratio
    /\ ab_summary_text ab = hy_summary_text md
    /\ ab_original_length ab = String.length (ex_summary_text ex)
    /\ ab_model ab = bart_large_cnn
    /\ outputs s' !! Path.of_stage filename "_abstractive_summary.txt"
       = Some (TextFile (hy_summary_text md))
    /\ outputs s' !! Path.of_stage filename "_extractive_summary.txt"
       = Some (TextFile (ex_summary_text ex)).
Proof.
  intros Hrun.
  destruct (hybrid_summary_ok_inv _ _ _ _ _ _ _ _ Hrun)
    as (ex & s1 & c & ab & s3 & Hex & Hc & Hab & Hmd & Hout).
  destruct (extractive_summary_ok_inv _ _ _ _ _ _ _ Hex)
    as (c' & scores & Hc' & _ & _ & Hexmd & Hout1).
  destruct (abstractive_summary_ok_inv _ _ _ _ _ _ _ _ Hab) as (c2 & Hc2 & Habmd & Hout3).
  cbn [outputs set_outputs] in Hc2. rewrite lookup_insert_eq in Hc2.
  inversion Hc2; subst c2; clear Hc2.
  cbn [outputs set_outputs] in Hout3.
  assert (Hlook : forall suffix,
            suffix ∈ ["_extractive_summary.txt"; "_extractive_summary_metadata.json";
                      "_abstractive_summary.txt"; "_abstractive_summary_metadata.json"] ->
            outputs s' !! Path.of_stage filename suffix
            = outputs s3 !! Path.of_stage filename suffix).
  { intros suffix Hs. rewrite Hout.
    rewrite !elem_of_cons in Hs.
    destruct Hs as [-> | [-> | [-> | [-> | Hs]]]];
      try (apply elem_of_nil in Hs; contradiction);
      (rewrite lookup_insert_ne by (apply of_stage_differ; tails);
       rewrite lookup_insert_ne by (apply of_stage_differ; tails);
       rewrite lookup_insert_ne by (apply cleaning_not_stage; tails);
       reflexivity). }
  assert (Hex_meta : outputs s' !! Path.of_stage filename "_extractive_summary_metadata.json"
                     = Some (JsonFile (JExtractive ex))).
  { rewrite Hlook by in_list. rewrite Hout3.
    rewrite lookup_insert_ne by (apply of_stage_differ; tails).
    rewrite lookup_insert_ne by (apply of_stage_differ; tails).
    rewrite lookup_insert_ne by (apply cleaning_not_stage; tails).
    rewrite Hout1. unfold with_extractive. apply lookup_insert_eq. }
  assert (Hex_txt : outputs s' !! Path.of_stage filename "_extractive_summary.txt"
                    = Some (TextFile (ex_summary_text ex))).
  { rewrite Hlook by in_list. rewrite Hout3.
    rewrite lookup_insert_ne by (apply of_stage_differ; tails).
    rewrite lookup_insert_ne by (apply of_stage_differ; tails).
    rewrite lookup_insert_ne by (apply cleaning_not_stage; tails).
    rewrite Hout1. unfold with_extractive.
    rewrite lookup_insert_ne by (apply of_stage_differ; tails).
    apply lookup_insert_eq. }
  assert (Hab_meta : outputs s' !! Path.of_stage filename "_abstractive_summary_metadata.json"
                     = Some (JsonFile (JAbstractive ab))).
  { rewrite Hlook by in_list. rewrite Hout3. apply lookup_insert_eq. }
  assert (Hab_txt : outputs s' !! Path.of_stage filename "_abstractive_summary.txt"
                    = Some (TextFile (ab_summary_text ab))).
  { rewrite Hlook by in_list. rewrite Hout3.
    rewrite lookup_insert_ne by (apply of_stage_differ; tails).
    apply lookup_insert_eq. }
  exists ex, ab.
  split; [apply get_summary_found; exact Hex_meta|].
  split; [apply get_summary_found; exact Hab_meta|].
  split; [rewrite Hexmd; reflexivity|].
  split; [rewrite Hexmd; reflexivity|].
  split; [rewrite Hmd; reflexivity|].
  split; [rewrite Habmd at 1; destruct c; reflexivity|].
  split; [rewrite Habmd; reflexivity|].
  split; [rewrite Hmd; exact Hab_txt | exact Hex_txt].
Qed.

Local Open Scope Qc_scope.

(** The compression ratio of a hybrid summary. *)

(** When [hybrid_summary] returns, the original length it reports is the
    length of the cleaned text, and the compression ratio it reports is
    the length of the summary over the length of the extractive summary
    the abstractive step was given (zero when that extract is empty):
    the reported ratio is not the summary length over the reported
    original length. *)
Theorem hybrid_compression_ratio_measures_the_extract (filename : string) (ratio : Qc)
    (max_length min_length : Z) (use_pipeline : bool) (s : service)
    (md : hybrid_metadata) (s' : service) :
  hybrid_summary filename ratio max_length min_length use_pipeline s = (Ok md, s') ->
  exists c ex s1,
    outputs s !! Path.cleaning_metadata filename = Some (JsonFile (JCleaning c))
    /\ extractive_summary filename ratio "textrank" true s = (Ok ex, s1)
    /\ hy_original_length md = String.length (cleaned_text c)
    /\ hy_summary_length md = String.length (hy_summary_text md)
    /\ hy_compression_ratio md
       = (if (0 <? String.length (ex_summary_text ex))%nat
          then Qc_of_nat (hy_summary_length md)
               / Qc_of_nat (String.length (ex_summary_text ex))
          else 0)
    /\ hy_extractive_ratio md = ratio.
Proof.
  intros Hrun.
  destruct (hybrid_summary_ok_inv _ _ _ _ _ _ _ _ Hrun)
    as (ex & s1 & c & ab & s3 & Hex & Hc & Hab & Hmd & Hout).
  destruct (abstractive_summary_ok_inv _ _ _ _ _ _ _ _ Hab) as (c2 & Hc2 & Habmd & _).
  cbn [outputs set_outputs] in Hc2. rewrite lookup_insert_eq in Hc2.
  inversion Hc2; subst c2; clear Hc2.
  assert (Hlen : String.length (cleaned_text (set_cleaned_text (ex_summary_text ex) c))
                 = String.length (ex_summary_text ex)) by (destruct c; reflexivity).
  rewrite Hlen in Habmd.
  exists c, ex, s1. split; [exact Hc|]. split; [exact Hex|].
  rewrite Hmd. cbn [hy_original_length hy_summary_length hy_summary_text
                    hy_compression_ratio hy_extractive_ratio].
  assert (Hsl : ab_summary_length ab = String.length (ab_summary_text ab))
    by (rewrite Habmd at 1; reflexivity).
  split; [reflexivity|].
  split; [exact Hsl|].
  split; [|reflexivity].
  rewrite Hsl. rewrite Habmd at 1. reflexivity.
Qed.

Local Close Scope Qc_scope.

End HybridResults.

(** Three sentences, ratio one half: the hybrid summary has 20
    characters, the extract 56 and the cleaned text 174. *)
Lemma hybrid_compression_ratio_measures_the_extract_witness :
  exists md s',
    @hybrid_summary Demo.working "doc.pdf" half 200 50 true Demo.doc_service = (Ok md, s')
    /\ hy_original_length md = 174%nat
    /\ hy_summary_length md = 20%nat
    /\ hy_compression_ratio md = Q2Qc (20 # 56).
Proof.
  destruct (@hybrid_summary Demo.working "doc.pdf" half 200 50 true Demo.doc_service)
    as [[md|e] s'] eqn:Hrun; [|vm_compute in Hrun; discriminate Hrun].
  destruct (@hybrid_compression_ratio_measures_the_extract Demo.working _ _ _ _ _ _ _ _ Hrun)
    as (c & ex & s1 & Hc & Hex & Hol & Hsl & Hcr & _).
  exists md, s'. split; [reflexivity|].
  vm_compute in Hrun. inversion Hrun; subst md. clear Hrun.
  repeat split; reflexivity.
Defined.

Lemma hybrid_summary_overwrites_step_records_witness :
  exists md s' ab,
    @hybrid_summary Demo.working "doc.pdf" half 200 50 true Demo.doc_service = (Ok md, s')
    /\ @get_summary "doc.pdf" "abstractive" s' = (Ok (JAbstractive ab), s')
    /\ ab_summary_text ab = hy_summary_text md.
Proof.
  destruct (@hybrid_summary Demo.working "doc.pdf" half 200 50 true Demo.doc_service)
    as [[md|e] s'] eqn:Hrun; [|vm_compute in Hrun; discriminate Hrun].
  destruct (@hybrid_summary_overwrites_step_records Demo.working _ _ _ _ _ _ _ _ Hrun)
    as (ex & ab & _ & Hget & _ & _ & Htext & _).
  exists md, s', ab. split; [reflexivity|]. split; assumption.
Defined.

(** ** What the scrubbing of [formatted_hybrid_summary] removes *)

Lemma chars_cons (c : ascii) (s : string) : chars (String c s) = c :: chars s.
Proof. reflexivity. Qed.

(** [re.sub(p, '', s)] only deletes. *)
Lemma sub_go_sublist (p : Re.pattern) (k : nat) (s : string) :
  chars (Re.sub_go p k s) `sublist_of` chars s.
Proof.
  revert k. induction s as [|c s IH]; intros k; [constructor|].
  cbn [Re.sub_go]. destruct k as [|k].
  - destruct (Re.match_here p (String c s)) as [rest|].
    + destruct (String.length (String c s) - String.length rest)%nat.
      * apply (sublist_skip c), IH.
      * apply (sublist_cons c), IH.
    + apply (sublist_skip c), IH.
  - apply (sublist_cons c), IH.
Qed.

Lemma chars_length (s : string) : length (chars s) = String.length s.
Proof. induction s as [|c s IH]; simpl; [reflexivity | rewrite IH; reflexivity]. Qed.

(** Scrubbing only deletes. *)

(** The text [formatted_hybrid_summary] writes back to the cleaning
    artifact is the cleaned text with characters deleted: its characters
    are a subsequence of those of the cleaned text, in the same order,
    and it is never longer. *)
Theorem scrub_only_deletes (cleaned_text : string) :
  chars (scrub cleaned_text) `sublist_of` chars cleaned_text
  /\ (String.length (scrub cleaned_text) <= String.length cleaned_text)%nat.
Proof.
  assert (Hsub : chars (scrub cleaned_text) `sublist_of` chars cleaned_text).
  { unfold scrub, Re.sub_empty.
    etransitivity; [apply sub_go_sublist|].
    etransitivity; [apply sub_go_sublist|].
    etransitivity; [apply sub_go_sublist|].
    apply sub_go_sublist. }
  split; [exact Hsub|].
  rewrite <- !chars_length. apply sublist_length. exact Hsub.
Qed.

Lemma chars_app_string (a b : string) : chars (a +:+ b) = chars a ++ chars b.
Proof. apply chars_append. Qed.

(** What a quantified class consumed before the rest of the pattern
    matched. *)
Lemma greedy_inv (a : Re.atom) (k : string -> option string) (taken : nat) (s r : string) :
  Re.greedy a k taken s = Some r ->
  exists pre rest,
    s = pre +:+ rest
    /\ Forall (fun c => Re.cls a c = true) (chars pre)
    /\ (Re.rmin a <= taken + String.length pre)%nat
    /\ k rest = Some r.
Proof.
  revert taken. induction s as [|c s IH]; intros taken; simpl.
  - destruct (Re.rmin a <=? taken)%nat eqn:Hmin; [|discriminate].
    intros Hk. exists EmptyString, EmptyString.
    apply Nat.leb_le in Hmin. repeat split; [constructor | simpl; lia | exact Hk].
  - assert (Hstop : (if (Re.rmin a <=? taken)%nat then k (String c s) else None) = Some r ->
              exists pre rest,
                String c s = pre +:+ rest
                /\ Forall (fun c => Re.cls a c = true) (chars pre)
                /\ (Re.rmin a <= taken + String.length pre)%nat
                /\ k rest = Some r).
    { destruct (Re.rmin a <=? taken)%nat eqn:Hmin; [|discriminate].
      intros Hk. exists EmptyString, (String c s).
      apply Nat.leb_le in Hmin. repeat split; [constructor | simpl; lia | exact Hk]. }
    destruct (Re.cls a c && Re.below taken (Re.rmax a)) eqn:Hc; [|exact Hstop].
    destruct (Re.greedy a k (S taken) s) as [r'|] eqn:Hg; [|exact Hstop].
    intros Hr. inversion Hr; subst r'; clear Hr.
    destruct (IH _ Hg) as (pre & rest & -> & Hpre & Hmin & Hk).
    exists (String c pre), rest.
    apply andb_true_iff in Hc. destruct Hc as [Hc _].
    repeat split; [constructor; assumption | simpl; lia | exact Hk].
Qed.

(** A pattern that needs a character of a class matches only where one
    occurs. *)
Lemma match_here_needs (Q : ascii -> bool) (p : Re.pattern) (s r : string) :
  needs Q p -> Re.match_here p s = Some r -> Exists (fun c => Q c = true) (chars s).
Proof.
  intros Hneeds. revert s. induction Hneeds as [a p [Hmin Hcls]|a p _ IH]; intros s Hm;
    simpl in Hm; apply greedy_inv in Hm;
    destruct Hm as (pre & rest & -> & Hpre & Hlen & Hk);
    rewrite chars_append; apply Exists_app.
  - left. destruct pre as [|c pre]; [simpl in Hlen; lia|].
    rewrite chars_cons. apply Exists_cons_hd.
    apply Hcls. inversion Hpre; assumption.
  - right. apply IH. exact Hk.
Qed.

Lemma sub_go_spares (Q : ascii -> bool) (p : Re.pattern) (s : string) :
  needs Q p -> Forall (fun c => Q c = false) (chars s) -> Re.sub_go p 0 s = s.
Proof.
  intros Hneeds. induction s as [|c s IH]; intros Hs; [reflexivity|].
  simpl. destruct (Re.match_here p (String c s)) as [rest|] eqn:Hm.
  - exfalso. apply (match_here_needs Q) in Hm; [|exact Hneeds].
    apply Exists_exists in Hm. destruct Hm as (x & Hx & HQ).
    rewrite Forall_forall in Hs. rewrite (Hs x Hx) in HQ. discriminate.
  - f_equal. apply IH. rewrite chars_cons in Hs. inversion Hs; assumption.
Qed.

Lemma digit_is_digit_or_at (c : ascii) : Re.digit c = true -> digit_or_at c = true.
Proof. unfold Re.digit, digit_or_at. intros ->. reflexivity. Qed.

Lemma at_is_digit_or_at (c : ascii) : Re.chr "@" c = true -> digit_or_at c = true.
Proof. unfold Re.chr, digit_or_at. intros ->. apply orb_true_r. Qed.

Ltac needs_atom a :=
  apply Exists_exists; exists a;
  split; [unfold Re.page_marker, Re.page_number, Re.email, Re.phone, Re.Page; simpl; in_list|];
  split; [simpl; lia|].

Lemma page_marker_needs : needs digit_or_at Re.page_marker.
Proof. needs_atom (Re.plus Re.digit). apply digit_is_digit_or_at. Qed.

Lemma page_number_needs : needs digit_or_at Re.page_number.
Proof. needs_atom (Re.plus Re.digit). apply digit_is_digit_or_at. Qed.

Lemma email_needs : needs digit_or_at Re.email.
Proof. needs_atom (Re.once (Re.chr "@")). apply at_is_digit_or_at. Qed.

Lemma phone_needs : needs digit_or_at Re.phone.
Proof. needs_atom (Re.once Re.digit). apply digit_is_digit_or_at. Qed.

Lemma scrub_plain (text : string) : plain text -> scrub text = text.
Proof.
  intros Hplain. unfold scrub, Re.sub_empty.
  rewrite (sub_go_spares digit_or_at _ _ page_marker_needs Hplain).
  rewrite (sub_go_spares digit_or_at _ _ page_number_needs Hplain).
  rewrite (sub_go_spares digit_or_at _ _ email_needs Hplain).
  apply (sub_go_spares digit_or_at _ _ phone_needs Hplain).
Qed.

Section PlainText.
Context `{Externals}.

(** A text without digits and at signs is spared. *)

(** Each of the four patterns of the scrubbing needs a digit or an at
    sign to match, so a cleaned text that contains neither is returned
    unchanged; for a document with such a text
    [formatted_hybrid_summary], whatever its outcome, leaves the
    cleaning artifact as it was. *)
Theorem formatted_hybrid_spares_plain_text (s : service) (filename : string)
    (c : cleaning_data) (ratio : Qc) (max_length min_length : Z) (use_pipeline : bool) :
  outputs s !! Path.cleaning_metadata filename = Some (JsonFile (JCleaning c)) ->
  plain (cleaned_text c) ->
  scrub (cleaned_text c) = cleaned_text c
  /\ outputs (snd (formatted_hybrid_summary filename ratio max_length min_length
                     use_pipeline s))
       !! Path.cleaning_metadata filename
     = Some (JsonFile (JCleaning c)).
Proof.
  intros Hc Hplain. split; [apply scrub_plain; exact Hplain|].
  rewrite formatted_hybrid_summary_scrubs, Hc. simpl.
  rewrite (scrub_plain _ Hplain). destruct c. reflexivity.
Qed.

End PlainText.

Lemma three_text_plain : plain Demo.three_text.
Proof. unfold plain. apply (bool_decide_unpack _). vm_compute. exact I. Qed.

Lemma formatted_hybrid_spares_plain_text_witness :
  outputs (snd (@formatted_hybrid_summary Demo.working "doc.pdf" half 200 50 true
                  Demo.doc_service))
    !! Path.cleaning_metadata "doc.pdf"
  = Some (JsonFile (JCleaning (Demo.cleaning Demo.three_text Demo.three_sentences))).
Proof.
  apply (@formatted_hybrid_spares_plain_text Demo.working Demo.doc_service "doc.pdf"
           (Demo.cleaning Demo.three_text Demo.three_sentences)).
  - exact demo_doc_lookup.
  - exact three_text_plain.
Defined.

(** ** The chunks handed to the abstractive collaborators *)

(** *** Words of concatenated and stripped strings *)

Lemma split_ws_head (c : ascii) (s : string) :
  PyStr.is_space c = false -> PyStr.split_ws (String c s) <> [].
Proof.
  intros Hc. cbn [PyStr.split_ws]. rewrite Hc.
  destruct s as [|c' s']; [discriminate|].
  destruct (PyStr.is_space c'); [discriminate|].
  destruct (PyStr.split_ws (String c' s')); discriminate.
Qed.

(** After a string that ends with a whitespace character the words of
    what follows are counted apart. *)
Lemma split_ws_after_space (a : string) (sp : ascii) (b : string) :
  PyStr.is_space sp = true ->
  PyStr.split_ws ((a +:+ String sp EmptyString) +:+ b)
  = PyStr.split_ws (a +:+ String sp EmptyString) ++ PyStr.split_ws b.
Proof.
  intros Hsp. induction a as [|c a IH].
  - rewrite !append_nil_l, append_cons, append_nil_l.
    cbn [PyStr.split_ws]. rewrite Hsp. reflexivity.
  - rewrite !append_cons.
    cbn [PyStr.split_ws].
    destruct (PyStr.is_space c); [exact IH|].
    destruct a as [|c' a'].
    + rewrite !append_nil_l, !append_cons, !append_nil_l in *.
      rewrite Hsp. cbn [PyStr.split_ws]. rewrite Hsp. reflexivity.
    + rewrite !append_cons in *.
      destruct (PyStr.is_space c') eqn:Hc'.
      * rewrite IH. reflexivity.
      * rewrite IH.
        pose proof (split_ws_head c' (a' +:+ String sp EmptyString) Hc') as Hne.
        destruct (PyStr.split_ws (String c' (a' +:+ String sp EmptyString)));
          [contradiction | reflexivity].
Qed.

Lemma split_ws_lstrip (s : string) : PyStr.split_ws (PyStr.lstrip s) = PyStr.split_ws s.
Proof.
  induction s as [|c s IH]; [reflexivity|].
  cbn [PyStr.lstrip]. destruct (PyStr.is_space c) eqn:Hc; [|reflexivity].
  rewrite IH. cbn [PyStr.split_ws]. rewrite Hc. reflexivity.
Qed.

Lemma rstrip_head (s : string) (c : ascii) (r : string) :
  PyStr.rstrip s = String c r -> exists s', s = String c s'.
Proof.
  destruct s as [|x s]; [discriminate|].
  cbn [PyStr.rstrip]. destruct (PyStr.rstrip s).
  - destruct (PyStr.is_space x); [discriminate|].
    intros E. inversion E. eauto.
  - intros E. inversion E. eauto.
Qed.

Lemma rstrip_empty (s : string) : PyStr.rstrip s = EmptyString -> PyStr.split_ws s = [].
Proof.
  induction s as [|c s IH]; [reflexivity|].
  cbn [PyStr.rstrip]. destruct (PyStr.rstrip s) eqn:Hr.
  - destruct (PyStr.is_space c) eqn:Hc; [|discriminate].
    intros _. cbn [PyStr.split_ws]. rewrite Hc. apply IH. reflexivity.
  - discriminate.
Qed.

Lemma split_ws_rstrip (s : string) : PyStr.split_ws (PyStr.rstrip s) = PyStr.split_ws s.
Proof.
  induction s as [|c s IH]; [reflexivity|].
  cbn [PyStr.rstrip]. destruct (PyStr.rstrip s) as [|x r] eqn:Hr.
  - pose proof (rstrip_empty s Hr) as Hnil.
    destruct (PyStr.is_space c) eqn:Hc.
    + cbn [PyStr.split_ws]. rewrite Hc, Hnil. reflexivity.
    + cbn [PyStr.split_ws]. rewrite Hc.
      destruct s as [|c' s']; [reflexivity|].
      destruct (PyStr.is_space c') eqn:Hc'.
      * rewrite Hnil. reflexivity.
      * exfalso. apply (split_ws_head c' s' Hc'). exact Hnil.
  - destruct (rstrip_head s x r Hr) as [s' ->].
    cbn [PyStr.split_ws] in *.
    destruct (PyStr.is_space c); [exact IH|].
    destruct (PyStr.is_space x); rewrite IH; reflexivity.
Qed.

Lemma split_ws_strip (s : string) : PyStr.split_ws (PyStr.strip s) = PyStr.split_ws s.
Proof. unfold PyStr.strip. rewrite split_ws_rstrip, split_ws_lstrip. reflexivity. Qed.

(** Appending never takes a word away. *)
Lemma split_ws_app_count (a b : string) :
  length (PyStr.split_ws a) <= length (PyStr.split_ws (a +:+ b)).
Proof.
  induction a as [|c a IH]; [simpl; lia|].
  rewrite append_cons. cbn [PyStr.split_ws].
  destruct (PyStr.is_space c) eqn:Hc; [exact IH|].
  destruct a as [|c' a'].
  - rewrite append_nil_l.
    destruct b as [|x b]; [simpl; lia|].
    destruct (PyStr.is_space x); [simpl; lia|].
    destruct (PyStr.split_ws (String x b)); simpl; lia.
  - rewrite append_cons in *.
    destruct (PyStr.is_space c') eqn:Hc'.
    + simpl. simpl in IH. lia.
    + pose proof (split_ws_head c' a' Hc') as Hne1.
      pose proof (split_ws_head c' (a' +:+ b) Hc') as Hne2.
      destruct (PyStr.split_ws (String c' a')), (PyStr.split_ws (String c' (a' +:+ b)));
        try contradiction.
      simpl in *. lia.
Qed.

(** *** Splitting on [". "] and gluing back *)

(** The pieces of [text.split(". ")], each followed by [". "], spell the
    text followed by [". "]. *)
Lemma glue_split_go (k : nat) (s : string) :
  exists pre rest,
    s = pre +:+ rest
    /\ String.length pre = Nat.min k (String.length s)
    /\ glue (PyStr.split_go ". " k s) = rest +:+ ". ".
Proof.
  revert k. induction s as [|c s IH]; intros k.
  - exists EmptyString, EmptyString. simpl. repeat split. lia.
  - destruct k as [|k]; cbn [PyStr.split_go].
    + destruct (String.prefix ". " (String c s)) eqn:Hpre.
      * destruct (IH 1%nat) as (pre & rest & Hs & Hlen & Hglue).
        cbn [String.prefix] in Hpre.
        destruct (Ascii.ascii_dec "." c) as [<-|]; [|discriminate].
        destruct s as [|c' s']; [discriminate|].
        cbn [String.prefix] in Hpre.
        destruct (Ascii.ascii_dec " " c') as [<-|]; [|discriminate].
        exists EmptyString, (String "." (String " " s')).
        split; [reflexivity|]. split; [reflexivity|].
        change (String.length ". " - 1)%nat with 1%nat.
        cbn [glue]. rewrite Hglue.
        destruct pre as [|x pre]; [simpl in Hlen; lia|].
        destruct pre as [|y pre]; [|simpl in Hlen; lia].
        rewrite append_cons, append_nil_l in Hs. inversion Hs; subst.
        reflexivity.
      * destruct (IH 0%nat) as (pre & rest & Hs & Hlen & Hglue).
        destruct pre as [|x pre]; [|simpl in Hlen; lia].
        rewrite append_nil_l in Hs. subst rest.
        exists EmptyString, (String c s). split; [reflexivity|]. split; [reflexivity|].
        pose proof (split_nonempty ". " 0 s) as Hne.
        destruct (PyStr.split_go ". " 0 s) as [|w ws]; [contradiction|].
        cbn [glue] in *. rewrite (append_cons c w), (append_cons c s), Hglue. reflexivity.
    + destruct (IH k) as (pre & rest & Hs & Hlen & Hglue).
      exists (String c pre), rest.
      split; [rewrite append_cons; f_equal; exact Hs|].
      split; [simpl; rewrite Hlen; reflexivity | exact Hglue].
Qed.

Lemma glue_split (text : string) : glue (PyStr.split ". " text) = text +:+ ". ".
Proof.
  destruct (glue_split_go 0 text) as (pre & rest & Hs & Hlen & Hglue).
  destruct pre as [|x pre]; [|simpl in Hlen; lia].
  rewrite append_nil_l in Hs. subst rest. exact Hglue.
Qed.

Lemma glue_app (l1 l2 : list string) : glue (l1 ++ l2) = glue l1 +:+ glue l2.
Proof.
  induction l1 as [|p l1 IH]; [reflexivity|].
  simpl. rewrite IH, !append_assoc. reflexivity.
Qed.

(** What is glued is empty or ends with a blank. *)
Lemma glue_shape (pieces : list string) :
  glue pieces = EmptyString \/ exists x, glue pieces = x +:+ " ".
Proof.
  destruct pieces as [|p ps]; [left; reflexivity|].
  right. destruct (glue_ends_with_space (p :: ps)) as (x & Hx & _); [discriminate|].
  eauto.
Qed.

Lemma split_ws_glue_app (pieces : list string) (b : string) :
  PyStr.split_ws (glue pieces +:+ b) = PyStr.split_ws (glue pieces) ++ PyStr.split_ws b.
Proof.
  destruct (glue_shape pieces) as [->|[x ->]]; [reflexivity|].
  apply split_ws_after_space. reflexivity.
Qed.

(** *** The loop over the pieces *)

(** The chunks closed so far and the chunk being filled hold the words of
    the pieces seen, in order. *)
Lemma chunk_fold_words (chunk_size : nat) (pieces seen : list string)
    (chunks : list string) (temp : string) :
  temp = EmptyString \/ (exists x, temp = x +:+ " ") ->
  concat (map PyStr.split_ws chunks) ++ PyStr.split_ws temp = PyStr.split_ws (glue seen) ->
  let '(chunks', temp') := fold_left (chunk_step chunk_size) pieces (chunks, temp) in
  (temp' = EmptyString \/ exists x, temp' = x +:+ " ")
  /\ concat (map PyStr.split_ws chunks') ++ PyStr.split_ws temp'
     = PyStr.split_ws (glue (seen ++ pieces)).
Proof.
  revert seen chunks temp. induction pieces as [|p ps IH]; intros seen chunks temp Hshape Hinv.
  - simpl. rewrite app_nil_r. split; assumption.
  - cbn [fold_left chunk_step].
    assert (Hseen : PyStr.split_ws (glue (seen ++ [p]))
                    = PyStr.split_ws (glue seen) ++ PyStr.split_ws (p +:+ ". ")).
    { rewrite glue_app. cbn [glue]. rewrite append_nil_r. apply split_ws_glue_app. }
    assert (Hend : exists x, p +:+ ". " = x +:+ " ").
    { exists (p +:+ "."). rewrite append_assoc. reflexivity. }
    replace (seen ++ p :: ps) with ((seen ++ [p]) ++ ps) by (rewrite <- app_assoc; reflexivity).
    destruct (length (PyStr.split_ws temp) + length (PyStr.split_ws p) <=? chunk_size)%nat.
    + apply IH.
      * right. destruct Hend as [x Hx]. exists (temp +:+ x).
        rewrite append_assoc, <- Hx. reflexivity.
      * rewrite Hseen, <- Hinv, <- app_assoc. f_equal.
        destruct Hshape as [->|[x ->]]; [reflexivity|].
        apply split_ws_after_space. reflexivity.
    + apply IH.
      * right. exact Hend.
      * rewrite Hseen, <- Hinv.
        rewrite map_app, concat_app. simpl. rewrite app_nil_r, split_ws_strip.
        rewrite <- app_assoc. reflexivity.
Qed.

(** No word is lost on the way to the chunks. *)

(** Whatever the chunk size, the chunks [_pipeline_summarize] and
    [_chunked_summarize] cut a text into hold, read one after the other,
    exactly the words of the text followed by a full stop: no word of
    the text is dropped, repeated or moved, and the only addition is the
    full stop that follows the last piece. *)
Theorem chunks_keep_every_word (chunk_size : nat) (text : string) :
  concat (map PyStr.split_ws (make_chunks chunk_size text))
  = PyStr.split_ws (text +:+ ". ").
Proof.
  unfold make_chunks.
  pose proof (chunk_fold_words chunk_size (PyStr.split ". " text) [] [] EmptyString
                (or_introl eq_refl) eq_refl) as Hfold.
  destruct (fold_left (chunk_step chunk_size) (PyStr.split ". " text) ([], EmptyString))
    as [chunks temp].
  destruct Hfold as [_ Hwords]. rewrite app_nil_l, glue_split in Hwords.
  rewrite <- Hwords.
  destruct temp as [|c temp].
  - rewrite app_nil_r. reflexivity.
  - rewrite map_app, concat_app. simpl. rewrite app_nil_r, split_ws_strip. reflexivity.
Qed.

(** While the words fit, the loop only appends. *)
Lemma chunk_fold_fits_words (chunk_size : nat) (pieces seen : list string) :
  length (PyStr.split_ws (glue (seen ++ pieces))) <= chunk_size ->
  fold_left (chunk_step chunk_size) pieces ([], glue seen) = ([], glue (seen ++ pieces)).
Proof.
  revert seen. induction pieces as [|p ps IH]; intros seen Hfit.
  - rewrite app_nil_r. reflexivity.
  - replace (seen ++ p :: ps) with ((seen ++ [p]) ++ ps) in *
      by (rewrite <- app_assoc; reflexivity).
    cbn [fold_left chunk_step].
    assert (Hstep : length (PyStr.split_ws (glue seen)) + length (PyStr.split_ws p)
                    <= chunk_size).
    { rewrite glue_app, glue_app in Hfit. cbn [glue] in Hfit.
      rewrite append_nil_r in Hfit.
      rewrite <- append_assoc in Hfit.
      pose proof (split_ws_app_count (glue seen +:+ p +:+ ". ") (glue ps)) as H1.
      rewrite append_assoc in H1 at 1.
      rewrite (split_ws_glue_app seen (p +:+ ". ")) in H1.
      rewrite length_app in H1.
      pose proof (split_ws_app_count p ". ") as H2.
      rewrite !append_assoc in *. lia. }
    destruct (Nat.leb_spec (length (PyStr.split_ws (glue seen)) + length (PyStr.split_ws p))
                chunk_size) as [_|Hgt]; [|lia].
    replace (glue seen +:+ p +:+ ". ") with (glue (seen ++ [p])).
    + apply IH. exact Hfit.
    + rewrite glue_app. cbn [glue]. rewrite append_nil_r. reflexivity.
Qed.

Lemma make_chunks_one (chunk_size : nat) (text : string) :
  length (PyStr.split_ws (text +:+ ". ")) <= chunk_size ->
  make_chunks chunk_size text = [PyStr.strip (text +:+ ". ")].
Proof.
  intros Hfit. unfold make_chunks.
  pose proof (chunk_fold_fits_words chunk_size (PyStr.split ". " text) []) as Hf.
  rewrite app_nil_l, glue_split in Hf. cbn [glue] in Hf. rewrite (Hf Hfit).
  destruct text; reflexivity.
Qed.

Section OneChunk.
Context `{Externals}.

(** A text of at most [chunk_size] words is one chunk. *)

(** A text whose words, counted with the full stop the loop appends,
    number at most the chunk size (1000 for the pipeline, 1024 for the
    chunked model) is handed over as a single chunk: the text followed
    by a full stop, with surrounding whitespace trimmed. The chunked
    model is called on that chunk whatever its length; the pipeline is
    called on it when it has more than 50 characters. In both cases the
    summary returned is the collaborator's answer for that one chunk. *)
Theorem short_text_is_one_chunk (text : string) (max_length min_length : Z)
    (model : string) (s : service) :
  let chunk := PyStr.strip (text +:+ ". ") in
  (length (PyStr.split_ws (text +:+ ". ")) <= 1000 ->
   make_chunks 1000 text = [chunk]
   /\ (_summarization_pipeline s = Some model ->
       substantial chunk = true ->
       _pipeline_summarize text max_length min_length s
       = match pipeline_call model chunk max_length min_length with
         | Ok summary => (Ok summary, log_call chunk s)
         | Raise e => (Raise e, log_call chunk s)
         end))
  /\ (length (PyStr.split_ws (text +:+ ". ")) <= 1024 ->
      make_chunks 1024 text = [chunk]
      /\ (_abstractive_model s = Some model ->
          _abstractive_tokenizer s = Some model ->
          _chunked_summarize text max_length min_length s
          = match model_generate model chunk max_length min_length with
            | Ok summary => (Ok summary, s)
            | Raise e => (Raise e, s)
            end)).
Proof.
  intros chunk. split; intros Hfit; (split; [apply make_chunks_one; exact Hfit|]).
  - intros Hm Hsub. unfold _pipeline_summarize.
    rewrite (make_chunks_one _ _ Hfit). fold chunk.
    unfold bind at 1. cbn [pipeline_chunks]. rewrite Hsub.
    unfold bind at 1. unfold get at 1. rewrite Hm.
    unfold bind at 1. unfold modify at 1.
    unfold bind at 1. unfold lift at 1.
    destruct (pipeline_call model chunk max_length min_length); reflexivity.
  - intros Hm Ht. unfold _chunked_summarize.
    rewrite (make_chunks_one _ _ Hfit). fold chunk.
    unfold bind at 1. cbn [generate_chunks].
    unfold bind at 1. unfold get at 1. rewrite Hm, Ht.
    unfold bind at 1. unfold lift at 1.
    destruct (model_generate model chunk max_length min_length); reflexivity.
Qed.

End OneChunk.

Lemma short_text_is_one_chunk_witness :
  make_chunks 1000 "Cats sleep. Dogs bark." = "Cats sleep. Dogs bark.." :: nil.
Proof.
  refine (proj1 (proj1 (@short_text_is_one_chunk Demo.working "Cats sleep. Dogs bark."
                          150%Z 30%Z bart_large_cnn (Demo.service_with nil)) _)).
  vm_compute. lia.
Defined.

(** ** The record [formatted_hybrid_summary] compiles *)

(** The fallback loop keeps what was found and appends, in their order,
    raw sections under names not yet present. *)
Lemma merge_sections_appends (found raw : list (string * string)) :
  exists extra,
    merge_sections found raw = found ++ extra
    /\ extra `sublist_of` raw
    /\ Forall (fun kv => has_key (fst kv) found = false) extra.
Proof.
  unfold merge_sections.
  assert (Hgo : forall acc,
            exists extra,
              fold_left (fun d kv => if has_key (fst kv) d then d else d ++ [kv]) raw
                (found ++ acc)
              = found ++ acc ++ extra
              /\ extra `sublist_of` raw
              /\ Forall (fun kv => has_key (fst kv) found = false) extra).
  { induction raw as [|kv raw IH]; intros acc.
    - exists []. rewrite app_nil_r. split; [reflexivity|]. split; constructor.
    - cbn [fold_left].
      destruct (has_key (fst kv) (found ++ acc)) eqn:Hk.
      + destruct (IH acc) as (extra & Heq & Hsub & Hall).
        exists extra. split; [exact Heq|]. split; [apply sublist_cons; exact Hsub | exact Hall].
      + destruct (IH (acc ++ [kv])) as (extra & Heq & Hsub & Hall).
        exists (kv :: extra).
        split.
        { rewrite <- (app_assoc found acc [kv]), Heq, <- app_assoc. reflexivity. }
        split; [apply sublist_skip; exact Hsub|].
        constructor; [|exact Hall].
        unfold has_key in *. rewrite existsb_app in Hk.
        apply orb_false_iff in Hk. apply Hk. }
  destruct (Hgo []) as (extra & Heq & Hsub & Hall).
  rewrite app_nil_r in Heq. exists extra. auto.
Qed.

Lemma resume_section_summary_keys `{Externals} (text : string) :
  map fst (resume_section_summary text) `sublist_of` resume_sections.
Proof.
  unfold resume_section_summary.
  induction resume_sections as [|sec secs IH]; [constructor|].
  cbn [omap list_omap]. change (list_omap ?f ?l) with (omap f l).
  destruct (search_from (literal_i sec) text); simpl.
  - apply sublist_skip, IH.
  - apply sublist_cons, IH.
Qed.

Section FormattedRecord.
Context `{Externals}.

Lemma scrub_artifact_ok_inv (p : string) (s : service) (text : string) (s0 : service) :
  scrub_artifact p s = (Ok text, s0) ->
  (outputs s !! p = None /\ text = EmptyString /\ s0 = s)
  \/ (exists c,
        outputs s !! p = Some (JsonFile (JCleaning c))
        /\ text = scrub (cleaned_text c)
        /\ s0 = set_outputs
                  (insert p (JsonFile (JCleaning (set_cleaned_text (scrub (cleaned_text c)) c))))
                  s).
Proof.
  unfold scrub_artifact. unfold bind at 1. rewrite path_exists_run.
  destruct (outputs s !! p) as [f|] eqn:Hp.
  - rewrite bool_decide_true by eauto. intros Hrun.
    apply bind_ok_inv in Hrun. destruct Hrun as (c & s1 & Hc & Hrun).
    apply read_cleaning_ok_inv in Hc. destruct Hc as [-> Hc].
    unfold bind, write_file, modify, ret in Hrun. inversion Hrun; subst.
    right. exists c. rewrite <- Hp. auto.
  - rewrite bool_decide_false by (intros [x Hx]; discriminate).
    unfold ret. intros Hrun. inversion Hrun; subst. left. auto.
Qed.

(** The sections of the record: the resume sections of the scrubbed
    text merged with the sections [get_section_wise_summary] gives for
    it. *)
Lemma formatted_hybrid_summary_sections (filename : string) (ratio : Qc)
    (max_length min_length : Z) (use_pipeline : bool) (s : service)
    (fm : formatted_summary) (path : string) (s' : service) :
  formatted_hybrid_summary filename ratio max_length min_length use_pipeline s
  = (Ok (fm, path), s') ->
  exists c,
    outputs s !! Path.cleaning_metadata filename = Some (JsonFile (JCleaning c))
    /\ fm_section_summary fm
       = merge_sections (resume_section_summary (scrub (cleaned_text c)))
           (section_wise_summary (scrub (cleaned_text c))).
Proof.
  unfold formatted_hybrid_summary. intros Hrun.
  apply bind_ok_inv in Hrun. destruct Hrun as (text & s0 & Hscrub & Hrun).
  apply bind_ok_inv in Hrun. destruct Hrun as (ab & s1 & Hab & Hrun).
  apply bind_ok_inv in Hrun. destruct Hrun as (ex & s2 & Hex & Hrun).
  apply bind_ok_inv in Hrun. destruct Hrun as (present & s2' & Hp & Hrun).
  rewrite path_exists_run in Hp. inversion Hp; subst present s2'; clear Hp.
  apply if_raise_ok_inv in Hrun. destruct Hrun as [_ Hrun].
  apply bind_ok_inv in Hrun. destruct Hrun as (c2 & s2' & Hc2 & Hrun).
  apply read_cleaning_ok_inv in Hc2. destruct Hc2 as [-> Hc2].
  apply bind_ok_inv in Hrun. destruct Hrun as ([] & s3 & Hw & Hrun).
  unfold ret in Hrun. inversion Hrun; subst fm path s'; clear Hrun.
  destruct (abstractive_summary_ok_inv _ _ _ _ _ _ _ _ Hab) as (c0 & _ & _ & Hout1).
  destruct (extractive_summary_ok_inv _ _ _ _ _ _ _ Hex) as (c1 & scores & _ & _ & _ & _ & Hout2).
  apply scrub_artifact_ok_inv in Hscrub.
  destruct Hscrub as [(Hnone & _ & ->)|(c & Hc & -> & ->)].
  { exfalso. destruct (abstractive_summary_ok_inv _ _ _ _ _ _ _ _ Hab) as (c' & Hc' & _).
    congruence. }
  assert (Hc2' : outputs s2 !! Path.cleaning_metadata filename
                = Some (JsonFile (JCleaning (set_cleaned_text (scrub (cleaned_text c)) c)))).
  { rewrite Hout2. unfold with_extractive.
    rewrite lookup_insert_ne by (apply not_eq_sym, cleaning_not_stage; tails).
    rewrite lookup_insert_ne by (apply not_eq_sym, cleaning_not_stage; tails).
    rewrite Hout1.
    rewrite lookup_insert_ne by (apply not_eq_sym, cleaning_not_stage; tails).
    rewrite lookup_insert_ne by (apply not_eq_sym, cleaning_not_stage; tails).
    cbn [outputs set_outputs]. apply lookup_insert_eq. }
  rewrite Hc2' in Hc2. inversion Hc2; subst c2; clear Hc2.
  exists c. split; [exact Hc|].
  cbn [fm_section_summary]. destruct c; reflexivity.
Qed.

(** What the formatted record is made of. *)

(** When [formatted_hybrid_summary] returns, the record it returns is
    the one it wrote to [<root>_formatted_summary.json]. Its final
    abstract is the abstractive summary of the scrubbed cleaned text;
    its key points are the stripped sentences of a textrank extract at
    the given ratio, drawn from the corpus sentences, which the
    scrubbing does not touch; title and objective are read off the
    scrubbed text and the sentences of the abstract; the resume
    headings found in the scrubbed text (Education, Projects, Skills,
    Work Experience, in this order) come first among the sections,
    followed by the detected sections under other names. The records of
    the two steps are the document's abstractive and extractive
    records afterwards. *)
Theorem formatted_hybrid_summary_record (filename : string) (ratio : Qc)
    (max_length min_length : Z) (use_pipeline : bool) (s : service)
    (fm : formatted_summary) (path : string) (s' : service) :
  formatted_hybrid_summary filename ratio max_length min_length use_pipeline s
  = (Ok (fm, path), s') ->
  exists c ab ex extra,
    outputs s !! Path.cleaning_metadata filename = Some (JsonFile (JCleaning c))
    /\ path = Path.of_stage filename "_formatted_summary.json"
    /\ outputs s' !! path = Some (JsonFile (JFormatted fm))
    /\ get_summary filename "abstractive" s' = (Ok (JAbstractive ab), s')
    /\ get_summary filename "extractive" s' = (Ok (JExtractive ex), s')
    /\ ab_original_length ab = String.length (scrub (cleaned_text c))
    /\ fm_final_abstract fm = ab_summary_text ab
    /\ fm_key_points fm = map PyStr.strip (ex_summary_sentences ex)
    /\ ex_summary_sentences ex ⊆+ sentences c
    /\ ex_summary_ratio ex = ratio
    /\ (let abstract_sentences := stripped_nonempty (PyStr.split "." (ab_summary_text ab)) in
        fm_title fm = detect_title (scrub (cleaned_text c)) abstract_sentences
        /\ fm_objective fm = detect_objective abstract_sentences)
    /\ fm_section_summary fm = resume_section_summary (scrub (cleaned_text c)) ++ extra
    /\ map fst (resume_section_summary (scrub (cleaned_text c))) `sublist_of` resume_sections
    /\ extra `sublist_of` section_wise_summary (scrub (cleaned_text c))
    /\ Forall (fun kv => has_key (fst kv) (resume_section_summary (scrub (cleaned_text c)))
                         = false) extra
    /\ fm_processing_method fm = "optimized_formatted".
Proof.
  unfold formatted_hybrid_summary. intros Hrun.
  apply bind_ok_inv in Hrun. destruct Hrun as (text & s0 & Hscrub & Hrun).
  apply bind_ok_inv in Hrun. destruct Hrun as (ab & s1 & Hab & Hrun).
  apply bind_ok_inv in Hrun. destruct Hrun as (ex & s2 & Hex & Hrun).
  apply bind_ok_inv in Hrun. destruct Hrun as (present & s2' & Hp & Hrun).
  rewrite path_exists_run in Hp. inversion Hp; subst present s2'; clear Hp.
  apply if_raise_ok_inv in Hrun. destruct Hrun as [_ Hrun].
  apply bind_ok_inv in Hrun. destruct Hrun as (c2 & s2' & Hc2 & Hrun).
  apply read_cleaning_ok_inv in Hc2. destruct Hc2 as [-> Hc2].
  apply bind_ok_inv in Hrun. destruct Hrun as ([] & s3 & Hw & Hrun).
  apply write_file_ok_inv in Hw. subst s3.
  unfold ret in Hrun. inversion Hrun; subst fm path s'; clear Hrun.
  destruct (abstractive_summary_ok_inv _ _ _ _ _ _ _ _ Hab) as (c0 & Hc0 & Habmd & Hout1).
  destruct (extractive_summary_ok_inv _ _ _ _ _ _ _ Hex)
    as (c1 & scores & Hc1 & _ & Hsel & Hexmd & Hout2).
  apply scrub_artifact_ok_inv in Hscrub.
  destruct Hscrub as [(Hnone & _ & ->)|(c & Hc & -> & ->)]; [congruence|].
  cbn [outputs set_outputs] in Hc0. rewrite lookup_insert_eq in Hc0.
  inversion Hc0; subst c0; clear Hc0.
  assert (Hc1' : outputs s1 !! Path.cleaning_metadata filename
                = Some (JsonFile (JCleaning (set_cleaned_text (scrub (cleaned_text c)) c)))).
  { rewrite Hout1.
    rewrite lookup_insert_ne by (apply not_eq_sym, cleaning_not_stage; tails).
    rewrite lookup_insert_ne by (apply not_eq_sym, cleaning_not_stage; tails).
    cbn [outputs set_outputs]. apply lookup_insert_eq. }
  rewrite Hc1' in Hc1. inversion Hc1; subst c1; clear Hc1.
  assert (Hc2' : outputs s2 !! Path.cleaning_metadata filename
                = Some (JsonFile (JCleaning (set_cleaned_text (scrub (cleaned_text c)) c)))).
  { rewrite Hout2. unfold with_extractive.
    rewrite lookup_insert_ne by (apply not_eq_sym, cleaning_not_stage; tails).
    rewrite lookup_insert_ne by (apply not_eq_sym, cleaning_not_stage; tails).
    exact Hc1'. }
  rewrite Hc2' in Hc2. inversion Hc2; subst c2; clear Hc2.
  assert (Htext : cleaned_text (set_cleaned_text (scrub (cleaned_text c)) c)
                  = scrub (cleaned_text c)) by (destruct c; reflexivity).
  assert (Hsents : sentences (set_cleaned_text (scrub (cleaned_text c)) c) = sentences c)
    by (destruct c; reflexivity).
  rewrite Htext in *. rewrite Hsents in *.
  destruct (merge_sections_appends (resume_section_summary (scrub (cleaned_text c)))
              (section_wise_summary (scrub (cleaned_text c)))) as (extra & Hmerge & Hsub & Hall).
  exists c, ab, ex, extra. cbn [outputs set_outputs fm_final_abstract fm_key_points
    fm_title fm_objective fm_section_summary fm_processing_method].
  split; [exact Hc|]. split; [reflexivity|]. split; [apply lookup_insert_eq|].
  split.
  { apply get_summary_found. cbn [outputs set_outputs].
    change ("_" +:+ "abstractive" +:+ "_summary_metadata.json")
      with "_abstractive_summary_metadata.json".
    rewrite lookup_insert_ne by (apply of_stage_differ; tails).
    rewrite Hout2. unfold with_extractive.
    rewrite lookup_insert_ne by (apply of_stage_differ; tails).
    rewrite lookup_insert_ne by (apply of_stage_differ; tails).
    rewrite Hout1. apply lookup_insert_eq. }
  split.
  { apply get_summary_found. cbn [outputs set_outputs].
    change ("_" +:+ "extractive" +:+ "_summary_metadata.json")
      with "_extractive_summary_metadata.json".
    rewrite lookup_insert_ne by (apply of_stage_differ; tails).
    rewrite Hout2. unfold with_extractive. apply lookup_insert_eq. }
  split; [rewrite Habmd at 1; reflexivity|].
  split; [reflexivity|]. split; [reflexivity|].
  split; [exact (select_top_submseteq _ _ _ _ Hsel)|].
  split; [rewrite Hexmd; reflexivity|].
  split; [split; reflexivity|].
  split; [exact Hmerge|]. split; [apply resume_section_summary_keys|].
  split; [exact Hsub|]. split; [exact Hall | reflexivity].
Qed.

End FormattedRecord.

Lemma formatted_hybrid_summary_record_witness :
  exists fm path s' ab,
    @formatted_hybrid_summary Demo.working "doc.pdf" half 200 50 true Demo.doc_service
    = (Ok (fm, path), s')
    /\ @get_summary "doc.pdf" "abstractive" s' = (Ok (JAbstractive ab), s')
    /\ fm_final_abstract fm = ab_summary_text ab.
Proof.
  destruct (@formatted_hybrid_summary Demo.working "doc.pdf" half 200 50 true Demo.doc_service)
    as [[[fm path]|e] s'] eqn:Hrun; [|vm_compute in Hrun; discriminate Hrun].
  destruct (@formatted_hybrid_summary_record Demo.working _ _ _ _ _ _ _ _ _ Hrun)
    as (c & ab & ex & extra & _ & _ & _ & Hget & _ & _ & Habs & _).
  exists fm, path, s', ab. split; [reflexivity|]. split; assumption.
Defined.

(** ** Whitespace normalisation *)

(** [\s+] at the start of a text takes the whole run of whitespace. *)
Lemma greedy_space_run (taken : nat) (s : string) :
  (1 <= taken)%nat ->
  Re.greedy (Re.plus Re.space) (Re.match_here []) taken s = Some (PyStr.lstrip s).
Proof.
  revert taken. induction s as [|c s IH]; intros taken Ht.
  - cbn. destruct taken; [lia | reflexivity].
  - cbn [Re.greedy PyStr.lstrip]. unfold Re.plus at 1 2. cbn [Re.cls Re.rmax Re.rmin Re.below].
    unfold Re.space at 1. rewrite andb_true_r.
    destruct (PyStr.is_space c) eqn:Hc.
    + rewrite (IH (S taken)) by lia. reflexivity.
    + destruct taken; [lia | reflexivity].
Qed.

Lemma match_space_run (c : ascii) (s : string) :
  Re.match_here [Re.plus Re.space] (String c s)
  = if PyStr.is_space c then Some (PyStr.lstrip s) else None.
Proof.
  cbn [Re.match_here Re.greedy]. unfold Re.plus at 1 2 4.
  cbn [Re.cls Re.rmax Re.rmin Re.below]. unfold Re.space at 1. rewrite andb_true_r.
  destruct (PyStr.is_space c); [|reflexivity].
  rewrite greedy_space_run by lia. reflexivity.
Qed.

Lemma re_sub_skip_run (p : Re.pattern) (repl s : string) :
  re_sub_go p repl (String.length s - String.length (PyStr.lstrip s)) s
  = re_sub_go p repl 0 (PyStr.lstrip s).
Proof.
  induction s as [|c s IH]; [reflexivity|].
  cbn [PyStr.lstrip]. destruct (PyStr.is_space c).
  - pose proof (lstrip_length s) as Hl.
    replace (String.length (String c s) - String.length (PyStr.lstrip s))%nat
      with (S (String.length s - String.length (PyStr.lstrip s)))
      by (cbn [String.length]; lia).
    cbn [re_sub_go]. exact IH.
  - rewrite Nat.sub_diag. reflexivity.
Qed.

(** The two equations of [re.sub(r'\s+', ' ', s)]. *)
Lemma squeeze_cons (c : ascii) (s : string) :
  re_sub [Re.plus Re.space] " " (String c s)
  = if PyStr.is_space c
    then String " " (re_sub [Re.plus Re.space] " " (PyStr.lstrip s))
    else String c (re_sub [Re.plus Re.space] " " s).
Proof.
  unfold re_sub. cbn [re_sub_go]. rewrite match_space_run.
  destruct (PyStr.is_space c); [|reflexivity].
  pose proof (lstrip_length s) as Hl.
  replace (String.length (String c s) - String.length (PyStr.lstrip s))%nat
    with (S (String.length s - String.length (PyStr.lstrip s)))
    by (cbn [String.length]; lia).
  rewrite re_sub_skip_run. reflexivity.
Qed.

Lemma lstrip_head (s : string) (c : ascii) (r : string) :
  PyStr.lstrip s = String c r -> PyStr.is_space c = false.
Proof.
  induction s as [|x s IH]; [discriminate|].
  cbn [PyStr.lstrip]. destruct (PyStr.is_space x) eqn:Hx; [exact IH|].
  intros E. inversion E; subst. exact Hx.
Qed.

Lemma lstrip_idem (s : string) : PyStr.lstrip (PyStr.lstrip s) = PyStr.lstrip s.
Proof.
  destruct (PyStr.lstrip s) as [|c r] eqn:E; [reflexivity|].
  cbn [PyStr.lstrip]. rewrite (lstrip_head _ _ _ E). reflexivity.
Qed.

Lemma lstrip_squeeze (s : string) :
  PyStr.lstrip (re_sub [Re.plus Re.space] " " s)
  = re_sub [Re.plus Re.space] " " (PyStr.lstrip s).
Proof.
  induction s as [|c s IH]; [reflexivity|].
  rewrite squeeze_cons. cbn [PyStr.lstrip].
  destruct (PyStr.is_space c) eqn:Hc.
  - change (PyStr.is_space " ") with true. cbn iota.
    destruct (PyStr.lstrip s) as [|x r] eqn:E; [reflexivity|].
    rewrite squeeze_cons. rewrite (lstrip_head _ _ _ E).
    cbn [PyStr.lstrip]. rewrite (lstrip_head _ _ _ E). reflexivity.
  - cbn [PyStr.lstrip]. rewrite Hc. rewrite squeeze_cons, Hc. reflexivity.
Qed.

Lemma join_cons_char (c : ascii) (w : string) (ws : list string) :
  PyStr.join " " (String c w :: ws) = String c (PyStr.join " " (w :: ws)).
Proof. cbn [PyStr.join]. destruct ws; [reflexivity|]. rewrite append_cons. reflexivity. Qed.

Lemma split_ws_word_nonempty (s : string) : Forall (fun w => w <> EmptyString) (PyStr.split_ws s).
Proof.
  induction s as [|c s IH]; [constructor|].
  cbn [PyStr.split_ws]. destruct (PyStr.is_space c); [exact IH|].
  destruct s as [|c' s']; [repeat constructor; discriminate|].
  destruct (PyStr.is_space c').
  - constructor; [discriminate | exact IH].
  - destruct (PyStr.split_ws (String c' s')) as [|w ws].
    + repeat constructor; discriminate.
    + inversion IH; subst. constructor; [discriminate | assumption].
Qed.

Lemma join_words_nonempty (w : string) (ws : list string) :
  w <> EmptyString -> PyStr.join " " (w :: ws) <> EmptyString.
Proof.
  intros Hw. destruct w as [|c w]; [contradiction|].
  rewrite join_cons_char. discriminate.
Qed.

(** The right-stripped squeeze of a text that does not start with
    whitespace spells its words with single blanks between them. *)
Lemma rstrip_squeeze_words (s : string) :
  PyStr.rstrip (re_sub [Re.plus Re.space] " " (PyStr.lstrip s))
  = PyStr.join " " (PyStr.split_ws s).
Proof.
  induction s as [|c s IH]; [reflexivity|].
  cbn [PyStr.lstrip PyStr.split_ws].
  destruct (PyStr.is_space c) eqn:Hc; [exact IH|].
  rewrite squeeze_cons, Hc.
  assert (Hr : forall x, PyStr.rstrip (String c x) = String c (PyStr.rstrip x)).
  { intros x. cbn [PyStr.rstrip]. rewrite Hc. destruct (PyStr.rstrip x); reflexivity. }
  rewrite Hr.
  destruct s as [|c' s']; [reflexivity|].
  destruct (PyStr.is_space c') eqn:Hc'.
  - cbn [PyStr.lstrip] in IH. rewrite Hc' in IH.
    rewrite squeeze_cons, Hc'.
    cbn [PyStr.rstrip]. rewrite IH.
    change (PyStr.is_space " ") with true. cbn iota.
    pose proof (split_ws_word_nonempty (String c' s')) as Hne.
    destruct (PyStr.split_ws (String c' s')) as [|w ws] eqn:Hw; [reflexivity|].
    inversion Hne; subst.
    pose proof (join_words_nonempty w ws ltac:(assumption)) as Hj.
    destruct (PyStr.join " " (w :: ws)) as [|y r] eqn:Ej; [contradiction|].
    change (PyStr.join " " (String c EmptyString :: w :: ws))
      with (String c EmptyString +:+ " " +:+ PyStr.join " " (w :: ws)).
    rewrite Ej. reflexivity.
  - cbn [PyStr.lstrip] in IH. rewrite Hc' in IH. rewrite IH.
    pose proof (split_ws_head c' s' Hc') as Hne.
    destruct (PyStr.split_ws (String c' s')) as [|w ws]; [contradiction|].
    rewrite join_cons_char. reflexivity.
Qed.

Lemma strip_squeeze_words (s : string) :
  PyStr.strip (re_sub [Re.plus Re.space] " " s) = single_spaced s.
Proof.
  unfold PyStr.strip, single_spaced. rewrite lstrip_squeeze. apply rstrip_squeeze_words.
Qed.

Lemma strip_head (s : string) (c : ascii) (r : string) :
  PyStr.strip s = String c r -> PyStr.is_space c = false.
Proof.
  unfold PyStr.strip. intros E.
  destruct (rstrip_head _ _ _ E) as [s' Hs']. exact (lstrip_head _ _ _ Hs').
Qed.

Lemma rstrip_idem (s : string) : PyStr.rstrip (PyStr.rstrip s) = PyStr.rstrip s.
Proof.
  induction s as [|c s IH]; [reflexivity|].
  cbn [PyStr.rstrip]. destruct (PyStr.rstrip s) as [|x r] eqn:E.
  - destruct (PyStr.is_space c) eqn:Hc; [reflexivity|].
    cbn [PyStr.rstrip]. rewrite Hc. reflexivity.
  - cbn [PyStr.rstrip]. cbn [PyStr.rstrip] in IH. rewrite IH. reflexivity.
Qed.

Lemma strip_idem (s : string) : PyStr.strip (PyStr.strip s) = PyStr.strip s.
Proof.
  unfold PyStr.strip.
  destruct (PyStr.rstrip (PyStr.lstrip s)) as [|c r] eqn:E; [reflexivity|].
  destruct (rstrip_head _ _ _ E) as [s' Hs'].
  cbn [PyStr.lstrip]. rewrite (lstrip_head _ _ _ Hs').
  rewrite <- E. apply rstrip_idem.
Qed.

(** Splitting the single-spaced text gives the words back. *)
Lemma split_ws_single_spaced (s : string) :
  PyStr.split_ws (single_spaced s) = PyStr.split_ws s.
Proof.
  unfold single_spaced.
  induction s as [|c s IH]; [reflexivity|].
  cbn [PyStr.split_ws].
  destruct (PyStr.is_space c) eqn:Hc; [exact IH|].
  destruct s as [|c' s'].
  - cbn. rewrite Hc. reflexivity.
  - destruct (PyStr.is_space c') eqn:Hc'.
    + destruct (PyStr.split_ws (String c' s')) as [|w ws] eqn:Hw.
      * cbn. rewrite Hc. reflexivity.
      * change (PyStr.join " " (String c EmptyString :: w :: ws))
          with (String c (String " " (PyStr.join " " (w :: ws)))).
        cbn [PyStr.split_ws]. rewrite Hc.
        change (PyStr.is_space " ") with true. cbn iota.
        rewrite IH. reflexivity.
    + pose proof (split_ws_head c' s' Hc') as Hne.
      destruct (PyStr.split_ws (String c' s')) as [|w ws] eqn:Hw; [contradiction|].
      rewrite join_cons_char.
      assert (Hhead : forall y r, PyStr.join " " (w :: ws) = String y r ->
                                  PyStr.is_space y = false).
      { intros y r E. apply (strip_head (re_sub [Re.plus Re.space] " " (String c' s')) y r).
        rewrite strip_squeeze_words. unfold single_spaced. rewrite Hw. exact E. }
      cbn [PyStr.split_ws]. rewrite Hc.
      destruct (PyStr.join " " (w :: ws)) as [|y r] eqn:Ej.
      * cbn in IH. discriminate IH.
      * rewrite (Hhead y r eq_refl). rewrite IH. reflexivity.
Qed.

(** [remove_extra_whitespace] and the cleaner's [_normalize_whitespace]
    are one function: it returns the words of the text separated by
    single blanks. The result has the words of the text and no
    whitespace at either end, and normalising it again changes
    nothing. *)
Theorem remove_extra_whitespace_single_spaces (text : string) :
  Cleaner._normalize_whitespace text = TextUtils.remove_extra_whitespace text
  /\ TextUtils.remove_extra_whitespace text = PyStr.join " " (PyStr.split_ws text)
  /\ PyStr.split_ws (TextUtils.remove_extra_whitespace text) = PyStr.split_ws text
  /\ PyStr.strip (TextUtils.remove_extra_whitespace text)
     = TextUtils.remove_extra_whitespace text
  /\ TextUtils.remove_extra_whitespace (TextUtils.remove_extra_whitespace text)
     = TextUtils.remove_extra_whitespace text.
Proof.
  split; [reflexivity|].
  unfold TextUtils.remove_extra_whitespace.
  rewrite !strip_squeeze_words.
  split; [reflexivity|].
  split; [apply split_ws_single_spaced|].
  split.
  - rewrite <- (strip_squeeze_words text) at 2.
    rewrite <- (strip_squeeze_words text) at 1.
    apply strip_idem.
  - unfold single_spaced at 1. rewrite split_ws_single_spaced. reflexivity.
Qed.

(** ** The headings [get_section_wise_summary] detects *)

Lemma one_line_nil : one_line EmptyString.
Proof. constructor. Qed.

Lemma one_line_cons (c : ascii) (l : string) :
  one_line (String c l) <-> SectionPattern.not_newline c = true /\ one_line l.
Proof. unfold one_line. rewrite chars_cons, Forall_cons. reflexivity. Qed.

Lemma not_newline_eqb (c : ascii) :
  SectionPattern.not_newline c = true -> Ascii.eqb c PyText.newline = false.
Proof. unfold SectionPattern.not_newline. destruct (Ascii.eqb c PyText.newline); [discriminate | reflexivity]. Qed.

Lemma at_line_end_cases (t : string) :
  at_line_end t <-> t = EmptyString \/ exists rest, t = String PyText.newline rest.
Proof.
  unfold at_line_end. destruct t as [|c t]; cbn [SectionPattern.lookahead].
  - split; [left | ]; reflexivity.
  - destruct (Ascii.eqb c PyText.newline) eqn:E.
    + apply Ascii.eqb_eq in E. subst c. split; [right; eauto | reflexivity].
    + split; [discriminate|]. intros [?|[rest Hr]]; [discriminate|].
      inversion Hr; subst. rewrite Ascii.eqb_refl in E. discriminate.
Qed.

(** Every text is a first line followed by a line end. *)
Lemma first_line (text : string) :
  exists l t, text = l +:+ t /\ one_line l /\ at_line_end t.
Proof.
  induction text as [|c text (l & t & -> & Hl & Ht)].
  - exists EmptyString, EmptyString. repeat split. constructor.
  - destruct (Ascii.eqb c PyText.newline) eqn:E.
    + exists EmptyString, (String c (l +:+ t)). repeat split; [constructor|].
      unfold at_line_end. cbn. rewrite E. reflexivity.
    + exists (String c l), t. repeat split; [|exact Ht].
      apply one_line_cons. split; [|exact Hl].
      unfold SectionPattern.not_newline. rewrite E. reflexivity.
Qed.

(** *** The group on a line *)

Lemma greedy_rest_of_line (taken : nat) (l t : string) :
  one_line l -> at_line_end t ->
  Re.greedy (Re.at_least 5 SectionPattern.not_newline) SectionPattern.lookahead taken (l +:+ t)
  = if (5 <=? taken + String.length l)%nat then Some t else None.
Proof.
  intros Hl Ht. revert taken. induction l as [|c l IH]; intros taken.
  - rewrite append_nil_l, Nat.add_0_r.
    assert (Hstop : (if (5 <=? taken)%nat then SectionPattern.lookahead t else None)
                    = if (5 <=? taken)%nat then Some t else None).
    { rewrite Ht. reflexivity. }
    destruct t as [|c t]; cbn [Re.greedy Re.at_least Re.cls Re.rmin Re.rmax Re.below];
      [exact Hstop|].
    apply at_line_end_cases in Ht. destruct Ht as [?|[rest Hr]]; [discriminate|].
    inversion Hr; subst.
    change (SectionPattern.not_newline PyText.newline) with false. cbn [andb].
    exact Hstop.
  - apply one_line_cons in Hl. destruct Hl as [Hc Hl].
    rewrite append_cons.
    cbn [Re.greedy Re.at_least Re.cls Re.rmin Re.rmax Re.below String.length].
    rewrite Hc. cbn [andb].
    change (Re.greedy {| Re.cls := SectionPattern.not_newline; Re.rmin := 5; Re.rmax := None |})
      with (Re.greedy (Re.at_least 5 SectionPattern.not_newline)).
    rewrite (IH Hl (S taken)).
    replace (S taken + String.length l)%nat with (taken + S (String.length l))%nat by lia.
    destruct (5 <=? taken + S (String.length l))%nat eqn:E; [reflexivity|].
    cbn [SectionPattern.lookahead]. rewrite (not_newline_eqb _ Hc).
    destruct (5 <=? taken)%nat; reflexivity.
Qed.

Lemma capital_not_newline (c : ascii) :
  SectionPattern.capital c = true -> SectionPattern.not_newline c = true.
Proof.
  unfold SectionPattern.not_newline. destruct (Ascii.eqb c PyText.newline) eqn:E; [|reflexivity].
  apply Ascii.eqb_eq in E. subst c. vm_compute. discriminate.
Qed.

Lemma group_here_line (l t : string) :
  one_line l -> at_line_end t ->
  SectionPattern.group_here (l +:+ t) = if heading_line l then Some t else None.
Proof.
  intros Hl Ht. unfold SectionPattern.group_here.
  destruct l as [|c l].
  - rewrite append_nil_l. cbn [heading_line].
    apply at_line_end_cases in Ht. destruct Ht as [->|[rest ->]]; reflexivity.
  - apply one_line_cons in Hl. destruct Hl as [Hc Hl].
    rewrite append_cons. cbn [heading_line].
    cbn [Re.greedy Re.once Re.cls Re.rmin Re.rmax Re.below].
    destruct (SectionPattern.capital c); cbn [andb]; [|reflexivity].
    change (0 <? 1)%nat with true. cbn iota.
    assert (Hin : Re.greedy (Re.once SectionPattern.capital)
                    (Re.greedy (Re.at_least 5 SectionPattern.not_newline)
                       SectionPattern.lookahead 0) 1 (l +:+ t)
                  = Re.greedy (Re.at_least 5 SectionPattern.not_newline)
                      SectionPattern.lookahead 0 (l +:+ t)).
    { destruct (l +:+ t) as [|x r]; cbn [Re.greedy Re.once Re.cls Re.rmin Re.rmax Re.below].
      - reflexivity.
      - change (1 <? 1)%nat with false. rewrite andb_false_r. reflexivity. }
    rewrite Hin, (greedy_rest_of_line 0 l t Hl Ht). cbn [Nat.add].
    destruct (5 <=? String.length l)%nat; reflexivity.
Qed.

Lemma substring_prefix (l t : string) :
  String.substring 0 (String.length (l +:+ t) - String.length t) (l +:+ t) = l.
Proof.
  rewrite length_append. replace (String.length l + String.length t - String.length t)%nat
    with (String.length l) by lia.
  induction l as [|c l IH].
  - rewrite append_nil_l. destruct t; reflexivity.
  - rewrite append_cons. cbn [String.length String.substring]. rewrite IH. reflexivity.
Qed.

Lemma heading_here_line (l t : string) :
  one_line l -> at_line_end t ->
  SectionPattern.heading_here (l +:+ t) = if heading_line l then Some l else None.
Proof.
  intros Hl Ht. unfold SectionPattern.heading_here.
  rewrite (group_here_line l t Hl Ht).
  destruct (heading_line l); [|reflexivity].
  rewrite substring_prefix. reflexivity.
Qed.

Lemma heading_here_newline (rest : string) :
  SectionPattern.heading_here (String PyText.newline rest) = None.
Proof. reflexivity. Qed.

(** *** The scan *)

(** At a line end the scan does not depend on whether [^] holds. *)
Lemma findall_go_line_end (b : bool) (t : string) :
  at_line_end t ->
  SectionPattern.findall_go b 0 t = SectionPattern.findall_go true 0 t.
Proof.
  intros Ht. apply at_line_end_cases in Ht. destruct Ht as [->|[rest ->]]; [reflexivity|].
  cbn [SectionPattern.findall_go]. rewrite Ascii.eqb_refl.
  rewrite heading_here_newline. destruct b; reflexivity.
Qed.

Lemma findall_go_skip (b : bool) (l t : string) :
  at_line_end t ->
  SectionPattern.findall_go b (String.length l) (l +:+ t) = SectionPattern.findall_go true 0 t.
Proof.
  intros Ht. revert b. induction l as [|c l IH]; intros b.
  - rewrite append_nil_l. apply findall_go_line_end, Ht.
  - rewrite append_cons. cbn [String.length SectionPattern.findall_go]. apply IH.
Qed.

Lemma findall_go_inside (l t : string) :
  one_line l -> at_line_end t ->
  SectionPattern.findall_go false 0 (l +:+ t) = SectionPattern.findall_go true 0 t.
Proof.
  intros Hl Ht. induction l as [|c l IH].
  - rewrite append_nil_l. apply findall_go_line_end, Ht.
  - apply one_line_cons in Hl. destruct Hl as [Hc Hl].
    rewrite append_cons. cbn [SectionPattern.findall_go].
    rewrite (not_newline_eqb _ Hc). apply IH, Hl.
Qed.

(** The scan of one line from its start. *)
Lemma findall_go_line (l t : string) :
  one_line l -> at_line_end t ->
  SectionPattern.findall_go true 0 (l +:+ t)
  = (if heading_line l then [l] else []) ++ SectionPattern.findall_go true 0 t.
Proof.
  intros Hl Ht. pose proof (heading_here_line l t Hl Ht) as Hh.
  destruct l as [|c l].
  - rewrite append_nil_l. reflexivity.
  - pose proof Hl as Hl'. apply one_line_cons in Hl'. destruct Hl' as [Hc Hl'].
    rewrite append_cons in *. cbn [SectionPattern.findall_go].
    rewrite (not_newline_eqb _ Hc). rewrite Hh.
    destruct (heading_line (String c l)).
    + cbn [String.length Nat.sub app]. rewrite Nat.sub_0_r.
      rewrite findall_go_skip by exact Ht. reflexivity.
    + cbn [app]. apply findall_go_inside; assumption.
Qed.

(** A newline neither hides nor adds a heading. *)
Lemma findall_go_newline (b : bool) (rest : string) :
  SectionPattern.findall_go b 0 (String PyText.newline rest)
  = SectionPattern.findall_go true 0 rest.
Proof.
  destruct (first_line rest) as (l & t & -> & Hl & Ht).
  cbn [SectionPattern.findall_go]. rewrite Ascii.eqb_refl.
  rewrite (heading_here_line l t Hl Ht), heading_here_newline.
  rewrite (findall_go_line l t Hl Ht).
  destruct (heading_line l).
  - rewrite findall_go_skip by exact Ht. reflexivity.
  - destruct b; reflexivity.
Qed.

(** *** The lines of a text *)

Lemma split_last_line (l : string) : one_line l -> PyStr.split PyText.nl l = [l].
Proof.
  unfold PyStr.split. induction l as [|c l IH]; intros Hl; [reflexivity|].
  apply one_line_cons in Hl. destruct Hl as [Hc Hl].
  cbn [PyStr.split_go PyText.nl String.prefix].
  destruct (Ascii.ascii_dec PyText.newline c) as [E|E].
  - subst c. discriminate Hc.
  - rewrite (IH Hl). reflexivity.
Qed.

Lemma split_first_line (l rest : string) :
  one_line l -> PyStr.split PyText.nl (l +:+ String PyText.newline rest) = l :: PyStr.split PyText.nl rest.
Proof.
  unfold PyStr.split. induction l as [|c l IH]; intros Hl.
  - rewrite append_nil_l. cbn [PyStr.split_go PyText.nl String.prefix].
    destruct (Ascii.ascii_dec PyText.newline PyText.newline) as [E|E]; [|contradiction].
    destruct rest; reflexivity.
  - apply one_line_cons in Hl. destruct Hl as [Hc Hl].
    rewrite append_cons.
    cbn [PyStr.split_go PyText.nl String.prefix].
    destruct (Ascii.ascii_dec PyText.newline c) as [E|E].
    + subst c. discriminate Hc.
    + rewrite (IH Hl). reflexivity.
Qed.

Lemma findall_lines (n : nat) (text : string) :
  (String.length text <= n)%nat ->
  SectionPattern.findall_go true 0 text
  = filter (fun line => heading_line line = true) (PyStr.split PyText.nl text).
Proof.
  revert text. induction n as [|n IH]; intros text Hn.
  - destruct text; [reflexivity | cbn in Hn; lia].
  - destruct (first_line text) as (l & t & -> & Hl & Ht).
    rewrite (findall_go_line l t Hl Ht).
    apply at_line_end_cases in Ht. destruct Ht as [->|[rest ->]].
    + rewrite append_nil_r, (split_last_line l Hl).
      rewrite filter_cons, filter_nil.
      destruct (heading_line l); reflexivity.
    + rewrite findall_go_newline, (split_first_line l rest Hl), filter_cons.
      rewrite IH.
      * destruct (heading_line l); reflexivity.
      * rewrite length_append in Hn. cbn [String.length] in Hn. lia.
Qed.

(** The headings detected are the lines of the text that begin with a
    capital ASCII letter and have six or more characters, in the order
    of the text: a sentence that begins a line is a heading as much as
    a title is. *)
Theorem headings_are_the_capital_lines (text : string) :
  SectionPattern.findall text
  = filter (fun line => heading_line line = true)
      (PyStr.split PyText.nl text).
Proof. apply (findall_lines (String.length text)). lia. Qed.

(** ** The body summarised for a heading *)

(** *** Occurrences of a string *)

Lemma prefix_app (sub r : string) : String.prefix sub (sub +:+ r) = true.
Proof.
  induction sub as [|c sub IH]; [destruct r; reflexivity|].
  rewrite append_cons. cbn [String.prefix].
  destruct (Ascii.ascii_dec c c); [exact IH | contradiction].
Qed.

Lemma prefix_split (sub s : string) :
  String.prefix sub s = true -> exists r, s = sub +:+ r.
Proof.
  revert s. induction sub as [|c sub IH]; intros s Hp.
  - exists s. reflexivity.
  - destruct s as [|x s]; [discriminate|].
    cbn [String.prefix] in Hp.
    destruct (Ascii.ascii_dec c x) as [->|]; [|discriminate].
    destruct (IH s Hp) as [r ->]. exists r. rewrite append_cons. reflexivity.
Qed.

Lemma find_at_unfold (sub s : string) (i : nat) :
  PyText.find_at sub s i
  = if String.prefix sub s then Some i
    else match s with
         | EmptyString => None
         | String _ s' => PyText.find_at sub s' (S i)
         end.
Proof. destruct s; reflexivity. Qed.

(** [find] returns the place of an occurrence whenever there is one. *)
Lemma find_at_found (sub s : string) (i : nat) :
  (exists a b, s = a +:+ sub +:+ b) ->
  exists pre rest,
    s = pre +:+ sub +:+ rest /\ PyText.find_at sub s i = Some (i + String.length pre)%nat.
Proof.
  revert i. induction s as [|c s IH]; intros i (a & b & Hs).
  - exists EmptyString, EmptyString.
    destruct a; [|discriminate]. rewrite append_nil_l in Hs.
    destruct sub; [|discriminate]. split; [reflexivity|].
    cbn. rewrite Nat.add_0_r. reflexivity.
  - rewrite find_at_unfold.
    destruct (String.prefix sub (String c s)) eqn:Hp.
    + destruct (prefix_split _ _ Hp) as [r Hr].
      exists EmptyString, r. rewrite append_nil_l, Nat.add_0_r. auto.
    + destruct a as [|x a].
      * rewrite append_nil_l in Hs. rewrite Hs, prefix_app in Hp. discriminate.
      * rewrite append_cons in Hs. inversion Hs; subst x s.
        destruct (IH (S i) (ex_intro _ a (ex_intro _ b eq_refl))) as (pre & rest & Hs' & Hf).
        exists (String c pre), rest. rewrite append_cons, <- Hs'.
        split; [reflexivity|]. rewrite Hf. cbn [String.length]. f_equal. lia.
Qed.

(** The next newline after a place inside a line is the end of that line. *)
Lemma find_newline_in_line (r post : string) (i : nat) :
  one_line r -> at_line_end post ->
  PyText.find_at PyText.nl (r +:+ post) i
  = match post with
    | EmptyString => None
    | String _ _ => Some (i + String.length r)%nat
    end.
Proof.
  intros Hr Hpost. revert i. induction r as [|c r IH]; intros i.
  - rewrite append_nil_l. apply at_line_end_cases in Hpost.
    destruct Hpost as [->|[rest ->]]; [reflexivity|].
    rewrite find_at_unfold. cbn [PyText.nl String.prefix].
    destruct (Ascii.ascii_dec PyText.newline PyText.newline); [|contradiction].
    cbn [String.length]. rewrite Nat.add_0_r. destruct rest; reflexivity.
  - apply one_line_cons in Hr. destruct Hr as [Hc Hr].
    rewrite append_cons, find_at_unfold. cbn [PyText.nl String.prefix].
    destruct (Ascii.ascii_dec PyText.newline c) as [E|E].
    + subst c. discriminate Hc.
    + rewrite (IH Hr (S i)). cbn [String.length].
      destruct post; [reflexivity|]. f_equal. lia.
Qed.

(** *** Substrings *)

Lemma substring_drop (p q : string) (m : nat) :
  String.substring (String.length p) m (p +:+ q) = String.substring 0 m q.
Proof.
  induction p as [|c p IH]; [rewrite append_nil_l; reflexivity|].
  rewrite append_cons. cbn [String.length String.substring]. exact IH.
Qed.

Lemma substring_all (q : string) (m : nat) :
  (String.length q <= m)%nat -> String.substring 0 m q = q.
Proof.
  revert m. induction q as [|c q IH]; intros m Hm; [destruct m; reflexivity|].
  destruct m as [|m]; [cbn in Hm; lia|].
  cbn [String.substring]. rewrite IH by (cbn in Hm; lia). reflexivity.
Qed.

Lemma substring_take (r q : string) :
  String.substring 0 (String.length r) (r +:+ q) = r.
Proof.
  induction r as [|c r IH]; [rewrite append_nil_l; destruct q; reflexivity|].
  rewrite append_cons. cbn [String.length String.substring]. rewrite IH. reflexivity.
Qed.

(** *** Lines and occurrences *)

Lemma lines_occur (n : nat) (text l : string) :
  (String.length text <= n)%nat ->
  In l (PyStr.split PyText.nl text) -> exists a b, text = a +:+ l +:+ b.
Proof.
  revert text. induction n as [|n IH]; intros text Hn Hin.
  - destruct text; [|cbn in Hn; lia].
    cbn in Hin. destruct Hin as [<-|[]]. exists EmptyString, EmptyString. reflexivity.
  - destruct (first_line text) as (l0 & t & -> & Hl & Ht).
    apply at_line_end_cases in Ht. destruct Ht as [->|[rest ->]].
    + rewrite append_nil_r in *. rewrite (split_last_line l0 Hl) in Hin.
      destruct Hin as [<-|[]]. exists EmptyString, EmptyString.
      rewrite append_nil_l, append_nil_r. reflexivity.
    + rewrite (split_first_line l0 rest Hl) in Hin.
      destruct Hin as [<-|Hin].
      * exists EmptyString, (String PyText.newline rest). reflexivity.
      * destruct (IH rest) as (a & b & ->); [|exact Hin|].
        { rewrite length_append in Hn. cbn [String.length] in Hn. lia. }
        exists (l0 +:+ String PyText.newline a), b.
        rewrite append_assoc, append_cons. reflexivity.
Qed.

Lemma headings_occur (text h : string) :
  In h (SectionPattern.findall text) -> exists a b, text = a +:+ h +:+ b.
Proof.
  unfold SectionPattern.findall. rewrite (findall_lines (String.length text)) by lia.
  intros Hin. apply list_elem_of_In, list_elem_of_filter in Hin. destruct Hin as [_ Hin].
  apply list_elem_of_In in Hin.
  apply (lines_occur (String.length text)); [lia | exact Hin].
Qed.

(** *** The loop over the headings *)

Section SectionSummaries.
Context `{Externals}.

(** The body of a heading is the rest of the line in which the heading
    text first occurs. *)
Lemma heading_summary_line (text h pre r post : string) (n : Z) :
  text = pre +:+ h +:+ r +:+ post ->
  one_line r -> at_line_end post ->
  PyText.find_at h text 0 = Some (String.length pre) ->
  TextUtils.heading_summary text n h
  = PyStr.join " " (PyText.take_z n (split_into_sentences (PyStr.strip r))).
Proof.
  intros Htext Hr Hpost Hfind.
  unfold TextUtils.heading_summary, PyText.find. rewrite Hfind.
  set (k := (String.length pre + String.length h)%nat).
  assert (Hlen : String.length text = (k + (String.length r + String.length post))%nat).
  { rewrite Htext, !length_append. unfold k. lia. }
  assert (Hsplit : text = (pre +:+ h) +:+ (r +:+ post)).
  { rewrite Htext, append_assoc. reflexivity. }
  assert (Hk : String.length (pre +:+ h) = k) by (rewrite length_append; reflexivity).
  replace (Z.of_nat (String.length pre) + Z.of_nat (String.length h))%Z
    with (Z.of_nat k) by (unfold k; lia).
  assert (Hnext : PyText.find_from PyText.nl text (Z.of_nat k)
                  = match post with
                    | EmptyString => (-1)%Z
                    | String _ _ => Z.of_nat (k + String.length r)
                    end).
  { unfold PyText.find_from, PyText.wrap.
    destruct (Z.ltb_spec (Z.of_nat k) 0) as [Hneg|_]; [lia|].
    destruct (Z.ltb_spec (Z.of_nat (String.length text)) (Z.of_nat k)) as [Hbig|_]; [lia|].
    rewrite Nat2Z.id.
    rewrite Hsplit at 2. rewrite <- Hk at 1. rewrite substring_drop.
    rewrite substring_all by (rewrite length_append; lia).
    rewrite (find_newline_in_line r post k Hr Hpost).
    destruct post; reflexivity. }
  rewrite Hnext.
  assert (Hbody : PyText.slice text (Z.of_nat k)
                    (if (match post with
                         | EmptyString => (-1)%Z
                         | String _ _ => Z.of_nat (k + String.length r)
                         end =? -1)%Z
                     then None
                     else Some match post with
                               | EmptyString => (-1)%Z
                               | String _ _ => Z.of_nat (k + String.length r)
                               end) = r).
  { unfold PyText.slice, PyText.clamp, PyText.wrap.
    destruct (Z.ltb_spec (Z.of_nat k) 0) as [Hneg|_]; [lia|].
    rewrite Z.min_l by lia. rewrite Nat2Z.id.
    destruct post as [|c post].
    - change (-1 =? -1)%Z with true. cbn iota.
      rewrite Hsplit at 2. rewrite <- Hk at 1. rewrite substring_drop.
      rewrite append_nil_r. apply substring_all.
      cbn [String.length] in Hlen. lia.
    - destruct (Z.eqb_spec (Z.of_nat (k + String.length r)) (-1)) as [Habs|_]; [lia|].
      destruct (Z.ltb_spec (Z.of_nat (k + String.length r)) 0) as [Hneg|_]; [lia|].
      rewrite Z.min_l by (cbn [String.length] in Hlen; lia).
      replace (Z.to_nat (Z.of_nat (k + String.length r) - Z.of_nat k))
        with (String.length r) by lia.
      rewrite Hsplit. rewrite <- Hk at 1. rewrite substring_drop.
      apply substring_take. }
  rewrite Hbody. reflexivity.
Qed.

Lemma dict_set_entries (k v k' v' : string) (d : list (string * string)) :
  In (k, v) (PyText.dict_set k' v' d) -> (k, v) = (k', v') \/ In (k, v) d.
Proof.
  induction d as [|[k0 v0] d IH]; cbn [PyText.dict_set].
  - intros [E|[]]. left. symmetry. exact E.
  - destruct (String.eqb k0 k').
    + intros [E|Hin]; [left; symmetry; exact E | right; right; exact Hin].
    + intros [E|Hin]; [right; left; exact E|].
      destruct (IH Hin) as [E|Hin']; [left; exact E | right; right; exact Hin'].
Qed.

Lemma dict_set_has_key (k v : string) (d : list (string * string)) :
  exists v', In (k, v') (PyText.dict_set k v d).
Proof.
  induction d as [|[k0 v0] d (v' & IH)]; cbn [PyText.dict_set].
  - exists v. left. reflexivity.
  - destruct (String.eqb k0 k).
    + exists v. left. reflexivity.
    + exists v'. right. exact IH.
Qed.

Lemma dict_set_keeps_key (k v k' v' : string) (d : list (string * string)) :
  In (k, v) d -> exists w, In (k, w) (PyText.dict_set k' v' d).
Proof.
  induction d as [|[k0 v0] d IH]; [intros []|].
  cbn [PyText.dict_set]. intros [E|Hin].
  - inversion E; subst. destruct (String.eqb k k') eqn:Ek.
    + apply String.eqb_eq in Ek. subst k'. exists v'. left. reflexivity.
    + exists v. left. reflexivity.
  - destruct (String.eqb k0 k').
    + exists v. right. exact Hin.
    + destruct (IH Hin) as [w Hw]. exists w. right. exact Hw.
Qed.

Lemma dict_fold_entries {A} (key value : A -> string) (l : list A)
    (d : list (string * string)) (k v : string) :
  In (k, v) (fold_left (fun d x => PyText.dict_set (key x) (value x) d) l d) ->
  In (k, v) d \/ exists x, In x l /\ k = key x /\ v = value x.
Proof.
  revert d. induction l as [|x l IH]; intros d; cbn [fold_left]; [auto|].
  intros Hin. destruct (IH _ Hin) as [Hd|(y & Hy & Hk & Hv)].
  - destruct (dict_set_entries _ _ _ _ _ Hd) as [E|Hd'].
    + inversion E; subst. right. exists x. split; [left; reflexivity | auto].
    + left. exact Hd'.
  - right. exists y. split; [right; exact Hy | auto].
Qed.

Lemma dict_fold_keeps_key {A} (key value : A -> string) (l : list A)
    (d : list (string * string)) (k v : string) :
  In (k, v) d ->
  exists w, In (k, w) (fold_left (fun d x => PyText.dict_set (key x) (value x) d) l d).
Proof.
  revert d v. induction l as [|x l IH]; intros d v Hin; cbn [fold_left]; [eauto|].
  destruct (dict_set_keeps_key k v (key x) (value x) d Hin) as [w Hw].
  exact (IH _ _ Hw).
Qed.

Lemma dict_fold_has_keys {A} (key value : A -> string) (l : list A)
    (d : list (string * string)) (x : A) :
  In x l ->
  exists w, In (key x, w) (fold_left (fun d x => PyText.dict_set (key x) (value x) d) l d).
Proof.
  revert d. induction l as [|y l IH]; intros d; [intros []|].
  cbn [fold_left]. intros [->|Hin].
  - destruct (dict_set_has_key (key x) (value x) d) as [w Hw].
    exact (dict_fold_keeps_key key value l _ _ _ Hw).
  - exact (IH _ Hin).
Qed.

(** When the text has a heading, the result of
    [get_section_wise_summary] has one entry for every heading, under
    the stripped heading, and no other entry. The value of an entry is
    made of the first sentences of what follows, on the same line, the
    first occurrence of the heading text in the document; it is never
    read from the lines below the heading. When the heading text
    occurs only at ends of lines, every summary is made of the
    sentences of the empty text. *)
Theorem section_summaries_stay_on_one_line (text : string) (n : Z) :
  SectionPattern.findall text <> [] ->
  (forall h, In h (SectionPattern.findall text) ->
             exists v, In (PyStr.strip h, v) (TextUtils.sections_of_text text n))
  /\ (forall k v, In (k, v) (TextUtils.sections_of_text text n) ->
      exists h pre r post,
        In h (SectionPattern.findall text)
        /\ k = PyStr.strip h
        /\ text = pre +:+ h +:+ r +:+ post
        /\ one_line r /\ at_line_end post
        /\ PyText.find h text = Z.of_nat (String.length pre)
        /\ v = PyStr.join " " (PyText.take_z n (split_into_sentences (PyStr.strip r)))
        /\ ((forall a b, text = a +:+ h +:+ b -> at_line_end b) -> r = EmptyString)).
Proof.
  intros Hne. unfold TextUtils.sections_of_text.
  destruct (SectionPattern.findall text) as [|h0 hs] eqn:Hm; [contradiction|].
  rewrite <- Hm in *. clear Hne.
  split.
  - intros h Hin.
    exact (dict_fold_has_keys PyStr.strip (TextUtils.heading_summary text n) _ [] h Hin).
  - intros k v Hin.
    apply (dict_fold_entries PyStr.strip (TextUtils.heading_summary text n)) in Hin.
    destruct Hin as [[]|(h & Hh & -> & ->)].
    destruct (find_at_found h text 0 (headings_occur text h Hh)) as (pre & rest & Htext & Hfind).
    destruct (first_line rest) as (r & post & -> & Hr & Hpost).
    exists h, pre, r, post.
    split; [exact Hh|]. split; [reflexivity|]. split; [exact Htext|].
    split; [exact Hr|]. split; [exact Hpost|].
    split; [unfold PyText.find; rewrite Hfind; reflexivity|].
    split; [exact (heading_summary_line text h pre r post n Htext Hr Hpost Hfind)|].
    intros Hall. specialize (Hall pre (r +:+ post) Htext).
    destruct r as [|c r]; [reflexivity|].
    apply one_line_cons in Hr. destruct Hr as [Hc _].
    rewrite append_cons in Hall. apply at_line_end_cases in Hall.
    destruct Hall as [?|[x Hx]]; [discriminate|].
    inversion Hx; subst. discriminate Hc.
Qed.

End SectionSummaries.

Lemma section_summaries_stay_on_one_line_witness :
  SectionPattern.findall DemoText.report_text <> []
  /\ In ("Introduction", "")
       (@TextUtils.sections_of_text Demo.working DemoText.report_text 2)
  /\ exists h pre r post,
       In h (SectionPattern.findall DemoText.report_text)
       /\ "Introduction" = PyStr.strip h
       /\ DemoText.report_text = pre +:+ h +:+ r +:+ post
       /\ "" = PyStr.join " "
                 (PyText.take_z 2 (@split_into_sentences Demo.working (PyStr.strip r))).
Proof.
  assert (Hne : SectionPattern.findall DemoText.report_text <> []) by (vm_compute; discriminate).
  assert (Hin : In ("Introduction", "")
                  (@TextUtils.sections_of_text Demo.working DemoText.report_text 2))
    by (vm_compute; left; reflexivity).
  split; [exact Hne|]. split; [exact Hin|].
  destruct (@section_summaries_stay_on_one_line Demo.working DemoText.report_text 2 Hne) as [_ Hall].
  destruct (Hall _ _ Hin) as (h & pre & r & post & Hh & Hk & Htext & _ & _ & _ & Hv & _).
  exists h, pre, r, post. auto.
Defined.

(** ** Texts without content and texts without heading *)

Section SectionEdges.
Context `{Externals} `{TextCollaborators}.

Lemma get_section_wise_summary_present (filename : string) (n : Z) (s : service) (f : file) :
  outputs s !! filename = Some f ->
  TextUtils.get_section_wise_summary filename n s
  = (let* text :=
       if PyText.endswith ".json" filename
       then
         let* data := read_json filename in
         ret (TextUtils.get_cleaned_text_or_empty data)
       else TextUtils.read_text filename in
     match PyStr.strip text with
     | EmptyString => ret [("Full Text", "No content available")]
     | _ => ret (TextUtils.sections_of_text text n)
     end) s.
Proof.
  intros Hf. unfold TextUtils.get_section_wise_summary.
  unfold bind at 1. rewrite path_exists_run, Hf, bool_decide_true by eauto. reflexivity.
Qed.

Lemma get_section_wise_summary_json (filename : string) (n : Z) (s : service)
    (j : json_record) :
  PyText.endswith ".json" filename = true ->
  outputs s !! filename = Some (JsonFile j) ->
  TextUtils.get_section_wise_summary filename n s
  = (Ok (match PyStr.strip (TextUtils.get_cleaned_text_or_empty j) with
         | EmptyString => [("Full Text", "No content available")]
         | _ => TextUtils.sections_of_text (TextUtils.get_cleaned_text_or_empty j) n
         end), s).
Proof.
  intros Hjson Hf. rewrite (get_section_wise_summary_present _ _ _ _ Hf), Hjson.
  unfold read_json, bind, get, ret. rewrite Hf.
  destruct (PyStr.strip (TextUtils.get_cleaned_text_or_empty j)); reflexivity.
Qed.

(** [get_section_wise_summary] only reads. A missing file makes it
    raise [FileNotFoundError]; a [.json] path that holds plain text
    makes the JSON reader fail; a JSON record without cleaned text (the
    record of another stage) or with a blank cleaned text gives the
    single section [Full Text] with [No content available], not an
    error. *)
Theorem section_summary_without_content (filename : string) (n : Z) (s : service) :
  snd (TextUtils.get_section_wise_summary filename n s) = s
  /\ (outputs s !! filename = None ->
      TextUtils.get_section_wise_summary filename n s = (Raise FileNotFoundError, s))
  /\ (PyText.endswith ".json" filename = true ->
      (forall t, outputs s !! filename = Some (TextFile t) ->
         TextUtils.get_section_wise_summary filename n s = (Raise JSONDecodeError, s))
      /\ (forall j, outputs s !! filename = Some (JsonFile j) ->
            (forall c, j <> JCleaning c) ->
            TextUtils.get_section_wise_summary filename n s
            = (Ok [("Full Text", "No content available")], s))
      /\ (forall c, outputs s !! filename = Some (JsonFile (JCleaning c)) ->
            PyStr.strip (cleaned_text c) = EmptyString ->
            TextUtils.get_section_wise_summary filename n s
            = (Ok [("Full Text", "No content available")], s))).
Proof.
  split; [|split; [|intros Hjson; split; [|split]]].
  - destruct (outputs s !! filename) as [f|] eqn:Hf.
    + rewrite (get_section_wise_summary_present _ _ _ _ Hf).
      destruct (PyText.endswith ".json" filename);
        unfold read_json, TextUtils.read_text, bind, get, ret, raise; rewrite Hf;
        destruct f as [t|j]; cbn [snd]; try reflexivity.
      * destruct (PyStr.strip (TextUtils.get_cleaned_text_or_empty j)); reflexivity.
      * destruct (PyStr.strip t); reflexivity.
      * destruct (PyStr.strip (json_dumps j)); reflexivity.
    + unfold TextUtils.get_section_wise_summary.
      unfold bind at 1. rewrite path_exists_run, Hf, bool_decide_false; [reflexivity|].
      intros [x Hx]; discriminate.
  - intros Hf. unfold TextUtils.get_section_wise_summary.
    unfold bind at 1. rewrite path_exists_run, Hf, bool_decide_false; [reflexivity|].
    intros [x Hx]; discriminate.
  - intros t Hf. rewrite (get_section_wise_summary_present _ _ _ _ Hf), Hjson.
    unfold read_json, bind, get, raise. rewrite Hf. reflexivity.
  - intros j Hf Hj. rewrite (get_section_wise_summary_json _ _ _ _ Hjson Hf).
    destruct j; try reflexivity. exfalso. exact (Hj c eq_refl).
  - intros c Hf Hblank. rewrite (get_section_wise_summary_json _ _ _ _ Hjson Hf).
    cbn [TextUtils.get_cleaned_text_or_empty]. rewrite Hblank. reflexivity.
Qed.

(** *** The fallback sections *)

Lemma slice_list_run {A} (l : list A) (i c : nat) :
  PyText.slice_list l (Z.of_nat i * Z.of_nat c) ((Z.of_nat i + 1) * Z.of_nat c)
  = take c (drop (i * c) l).
Proof.
  unfold PyText.slice_list, PyText.clamp, PyText.wrap.
  replace (Z.of_nat i * Z.of_nat c)%Z with (Z.of_nat (i * c)) by lia.
  replace ((Z.of_nat i + 1) * Z.of_nat c)%Z with (Z.of_nat (i * c + c)) by lia.
  set (a := (i * c)%nat).
  destruct (Z.ltb_spec (Z.of_nat a) 0) as [Hneg|_]; [lia|].
  destruct (Z.ltb_spec (Z.of_nat (a + c)) 0) as [Hneg|_]; [lia|].
  destruct (Nat.le_gt_cases (length l) a) as [Hge|Hlt].
  - replace (Z.to_nat (Z.min (Z.of_nat a) (Z.of_nat (length l)))) with (length l) by lia.
    rewrite !drop_ge by lia. rewrite !take_nil. reflexivity.
  - replace (Z.to_nat (Z.min (Z.of_nat a) (Z.of_nat (length l)))) with a by lia.
    destruct (Nat.le_gt_cases (a + c) (length l)) as [Hfit|Hover].
    + f_equal. lia.
    + rewrite !take_ge; [reflexivity | rewrite length_drop; lia | rewrite length_drop; lia].
Qed.

Lemma fallback_fold (value : nat -> string) :
  fold_left (fun section_summary '(i, sec) => PyText.dict_set sec (value i) section_summary)
    (imap (fun i sec => (i, sec)) TextUtils.auto_sections) []
  = imap (fun i sec => (sec, value i)) TextUtils.auto_sections.
Proof. reflexivity. Qed.

Lemma sections_without_heading (text : string) (n : Z) :
  SectionPattern.findall text = [] ->
  TextUtils.sections_of_text text n = quarter_sections (split_into_sentences text) n.
Proof.
  intros Hnone. unfold TextUtils.sections_of_text, quarter_sections. rewrite Hnone.
  set (sents := split_into_sentences text).
  assert (Hc : Z.max 1 (Z.of_nat (length sents) / 4)
               = Z.of_nat (Nat.max 1 (length sents / 4))).
  { rewrite Nat2Z.inj_max, Nat2Z.inj_div. reflexivity. }
  cbv zeta. rewrite Hc. set (c := Nat.max 1 (length sents / 4)).
  etransitivity.
  - apply (fallback_fold
             (fun i => PyStr.join " "
                         (PyText.take_z n
                            (PyText.slice_list sents (Z.of_nat i * Z.of_nat c)
                               ((Z.of_nat i + 1) * Z.of_nat c))))).
  - apply imap_ext. intros i sec _. cbv beta. rewrite slice_list_run. reflexivity.
Qed.

(** A text in which no line begins with a capital letter and has six
    or more characters gets the four sections Introduction,
    Applications, Challenges and Future, in this order and whatever it
    is about: section [i] holds the first sentences of the [i]-th run
    of [max(1, len // 4)] sentences, so with four sentences or more
    the sentences past the fourth run are in no section. *)
Theorem sections_without_heading_are_quarters (filename : string) (n : Z) (s : service)
    (c : cleaning_data) :
  PyText.endswith ".json" filename = true ->
  outputs s !! filename = Some (JsonFile (JCleaning c)) ->
  PyStr.strip (cleaned_text c) <> EmptyString ->
  Forall (fun line => heading_line line = false) (PyStr.split PyText.nl (cleaned_text c)) ->
  TextUtils.get_section_wise_summary filename n s
  = (Ok (quarter_sections (split_into_sentences (cleaned_text c)) n), s)
  /\ map fst (quarter_sections (split_into_sentences (cleaned_text c)) n)
     = ["Introduction"; "Applications"; "Challenges"; "Future"].
Proof.
  intros Hjson Hf Hcontent Hlines. split; [|reflexivity].
  rewrite (get_section_wise_summary_json _ _ _ _ Hjson Hf).
  cbn [TextUtils.get_cleaned_text_or_empty].
  destruct (PyStr.strip (cleaned_text c)) eqn:Hs; [contradiction|].
  rewrite sections_without_heading; [reflexivity|].
  unfold SectionPattern.findall. rewrite (findall_lines (String.length (cleaned_text c))) by lia.
  induction Hlines as [|line lines Hline _ IH]; [reflexivity|].
  rewrite filter_cons, Hline. rewrite decide_False by discriminate. exact IH.
Qed.

(** *** One-line texts *)

(** The sections of a text without newline. *)
Lemma one_line_text_sections (text : string) (n : Z) :
  one_line text ->
  TextUtils.sections_of_text text n
  = if heading_line text
    then [(PyStr.strip text,
           PyStr.join " " (PyText.take_z n (split_into_sentences EmptyString)))]
    else quarter_sections (split_into_sentences text) n.
Proof.
  intros Hline.
  assert (Hall : SectionPattern.findall text = if heading_line text then [text] else []).
  { unfold SectionPattern.findall. rewrite (findall_lines (String.length text)) by lia.
    rewrite (split_last_line text Hline), filter_cons, filter_nil.
    destruct (heading_line text); reflexivity. }
  destruct (heading_line text) eqn:Hh.
  - unfold TextUtils.sections_of_text. rewrite Hall. cbn [fold_left PyText.dict_set].
    rewrite (heading_summary_line text text EmptyString EmptyString EmptyString n).
    + reflexivity.
    + rewrite append_nil_l, !append_nil_r. reflexivity.
    + constructor.
    + reflexivity.
    + rewrite find_at_unfold.
      rewrite <- (append_nil_r text) at 2. rewrite prefix_app. reflexivity.
  - apply sections_without_heading. exact Hall.
Qed.

(** A text without newline is one heading or none. If it begins with a capital
    letter and has six or more characters it is its own heading: the
    result is one section under the stripped text, and its summary is
    made of the sentences of the empty text, not of the document.
    Otherwise the result is the four fallback sections. *)
Theorem one_line_text_is_its_own_heading (text : string) (n : Z) :
  one_line text ->
  TextUtils.sections_of_text text n
  = if heading_line text
    then [(PyStr.strip text,
           PyStr.join " " (PyText.take_z n (split_into_sentences EmptyString)))]
    else quarter_sections (split_into_sentences text) n.
Proof. apply one_line_text_sections. Qed.

End SectionEdges.

Lemma sections_without_heading_are_quarters_witness :
  @TextUtils.get_section_wise_summary Demo.working DemoText.tools
    "outputs/notes_cleaning_metadata.json" 2 DemoText.notes_service
  = (Ok [("Introduction", "cats sleep"); ("Applications", "dogs bark");
         ("Challenges", "birds sing"); ("Future", "fish swim")], DemoText.notes_service).
Proof.
  destruct (@sections_without_heading_are_quarters Demo.working DemoText.tools
              "outputs/notes_cleaning_metadata.json" 2 DemoText.notes_service
              (Demo.cleaning DemoText.notes_text
                 (stripped_nonempty (PyStr.split "." DemoText.notes_text))))
    as [Hrun _].
  - reflexivity.
  - reflexivity.
  - vm_compute. discriminate.
  - vm_compute. repeat constructor.
  - rewrite Hrun. reflexivity.
Defined.

Lemma one_line_text_is_its_own_heading_witness :
  one_line Demo.three_text
  /\ @TextUtils.sections_of_text Demo.working Demo.three_text 2
     = [(Demo.three_text, "")].
Proof.
  assert (Hline : one_line Demo.three_text).
  { unfold one_line. apply (bool_decide_unpack _). vm_compute. exact I. }
  split; [exact Hline|].
  rewrite (@one_line_text_is_its_own_heading Demo.working Demo.three_text 2 Hline).
  reflexivity.
Defined.

(** ** The cleaner *)

Section CleanerFacts.
Context `{Externals} `{TextCollaborators} `{ExtractionStage}.

Lemma extraction_exists_run (filename : string) (s : service) :
  Cleaner.extraction_exists filename s
  = (Ok (bool_decide (is_Some (outputs s !! Cleaner.extraction_metadata filename))
         || bool_decide (is_Some (extracted_text (Path.splitext_root filename)))), s).
Proof. reflexivity. Qed.

(** Reading the extraction record: the text, when the extractor left one
    and no other file took its place. *)
Lemma read_extraction_ok_inv (filename : string) (s : service) (t : string) (s' : service) :
  Cleaner.read_extracted_text filename s = (Ok t, s') ->
  s' = s
  /\ outputs s !! Cleaner.extraction_metadata filename = None
  /\ extracted_text (Path.splitext_root filename) = Some t.
Proof.
  unfold Cleaner.read_extracted_text, bind, get.
  destruct (outputs s !! Cleaner.extraction_metadata filename) as [[?|?]|];
    [discriminate | discriminate |].
  destruct (extracted_text (Path.splitext_root filename)); [|discriminate].
  unfold ret. intros E. inversion E; subst. auto.
Qed.

Lemma read_extraction_run (filename : string) (s : service) (t : string) :
  outputs s !! Cleaner.extraction_metadata filename = None ->
  extracted_text (Path.splitext_root filename) = Some t ->
  Cleaner.extraction_exists filename s = (Ok true, s)
  /\ Cleaner.read_extracted_text filename s = (Ok t, s).
Proof.
  intros Hnone Ht. split.
  - rewrite extraction_exists_run, Ht. rewrite (bool_decide_true (is_Some (Some t))) by eauto.
    rewrite orb_true_r. reflexivity.
  - unfold Cleaner.read_extracted_text, bind, get. rewrite Hnone, Ht. reflexivity.
Qed.

(** What [clean_text] returns and leaves for a document the extractor
    has left a text for. *)
Lemma clean_text_run (filename : string) (rs nw rc : bool) (m : Z) (s : service) (t : string) :
  outputs s !! Cleaner.extraction_metadata filename = None ->
  extracted_text (Path.splitext_root filename) = Some t ->
  exists c,
    Cleaner.clean_text filename rs nw rc m s
    = (Ok c,
       set_outputs (insert (Path.cleaning_metadata filename) (JsonFile (JCleaning c)))
         (set_outputs (insert (Path.of_stage filename "_cleaned.txt")
                         (TextFile (cleaned_text c))) s))
    /\ (let text := if nw then Cleaner._normalize_whitespace t else t in
        let text := if rc then Cleaner._remove_special_characters text else text in
        let kept :=
          filter (fun x => (m <= Z.of_nat (String.length (PyStr.strip x)))%Z)
            (split_into_sentences text) in
        sentences c = if rs then map TextUtils.remove_stopwords kept else kept)
    /\ cleaned_text c = PyStr.join " " (sentences c)
    /\ cd_original_length c = Z.of_nat (String.length t)
    /\ cd_cleaned_length c = Z.of_nat (String.length (cleaned_text c))
    /\ cd_word_count c = Z.of_nat (length (PyStr.split_ws (cleaned_text c)))
    /\ cd_sentence_count c = Z.of_nat (length (sentences c))
    /\ cd_file_path c = Path.of_stage filename "_cleaned.txt"
    /\ cd_cleaning_options c = (rs, nw, rc, m).
Proof.
  intros Hnone Ht. destruct (read_extraction_run filename s t Hnone Ht) as [Hex Hread].
  destruct (Cleaner.clean_text filename rs nw rc m s) as [o s'] eqn:Hrun.
  unfold Cleaner.clean_text in Hrun. unfold bind at 1 in Hrun.
  rewrite Hex in Hrun. cbn [negb] in Hrun.
  unfold bind at 1 in Hrun. rewrite Hread in Hrun.
  unfold bind, write_file, modify, ret in Hrun. inversion Hrun; subst o s'; clear Hrun.
  match goal with |- exists c, (Ok ?x, _) = _ /\ _ => exists x end.
  split; [reflexivity|]. cbn. repeat split; reflexivity.
Qed.

Lemma clean_text_ok_inv (filename : string) (rs nw rc : bool) (m : Z) (s : service)
    (c : cleaning_data) (s' : service) :
  Cleaner.clean_text filename rs nw rc m s = (Ok c, s') ->
  exists t,
    outputs s !! Cleaner.extraction_metadata filename = None
    /\ extracted_text (Path.splitext_root filename) = Some t.
Proof.
  unfold Cleaner.clean_text. intros Hrun.
  apply bind_ok_inv in Hrun. destruct Hrun as (present & s0 & Hp & Hrun).
  rewrite extraction_exists_run in Hp. inversion Hp; subst present s0; clear Hp.
  apply if_raise_ok_inv in Hrun. destruct Hrun as [_ Hrun].
  apply bind_ok_inv in Hrun. destruct Hrun as (t & s1 & Ht & _).
  apply read_extraction_ok_inv in Ht. destruct Ht as (_ & Hnone & Ht).
  exists t. auto.
Qed.

(** A failed [clean_text] has written nothing. *)
Lemma clean_text_raise (filename : string) (rs nw rc : bool) (m : Z) (s : service)
    (e : exn) (s' : service) :
  Cleaner.clean_text filename rs nw rc m s = (Raise e, s') -> s' = s.
Proof.
  destruct (outputs s !! Cleaner.extraction_metadata filename) as [f|] eqn:Hf.
  - unfold Cleaner.clean_text. unfold bind at 1. rewrite extraction_exists_run, Hf.
    rewrite (bool_decide_true (is_Some (Some f))) by eauto. cbn [orb negb].
    unfold bind at 1. unfold Cleaner.read_extracted_text, bind, get. rewrite Hf.
    destruct f; unfold raise; intros E; inversion E; reflexivity.
  - destruct (extracted_text (Path.splitext_root filename)) as [t|] eqn:Ht.
    + destruct (clean_text_run filename rs nw rc m s t Hf Ht) as (c & -> & _). discriminate.
    + unfold Cleaner.clean_text. unfold bind at 1. rewrite extraction_exists_run, Hf, Ht.
      rewrite !bool_decide_false by (intros [x Hx]; discriminate).
      cbn [orb negb]. unfold raise. intros E. inversion E. reflexivity.
Qed.

Lemma cleaned_txt_not_metadata (filename : string) :
  Path.of_stage filename "_cleaned.txt" <> Path.cleaning_metadata filename.
Proof. apply of_stage_differ. tails. Qed.

(** When [clean_text] returns, the record it returns is what
    [get_cleaned_text] reads back; the text file holds its cleaned text,
    which is its sentences joined by single blanks, and its counts are
    those of that text and of that list. Only the two files of the
    cleaning stage have changed. [extractive_summary] then ranks the
    sentences of the record, and raises [ValueError] when the cleaning
    kept none. *)
Theorem clean_text_round_trip (filename : string) (rs nw rc : bool) (m : Z) (s : service)
    (c : cleaning_data) (s' : service) :
  Cleaner.clean_text filename rs nw rc m s = (Ok c, s') ->
  Cleaner.get_cleaned_text filename s' = (Ok (JCleaning c), s')
  /\ outputs s' !! Path.of_stage filename "_cleaned.txt" = Some (TextFile (cleaned_text c))
  /\ cleaned_text c = PyStr.join " " (sentences c)
  /\ cd_cleaned_length c = Z.of_nat (String.length (cleaned_text c))
  /\ cd_word_count c = Z.of_nat (length (PyStr.split_ws (cleaned_text c)))
  /\ cd_sentence_count c = Z.of_nat (length (sentences c))
  /\ writes_within [Path.of_stage filename "_cleaned.txt"; Path.cleaning_metadata filename] s s'
  /\ (forall ratio algorithm use_cache md s'',
        extractive_summary filename ratio algorithm use_cache s' = (Ok md, s'') ->
        Z.of_nat (ex_original_sentences md) = cd_sentence_count c)
  /\ (sentences c = [] ->
      forall ratio algorithm use_cache,
        extractive_summary filename ratio algorithm use_cache s' = (Raise ValueError, s')).
Proof.
  intros Hrun. destruct (clean_text_ok_inv _ _ _ _ _ _ _ _ Hrun) as (t & Hnone & Ht).
  destruct (clean_text_run filename rs nw rc m s t Hnone Ht)
    as (c' & Hrun' & _ & Htext & _ & Hlen & Hwords & Hcount & _).
  rewrite Hrun in Hrun'.
  assert (Hc : c' = c) by congruence. subst c'.
  assert (Hs' : s' = set_outputs
                       (insert (Path.cleaning_metadata filename) (JsonFile (JCleaning c)))
                       (set_outputs (insert (Path.of_stage filename "_cleaned.txt")
                                       (TextFile (cleaned_text c))) s))
    by congruence.
  clear Hrun'.
  assert (Hmeta : outputs s' !! Path.cleaning_metadata filename = Some (JsonFile (JCleaning c))).
  { rewrite Hs'. cbn. apply lookup_insert_eq. }
  split.
  { unfold Cleaner.get_cleaned_text. cbv zeta. unfold bind at 1.
    rewrite path_exists_run, Hmeta, bool_decide_true by eauto. cbn [negb].
    unfold read_json, bind, get. rewrite Hmeta. reflexivity. }
  split.
  { rewrite Hs'. cbn. rewrite lookup_insert_ne by (apply not_eq_sym, cleaned_txt_not_metadata).
    apply lookup_insert_eq. }
  split; [exact Htext|]. split; [exact Hlen|]. split; [exact Hwords|]. split; [exact Hcount|].
  split.
  { intros p Hp. rewrite Hs'. cbn.
    rewrite !lookup_insert_ne; [reflexivity | |];
      intros <-; apply Hp; set_solver. }
  split.
  - intros ratio algorithm use_cache md s'' Hex.
    destruct (extractive_summary_ok_inv _ _ _ _ _ _ _ Hex) as (c0 & scores & Hc0 & _ & _ & Hmd & _).
    rewrite Hmeta in Hc0. inversion Hc0; subst c0.
    rewrite Hmd. cbn [ex_original_sentences]. rewrite Hcount. reflexivity.
  - intros Hempty ratio algorithm use_cache.
    unfold extractive_summary. unfold bind at 1.
    rewrite path_exists_run, Hmeta, bool_decide_true by eauto. cbn [negb].
    unfold bind at 1. rewrite (read_cleaning_run _ _ _ Hmeta), Hempty. reflexivity.
Qed.

(** The length filter comes before the removal of stop words. For the
    same document and options, the run that removes stop words keeps
    the sentences the other run keeps, each with its stop words
    removed: the number of sentences is the same. Without the removal
    every sentence kept has at least [min_sentence_length] characters
    once stripped, and the sentences are in the order the tokenizer
    gave them; with it nothing bounds their length from below. *)
Theorem length_filter_precedes_stop_words (filename : string) (nw rc : bool) (m : Z)
    (s : service) (c0 : cleaning_data) (s0 : service) :
  Cleaner.clean_text filename false nw rc m s = (Ok c0, s0) ->
  exists c1 s1 t,
    Cleaner.clean_text filename true nw rc m s = (Ok c1, s1)
    /\ sentences c1 = map TextUtils.remove_stopwords (sentences c0)
    /\ cd_sentence_count c1 = cd_sentence_count c0
    /\ Forall (fun x => (m <= Z.of_nat (String.length (PyStr.strip x)))%Z) (sentences c0)
    /\ extracted_text (Path.splitext_root filename) = Some t
    /\ cd_original_length c1 = Z.of_nat (String.length t)
    /\ sentences c0
       `sublist_of`
       split_into_sentences
         (let text := if nw then Cleaner._normalize_whitespace t else t in
          if rc then Cleaner._remove_special_characters text else text).
Proof.
  intros Hrun. destruct (clean_text_ok_inv _ _ _ _ _ _ _ _ Hrun) as (t & Hnone & Ht).
  destruct (clean_text_run filename false nw rc m s t Hnone Ht)
    as (c0' & Hrun0 & Hs0 & _ & _ & _ & _ & Hcount0 & _).
  rewrite Hrun in Hrun0. inversion Hrun0; subst c0'. clear Hrun0.
  destruct (clean_text_run filename true nw rc m s t Hnone Ht)
    as (c1 & Hrun1 & Hs1 & _ & Horig & _ & _ & Hcount1 & _).
  cbv zeta in Hs0, Hs1.
  eexists c1, _, t. split; [exact Hrun1|].
  split; [rewrite Hs1, Hs0; reflexivity|].
  split; [rewrite Hcount1, Hcount0, Hs1, Hs0, length_map; reflexivity|].
  split; [rewrite Hs0; apply Forall_forall; intros x Hx;
          apply list_elem_of_filter in Hx; exact (proj1 Hx)|].
  split; [exact Ht|]. split; [exact Horig|].
  rewrite Hs0. cbv zeta. apply sublist_filter.
Qed.

(** *** The preview *)

Lemma match_once (f : ascii -> bool) (c : ascii) (s : string) :
  Re.match_here [Re.once f] (String c s) = if f c then Some s else None.
Proof.
  cbn [Re.match_here Re.greedy Re.once Re.cls Re.rmin Re.rmax Re.below].
  change (0 <? 1)%nat with true. rewrite andb_true_r.
  destruct (f c); [|reflexivity].
  destruct s as [|x r]; cbn [Re.greedy Re.cls Re.rmin Re.rmax Re.below]; [reflexivity|].
  change (1 <? 1)%nat with false. rewrite andb_false_r. reflexivity.
Qed.

(** Removing the matches of a one-character class is filtering. *)
Lemma sub_once_filter (f : ascii -> bool) (s : string) :
  chars (Re.sub_empty [Re.once f] s) = filter (fun c => f c = false) (chars s).
Proof.
  unfold Re.sub_empty. induction s as [|c s IH]; [reflexivity|].
  cbn [Re.sub_go]. rewrite match_once, chars_cons, filter_cons.
  destruct (f c) eqn:Hf.
  - replace (String.length (String c s) - String.length s)%nat with 1%nat
      by (cbn [String.length]; lia).
    rewrite decide_False by discriminate. exact IH.
  - rewrite decide_True by reflexivity. rewrite chars_cons, IH. reflexivity.
Qed.

Lemma squeeze_length (n : nat) (s : string) :
  (String.length s <= n)%nat ->
  (String.length (re_sub [Re.plus Re.space] " " s) <= String.length s)%nat.
Proof.
  revert s. induction n as [|n IH]; intros s Hn.
  - destruct s; [cbn; lia | cbn in Hn; lia].
  - destruct s as [|c s]; [cbn; lia|].
    rewrite squeeze_cons. cbn [String.length] in *.
    pose proof (lstrip_length s) as Hl.
    destruct (PyStr.is_space c); cbn [String.length].
    + specialize (IH (PyStr.lstrip s) ltac:(lia)). lia.
    + specialize (IH s ltac:(lia)). lia.
Qed.

Lemma normalize_whitespace_length (s : string) :
  (String.length (Cleaner._normalize_whitespace s) <= String.length s)%nat.
Proof.
  unfold Cleaner._normalize_whitespace, PyStr.strip.
  pose proof (squeeze_length (String.length s) s (le_n _)) as Hs.
  pose proof (lstrip_length (re_sub [Re.plus Re.space] " " s)) as Hl.
  pose proof (rstrip_length (PyStr.lstrip (re_sub [Re.plus Re.space] " " s))) as Hr.
  lia.
Qed.

(** [text[:n]] is a prefix of the text, of at most [n] characters when
    [n] is not negative. *)
Lemma substring_0_prefix (k : nat) (t : string) :
  exists rest, t = String.substring 0 k t +:+ rest
               /\ String.length (String.substring 0 k t) = Nat.min k (String.length t).
Proof.
  revert k. induction t as [|c t IH]; intros k.
  - exists EmptyString. destruct k; split; reflexivity.
  - destruct k as [|k].
    + exists (String c t). split; reflexivity.
    + destruct (IH k) as (rest & Hrest & Hlen). exists rest.
      cbn [String.substring String.length Nat.min]. rewrite append_cons, <- Hrest, Hlen.
      split; reflexivity.
Qed.

Lemma slice_to_prefix (t : string) (n : Z) :
  exists rest, t = PyText.slice t 0 (Some n) +:+ rest
               /\ ((0 <= n)%Z ->
                   (Z.of_nat (String.length (PyText.slice t 0 (Some n))) <= n)%Z).
Proof.
  unfold PyText.slice, PyText.clamp, PyText.wrap.
  change (0 <? 0)%Z with false. cbn iota.
  rewrite (Z.min_l 0) by lia. change (Z.to_nat 0) with 0%nat.
  rewrite Z.sub_0_r.
  destruct (substring_0_prefix
              (Z.to_nat (Z.min (if (n <? 0)%Z
                                then Z.max 0 (n + Z.of_nat (String.length t)) else n)
                               (Z.of_nat (String.length t)))) t)
    as (rest & Hrest & Hlen).
  exists rest. split; [exact Hrest|].
  intros Hn. rewrite Hlen.
  destruct (Z.ltb_spec n 0); lia.
Qed.

(** [preview_cleaning] writes nothing and changes nothing. When it
    returns, the original sample is the start of the extracted text, of
    at most [sample_size] characters for a size that is not negative;
    the cleaned sample is the words of the original sample separated by
    single blanks with every character outside letters, digits,
    underscore, whitespace and [.,!?;:] deleted afterwards, so it is
    never longer than the original sample and [preview_length] is its
    length. *)
Theorem preview_cleaning_is_a_dry_run (filename : string) (sample_size : Z) (s : service) :
  snd (Cleaner.preview_cleaning filename sample_size s) = s
  /\ (forall p s', Cleaner.preview_cleaning filename sample_size s = (Ok p, s') ->
      exists t rest,
        extracted_text (Path.splitext_root filename) = Some t
        /\ t = Cleaner.original_sample p +:+ rest
        /\ ((0 <= sample_size)%Z ->
            (Z.of_nat (String.length (Cleaner.original_sample p)) <= sample_size)%Z)
        /\ chars (Cleaner.cleaned_sample p)
           = filter (fun c => Cleaner.special c = false)
               (chars (PyStr.join " " (PyStr.split_ws (Cleaner.original_sample p))))
        /\ Cleaner.preview_length p = String.length (Cleaner.cleaned_sample p)
        /\ (Cleaner.preview_length p <= String.length (Cleaner.original_sample p))%nat).
Proof.
  assert (Hrun : forall t,
            outputs s !! Cleaner.extraction_metadata filename = None ->
            extracted_text (Path.splitext_root filename) = Some t ->
            Cleaner.preview_cleaning filename sample_size s
            = (Ok (Cleaner.Preview (PyText.slice t 0 (Some sample_size))
                     (Cleaner._remove_special_characters
                        (Cleaner._normalize_whitespace (PyText.slice t 0 (Some sample_size))))
                     (String.length
                        (Cleaner._remove_special_characters
                           (Cleaner._normalize_whitespace
                              (PyText.slice t 0 (Some sample_size)))))), s)).
  { intros t Hnone Ht. destruct (read_extraction_run filename s t Hnone Ht) as [Hex Hread].
    unfold Cleaner.preview_cleaning. unfold bind at 1. rewrite Hex. cbn [negb].
    unfold bind at 1. rewrite Hread. reflexivity. }
  split.
  - destruct (outputs s !! Cleaner.extraction_metadata filename) as [f|] eqn:Hf.
    + unfold Cleaner.preview_cleaning. unfold bind at 1. rewrite extraction_exists_run, Hf.
      rewrite (bool_decide_true (is_Some (Some f))) by eauto. cbn [orb negb].
      unfold bind at 1. unfold Cleaner.read_extracted_text, bind, get. rewrite Hf.
      destruct f; reflexivity.
    + destruct (extracted_text (Path.splitext_root filename)) as [t|] eqn:Ht.
      * rewrite (Hrun t eq_refl eq_refl). reflexivity.
      * unfold Cleaner.preview_cleaning. unfold bind at 1.
        rewrite extraction_exists_run, Hf, Ht.
        rewrite !bool_decide_false by (intros [x Hx]; discriminate). reflexivity.
  - intros p s' Hp.
    assert (Hin : exists t, outputs s !! Cleaner.extraction_metadata filename = None
                            /\ extracted_text (Path.splitext_root filename) = Some t).
    { unfold Cleaner.preview_cleaning in Hp.
      apply bind_ok_inv in Hp. destruct Hp as (present & s0 & Hpr & Hp).
      rewrite extraction_exists_run in Hpr. inversion Hpr; subst present s0; clear Hpr.
      apply if_raise_ok_inv in Hp. destruct Hp as [_ Hp].
      apply bind_ok_inv in Hp. destruct Hp as (t & s1 & Ht & _).
      apply read_extraction_ok_inv in Ht. destruct Ht as (_ & Hnone & Ht). eauto. }
    destruct Hin as (t & Hnone & Ht).
    rewrite (Hrun t Hnone Ht) in Hp. inversion Hp; subst p s'. clear Hp.
    cbn [Cleaner.original_sample Cleaner.cleaned_sample Cleaner.preview_length].
    destruct (slice_to_prefix t sample_size) as (rest & Hrest & Hlen).
    set (sample := PyText.slice t 0 (Some sample_size)) in *.
    assert (Hchars : chars (Cleaner._remove_special_characters
                              (Cleaner._normalize_whitespace sample))
                     = filter (fun c => Cleaner.special c = false)
                         (chars (PyStr.join " " (PyStr.split_ws sample)))).
    { unfold Cleaner._remove_special_characters. rewrite sub_once_filter.
      unfold Cleaner._normalize_whitespace. rewrite strip_squeeze_words. reflexivity. }
    exists t, rest. split; [exact Ht|]. split; [exact Hrest|]. split; [exact Hlen|].
    split; [exact Hchars|]. split; [reflexivity|].
    rewrite <- chars_length, Hchars.
    pose proof (length_filter (fun c => Cleaner.special c = false)
                  (chars (PyStr.join " " (PyStr.split_ws sample)))) as Hf.
    pose proof (normalize_whitespace_length sample) as Hn.
    unfold Cleaner._normalize_whitespace in Hn. rewrite strip_squeeze_words in Hn.
    unfold single_spaced in Hn. rewrite chars_length in Hf. lia.
Qed.

End CleanerFacts.

(** The round trip on a document of three sentences, of which the
    cleaning keeps two, and on a memo of two short sentences, of which it
    keeps none: the summary of the memo raises [ValueError]. *)
Lemma clean_text_round_trip_witness :
  (exists c s',
     @Cleaner.clean_text Demo.working DemoText.tools DemoStage.stage
       "doc.pdf" true true false 10 DemoStage.empty_service = (Ok c, s')
     /\ Cleaner.get_cleaned_text "doc.pdf" s' = (Ok (JCleaning c), s')
     /\ cleaned_text c = PyStr.join " " (sentences c))
  /\ (exists c s',
        @Cleaner.clean_text Demo.working DemoText.tools DemoStage.memo_stage
          "memo.pdf" true true false 10 DemoStage.empty_service = (Ok c, s')
        /\ sentences c = []
        /\ @extractive_summary Demo.working "memo.pdf" half "textrank" true s'
           = (Raise ValueError, s')).
Proof.
  split.
  - destruct (@Cleaner.clean_text Demo.working DemoText.tools DemoStage.stage
                "doc.pdf" true true false 10 DemoStage.empty_service)
      as [[c|e] s'] eqn:Hrun; [|vm_compute in Hrun; discriminate Hrun].
    destruct (@clean_text_round_trip Demo.working DemoText.tools DemoStage.stage
                _ _ _ _ _ _ _ _ Hrun) as (Hget & _ & Htext & _).
    exists c, s'. split; [reflexivity|]. split; assumption.
  - destruct (@Cleaner.clean_text Demo.working DemoText.tools DemoStage.memo_stage
                "memo.pdf" true true false 10 DemoStage.empty_service)
      as [[c|e] s'] eqn:Hrun; [|vm_compute in Hrun; discriminate Hrun].
    assert (Hc : sentences c = []).
    { apply (f_equal fst) in Hrun. cbn [fst] in Hrun. vm_compute in Hrun.
      inversion Hrun. reflexivity. }
    destruct (@clean_text_round_trip Demo.working DemoText.tools DemoStage.memo_stage
                _ _ _ _ _ _ _ _ Hrun) as (_ & _ & _ & _ & _ & _ & _ & _ & Hraise).
    exists c, s'. split; [reflexivity|]. split; [exact Hc|].
    apply Hraise. exact Hc.
Defined.

Lemma length_filter_precedes_stop_words_witness :
  exists c0 s0 c1 s1,
    @Cleaner.clean_text Demo.working DemoText.tools DemoStage.stage
      "doc.pdf" false true false 10 DemoStage.empty_service = (Ok c0, s0)
    /\ @Cleaner.clean_text Demo.working DemoText.tools DemoStage.stage
         "doc.pdf" true true false 10 DemoStage.empty_service = (Ok c1, s1)
    /\ sentences c0 = ["Cats sleep all day long"; "The cat and the dog"]
    /\ sentences c1 = ["Cats sleep all day long"; "cat dog"].
Proof.
  destruct (@Cleaner.clean_text Demo.working DemoText.tools DemoStage.stage
              "doc.pdf" false true false 10 DemoStage.empty_service)
    as [[c0|e] s0] eqn:Hrun; [|vm_compute in Hrun; discriminate Hrun].
  destruct (@length_filter_precedes_stop_words Demo.working DemoText.tools DemoStage.stage
              _ _ _ _ _ _ _ Hrun) as (c1 & s1 & t & Hrun1 & Hmap & _).
  assert (Hc0 : sentences c0 = ["Cats sleep all day long"; "The cat and the dog"]).
  { apply (f_equal fst) in Hrun. cbn [fst] in Hrun. vm_compute in Hrun.
    inversion Hrun. reflexivity. }
  exists c0, s0, c1, s1. split; [reflexivity|]. split; [exact Hrun1|].
  split; [exact Hc0|]. rewrite Hmap, Hc0. vm_compute. reflexivity.
Defined.

(** ** The summarize router *)

Section RouterFacts.
Context `{Externals} `{TextCollaborators} `{ExtractionStage}.

Lemma extractive_summary_absent (filename : string) (ratio : Qc) (algorithm : string)
    (use_cache : bool) (s : service) :
  outputs s !! Path.cleaning_metadata filename = None ->
  extractive_summary filename ratio algorithm use_cache s = (Raise FileNotFoundError, s).
Proof.
  intros Hnone. unfold extractive_summary.
  unfold bind at 1. rewrite path_exists_run, Hnone.
  rewrite bool_decide_false by (intros [x Hx]; discriminate). reflexivity.
Qed.

Lemma hybrid_summary_absent (filename : string) (ratio : Qc) (max_length min_length : Z)
    (use_pipeline : bool) (s : service) :
  outputs s !! Path.cleaning_metadata filename = None ->
  hybrid_summary filename ratio max_length min_length use_pipeline s
  = (Raise FileNotFoundError, s).
Proof.
  intros Hnone. unfold hybrid_summary.
  unfold bind at 1. rewrite extractive_summary_absent by exact Hnone. reflexivity.
Qed.

Lemma formatted_hybrid_summary_absent (filename : string) (ratio : Qc)
    (max_length min_length : Z) (use_pipeline : bool) (s : service) :
  outputs s !! Path.cleaning_metadata filename = None ->
  formatted_hybrid_summary filename ratio max_length min_length use_pipeline s
  = (Raise (if TORCH_AVAILABLE then FileNotFoundError else ImportError), s).
Proof.
  intros Hnone. unfold formatted_hybrid_summary.
  unfold bind at 1. unfold scrub_artifact. unfold bind at 1.
  rewrite path_exists_run, Hnone.
  rewrite bool_decide_false by (intros [x Hx]; discriminate).
  unfold ret at 1. unfold bind at 1.
  destruct TORCH_AVAILABLE eqn:Htorch.
  - rewrite abstractive_summary_absent by assumption. reflexivity.
  - rewrite abstractive_summary_no_torch by assumption. reflexivity.
Qed.

(** The handler of a route whose operation fails for want of the
    cleaning record runs the cleaner, then the operation. *)
Lemma handler_retries {A} (generated what filename : string) (op : M A) (s : service) :
  op s = (Raise FileNotFoundError, s) ->
  Router.summarize_handler generated what filename op s
  = match (do* Cleaner.clean_text filename true true false 10 in op) s with
    | (Ok result, s') => (JSONResponse 200 (Generated generated) filename result, s')
    | (Raise e, s') => (HTTPException 500 (Failed what e), s')
    end.
Proof.
  intros Hop. unfold Router.summarize_handler, Router.with_cleaning. rewrite Hop. reflexivity.
Qed.

Lemma handler_fails {A} (generated what filename : string) (op : M A) (s : service)
    (e : exn) (s' : service) :
  op s = (Raise e, s') -> e <> FileNotFoundError ->
  Router.summarize_handler generated what filename op s
  = (HTTPException 500 (Failed what e), s').
Proof.
  intros Hop He. unfold Router.summarize_handler, Router.with_cleaning. rewrite Hop.
  destruct e; try reflexivity. contradiction.
Qed.

Lemma handler_answers {A} (generated what filename : string) (op : M A) (s s1 : service)
    (c : cleaning_data) :
  op s = (Raise FileNotFoundError, s) ->
  Cleaner.clean_text filename true true false 10 s = (Ok c, s1) ->
  answers filename (Router.summarize_handler generated what filename op s) (op s1).
Proof.
  intros Hop Hclean. rewrite (handler_retries _ _ _ _ _ Hop).
  unfold bind. rewrite Hclean.
  destruct (op s1) as [[result|e] s']; split; cbn [fst snd]; eauto.
Qed.

Lemma handler_gives_up {A} (generated what filename : string) (op : M A) (s : service) :
  op s = (Raise FileNotFoundError, s) ->
  outputs s !! Cleaner.extraction_metadata filename = None ->
  extracted_text (Path.splitext_root filename) = None ->
  Router.summarize_handler generated what filename op s
  = (HTTPException 500 (Failed what FileNotFoundError), s).
Proof.
  intros Hop Hnone Ht. rewrite (handler_retries _ _ _ _ _ Hop).
  unfold bind. unfold Cleaner.clean_text. unfold bind at 1.
  rewrite extraction_exists_run, Hnone, Ht.
  rewrite !bool_decide_false by (intros [x Hx]; discriminate). reflexivity.
Qed.

(** A document the extractor has left a text for and that was never
    cleaned is cleaned on demand: each summarize route first runs the
    cleaner with its default options, which writes the cleaning record,
    and then answers with the outcome of its operation on the cleaned
    state, 200 with the result or 500 with the exception. Without
    [torch] the abstractive and the formatted route answer 500 for the
    [ImportError] at once and nothing is cleaned. *)
Theorem routes_clean_on_demand (filename : string) (s : service) (t : string) :
  outputs s !! Path.cleaning_metadata filename = None ->
  outputs s !! Cleaner.extraction_metadata filename = None ->
  extracted_text (Path.splitext_root filename) = Some t ->
  exists c s1,
    Cleaner.clean_text filename true true false 10 s = (Ok c, s1)
    /\ outputs s1 !! Path.cleaning_metadata filename = Some (JsonFile (JCleaning c))
    /\ (forall ratio algorithm use_cache,
          answers filename (Router.extractive_summary filename ratio algorithm use_cache s)
            (extractive_summary filename ratio algorithm use_cache s1))
    /\ (forall ratio max_length min_length use_pipeline,
          answers filename
            (Router.hybrid_summary filename ratio max_length min_length use_pipeline s)
            (hybrid_summary filename ratio max_length min_length use_pipeline s1))
    /\ (TORCH_AVAILABLE = true ->
        (forall max_length min_length model use_pipeline,
            answers filename
              (Router.abstractive_summary filename max_length min_length model use_pipeline s)
              (abstractive_summary filename max_length min_length model use_pipeline s1))
        /\ (forall ratio max_length min_length use_pipeline,
              answers filename
                (Router.formatted_hybrid_summary filename ratio max_length min_length
                   use_pipeline s)
                (formatted_hybrid_summary filename ratio max_length min_length
                   use_pipeline s1)))
    /\ (TORCH_AVAILABLE = false ->
        (forall max_length min_length model use_pipeline,
            Router.abstractive_summary filename max_length min_length model use_pipeline s
            = (HTTPException 500 (Failed "Abstractive summarization failed" ImportError), s))
        /\ (forall ratio max_length min_length use_pipeline,
              Router.formatted_hybrid_summary filename ratio max_length min_length
                use_pipeline s
              = (HTTPException 500
                   (Failed "Formatted hybrid summarization failed" ImportError), s))).
Proof.
  intros Hclean Hnone Ht.
  destruct (clean_text_run filename true true false 10 s t Hnone Ht) as (c & Hrun & _).
  eexists c, _. split; [exact Hrun|].
  split; [cbn; apply lookup_insert_eq|].
  split.
  { intros ratio algorithm use_cache. unfold Router.extractive_summary.
    eapply handler_answers; [apply extractive_summary_absent; exact Hclean | exact Hrun]. }
  split.
  { intros ratio max_length min_length use_pipeline. unfold Router.hybrid_summary.
    eapply handler_answers; [apply hybrid_summary_absent; exact Hclean | exact Hrun]. }
  split.
  - intros Htorch. split.
    + intros max_length min_length model use_pipeline. unfold Router.abstractive_summary.
      eapply handler_answers; [apply abstractive_summary_absent; assumption | exact Hrun].
    + intros ratio max_length min_length use_pipeline.
      unfold Router.formatted_hybrid_summary.
      eapply handler_answers; [|exact Hrun].
      rewrite formatted_hybrid_summary_absent by exact Hclean. rewrite Htorch. reflexivity.
  - intros Htorch. split.
    + intros max_length min_length model use_pipeline. unfold Router.abstractive_summary.
      apply handler_fails; [apply abstractive_summary_no_torch; assumption | discriminate].
    + intros ratio max_length min_length use_pipeline.
      unfold Router.formatted_hybrid_summary.
      apply handler_fails; [|discriminate].
      rewrite formatted_hybrid_summary_absent by exact Hclean. rewrite Htorch. reflexivity.
Qed.

(** For a document with no artifact at all, neither extracted nor
    cleaned nor summarized, the four summarize routes answer 500, for
    the [FileNotFoundError] of the cleaner (for the [ImportError] of
    the abstractive step when [torch] is missing), while the retrieval
    route answers 404. No route changes the state. *)
Theorem unprocessed_document_is_500_on_post_404_on_get (filename : string) (s : service) :
  (forall suffix, outputs s !! Path.of_stage filename suffix = None) ->
  extracted_text (Path.splitext_root filename) = None ->
  let e := if TORCH_AVAILABLE then FileNotFoundError else ImportError in
  (forall ratio algorithm use_cache,
      Router.extractive_summary filename ratio algorithm use_cache s
      = (HTTPException 500 (Failed "Extractive summarization failed" FileNotFoundError), s))
  /\ (forall ratio max_length min_length use_pipeline,
        Router.hybrid_summary filename ratio max_length min_length use_pipeline s
        = (HTTPException 500 (Failed "Hybrid summarization failed" FileNotFoundError), s))
  /\ (forall max_length min_length model use_pipeline,
        Router.abstractive_summary filename max_length min_length model use_pipeline s
        = (HTTPException 500 (Failed "Abstractive summarization failed" e), s))
  /\ (forall ratio max_length min_length use_pipeline,
        Router.formatted_hybrid_summary filename ratio max_length min_length use_pipeline s
        = (HTTPException 500 (Failed "Formatted hybrid summarization failed" e), s))
  /\ (forall summary_type,
        Router.get_summary filename summary_type s
        = (HTTPException 404 (NotFound summary_type), s)).
Proof.
  intros Hall Ht e.
  pose proof (Hall "_cleaning_metadata.json") as Hclean.
  pose proof (Hall "_extraction_metadata.json") as Hnone.
  change (outputs s !! Path.cleaning_metadata filename = None) in Hclean.
  change (outputs s !! Cleaner.extraction_metadata filename = None) in Hnone.
  split.
  { intros ratio algorithm use_cache. unfold Router.extractive_summary.
    apply handler_gives_up; [apply extractive_summary_absent| |]; assumption. }
  split.
  { intros ratio max_length min_length use_pipeline. unfold Router.hybrid_summary.
    apply handler_gives_up; [apply hybrid_summary_absent| |]; assumption. }
  split.
  { intros max_length min_length model use_pipeline. unfold Router.abstractive_summary.
    subst e. destruct TORCH_AVAILABLE eqn:Htorch.
    - apply handler_gives_up; [apply abstractive_summary_absent| |]; assumption.
    - apply handler_fails; [apply abstractive_summary_no_torch; assumption | discriminate]. }
  split.
  { intros ratio max_length min_length use_pipeline. unfold Router.formatted_hybrid_summary.
    pose proof (formatted_hybrid_summary_absent filename ratio max_length min_length
                  use_pipeline s Hclean) as Hfm.
    subst e. destruct TORCH_AVAILABLE eqn:Htorch.
    - apply handler_gives_up; assumption.
    - apply handler_fails; [exact Hfm | discriminate]. }
  intros summary_type. unfold Router.get_summary, get_summary.
  unfold bind at 1. rewrite path_exists_run, Hall.
  rewrite bool_decide_false by (intros [x Hx]; discriminate). reflexivity.
Qed.

End RouterFacts.

Lemma routes_clean_on_demand_witness :
  exists c s1,
    @Cleaner.clean_text Demo.working DemoText.tools DemoStage.stage
      "doc.pdf" true true false 10 DemoStage.empty_service = (Ok c, s1)
    /\ status (fst (@Router.extractive_summary Demo.working DemoText.tools DemoStage.stage
                      "doc.pdf" half "tfidf" true DemoStage.empty_service)) = 200%Z
    /\ snd (@Router.extractive_summary Demo.working DemoText.tools DemoStage.stage
              "doc.pdf" half "tfidf" true DemoStage.empty_service)
       = snd (@extractive_summary Demo.working "doc.pdf" half "tfidf" true s1).
Proof.
  destruct (@routes_clean_on_demand Demo.working DemoText.tools DemoStage.stage
              "doc.pdf" DemoStage.empty_service DemoStage.raw_text
              eq_refl eq_refl eq_refl) as (c & s1 & Hrun & _ & Hex & _).
  exists c, s1. split; [exact Hrun|].
  split; [vm_compute; reflexivity|].
  exact (proj1 (Hex half "tfidf" true)).
Defined.

Lemma unprocessed_document_is_500_on_post_404_on_get_witness :
  @Router.extractive_summary Demo.working DemoText.tools DemoStage.stage
    "other.pdf" half "textrank" true DemoStage.empty_service
  = (HTTPException 500 (Failed "Extractive summarization failed" FileNotFoundError),
     DemoStage.empty_service)
  /\ Router.get_summary "other.pdf" "extractive" DemoStage.empty_service
     = (HTTPException 404 (NotFound "extractive"), DemoStage.empty_service).
Proof.
  destruct (@unprocessed_document_is_500_on_post_404_on_get
              Demo.working DemoText.tools DemoStage.stage
              "other.pdf" DemoStage.empty_service (fun _ => eq_refl) eq_refl)
    as (Hex & _ & _ & _ & Hget).
  split; [apply Hex | apply Hget].
Defined.

(** ** The sections of the formatted summary of a one-line text *)

Lemma has_key_absent (k : string) (d : list (string * string)) :
  ~ In k (map fst d) -> has_key k d = false.
Proof.
  intros Hk. unfold has_key. apply not_true_is_false. intros Hex.
  apply existsb_exists in Hex. destruct Hex as ([k' v] & Hin & Heq).
  apply String.eqb_eq in Heq. cbn in Heq. subst k'.
  apply Hk. apply in_map_iff. exists (k, v). auto.
Qed.

(** Raw sections under distinct names of which none is present are all
    appended. *)
Lemma merge_sections_fresh (found raw : list (string * string)) :
  NoDup (map fst raw) ->
  (forall k, In k (map fst raw) -> has_key k found = false) ->
  merge_sections found raw = found ++ raw.
Proof.
  unfold merge_sections. revert found. induction raw as [|[k v] raw IH]; intros found Hnd Hfresh.
  - rewrite app_nil_r. reflexivity.
  - cbn [fold_left fst]. rewrite (Hfresh k) by (left; reflexivity).
    apply NoDup_cons in Hnd. destruct Hnd as [Hk Hnd].
    rewrite IH.
    + rewrite <- app_assoc. reflexivity.
    + exact Hnd.
    + intros k' Hk'. unfold has_key. rewrite existsb_app.
      fold (has_key k' found). rewrite (Hfresh k') by (right; exact Hk').
      cbn. rewrite orb_false_r. apply String.eqb_neq. intros ->.
      apply Hk. apply list_elem_of_In. exact Hk'.
Qed.

Lemma strip_of_heading (text : string) :
  heading_line text = true -> PyStr.strip text <> EmptyString.
Proof.
  destruct text as [|c text]; [discriminate|]. cbn [heading_line].
  intros Hh. apply andb_true_iff in Hh. destruct Hh as [Hc _].
  assert (Hsp : PyStr.is_space c = false).
  { destruct (PyStr.is_space c) eqn:E; [|reflexivity].
    revert Hc E. unfold SectionPattern.capital, PyStr.is_space.
    generalize (nat_of_ascii c). intros n Hc E.
    rewrite !andb_true_iff, !Nat.leb_le in Hc.
    rewrite !orb_true_iff, !andb_true_iff, !Nat.leb_le, !Nat.eqb_eq in E. lia. }
  unfold PyStr.strip. cbn [PyStr.lstrip]. rewrite Hsp.
  cbn [PyStr.rstrip]. rewrite Hsp. destruct (PyStr.rstrip text); discriminate.
Qed.

Section FormattedSections.
Context `{Externals} `{TextCollaborators}.

Lemma section_collaborator_unfolded (text : string) :
  sections_by_text_utils ->
  section_wise_summary text
  = match PyStr.strip text with
    | EmptyString => [("Full Text", "No content available")]
    | _ => TextUtils.sections_of_text text 2
    end.
Proof.
  intros Hspec.
  pose (c := Demo.cleaning text []).
  pose (st := Demo.service_with [("x.json", JsonFile (JCleaning c))]).
  assert (Hf : outputs st !! "x.json" = Some (JsonFile (JCleaning c))).
  { unfold st, Demo.service_with. cbn [outputs list_to_map foldr]. apply lookup_insert_eq. }
  pose proof (Hspec "x.json" st c eq_refl Hf) as Hrun.
  rewrite (get_section_wise_summary_json "x.json" 2 st (JCleaning c) eq_refl Hf) in Hrun.
  cbn [TextUtils.get_cleaned_text_or_empty] in Hrun.
  change (cleaned_text c) with text in Hrun.
  injection Hrun as Heq. symmetry. exact Heq.
Qed.

Lemma resume_keys_only (text k : string) :
  ~ In k resume_sections -> has_key k (resume_section_summary text) = false.
Proof.
  intros Hk. apply has_key_absent. intros Hin. apply Hk.
  pose proof (resume_section_summary_keys text) as Hsub.
  apply list_elem_of_In. apply list_elem_of_In in Hin.
  exact (elem_of_sublist _ _ _ Hin Hsub).
Qed.

(** When the section collaborator is [get_section_wise_summary] as
    modelled here, the sections of the formatted summary of a document
    whose scrubbed text has no newline are the resume sections found,
    followed by: the section [Full Text] for a blank text; one section
    named by the whole stripped text, summarised from the empty text,
    for a text that begins with a capital letter and has six or more
    characters; the four fallback sections otherwise. *)
Theorem formatted_sections_of_one_line_text (filename : string) (ratio : Qc)
    (max_length min_length : Z) (use_pipeline : bool) (s : service)
    (fm : formatted_summary) (path : string) (s' : service) :
  sections_by_text_utils ->
  formatted_hybrid_summary filename ratio max_length min_length use_pipeline s
  = (Ok (fm, path), s') ->
  exists c,
    outputs s !! Path.cleaning_metadata filename = Some (JsonFile (JCleaning c))
    /\ (let text := scrub (cleaned_text c) in
        one_line text ->
        fm_section_summary fm
        = resume_section_summary text
          ++ match PyStr.strip text with
             | EmptyString => [("Full Text", "No content available")]
             | _ =>
                 if heading_line text
                 then if has_key (PyStr.strip text) (resume_section_summary text)
                      then []
                      else [(PyStr.strip text,
                             PyStr.join " "
                               (PyText.take_z 2 (split_into_sentences EmptyString)))]
                 else quarter_sections (split_into_sentences text) 2
             end).
Proof.
  intros Hspec Hrun.
  destruct (formatted_hybrid_summary_sections _ _ _ _ _ _ _ _ _ Hrun) as (c & Hc & Hsec).
  exists c. split; [exact Hc|]. intros text Hline. rewrite Hsec. fold text.
  rewrite (section_collaborator_unfolded text Hspec).
  destruct (PyStr.strip text) as [|x r] eqn:Hstrip.
  - apply merge_sections_fresh.
    + repeat constructor. set_solver.
    + intros k [<-|[]]. apply resume_keys_only.
      unfold resume_sections. cbn. intros [E|[E|[E|[E|[]]]]]; discriminate E.
  - rewrite one_line_text_sections by exact Hline.
    destruct (heading_line text) eqn:Hh.
    + rewrite <- Hstrip. unfold merge_sections. cbn [fold_left fst].
      destruct (has_key (PyStr.strip text) (resume_section_summary text));
        [rewrite app_nil_r|]; reflexivity.
    + apply merge_sections_fresh.
      * unfold quarter_sections, TextUtils.auto_sections. cbn [imap map fst].
        apply (bool_decide_unpack _). vm_compute. exact I.
      * intros k Hk. apply resume_keys_only.
        unfold quarter_sections, TextUtils.auto_sections in Hk. cbn [imap map fst] in Hk.
        unfold resume_sections. cbn.
        destruct Hk as [<-|[<-|[<-|[<-|[]]]]];
          intros [E|[E|[E|[E|[]]]]]; discriminate E.
Qed.

End FormattedSections.

Lemma formatted_sections_of_one_line_text_witness :
  exists fm path s',
    @formatted_hybrid_summary DemoText.sectioned "doc.pdf" half 200 50 true Demo.doc_service
    = (Ok (fm, path), s')
    /\ fm_section_summary fm = [(Demo.three_text, "")].
Proof.
  destruct (@formatted_hybrid_summary DemoText.sectioned "doc.pdf" half 200 50 true
              Demo.doc_service)
    as [[[fm path]|e] s'] eqn:Hrun; [|vm_compute in Hrun; discriminate Hrun].
  assert (Hspec : @sections_by_text_utils DemoText.sectioned DemoText.tools).
  { intros p st c Hjson Hf.
    rewrite (@get_section_wise_summary_json DemoText.sectioned DemoText.tools
               p 2 st (JCleaning c) Hjson Hf).
    reflexivity. }
  destruct (@formatted_sections_of_one_line_text DemoText.sectioned DemoText.tools
              _ _ _ _ _ _ _ _ _ Hspec Hrun) as (c & Hc & Hsec).
  assert (Ec : c = Demo.cleaning Demo.three_text Demo.three_sentences).
  { vm_compute in Hc. inversion Hc. reflexivity. }
  subst c. exists fm, path, s'. split; [reflexivity|].
  rewrite Hsec.
  - vm_compute. reflexivity.
  - unfold one_line. apply (bool_decide_unpack _). vm_compute. exact I.
Defined.

(** ** The program in binary64

    *** The graph ranker *)

Section Binary64Ranker.
Variable dot : Float64.matrix -> list Float64.float -> list Float64.float.




End Binary64Ranker.






(** On [[1 - 2^-17]] the binary64 run agrees with the exact one: the first
    update, [0.9999935150146484], is close to [1.0] and is dropped. *)
Lemma binary64_pagerank_drops_the_update :
  Float64.pagerank_run Float64.T_dot Float64.near_one Float64.damping_default 100
  = Float64.PagerankState [Float64.one]
      (Some [S754_finite false 9007140843185766 (-53)]) 1.
Proof. vm_compute. reflexivity. Qed.

(** On [[1164862471388259 * 2^-59]] the binary64 run stops in its third
    iteration and returns [5413708341893310 * 2^-55], about
    [0.1502605912443808]; the run without rounding on the same entry
    stops in its fourth. *)
Lemma binary64_pagerank_stops_earlier :
  Float64.pagerank_run Float64.T_dot Float64.small_entry Float64.damping_default 100
  = Float64.PagerankState [S754_finite false 5413708341893310 (-55)]
      (Some [S754_finite false 5413618176914522 (-55)]) 3
  /\ pr_iterations
       (pagerank_run (map (map Float64.to_Qc) Float64.small_entry) damping_default 100)
     = 4%nat.
Proof. split; vm_compute; reflexivity. Qed.

(** *** The sentence count of [extractive_summary] *)

(** A rounded result carries the sign it was given. *)
Lemma binary64_round_shape (sx : bool) (mx ex : Z) (lx : location) :
  let x := binary_round_aux Float64.prec Float64.emax sx mx ex lx in
  x = S754_zero sx \/ (exists m e, x = S754_finite sx m e)
  \/ x = S754_infinity sx \/ x = S754_nan.
Proof.
  unfold binary_round_aux.
  destruct (shr_fexp Float64.prec Float64.emax mx ex lx) as [mrs' e'].
  destruct (shr_fexp Float64.prec Float64.emax
              (round_nearest_even (shr_m mrs') (loc_of_shr_record mrs')) e' loc_Exact)
    as [mrs'' e''].
  destruct (shr_m mrs'') as [|m|m]; [left; reflexivity | | right; right; right; reflexivity].
  destruct (e'' <=? Float64.emax - Float64.prec)%Z.
  - right. left. eauto.
  - right. right. left. reflexivity.
Qed.

(** The float of a length is no negative number. *)
Lemma binary64_of_nat_shape (n : nat) :
  Float64.of_nat n = S754_zero false \/ (exists m e, Float64.of_nat n = S754_finite false m e)
  \/ Float64.of_nat n = S754_infinity false \/ Float64.of_nat n = S754_nan.
Proof.
  unfold Float64.of_nat, Float64.of_Z, binary_normalize.
  destruct (Z.of_nat n) as [|m|m] eqn:Hn; [left; reflexivity | | lia].
  unfold binary_round.
  destruct (shl_align m 0 _) as [mz ez]. apply binary64_round_shape.
Qed.

(** [r <= 0.0] holds of the zeros, of the negative numbers and of the
    negative infinity. *)
Lemma binary64_nonpositive_shape (r : Float64.float) :
  Float64.leb r Float64.zero = true ->
  (exists sg, r = S754_zero sg) \/ (exists m e, r = S754_finite true m e)
  \/ r = S754_infinity true.
Proof.
  destruct r as [sg|[]| |[] m e]; cbn; intros Hr; try discriminate; eauto.
Qed.

Lemma binary64_negative_value (m : positive) (e : Z) :
  (Float64.to_Qc (S754_finite true m e) <= 0)%Qc.
Proof.
  unfold Float64.to_Qc, Qcle. cbn [this Q2Qc]. rewrite Qred_correct.
  assert (Hp : (0 < Qpower 2 e)%Q) by (apply Qpower_0_lt; reflexivity).
  assert (Hm : (inject_Z (Z.neg m) <= 0)%Q) by (unfold Qle; simpl; lia).
  apply Qle_trans with (0 * Qpower 2 e)%Q.
  - apply Qmult_le_compat_r; [exact Hm | apply Qlt_le_weak; exact Hp].
  - rewrite Qmult_0_l. apply Qle_refl.
Qed.

(** With a ratio that is zero or negative, [int] of the product is no
    positive integer. *)
Lemma binary64_nonpositive_product (n : nat) (r : Float64.float) (i : Z) :
  Float64.leb r Float64.zero = true ->
  Float64.int (Float64.mul (Float64.of_nat n) r) = Ok i -> (i <= 0)%Z.
Proof.
  intros Hr.
  assert (Hshape : forall x, 
            (exists sg, x = S754_zero sg) \/ (exists m e, x = S754_finite true m e)
            \/ (exists sg, x = S754_infinity sg) \/ x = S754_nan ->
            Float64.int x = Ok i -> (i <= 0)%Z).
  { intros x [[sg ->]|[(m & e & ->)|[[sg ->]| ->]]]; cbn [Float64.int]; intros Hi;
      try discriminate.
    - inversion Hi. lia.
    - inversion Hi. apply py_int_nonpositive, binary64_negative_value. }
  apply Hshape. unfold Float64.mul.
  destruct (binary64_nonpositive_shape r Hr) as [[sg ->]|[(m & e & ->)| ->]];
    destruct (binary64_of_nat_shape n) as [-> |[(m' & e' & ->)|[-> | ->]]];
    cbn [SFmul xorb]; eauto 6.
  destruct (binary64_round_shape true (Z.pos (m' * m)) (e' + e) loc_Exact)
    as [-> |[(m2 & e2 & ->)|[-> | ->]]]; eauto 6.
Qed.

Lemma binary64_int_finite (x : Float64.float) :
  Float64.is_finite x = true -> Float64.int x = Ok (py_int (Float64.to_Qc x)).
Proof. destruct x; cbn; intros Hx; try discriminate; reflexivity. Qed.

Lemma binary64_num_sentences_finite (n : nat) (r : Float64.float) :
  Float64.is_finite (Float64.mul (Float64.of_nat n) r) = true ->
  Float64.num_sentences n r
  = Ok (Z.max 1 (py_int (Float64.to_Qc (Float64.mul (Float64.of_nat n) r)))).
Proof.
  intros Hf. unfold Float64.num_sentences. rewrite (binary64_int_finite _ Hf). reflexivity.
Qed.

Section Binary64Claims.
Context `{Externals}.

(** The run of [extractive_summary] up to line 72. *)
Lemma binary64_extractive_summary_prefix (s : service) (filename : string)
    (ratio : Float64.float) (algorithm : string) (use_cache : bool) (c : cleaning_data) :
  outputs s !! Path.cleaning_metadata filename = Some (JsonFile (JCleaning c)) ->
  (0 < length (sentences c))%nat ->
  Float64.extractive_summary filename ratio algorithm use_cache s
  = match Float64.num_sentences (length (sentences c)) ratio with
    | Raise e => (Raise e, s)
    | Ok k =>
        match (if String.eqb algorithm "textrank"
               then _optimized_textrank_summarize (sentences c) (Z.to_nat k) use_cache
               else if String.eqb algorithm "tfidf"
               then _optimized_tfidf_summarize (sentences c) (Z.to_nat k)
               else if String.eqb algorithm "lsa"
               then _optimized_lsa_summarize (sentences c) (Z.to_nat k)
               else raise ValueError) s with
        | (Raise e, s') => (Raise e, s')
        | (Ok out, s') =>
            let md :=
              ExtractiveMetadata (PyStr.join " " out) out (length (sentences c))
                (Float64.to_Qc (Float64.true_divide (length out) (length (sentences c))))
                algorithm (Float64.to_Qc ratio)
                (Path.of_stage filename "_extractive_summary.txt") "optimized" in
            (Ok md,
             set_outputs
               (insert (Path.of_stage filename "_extractive_summary_metadata.json")
                  (JsonFile (JExtractive md)))
               (set_outputs
                  (insert (Path.of_stage filename "_extractive_summary.txt")
                     (TextFile (PyStr.join " " out))) s'))
        end
    end.
Proof.
  intros Hc Hn. unfold Float64.extractive_summary.
  unfold bind at 1. rewrite path_exists_run, Hc.
  rewrite bool_decide_true by eauto. cbn [negb].
  unfold bind at 1. rewrite (read_cleaning_run _ _ _ Hc).
  destruct (Nat.eqb_spec (length (sentences c)) 0) as [Hz|_]; [lia|].
  unfold bind at 1. unfold lift at 1.
  destruct (Float64.num_sentences (length (sentences c)) ratio) as [k|e]; [|reflexivity].
  unfold bind at 1.
  match goal with |- context [(if String.eqb algorithm "textrank" then ?a else ?b) s] =>
    destruct ((if String.eqb algorithm "textrank" then a else b) s) as [[out|e] s']
  end; reflexivity.
Qed.

(** The run of the exact reading, in the same form. *)
Lemma exact_extractive_summary_prefix (s : service) (filename : string)
    (q : Qc) (algorithm : string) (use_cache : bool) (c : cleaning_data) :
  outputs s !! Path.cleaning_metadata filename = Some (JsonFile (JCleaning c)) ->
  (0 < length (sentences c))%nat ->
  extractive_summary filename q algorithm use_cache s
  = let k := Z.to_nat (num_sentences_for (length (sentences c)) q) in
    match (if String.eqb algorithm "textrank"
           then _optimized_textrank_summarize (sentences c) k use_cache
           else if String.eqb algorithm "tfidf"
           then _optimized_tfidf_summarize (sentences c) k
           else if String.eqb algorithm "lsa"
           then _optimized_lsa_summarize (sentences c) k
           else raise ValueError) s with
    | (Raise e, s') => (Raise e, s')
    | (Ok out, s') =>
        let md :=
          ExtractiveMetadata (PyStr.join " " out) out (length (sentences c))
            (Qc_of_nat (length out) / Qc_of_nat (length (sentences c)))%Qc
            algorithm q
            (Path.of_stage filename "_extractive_summary.txt") "optimized" in
        (Ok md,
         set_outputs
           (insert (Path.of_stage filename "_extractive_summary_metadata.json")
              (JsonFile (JExtractive md)))
           (set_outputs
              (insert (Path.of_stage filename "_extractive_summary.txt")
                 (TextFile (PyStr.join " " out))) s'))
    end.
Proof.
  intros Hc Hn. unfold extractive_summary.
  unfold bind at 1. rewrite path_exists_run, Hc.
  rewrite bool_decide_true by eauto. cbn [negb].
  unfold bind at 1. rewrite (read_cleaning_run _ _ _ Hc).
  destruct (Nat.eqb_spec (length (sentences c)) 0) as [Hz|_]; [lia|].
  unfold bind at 1. cbv zeta.
  match goal with |- context [(if String.eqb algorithm "textrank" then ?a else ?b) s] =>
    destruct ((if String.eqb algorithm "textrank" then a else b) s) as [[out|e] s']
  end; reflexivity.
Qed.

(** The two readings of [extractive_summary] agree whenever line 72
    gives the same count in both: same outcome, same sentences and text,
    same cache; the records differ in the two ratios they hold. *)
Lemma binary64_same_selection (s : service) (filename : string)
    (ratio : Float64.float) (q : Qc) (algorithm : string) (use_cache : bool)
    (c : cleaning_data) :
  outputs s !! Path.cleaning_metadata filename = Some (JsonFile (JCleaning c)) ->
  (0 < length (sentences c))%nat ->
  Float64.num_sentences (length (sentences c)) ratio
  = Ok (num_sentences_for (length (sentences c)) q) ->
  match Float64.extractive_summary filename ratio algorithm use_cache s,
        extractive_summary filename q algorithm use_cache s with
  | (Ok md, s1), (Ok md', s2) =>
      ex_summary_sentences md = ex_summary_sentences md'
      /\ ex_summary_text md = ex_summary_text md'
      /\ ex_original_sentences md = ex_original_sentences md'
      /\ _similarity_cache s1 = _similarity_cache s2
  | (Raise e, s1), (Raise e', s2) => e = e' /\ s1 = s2
  | _, _ => False
  end.
Proof.
  intros Hc Hn Hk.
  rewrite (binary64_extractive_summary_prefix s filename ratio algorithm use_cache c Hc Hn), Hk.
  rewrite (exact_extractive_summary_prefix s filename q algorithm use_cache c Hc Hn).
  cbv zeta.
  match goal with |- context [(if String.eqb algorithm "textrank" then ?a else ?b) s] =>
    destruct ((if String.eqb algorithm "textrank" then a else b) s) as [[out|e] s']
  end; cbn; auto.
Qed.

(** C1 (amended). For a non-empty corpus of [n] sentences, a ratio whose
    product with [n] is a finite float, and any of the three algorithms
    whose ranker answers, line 72 yields
    [k = max(1, int(n * ratio))], the product rounded to binary64 and
    [int] truncating its value toward zero, and [extractive_summary]
    returns exactly [min(n, k)] sentences. *)
Theorem extractive_summary_count (s : service) (filename : string) (ratio : Float64.float)
    (algorithm : string) (use_cache : bool) (c : cleaning_data) :
  outputs s !! Path.cleaning_metadata filename = Some (JsonFile (JCleaning c)) ->
  let n := length (sentences c) in
  let product := Float64.mul (Float64.of_nat n) ratio in
  let k := Z.max 1 (py_int (Float64.to_Qc product)) in
  (0 < n)%nat ->
  Float64.is_finite product = true ->
  ranker_ready s algorithm (sentences c) use_cache (Z.to_nat k) ->
  Float64.num_sentences n ratio = Ok k
  /\ exists md s',
       Float64.extractive_summary filename ratio algorithm use_cache s = (Ok md, s')
       /\ Z.of_nat (length (ex_summary_sentences md)) = Z.min (Z.of_nat n) k.
Proof.
  intros Hc n product k Hn Hfin Hready.
  pose proof (binary64_num_sentences_finite n ratio Hfin) as Hk. fold product k in Hk.
  split; [exact Hk|].
  rewrite (binary64_extractive_summary_prefix s filename ratio algorithm use_cache c Hc Hn).
  fold n. rewrite Hk.
  destruct (rankers_select s algorithm (sentences c) use_cache (Z.to_nat k) Hn Hready)
    as (out & s' & -> & Hlen & _).
  eexists _, _. split; [reflexivity|]. cbn [ex_summary_sentences].
  rewrite Hlen. fold n. lia.
Qed.

(** C4 (amended). [extractive_summary] raises [FileNotFoundError] when
    the cleaning artifact is absent and [ValueError] when the corpus is
    empty. It compares the ratio with no bound. With a non-empty corpus
    of [n] sentences the only ratios that fail are those whose product
    with [n] is no finite float: [int] raises at line 72, [ValueError]
    on a NaN and [OverflowError] on an infinity, whatever the algorithm.
    With a finite product, an algorithm that is not one of the three
    raises [ValueError], and a ranker that answers yields a summary of
    [min(n, max(1, int(n * ratio)))] sentences, one sentence when the
    ratio is zero or negative. *)
Theorem extractive_summary_errors (s : service) (filename : string) (ratio : Float64.float)
    (algorithm : string) (use_cache : bool) :
  (outputs s !! Path.cleaning_metadata filename = None ->
   Float64.extractive_summary filename ratio algorithm use_cache s
   = (Raise FileNotFoundError, s))
  /\ (forall c,
        outputs s !! Path.cleaning_metadata filename = Some (JsonFile (JCleaning c)) ->
        sentences c = [] ->
        Float64.extractive_summary filename ratio algorithm use_cache s
        = (Raise ValueError, s))
  /\ (forall c,
        outputs s !! Path.cleaning_metadata filename = Some (JsonFile (JCleaning c)) ->
        let n := length (sentences c) in
        let product := Float64.mul (Float64.of_nat n) ratio in
        let k := Z.to_nat (Z.max 1 (py_int (Float64.to_Qc product))) in
        (0 < n)%nat ->
        (product = S754_nan ->
         Float64.extractive_summary filename ratio algorithm use_cache s
         = (Raise ValueError, s))
        /\ (forall sg, product = S754_infinity sg ->
            Float64.extractive_summary filename ratio algorithm use_cache s
            = (Raise OverflowError, s))
        /\ (Float64.is_finite product = true ->
            algorithm <> "textrank" -> algorithm <> "tfidf" -> algorithm <> "lsa" ->
            Float64.extractive_summary filename ratio algorithm use_cache s
            = (Raise ValueError, s))
        /\ (Float64.is_finite product = true ->
            ranker_ready s algorithm (sentences c) use_cache k ->
            exists md s',
              Float64.extractive_summary filename ratio algorithm use_cache s = (Ok md, s')
              /\ length (ex_summary_sentences md) = Nat.min k n
              /\ (Float64.leb ratio Float64.zero = true ->
                  length (ex_summary_sentences md) = 1%nat))).
Proof.
  split; [|split].
  - intros Hnone. unfold Float64.extractive_summary. unfold bind at 1.
    rewrite path_exists_run, Hnone, bool_decide_false; [reflexivity|].
    intros [x Hx]. discriminate.
  - intros c Hc Hempty. unfold Float64.extractive_summary. unfold bind at 1.
    rewrite path_exists_run, Hc, bool_decide_true by eauto. cbn [negb].
    unfold bind at 1. rewrite (read_cleaning_run _ _ _ Hc), Hempty. reflexivity.
  - intros c Hc n product k Hn.
    rewrite (binary64_extractive_summary_prefix s filename ratio algorithm use_cache c Hc Hn).
    fold n. split; [|split; [|split]].
    + intros Hnan. unfold Float64.num_sentences. fold product. rewrite Hnan. reflexivity.
    + intros sg Hinf. unfold Float64.num_sentences. fold product. rewrite Hinf. reflexivity.
    + intros Hfin H1 H2 H3.
      rewrite (binary64_num_sentences_finite n ratio Hfin).
      apply String.eqb_neq in H1, H2, H3. rewrite H1, H2, H3. reflexivity.
    + intros Hfin Hready.
      pose proof (binary64_num_sentences_finite n ratio Hfin) as Hk. fold product in Hk.
      rewrite Hk. fold k.
      destruct (rankers_select s algorithm (sentences c) use_cache k Hn Hready)
        as (out & s' & -> & Hlen & _).
      eexists _, _. split; [reflexivity|]. cbn [ex_summary_sentences].
      split; [exact Hlen|].
      intros Hneg. rewrite Hlen.
      assert (Hi : (py_int (Float64.to_Qc product) <= 0)%Z).
      { apply (binary64_nonpositive_product n ratio); [exact Hneg|].
        apply binary64_int_finite. exact Hfin. }
      subst k. fold n. lia.
Qed.

End Binary64Claims.

(** The count for the three-sentence document at the ratio [0.5]. *)
Lemma extractive_summary_count_witness :
  exists md s',
    @Float64.extractive_summary Demo.working "doc.pdf" (Float64.decimal 1 2) "textrank" true
      Demo.doc_service = (Ok md, s')
    /\ Z.of_nat (length (ex_summary_sentences md)) = 1%Z.
Proof.
  destruct (@extractive_summary_count Demo.working Demo.doc_service "doc.pdf"
              (Float64.decimal 1 2) "textrank" true
              (Demo.cleaning Demo.three_text Demo.three_sentences))
    as (_ & md & s' & Hrun & Hlen).
  - exact demo_doc_lookup.
  - simpl. lia.
  - vm_compute. reflexivity.
  - apply demo_ready. left. reflexivity.
  - exists md, s'. split; [exact Hrun | exact Hlen].
Defined.

(** Line 72 on the floats [0.7], [0.29], [1e308] and NaN. Ten sentences
    at [0.7] give 7, where the product of [10] and the value of the float
    [0.7], taken without rounding, gives 6; a hundred at [0.29] give 28,
    where the product of [100] and the decimal [29/100] gives 29. *)
Lemma binary64_counts :
  Float64.num_sentences 10 (Float64.decimal 7 10) = Ok 7%Z
  /\ num_sentences_for 10 (Float64.to_Qc (Float64.decimal 7 10)) = 6%Z
  /\ Float64.num_sentences 100 (Float64.decimal 29 100) = Ok 28%Z
  /\ num_sentences_for 100 (Q2Qc (29 # 100)) = 29%Z
  /\ Float64.num_sentences 3 (Float64.of_Z (10 ^ 308)) = Raise OverflowError
  /\ Float64.num_sentences 3 S754_nan = Raise ValueError.
Proof. repeat split; vm_compute; reflexivity. Qed.

(** A missing artifact, the ratio zero and the ratio [1e308] on the
    three-sentence document. *)
Lemma extractive_summary_errors_witness :
  @Float64.extractive_summary Demo.working "missing.pdf" (Float64.decimal 1 2) "textrank" true
    Demo.doc_service
  = (Raise FileNotFoundError, Demo.doc_service)
  /\ (exists md s',
        @Float64.extractive_summary Demo.working "doc.pdf" Float64.zero "textrank" true
          Demo.doc_service = (Ok md, s')
        /\ length (ex_summary_sentences md) = 1%nat)
  /\ @Float64.extractive_summary Demo.working "doc.pdf" (Float64.of_Z (10 ^ 308)) "textrank"
       true Demo.doc_service
     = (Raise OverflowError, Demo.doc_service).
Proof.
  split; [|split].
  - apply (@extractive_summary_errors Demo.working Demo.doc_service "missing.pdf"
             (Float64.decimal 1 2) "textrank" true).
    vm_compute. reflexivity.
  - destruct (@extractive_summary_errors Demo.working Demo.doc_service "doc.pdf"
                Float64.zero "textrank" true) as (_ & _ & Hdoc).
    destruct (Hdoc (Demo.cleaning Demo.three_text Demo.three_sentences))
      as (_ & _ & _ & Hok).
    + exact demo_doc_lookup.
    + simpl. lia.
    + destruct Hok as (md & s' & Hrun & _ & Hone).
      * vm_compute. reflexivity.
      * apply demo_ready. left. reflexivity.
      * exists md, s'. split; [exact Hrun|]. apply Hone. vm_compute. reflexivity.
  - destruct (@extractive_summary_errors Demo.working Demo.doc_service "doc.pdf"
                (Float64.of_Z (10 ^ 308)) "textrank" true) as (_ & _ & Hdoc).
    destruct (Hdoc (Demo.cleaning Demo.three_text Demo.three_sentences))
      as (_ & Hinf & _).
    + exact demo_doc_lookup.
    + simpl. lia.
    + apply (Hinf false). vm_compute. reflexivity.
Defined.
